(** * DLMS/COSEM push listener: protocol decoding and acknowledgment framing

    A shallow embedding of the decoding and classification core of the push
    listener (DLMS_Parser.py, Push_Parser.py, message_handler.py, utils.py)
    together with the properties its specification states about it.

    Conventions of the embedding.
    - A Python [str] is a list of 8-bit characters.  The character classes
      used by the code (whitespace, digits, upper-casing) are the ASCII ones;
      characters at or above 0x80 are ordinary symbols that are neither
      whitespace nor digits.
    - The text decoded from a network buffer is a list of Unicode code
      points; the classes of its characters above 0x7F come from the
      interpreter's Unicode database, which is a parameter.
    - A Python [bytes] value is a list of integers; the places where Python
      checks the range 0..255 are written out.
    - A Python exception is a value of [exn]; a function that may raise
      returns [result].  A [try/except] is a match on that result.
    - An [xml.etree.ElementTree.Element] is a finite tree; object identity
      inside one parsed document is the path from the root. *)

From Stdlib Require Import ZArith List Ascii String Bool Lia.
From Stdlib Require Import Permutation Sorted DecimalString.
Import ListNotations.
Local Open Scope Z_scope.

(** [length], [++] and the like are the list ones throughout. *)
Abbreviation length := List.length (only parsing).

Set Warnings "-register-all".

(* ===================================================================== *)
(** * Part I.  Definitions                                                *)
(* ===================================================================== *)

(** ** Python values and built-ins used by the sources *)

Module Py.

Definition str := list ascii.
Definition bytes := list Z.

(** String literal as a [str]. *)
Definition chars (s : string) : str := list_ascii_of_string s.

Definition ord (c : ascii) : Z := Z.of_N (N_of_ascii c).

Inductive exn : Set :=
| ValueError | TypeError | IndexError | OverflowError | BinasciiError
| ParseError | CallbackError.

Inductive result (A : Type) : Type :=
| Ok (a : A)
| Raise (e : exn).
Arguments Ok {A} a.
Arguments Raise {A} e.

Definition bind {A B} (m : result A) (k : A -> result B) : result B :=
  match m with
  | Ok a => k a
  | Raise e => Raise e
  end.

(** [try: m except Exception: d] *)
Definition try_except {A} (m : result A) (d : A) : A :=
  match m with
  | Ok a => a
  | Raise _ => d
  end.

Definition is_ok {A} (m : result A) : bool :=
  match m with Ok _ => true | Raise _ => false end.

(** CPython's [_PyLong_DigitValue]: 0..9, then letters of either case as
    10..35, and 37 for everything else. *)
Definition digit_value (c : ascii) : Z :=
  let n := ord c in
  if (48 <=? n) && (n <=? 57) then n - 48
  else if (97 <=? n) && (n <=? 122) then n - 87
  else if (65 <=? n) && (n <=? 90) then n - 55
  else 37.

Definition is_hex_digit (c : ascii) : bool := digit_value c <? 16.

(** [Py_ISSPACE]: the C-locale white space, used by [int()] on ASCII text and
    by [bytes.fromhex]. *)
Definition Py_ISSPACE (c : ascii) : bool :=
  let n := ord c in ((9 <=? n) && (n <=? 13)) || (n =? 32).

(** [str.isspace] on one ASCII character ([_Py_ascii_whitespace]): the
    C-locale white space and the separators 0x1C..0x1F.  Used by
    [str.strip] and by the regular-expression class [\s]. *)
Definition isspace (c : ascii) : bool :=
  let n := ord c in
  ((9 <=? n) && (n <=? 13)) || ((28 <=? n) && (n <=? 32)).

Fixpoint lstrip_with (p : ascii -> bool) (s : str) : str :=
  match s with
  | c :: r => if p c then lstrip_with p r else s
  | [] => []
  end.

Definition rstrip_with (p : ascii -> bool) (s : str) : str :=
  rev (lstrip_with p (rev s)).

(** [s.strip()] *)
Definition strip (s : str) : str := rstrip_with isspace (lstrip_with isspace s).

(** [s.upper()] on ASCII letters. *)
Definition upper_char (c : ascii) : ascii :=
  let n := ord c in
  if (97 <=? n) && (n <=? 122) then ascii_of_N (Z.to_N (n - 32)) else c.

Definition upper (s : str) : str := map upper_char s.

Fixpoint str_eqb (a b : str) : bool :=
  match a, b with
  | [], [] => true
  | x :: a', y :: b' => Ascii.eqb x y && str_eqb a' b'
  | _, _ => false
  end.

(** [c in "..."] for a one-character [c]. *)
Definition char_in (c : ascii) (set : str) : bool := existsb (Ascii.eqb c) set.

Fixpoint starts_with (p s : str) : bool :=
  match p, s with
  | [], _ => true
  | x :: p', y :: s' => Ascii.eqb x y && starts_with p' s'
  | _ :: _, [] => false
  end.

(** [sub in s] *)
Fixpoint contains (sub s : str) : bool :=
  starts_with sub s ||
  match s with
  | [] => false
  | _ :: r => contains sub r
  end.

(** [s.replace(old, new)] for a non-empty [old]: left to right,
    non-overlapping. *)
Fixpoint replace_fuel (fuel : nat) (old new s : str) : str :=
  match fuel with
  | O => s
  | S fuel' =>
      match s with
      | [] => []
      | c :: r =>
          if starts_with old s
          then new ++ replace_fuel fuel' old new (skipn (length old) s)
          else c :: replace_fuel fuel' old new r
      end
  end.

Definition replace (old new s : str) : str :=
  replace_fuel (S (length s)) old new s.

(** [sep.join(parts)] *)
Fixpoint join (sep : str) (parts : list str) : str :=
  match parts with
  | [] => []
  | [p] => p
  | p :: rest => p ++ sep ++ join sep rest
  end.

(** [str(n)] for an integer. *)
Definition str_of_int (n : Z) : str :=
  chars (NilZero.string_of_int (Z.to_int n)).

(** [s.zfill(width)] for a string without sign. *)
Definition zfill (width : nat) (s : str) : str :=
  repeat "0"%char (width - length s) ++ s.

(** [f"{n:0<width>d}"]: zero padding to a minimal width, the sign first. *)
Definition format_0d (width : nat) (n : Z) : str :=
  if n <? 0
  then "-"%char :: zfill (width - 1) (str_of_int (- n))
  else zfill width (str_of_int n).

(** The digit loop of [PyLong_FromString]: digits below [base] with single
    underscores between them.  Returns the value, the last character read,
    the number of digits and the unread rest. *)
Fixpoint scan_digits (base : Z) (s : str) (acc : Z) (prev : option ascii)
         (ndigits : nat) : result (Z * option ascii * nat * str) :=
  match s with
  | [] => Ok (acc, prev, ndigits, [])
  | c :: r =>
      if digit_value c <? base
      then scan_digits base r (acc * base + digit_value c) (Some c) (S ndigits)
      else if Ascii.eqb c "_"
      then match prev with
           | Some p => if Ascii.eqb p "_" then Raise ValueError
                       else scan_digits base r acc (Some c) ndigits
           | None => scan_digits base r acc (Some c) ndigits
           end
      else Ok (acc, prev, ndigits, s)
  end.

(** An optional sign in front of the digits. *)
Definition split_sign (s : str) : Z * str :=
  match s with
  | c :: r => if Ascii.eqb c "+" then (1, r)
              else if Ascii.eqb c "-" then (-1, r)
              else (1, s)
  | [] => (1, s)
  end.

(** For base 16 an optional [0x] or [0X], after which one underscore is
    allowed. *)
Definition skip_prefix (base : Z) (s : str) : str :=
  if base =? 16 then
    match s with
    | z :: x :: r =>
        if Ascii.eqb z "0" && (Ascii.eqb x "x" || Ascii.eqb x "X")
        then match r with
             | u :: r' => if Ascii.eqb u "_" then r' else r
             | [] => r
             end
        else s
    | _ => s
    end
  else s.

(** [int(s, base)] for [base] 10 or 16 on ASCII text: optional white space,
    an optional sign, for base 16 an optional prefix, digits, optional white
    space.  The interpreter's limit on the number of decimal digits (4300 by
    default since 3.11) is outside the model. *)
Definition int (base : Z) (s : str) : result Z :=
  let s1 := lstrip_with Py_ISSPACE s in
  let sign := fst (split_sign s1) in
  let s3 := skip_prefix base (snd (split_sign s1)) in
  match s3 with
  | u :: _ =>
      if Ascii.eqb u "_" then Raise ValueError
      else
        bind (scan_digits base s3 0 None 0) (fun '(v, prev, nd, rest) =>
          let trailing :=
            match prev with Some p => Ascii.eqb p "_" | None => false end in
          if trailing then Raise ValueError
          else match nd with
               | O => Raise ValueError
               | S _ =>
                   match lstrip_with Py_ISSPACE rest with
                   | [] => Ok (sign * v)
                   | _ :: _ => Raise ValueError
                   end
               end)
  | [] => Raise ValueError
  end.

(** [bytes.fromhex(s)]: two hexadecimal digits per byte, ASCII white space
    between bytes skipped; anything else raises [ValueError]. *)
Fixpoint fromhex (s : str) : result bytes :=
  match s with
  | [] => Ok []
  | c :: r =>
      if Py_ISSPACE c then fromhex r
      else if is_hex_digit c then
        match r with
        | d :: r' =>
            if is_hex_digit d
            then bind (fromhex r') (fun bs =>
                   Ok (16 * digit_value c + digit_value d :: bs))
            else Raise ValueError
        | [] => Raise ValueError
        end
      else Raise ValueError
  end.

(** [binascii.unhexlify(s)]: an even number of hexadecimal digits and
    nothing else; otherwise [binascii.Error]. *)
Fixpoint unhexlify (s : str) : result bytes :=
  match s with
  | [] => Ok []
  | [_] => Raise BinasciiError
  | c :: d :: r =>
      if is_hex_digit c && is_hex_digit d
      then bind (unhexlify r) (fun bs =>
             Ok (16 * digit_value c + digit_value d :: bs))
      else Raise BinasciiError
  end.

(** [b.decode('ascii')] *)
Definition decode_ascii (b : bytes) : result str :=
  if forallb (fun x => (0 <=? x) && (x <? 128)) b
  then Ok (map (fun x => ascii_of_N (Z.to_N x)) b)
  else Raise ValueError.

(** [bytes([n])] and [bytes(list)]: every item must be in 0..255. *)
Definition bytes_of_list (l : list Z) : result bytes :=
  if forallb (fun x => (0 <=? x) && (x <? 256)) l then Ok l
  else Raise ValueError.

(** [n.to_bytes(2, 'big')] *)
Definition to_bytes_2_big (n : Z) : result bytes :=
  if (0 <=? n) && (n <? 65536) then Ok [n / 256; n mod 256]
  else Raise OverflowError.

(** [int.from_bytes(b, 'big')] and its [signed=True] form on two bytes. *)
Definition from_bytes_big (b : bytes) : Z :=
  fold_left (fun acc x => acc * 256 + x) b 0.

Definition from_bytes_big_signed16 (hi lo : Z) : Z :=
  let u := from_bytes_big [hi; lo] in
  if u <? 32768 then u else u - 65536.

(** [l[i]] with a non-negative index. *)
Definition getitem {A} (l : list A) (i : nat) : result A :=
  match nth_error l i with
  | Some x => Ok x
  | None => Raise IndexError
  end.

End Py.

Import Py.

Notation "x <- m ;; k" := (Py.bind m (fun x => k))
  (at level 61, m at next level, right associativity).


(** ** The [datetime] module: the part the sources use *)

Module datetime.

(** A [datetime] value.  [utcoffset] is the offset of its fixed-offset
    [timezone] in microseconds, [None] for a naive value. *)
Record t : Set := mk {
  year : Z; month : Z; day : Z;
  hour : Z; minute : Z; second : Z; microsecond : Z;
  utcoffset : option Z
}.

Definition _is_leap (y : Z) : bool :=
  (y mod 4 =? 0) && (negb (y mod 100 =? 0) || (y mod 400 =? 0)).

Definition _DAYS_IN_MONTH : list Z :=
  [31; 28; 31; 30; 31; 30; 31; 31; 30; 31; 30; 31].

Definition _days_in_month (y m : Z) : Z :=
  if (m =? 2) && _is_leap y then 29
  else nth (Z.to_nat (m - 1)) _DAYS_IN_MONTH 0.

Definition _days_before_year (y : Z) : Z :=
  let p := y - 1 in p * 365 + p / 4 - p / 100 + p / 400.

Definition _days_before_month (y m : Z) : Z :=
  fold_left Z.add (firstn (Z.to_nat (m - 1)) _DAYS_IN_MONTH) 0
  + (if (2 <? m) && _is_leap y then 1 else 0).

Definition _ymd2ord (y m d : Z) : Z :=
  _days_before_year y + _days_before_month y m + d.

Definition between (lo x hi : Z) : bool := (lo <=? x) && (x <=? hi).

(** [datetime(year, month, day, hour, minute, second, tzinfo=tz)]: the
    constructor checks every field and raises [ValueError]. *)
Definition _check_fields (y mo d h mi s : Z) : bool :=
  between 1 y 9999 && between 1 mo 12
  && between 1 d (_days_in_month y mo)
  && between 0 h 23 && between 0 mi 59 && between 0 s 59.

Definition make (y mo d h mi s : Z) (tz : option Z) : result t :=
  if _check_fields y mo d h mi s then Ok (mk y mo d h mi s 0 tz)
  else Raise ValueError.

(** The invariant of every [datetime] object, such as [datetime.now()]. *)
Definition valid (x : t) : bool :=
  _check_fields (year x) (month x) (day x) (hour x) (minute x) (second x)
  && between 0 (microsecond x) 999999.

Definition us_per_minute : Z := 60000000.

(** [timezone(timedelta(minutes=m))]: the offset must lie strictly between
    minus and plus 24 hours. *)
Definition timezone_of_minutes (m : Z) : result Z :=
  if (-1440 <? m) && (m <? 1440) then Ok (m * us_per_minute)
  else Raise ValueError.

(** [timezone.utc] *)
Definition timezone_utc : Z := 0.

(** Microseconds since the start of the proleptic calendar, in UTC for an
    aware value and in local fields for a naive one. *)
Definition instant (d : t) : Z :=
  ((_ymd2ord (year d) (month d) (day d) * 86400
    + hour d * 3600 + minute d * 60 + second d) * 1000000 + microsecond d)
  - match utcoffset d with Some off => off | None => 0 end.

Definition is_aware (d : t) : bool :=
  match utcoffset d with Some _ => true | None => false end.

(** [a < b]: ordering a naive and an aware value raises [TypeError]. *)
Definition lt (a b : t) : result bool :=
  if Bool.eqb (is_aware a) (is_aware b) then Ok (instant a <? instant b)
  else Raise TypeError.

(** [a - b], a [timedelta] in microseconds. *)
Definition sub (a b : t) : result Z :=
  if Bool.eqb (is_aware a) (is_aware b) then Ok (instant a - instant b)
  else Raise TypeError.

(** [timedelta(days=d)], [timedelta(minutes=m)] *)
Definition timedelta_days (d : Z) : Z := d * 86400 * 1000000.
Definition timedelta_minutes (m : Z) : Z := m * us_per_minute.

Definition _format_offset (off : Z) : str :=
  let a := Z.abs off in
  let hh := a / (60 * us_per_minute) in
  let mm := (a mod (60 * us_per_minute)) / us_per_minute in
  let ss := a mod us_per_minute in
  [if off <? 0 then "-"%char else "+"%char]
  ++ format_0d 2 hh ++ chars ":" ++ format_0d 2 mm
  ++ (if ss =? 0 then []
      else chars ":" ++ format_0d 2 (ss / 1000000)
           ++ (if ss mod 1000000 =? 0 then []
               else chars "." ++ format_0d 6 (ss mod 1000000))).

(** [d.isoformat()] *)
Definition isoformat (d : t) : str :=
  format_0d 4 (year d) ++ chars "-" ++ format_0d 2 (month d) ++ chars "-"
  ++ format_0d 2 (day d) ++ chars "T" ++ format_0d 2 (hour d) ++ chars ":"
  ++ format_0d 2 (minute d) ++ chars ":" ++ format_0d 2 (second d)
  ++ (if microsecond d =? 0 then []
      else chars "." ++ format_0d 6 (microsecond d))
  ++ match utcoffset d with
     | Some off => _format_offset off
     | None => []
     end.

(** Decimal value of a run of ASCII digits, [None] when another character
    occurs. *)
Fixpoint digits_value (s : str) (acc : Z) : option Z :=
  match s with
  | [] => Some acc
  | c :: r =>
      if between 48 (ord c) 57 then digits_value r (acc * 10 + (ord c - 48))
      else None
  end.

Definition field (s : str) (i n : nat) : option Z :=
  let f := firstn n (skipn i s) in
  if (length f =? n)%nat then digits_value f 0 else None.

Definition char_at (s : str) (i : nat) : option ascii := nth_error s i.

Definition is_char (o : option ascii) (c : ascii) : bool :=
  match o with Some x => Ascii.eqb x c | None => false end.

(** The value of [datetime.fromisoformat] on the strings that [isoformat]
    above emits for whole seconds and whole-minute offsets,
    [YYYY-MM-DDTHH:MM:SS] optionally followed by [+HH:MM] or [-HH:MM].
    Which further shapes are accepted depends on the interpreter version;
    this instance rejects them.  It serves the concrete runs; the general
    statements take the parser as a parameter. *)
Definition fromisoformat_seconds (s : str) : result t :=
  let n := length s in
  if negb ((n =? 19)%nat || (n =? 25)%nat) then Raise ValueError
  else if negb (is_char (char_at s 4) "-" && is_char (char_at s 7) "-"
                && is_char (char_at s 13) ":" && is_char (char_at s 16) ":")
  then Raise ValueError
  else
    match field s 0 4, field s 5 2, field s 8 2,
          field s 11 2, field s 14 2, field s 17 2 with
    | Some y, Some mo, Some d, Some h, Some mi, Some se =>
        if (n =? 19)%nat then make y mo d h mi se None
        else
          let sg := char_at s 19 in
          if negb ((is_char sg "+" || is_char sg "-")
                   && is_char (char_at s 22) ":")
          then Raise ValueError
          else
            match field s 20 2, field s 23 2 with
            | Some oh, Some om =>
                if between 0 oh 23 && between 0 om 59 then
                  let m := oh * 60 + om in
                  off <- timezone_of_minutes (if is_char sg "-" then - m else m) ;;
                  make y mo d h mi se (Some off)
                else Raise ValueError
            | _, _ => Raise ValueError
            end
    | _, _, _, _, _, _ => Raise ValueError
    end.

End datetime.

(** ** [xml.etree.ElementTree]: elements, iteration and the path queries
    the sources use *)

Module ET.

Inductive Element : Set :=
| mkElement (tag : str) (attrib : list (str * str)) (text : option str)
            (children : list Element).

Definition tag (e : Element) : str :=
  match e with mkElement t _ _ _ => t end.
Definition attrib (e : Element) : list (str * str) :=
  match e with mkElement _ a _ _ => a end.
Definition text (e : Element) : option str :=
  match e with mkElement _ _ x _ => x end.
Definition children (e : Element) : list Element :=
  match e with mkElement _ _ _ cs => cs end.

(** [attrib.get(key, default)] *)
Definition get_attr (a : list (str * str)) (key default : str) : str :=
  match find (fun kv => str_eqb (fst kv) key) a with
  | Some kv => snd kv
  | None => default
  end.

(** [elem.get(key, default)] *)
Definition get (e : Element) (key default : str) : str :=
  get_attr (attrib e) key default.

(** The result of [ET.fromstring(xml_str)]: the root element, or [None]
    when the parser raises [ParseError].  The default parser keeps neither
    comments nor processing instructions, so every node is an element. *)
Definition document := option Element.

(** Object identity inside one document: the child indices from the root. *)
Definition path := list nat.
Definition node : Set := (path * Element)%type.

Definition path_eqb (p q : path) : bool :=
  if list_eq_dec Nat.eq_dec p q then true else false.

Definition has_tag (t : str) (n : node) : bool := str_eqb (tag (snd n)) t.

(** The children of a list of elements, numbered from [i], below [p]. *)
Fixpoint number_from (p : path) (i : nat) (cs : list Element) : list node :=
  match cs with
  | [] => []
  | c :: rest => (p ++ [i]%nat, c) :: number_from p (S i) rest
  end.

(** [list(elem)] with identities. *)
Definition child_nodes (n : node) : list node :=
  number_from (fst n) 0 (children (snd n)).

(** [elem.iter()]: the element itself, then its descendants, in document
    order. *)
Fixpoint iter_from (p : path) (e : Element) : list node :=
  match e with
  | mkElement _ _ _ cs =>
      (p, e) ::
      (fix walk (cs : list Element) (i : nat) : list node :=
         match cs with
         | [] => []
         | c :: rest => iter_from (p ++ [i]%nat) c ++ walk rest (S i)
         end) cs 0%nat
  end.

(** The loop over the children inside [iter_from], on its own. *)
Definition iter_children (p : path) : list Element -> nat -> list node :=
  fix walk (cs : list Element) (i : nat) : list node :=
    match cs with
    | [] => []
    | c :: rest => iter_from (p ++ [i]%nat) c ++ walk rest (S i)
    end.

Definition iter (n : node) : list node := iter_from (fst n) (snd n).

(** One step of an ElementPath expression. *)
Inductive step : Set :=
| Descendant (t : str)   (* [.//t] *)
| Child (t : str).       (* [/t], or a leading [t] *)

(** ElementPath's [prepare_descendant] and [prepare_child]: each maps the
    stream of context nodes to the stream of selected nodes. *)
Definition select (s : step) (ctx : list node) : list node :=
  match s with
  | Descendant t => flat_map (fun n => filter (has_tag t) (tl (iter n))) ctx
  | Child t => flat_map (fun n => filter (has_tag t) (child_nodes n)) ctx
  end.

(** [elem.iterfind(path)] *)
Definition iterfind (n : node) (steps : list step) : list node :=
  fold_left (fun ctx s => select s ctx) steps [n].

(** [elem.findall(path)] and [elem.find(path)] *)
Definition findall (n : node) (steps : list step) : list node :=
  iterfind n steps.
Definition find (n : node) (steps : list step) : option node :=
  hd_error (iterfind n steps).

(** The element reached from [e] along a path. *)
Fixpoint subelement (e : Element) (p : path) : option Element :=
  match p with
  | [] => Some e
  | i :: q =>
      match nth_error (children e) i with
      | Some c => subelement c q
      | None => None
      end
  end.

End ET.

(** ** utils.py *)

Module utils.

(** One pass of the inner loop of the fall-back branch of [calculate_fcs]. *)
Definition fcs_shift (crc : Z) : Z :=
  Z.land
    (if Z.land crc 0x8000 =? 0
     then Z.shiftl crc 1
     else Z.lxor (Z.shiftl crc 1) 0x1021)
    0xFFFF.

Fixpoint repeat_apply {A} (n : nat) (f : A -> A) (x : A) : A :=
  match n with
  | O => x
  | S n' => repeat_apply n' f (f x)
  end.

(** The body of [for byte in data]. *)
Definition fcs_byte (crc byte : Z) : Z :=
  repeat_apply 8 fcs_shift (Z.lxor crc (Z.shiftl byte 8)).

(** The [else] branch of [calculate_fcs]. *)
Definition fcs_fallback (data : bytes) : Z :=
  fold_left fcs_byte data 0xFFFF.

(** [calculate_fcs].  The module-level name [_GXFCS16] comes from the
    external gurux_dlms package; it is a parameter here: [Some f] stands for
    the imported class with [f data index count] its [countFCS16], [None]
    for its absence. *)
Definition calculate_fcs (_GXFCS16 : option (bytes -> Z -> Z -> Z))
           (data : bytes) : Z :=
  match _GXFCS16 with
  | Some countFCS16 => countFCS16 data 0 (Z.of_nat (length data))
  | None => fcs_fallback data
  end.

(** A row of a persisted day-push entry, [{"timestamp": ..., "values": [...]}],
    and the entry itself.  [dict.get(key, default)] on an absent key is the
    field holding the default ([""], [[]]). *)
Record day_row : Set := mk_row { timestamp : str; values : list Z }.
Record day_entry : Set := mk_entry { logical_name : str; data : list day_row }.

Definition classify_day_push_entry (entry : day_entry) : str :=
  match data entry with
  | [] => chars "unknown"
  | first :: _ =>
      let first_values := values first in
      if (length first_values =? 20)%nat then chars "daily"
      else if (length first_values =? 4)%nat then chars "half_hourly"
      else chars "unknown"
  end.

(** The loop that fills [timestamps]; [fromisoformat] is the interpreter's
    [datetime.fromisoformat]. *)
Fixpoint parse_timestamps (fromisoformat : str -> result datetime.t)
         (rows : list day_row) : result (list datetime.t) :=
  match rows with
  | [] => Ok []
  | record :: rest =>
      let ts_str := timestamp record in
      dt <- fromisoformat (replace (chars "Z") (chars "+00:00") ts_str) ;;
      dts <- parse_timestamps fromisoformat rest ;;
      Ok (dt :: dts)
  end.

(** [timestamps.sort()]: a stable sort by [<]; a comparison that raises
    aborts it.  Written as an insertion sort. *)
Fixpoint insert_sorted (x : datetime.t) (l : list datetime.t)
  : result (list datetime.t) :=
  match l with
  | [] => Ok [x]
  | y :: l' =>
      b <- datetime.lt y x ;;
      if b then (r <- insert_sorted x l' ;; Ok (y :: r))
      else Ok (x :: l)
  end.

Fixpoint sort (l : list datetime.t) : result (list datetime.t) :=
  match l with
  | [] => Ok []
  | x :: l' => s <- sort l' ;; insert_sorted x s
  end.

(** [for i in range(1, len(timestamps))]: [prev] is [timestamps[i - 1]]. *)
Fixpoint check_intervals (expected_delta : Z) (prev : datetime.t)
         (rest : list datetime.t) : result bool :=
  match rest with
  | [] => Ok true
  | cur :: rest' =>
      d <- datetime.sub cur prev ;;
      if negb (d =? expected_delta) then Ok false
      else check_intervals expected_delta cur rest'
  end.

Definition validate_day_push_intervals
           (fromisoformat : str -> result datetime.t)
           (entry : day_entry) (profile_type : str) : bool :=
  let data := data entry in
  if (length data <? 2)%nat then true
  else
    try_except
      (let expected_delta :=
         if str_eqb profile_type (chars "daily")
         then datetime.timedelta_days 1
         else datetime.timedelta_minutes 30 in
       timestamps <- parse_timestamps fromisoformat data ;;
       timestamps <- sort timestamps ;;
       match timestamps with
       | [] => Ok true
       | t0 :: rest => check_intervals expected_delta t0 rest
       end)
      false.

End utils.

(** ** Reference checksums *)

Module Reference.

(** The reference the fall-back loop is compared with, following the
    specification's words "a reference CRC-16/X.25 table implementation".
    CRC-16/X.25 (the HDLC frame check of ISO/IEC 13239 and RFC 1662) has
    polynomial 0x1021 processed least significant bit first (reflected
    constant 0x8408), initial register 0xFFFF and a final complement. *)
Definition x25_shift (r : Z) : Z :=
  if Z.land r 1 =? 0 then Z.shiftr r 1 else Z.lxor (Z.shiftr r 1) 0x8408.

(** Entry [i] of the 256-entry table of the table-driven implementation. *)
Definition fcstab (i : Z) : Z := utils.repeat_apply 8 x25_shift i.

Definition x25_byte (fcs byte : Z) : Z :=
  Z.lxor (Z.shiftr fcs 8) (fcstab (Z.land (Z.lxor fcs byte) 0xFF)).

Definition crc16_x25 (data : bytes) : Z :=
  Z.lxor (fold_left x25_byte data 0xFFFF) 0xFFFF.

(** The external primitive [_GXFCS16.countFCS16] of the gurux_dlms package,
    which is not part of the sources, as that package defines it: the
    table-driven CRC-16/X.25 over [count] bytes from [index], returned with
    its two bytes exchanged (so that storing it big-endian puts the low byte
    first on the wire).  The general statements take the primitive as a
    parameter; this instance serves the concrete runs. *)
Definition countFCS16 (buff : bytes) (index count : Z) : Z :=
  let fcs := crc16_x25 (firstn (Z.to_nat count) (skipn (Z.to_nat index) buff)) in
  Z.lor (Z.land (Z.shiftr fcs 8) 0xFF) (Z.land (Z.shiftl fcs 8) 0xFFFF).

End Reference.

(** ** DLMS_Parser.py *)

Module DLMS_Parser.

(** [s[i:j]] *)
Definition slice (s : str) (i j : nat) : str := firstn (j - i) (skipn i s).

(** [[f(x) for x in xs]] with an [f] that may raise. *)
Fixpoint map_result {A B} (f : A -> result B) (xs : list A) : result (list B) :=
  match xs with
  | [] => Ok []
  | x :: r => y <- f x ;; ys <- map_result f r ;; Ok (y :: ys)
  end.

(** [[int(h[i:i + 2], 16) for i in range(0, 12, 2)]] *)
Definition obis_parts (h : str) : result (list Z) :=
  map_result (fun i => int 16 (slice h i (i + 2)))
             [0; 2; 4; 6; 8; 10]%nat.

Definition hex_to_obis (obis_hex : str) : result str :=
  if negb (length obis_hex =? 12)%nat then Ok obis_hex
  else
    parts <- obis_parts obis_hex ;;
    Ok (join (chars ".") (map str_of_int parts)).

Definition try_decode_ascii (hex_str : str) : option str :=
  match (b <- unhexlify hex_str ;; decode_ascii b) with
  | Ok s => Some s
  | Raise _ => None
  end.

(** The UTC suffix built from [data[9]] and [data[10]]. *)
Definition deviation_suffix (dev_high dev_low : Z) : str :=
  let dev_raw := Z.lor (Z.shiftl dev_high 8) dev_low in
  if negb (dev_raw =? 0x8000) then
    let dev_raw := if 32767 <? dev_raw then dev_raw - 65536 else dev_raw in
    if negb (dev_raw =? 0) then
      let sign := if 0 <=? dev_raw then chars "+" else chars "-" in
      let total_min := Z.abs dev_raw in
      let h := total_min / 60 in
      let m := total_min mod 60 in
      if m =? 0 then chars " UTC" ++ sign ++ format_0d 2 h
      else chars " UTC" ++ sign ++ format_0d 2 h ++ chars ":" ++ format_0d 2 m
    else []
  else [].

(** The body of the [try] block of [try_decode_dlms_datetime].  Indexing
    [data] is guarded by the length tests before it, so [nth] with a default
    stands for it. *)
Definition try_decode_dlms_datetime_body (hex_str : str) : result (option str) :=
  let n := length hex_str in
  if (n <? 10)%nat || (24 <? n)%nat || negb (n mod 2 =? 0)%nat then Ok None
  else
    data <- unhexlify hex_str ;;
    if (length data <? 5)%nat then Ok None
    else
      let year := Z.lor (Z.shiftl (nth 0 data 0) 8) (nth 1 data 0) in
      let month := nth 2 data 0 in
      let day := nth 3 data 0 in
      let hour := if (5 <? length data)%nat then nth 5 data 0 else 0xFF in
      let minute := if (6 <? length data)%nat then nth 6 data 0 else 0xFF in
      let second := if (7 <? length data)%nat then nth 7 data 0 else 0xFF in
      let has_date :=
        negb (year =? 0xFFFF) && negb (month =? 0xFF) && negb (day =? 0xFF) in
      let has_time :=
        negb (hour =? 0xFF) && negb (minute =? 0xFF) && negb (second =? 0xFF) in
      if negb (has_date || has_time) then Ok None
      else
        let parts :=
          (if has_date
           then [format_0d 4 year ++ chars "-" ++ format_0d 2 month
                 ++ chars "-" ++ format_0d 2 day]
           else [])
          ++ (if has_time
              then [format_0d 2 hour ++ chars ":" ++ format_0d 2 minute
                    ++ chars ":" ++ format_0d 2 second]
              else []) in
        let result := join (chars " ") parts in
        let result :=
          if (11 <=? length data)%nat
          then result ++ deviation_suffix (nth 9 data 0) (nth 10 data 0)
          else result in
        Ok (Some result).

Definition try_decode_dlms_datetime (hex_str : str) : option str :=
  try_except (try_decode_dlms_datetime_body hex_str) None.

(** [''.join(c for c in value.upper() if c in "0123456789ABCDEF")] *)
Definition clean_hex (value : str) : str :=
  filter (fun c => char_in c (chars "0123456789ABCDEF")) (upper value).

(** The branch [tag == "LongInvokeIdAndPriority" and value] of
    [enhance_xml_element]: the texts of the comments it appends to the
    element, in order. *)
Definition enhance_LongInvokeIdAndPriority (value : str) : list str :=
  match value with
  | [] => []
  | _ :: _ =>
      let clean := clean_hex value in
      if (8 <=? length clean)%nat then
        let high_byte := firstn 2 clean in
        let invoke_id_hex := skipn 2 clean in
        let invoke_id_dec :=
          match int 16 invoke_id_hex with
          | Ok v => Some v
          | Raise _ => None
          end in
        let '(priority_comment, confirmed_comment) :=
          if str_eqb high_byte (chars "40")
          then (chars "Normal priority.", chars "Confirmed service.")
          else if str_eqb high_byte (chars "80")
          then (chars "High priority.", chars "Non-confirmed service.")
          else if str_eqb high_byte (chars "C0")
          then (chars "High priority.", chars "Confirmed service.")
          else (chars "Priority byte: 0x" ++ high_byte,
                chars "Service type unknown.") in
        [chars " " ++ priority_comment ++ chars " ";
         chars " " ++ confirmed_comment ++ chars " "]
        ++ match invoke_id_dec with
           | Some d => [chars " Invoke ID: " ++ str_of_int d ++ chars " "]
           | None => []
           end
      else []
  end.

(** The [info] dictionary of [extract_dlms_request_info]. *)
Record request_info : Set := mk_info {
  target_address : option Z;
  source_address : option Z;
  invoke_id : option str;
  has_long_invoke : bool;
  attribute_count : Z;
  high_byte : option str
}.

Definition info0 : request_info := mk_info None None None false 0 None.

(** [int(val, 16) if all(c in "0123456789ABCDEFabcdef" for c in val) else
    int(val)], with the bare [except] around it. *)
Definition address_of (val : str) : option Z :=
  let r :=
    if forallb (fun c => char_in c (chars "0123456789ABCDEFabcdef")) val
    then int 16 val else int 10 val in
  match r with Ok v => Some v | Raise _ => None end.

(** What [search] does at one element, before it descends. *)
Definition search_here (elem : ET.Element) (info : request_info) : request_info :=
  let t := ET.tag elem in
  let val := strip (ET.get elem (chars "Value") []) in
  if str_eqb t (chars "TargetAddress") then
    match val, address_of val with
    | _ :: _, Some a =>
        mk_info (Some a) (source_address info) (invoke_id info)
                (has_long_invoke info) (attribute_count info) (high_byte info)
    | _, _ => info
    end
  else if str_eqb t (chars "SourceAddress") then
    match val, address_of val with
    | _ :: _, Some a =>
        mk_info (target_address info) (Some a) (invoke_id info)
                (has_long_invoke info) (attribute_count info) (high_byte info)
    | _, _ => info
    end
  else if str_eqb t (chars "LongInvokeIdAndPriority") then
    match val with
    | [] => info
    | _ :: _ =>
        let clean := clean_hex val in
        if (8 <=? length clean)%nat then
          mk_info (target_address info) (source_address info)
                  (Some (skipn 2 clean)) true (attribute_count info)
                  (Some (firstn 2 clean))
        else info
    end
  else if str_eqb t (chars "AttributeDescriptor") then
    mk_info (target_address info) (source_address info) (invoke_id info)
            (has_long_invoke info) (attribute_count info + 1) (high_byte info)
  else info.

(** The nested function [search]: the dictionary is updated at the element,
    then at each child in turn. *)
Fixpoint search (elem : ET.Element) (info : request_info) : request_info :=
  match elem with
  | ET.mkElement _ _ _ cs =>
      (fix each (cs : list ET.Element) (info : request_info) : request_info :=
         match cs with
         | [] => info
         | child :: rest => each rest (search child info)
         end) cs (search_here elem info)
  end.

Definition extract_dlms_request_info (xml : ET.document) : option request_info :=
  match xml with
  | Some root => Some (search root info0)
  | None => None
  end.

End DLMS_Parser.

(** ** Push_Parser.py *)

Module Push_Parser.

Import ET.

(** The nested [_iter(parent, target)] of [_find_parent]; [elem is target]
    compares identities. *)
Fixpoint _iter (parent : Element) (ppath : path) (target : path)
  : option node :=
  match parent with
  | mkElement _ _ _ cs =>
      (fix each (cs : list Element) (i : nat) : option node :=
         match cs with
         | [] => None
         | elem :: rest =>
             if path_eqb (ppath ++ [i]%nat) target then Some (ppath, parent)
             else
               match _iter elem (ppath ++ [i]%nat) target with
               | Some result => Some result
               | None => each rest (S i)
               end
         end) cs 0%nat
  end.

(** The loop over the children inside [_iter], on its own. *)
Definition _iter_each (parent : Element) (ppath target : path)
  : list Element -> nat -> option node :=
  fix each (cs : list Element) (i : nat) : option node :=
    match cs with
    | [] => None
    | elem :: rest =>
        if path_eqb (ppath ++ [i]%nat) target then Some (ppath, parent)
        else
          match _iter elem (ppath ++ [i]%nat) target with
          | Some result => Some result
          | None => each rest (S i)
          end
    end.

Definition _find_parent (root child : node) : option node :=
  if negb (path_eqb (fst root) (fst child))
  then _iter (snd root) (fst root) (fst child)
  else None.

(** The invoke-id block shared by [extract_obis_values_and_invoke_id] and
    [parse_new_style_push]. *)
Definition extract_invoke_id (root : node) : option Z :=
  match find root [Descendant (chars "LongInvokeIdAndPriority")] with
  | None => None
  | Some long_invoke =>
      let hex_val := get (snd long_invoke) (chars "Value") [] in
      match hex_val with
      | [] => None
      | _ :: _ =>
          let clean := DLMS_Parser.clean_hex hex_val in
          if (8 <=? length clean)%nat then
            let invoke_hex := skipn 2 clean in
            match int 16 invoke_hex with
            | Ok v => Some v
            | Raise _ => None
            end
          else None
      end
  end.

(** An item of [obis_entries]. *)
Record obis_entry : Set := mk_obis { obis : str; hex : str; comment : str }.

(** The comment looked for in the text of the OctetString, else in its
    children; among several matching children the last one wins. *)
Definition entry_comment (octet : Element) : str :=
  let in_text :=
    match text octet with
    | Some t => match t with [] => false | _ :: _ => contains (chars "<!--") t end
    | None => false
    end in
  if in_text then
    match text octet with
    | Some t =>
        strip (replace (chars "-->") [] (replace (chars "<!--") [] (strip t)))
    | None => []
    end
  else
    fold_left
      (fun comment c =>
         if contains (chars "Comment") (tag c)
         then strip (match text c with Some t => t | None => [] end)
         else comment)
      (children octet) [].

(** Dotted form of a 12-character value, the value itself otherwise or when
    a pair is not hexadecimal. *)
Definition obis_dotted (hex_val : str) : str :=
  if (length hex_val =? 12)%nat then
    match DLMS_Parser.obis_parts hex_val with
    | Ok parts => join (chars ".") (map str_of_int parts)
    | Raise _ => hex_val
    end
  else hex_val.

(** The loop over [obis_array.findall("Structure")]; a structure without an
    OctetString child contributes nothing. *)
Definition obis_entries_of (obis_array : node) : list obis_entry :=
  flat_map
    (fun struct =>
       match find struct [Child (chars "OctetString")] with
       | None => []
       | Some octet =>
           let hex_val := get (snd octet) (chars "Value") [] in
           [mk_obis (obis_dotted hex_val) hex_val (entry_comment (snd octet))]
       end)
    (findall obis_array [Child (chars "Structure")]).

(** The dictionary built by [_parse_xml_element_value]: ["type"] is always
    present, the other keys when the branch taken sets them. *)
Inductive TypedValue : Set :=
| TV (type : str) (value : option str) (obis_key : option str)
     (ascii_key : option str) (decimal : option str) (qty : option str)
     (fields : option (list TypedValue)) (items : option (list TypedValue)).

Definition to_option {A} (r : result A) : option A :=
  match r with Ok a => Some a | Raise _ => None end.

Definition scalar (t : str) (hex_val : str) (decimal : option str) : TypedValue :=
  TV t (Some hex_val) None None decimal None None None.

Fixpoint _parse_xml_element_value (elem : Element) : TypedValue :=
  match elem with
  | mkElement t a _ cs =>
      let value := get_attr a (chars "Value") [] in
      if str_eqb t (chars "Enum") then scalar t value None
      else if str_eqb t (chars "OctetString") then
        TV t (Some value)
           (if (length value =? 12)%nat
            then to_option (parts <- DLMS_Parser.obis_parts value ;;
                            Ok (join (chars ".") (map str_of_int parts)))
            else None)
           (to_option (b <- fromhex value ;; decode_ascii b))
           None None None None
      else if str_eqb t (chars "UInt32") || str_eqb t (chars "UInt16")
              || str_eqb t (chars "UInt8") then
        scalar t value (to_option (num <- int 16 value ;; Ok (str_of_int num)))
      else if str_eqb t (chars "Int8") then
        scalar t value
          (to_option (num <- int 16 value ;;
                      Ok (str_of_int (if 127 <? num then num - 256 else num))))
      else if str_eqb t (chars "Structure") then
        TV t None None None None (Some (get_attr a (chars "Qty") (chars "0")))
           (Some (map _parse_xml_element_value cs)) None
      else if str_eqb t (chars "Array") then
        TV t None None None None (Some (get_attr a (chars "Qty") (chars "0")))
           None (Some (map _parse_xml_element_value cs))
      else scalar t (chars "[" ++ t ++ chars "]") None
  end.

(** The value of a record: a dictionary, or the plain string used when no
    parent is found. *)
Inductive record_value : Set :=
| Dict (v : TypedValue)
| Text (s : str).

Definition Empty : record_value :=
  Dict (TV (chars "Empty") (Some []) None None None None None None).
Definition Missing : record_value :=
  Dict (TV (chars "Missing") (Some (chars "[missing]"))
           None None None None None None).

Record push_record : Set :=
  mk_record { r_obis : str; r_value : record_value; r_comment : str }.

Record obis_push : Set := mk_obis_push {
  invoke_id : option Z;
  records : list push_record;
  extra_structures : list Element
}.

(** [all_children.index(obis_array)]: the position of the object itself. *)
Fixpoint index_of (target : path) (l : list node) : option nat :=
  match l with
  | [] => None
  | n :: r =>
      if path_eqb (fst n) target then Some 0%nat
      else match index_of target r with
           | Some i => Some (S i)
           | None => None
           end
  end.

(** Step 5: [for i, elem in enumerate(elements_after)], giving [values] and
    [extra]. *)
Fixpoint split_values (i expected_values : Z) (elements_after : list node)
  : list TypedValue * list Element :=
  match elements_after with
  | [] => ([], [])
  | elem :: rest =>
      let '(values, extra) := split_values (i + 1) expected_values rest in
      if i <? expected_values
      then (_parse_xml_element_value (snd elem) :: values, extra)
      else (values, snd elem :: extra)
  end.

(** Step 6: [for i, entry in enumerate(obis_entries)]. *)
Fixpoint assemble (i : Z) (values : list TypedValue)
         (obis_entries : list obis_entry) : list push_record :=
  match obis_entries with
  | [] => []
  | entry :: rest =>
      let value :=
        if i =? 0 then Empty
        else if i - 1 <? Z.of_nat (length values)
        then match nth_error values (Z.to_nat (i - 1)) with
             | Some v => Dict v
             | None => Missing
             end
        else Missing in
      mk_record (obis entry) value (comment entry)
      :: assemble (i + 1) values rest
  end.

Definition obis_array_path : list step :=
  [Descendant (chars "DataValue"); Child (chars "Structure");
   Child (chars "Array")].

(** [extract_obis_values_and_invoke_id]; a document the parser rejects
    raises [ValueError]. *)
Definition extract_obis_values_and_invoke_id (xml : document)
  : result obis_push :=
  match xml with
  | None => Raise ValueError
  | Some root_elem =>
      let root : node := ([], root_elem) in
      let invoke_id := extract_invoke_id root in
      match find root obis_array_path with
      | None => Ok (mk_obis_push invoke_id [] [])
      | Some obis_array =>
          let obis_entries := obis_entries_of obis_array in
          match _find_parent root obis_array with
          | None =>
              Ok (mk_obis_push invoke_id
                    (map (fun e => mk_record (obis e) (Text (chars "[no data]"))
                                             (comment e))
                         obis_entries)
                    [])
          | Some parent_struct =>
              let all_children := child_nodes parent_struct in
              let elements_after :=
                match index_of (fst obis_array) all_children with
                | Some idx => skipn (idx + 1) all_children
                | None => []
                end in
              let expected_values :=
                Z.max 0 (Z.of_nat (length obis_entries) - 1) in
              let '(values, extra) :=
                split_values 0 expected_values elements_after in
              Ok (mk_obis_push invoke_id (assemble 0 values obis_entries) [])
          end
      end
  end.

(** [_parse_dlms_datetime]: indexing [b] is guarded by the length test. *)
Definition _parse_dlms_datetime (hex_str : str) : result str :=
  b <- fromhex hex_str ;;
  if (length b <? 12)%nat then Raise ValueError
  else
    let year := from_bytes_big (firstn 2 b) in
    let month := nth 2 b 0 in
    let day := nth 3 b 0 in
    let hour := nth 5 b 0 in
    let minute := nth 6 b 0 in
    let second := nth 7 b 0 in
    let deviation := from_bytes_big_signed16 (nth 9 b 0) (nth 10 b 0) in
    tz <- (if negb (deviation =? 0x8000)
           then datetime.timezone_of_minutes deviation
           else Ok datetime.timezone_utc) ;;
    dt <- datetime.make year month day hour minute second (Some tz) ;;
    Ok (datetime.isoformat dt).

Definition _hex_to_ascii (hex_str : str) : str :=
  try_except (b <- fromhex hex_str ;; decode_ascii b) hex_str.

(** [".//NotificationBody/DataValue"] *)
Definition data_value_path : list step :=
  [Descendant (chars "NotificationBody"); Child (chars "DataValue")].

Definition is_new_style_push (xml : document) : bool :=
  match xml with
  | None => false
  | Some root_elem =>
      let root : node := ([], root_elem) in
      match find root data_value_path with
      | None => false
      | Some data_value =>
          match List.find (has_tag (chars "Structure")) (iter data_value) with
          | None => false
          | Some structure =>
              match children (snd structure) with
              | [] => false
              | first :: _ =>
                  if negb (str_eqb (tag first) (chars "OctetString")) then false
                  else
                    let hex_val := get first (chars "Value") [] in
                    if negb (length hex_val =? 12)%nat then true else false
              end
          end
      end
  end.

(** The [UInt32] fields after the timestamp: [int(...)] is decimal, and a
    value it rejects counts as 0. *)
Definition row_values (fields : list Element) : list Z :=
  flat_map
    (fun val_elem =>
       if str_eqb (tag val_elem) (chars "UInt32")
       then [try_except (int 10 (get val_elem (chars "Value") (chars "0"))) 0]
       else [])
    fields.

(** One pass of the row loop: the row appended for [struct_elem], if any. *)
Definition row_of (struct_elem : Element) : option utils.day_row :=
  match children struct_elem with
  | [] => None
  | date_octet :: fields =>
      if negb (str_eqb (tag date_octet) (chars "OctetString")) then None
      else
        match _parse_dlms_datetime (get date_octet (chars "Value") []) with
        | Raise _ => None
        | Ok timestamp_iso => Some (utils.mk_row timestamp_iso (row_values fields))
        end
  end.

(** [for struct_elem in array_elem.findall("Structure")] *)
Definition day_push_rows (array_elem : node) : list utils.day_row :=
  flat_map
    (fun struct_elem =>
       match row_of (snd struct_elem) with
       | Some row => [row]
       | None => []
       end)
    (findall array_elem [Child (chars "Structure")]).

Record day_push : Set := mk_day_push {
  dp_invoke_id : option Z;
  dp_logical_name : str;
  dp_data : list utils.day_row
}.

Definition parse_new_style_push (xml : document) : result day_push :=
  match xml with
  | None => Raise ParseError
  | Some root_elem =>
      let root : node := ([], root_elem) in
      let invoke_id := extract_invoke_id root in
      match find root data_value_path with
      | None => Raise TypeError
      | Some data_value =>
          match List.find (has_tag (chars "Structure")) (child_nodes data_value) with
          | None => Raise ValueError
          | Some structure =>
              let children := child_nodes structure in
              c0 <- getitem children 0 ;;
              let logical_name :=
                _hex_to_ascii (get (snd c0) (chars "Value") []) in
              array_elem <- getitem children 1 ;;
              Ok (mk_day_push invoke_id logical_name (day_push_rows array_elem))
          end
      end
  end.

(** The result of [parse_dlms_push_xml] with its ["type"] key. *)
Inductive push : Set :=
| day_push_type (r : day_push)
| obis_push_type (r : obis_push).

Definition parse_dlms_push_xml (xml : document) : result push :=
  if is_new_style_push xml
  then r <- parse_new_style_push xml ;; Ok (day_push_type r)
  else r <- extract_obis_values_and_invoke_id xml ;; Ok (obis_push_type r).

End Push_Parser.

(** ** Code points, and the text decoded from a buffer *)

Module unicodedata.

(** The ten values of a decimal digit. *)
Inductive digit : Set := D0 | D1 | D2 | D3 | D4 | D5 | D6 | D7 | D8 | D9.

Definition digit_number (d : digit) : Z :=
  match d with
  | D0 => 0 | D1 => 1 | D2 => 2 | D3 => 3 | D4 => 4
  | D5 => 5 | D6 => 6 | D7 => 7 | D8 => 8 | D9 => 9
  end.

(** What the interpreter's Unicode database says of a code point, as far as
    [re] and [int] ask: white space, a decimal digit with its value, or
    neither. *)
Inductive kind : Set :=
| Space
| Decimal (d : digit)
| Other.

(** The database itself belongs to the interpreter and differs between its
    versions; it is a parameter, consulted from code point 0x80 on.  Below
    0x80 the classes are those of ASCII in every version. *)
Definition database := Z -> kind.

(** [Py_UNICODE_ISSPACE] *)
Definition isspace (db : database) (ch : Z) : bool :=
  if ch <? 128 then
    ((9 <=? ch) && (ch <=? 13)) || ((28 <=? ch) && (ch <=? 32))
  else match db ch with Space => true | _ => false end.

(** [Py_UNICODE_TODECIMAL], with [None] for its -1. *)
Definition decimal (db : database) (ch : Z) : option Z :=
  if ch <? 128 then
    if (48 <=? ch) && (ch <=? 57) then Some (ch - 48) else None
  else match db ch with Decimal d => Some (digit_number d) | _ => None end.

End unicodedata.

Module utf_8.

(** U+FFFD, which replaces a malformed sequence. *)
Definition REPLACEMENT : Z := 0xFFFD.

Definition continuation (b : Z) : bool := (0x80 <=? b) && (b <=? 0xBF).

(** [data.decode('utf-8', errors='replace')]: the code points of the text.
    A byte that cannot start a sequence, and the longest prefix of a
    sequence that a wrong or missing byte cuts short, are each replaced by
    one U+FFFD; decoding resumes at the byte that did not fit.  Sequences
    that would encode a value below their length's range, a surrogate or a
    value above U+10FFFF are cut short at their second byte. *)
Fixpoint decode (data : bytes) : list Z :=
  match data with
  | [] => []
  | b0 :: r1 =>
      if b0 <? 0x80 then b0 :: decode r1
      else if b0 <? 0xC2 then REPLACEMENT :: decode r1
      else if b0 <? 0xE0 then
        match r1 with
        | [] => [REPLACEMENT]
        | b1 :: r2 =>
            if continuation b1
            then Z.lor (Z.shiftl (Z.land b0 0x1F) 6) (Z.land b1 0x3F)
                 :: decode r2
            else REPLACEMENT :: decode r1
        end
      else if b0 <? 0xF0 then
        match r1 with
        | [] => [REPLACEMENT]
        | b1 :: r2 =>
            if negb (continuation b1)
               || (if b1 <? 0xA0 then b0 =? 0xE0 else b0 =? 0xED)
            then REPLACEMENT :: decode r1
            else
              match r2 with
              | [] => [REPLACEMENT]
              | b2 :: r3 =>
                  if continuation b2
                  then Z.lor (Z.shiftl (Z.land b0 0x0F) 12)
                         (Z.lor (Z.shiftl (Z.land b1 0x3F) 6)
                                (Z.land b2 0x3F))
                       :: decode r3
                  else REPLACEMENT :: decode r2
              end
        end
      else if b0 <? 0xF5 then
        match r1 with
        | [] => [REPLACEMENT]
        | b1 :: r2 =>
            if negb (continuation b1)
               || (if b1 <? 0x90 then b0 =? 0xF0 else b0 =? 0xF4)
            then REPLACEMENT :: decode r1
            else
              match r2 with
              | [] => [REPLACEMENT]
              | b2 :: r3 =>
                  if negb (continuation b2) then REPLACEMENT :: decode r2
                  else
                    match r3 with
                    | [] => [REPLACEMENT]
                    | b3 :: r4 =>
                        if continuation b3
                        then Z.lor (Z.shiftl (Z.land b0 0x07) 18)
                               (Z.lor (Z.shiftl (Z.land b1 0x3F) 12)
                                  (Z.lor (Z.shiftl (Z.land b2 0x3F) 6)
                                         (Z.land b3 0x3F)))
                             :: decode r4
                        else REPLACEMENT :: decode r3
                    end
              end
        end
      else REPLACEMENT :: decode r1
  end.

(** The code points of an ASCII literal of the sources. *)
Definition codes (s : string) : list Z := map ord (chars s).

(** [int(s)] on a text.  The interpreter first rewrites the text in ASCII
    ([_PyUnicode_TransformDecimalAndSpaceToASCII]: an ASCII text is taken as
    it is; otherwise white space becomes a blank, a decimal digit becomes
    the ASCII digit of its value, and the text is cut with a question mark
    at the first other character from 0x7F on), then reads it in base
    10. *)
Fixpoint TransformDecimalAndSpaceToASCII (db : unicodedata.database)
         (s : list Z) : list Z :=
  match s with
  | [] => []
  | ch :: r =>
      if ch <? 127 then ch :: TransformDecimalAndSpaceToASCII db r
      else if unicodedata.isspace db ch
      then 32 :: TransformDecimalAndSpaceToASCII db r
      else match unicodedata.decimal db ch with
           | Some d => (48 + d) :: TransformDecimalAndSpaceToASCII db r
           | None => [63]
           end
  end.

(** The conversion refuses a text of more than [max_str_digits] digits,
    when that exceeds 640: [max_str_digits] is the interpreter's
    [sys.get_int_max_str_digits()], 4300 unless it is set otherwise, and 0
    where there is no limit, as in the interpreters that precede it. *)
Definition int (db : unicodedata.database) (max_str_digits : nat)
           (s : list Z) : result Z :=
  let ascii :=
    if forallb (fun ch => ch <? 128) s then s
    else TransformDecimalAndSpaceToASCII db s in
  let literal := map (fun ch => ascii_of_N (Z.to_N ch)) ascii in
  let digits := length (filter (fun c => digit_value c <? 10) literal) in
  if ((640 <? digits) && (0 <? max_str_digits)
      && (max_str_digits <? digits))%nat
  then Raise ValueError
  else Py.int 10 literal.

End utf_8.

(** ** The regular expressions of the [re] module that the sources use *)

Module re.

(** The characters of a subject: those of an 8-bit string, or code
    points. *)
Class Char (C : Type) : Type := {
  eqb : C -> C -> bool;
  eqb_eq : forall x y, eqb x y = true <-> x = y
}.

#[global] Instance ascii_Char : Char ascii :=
  {| eqb := Ascii.eqb; eqb_eq := Ascii.eqb_eq |}.

#[global] Instance Z_Char : Char Z :=
  {| eqb := Z.eqb; eqb_eq := Z.eqb_eq |}.

(** A pattern is a sequence of literals and greedy repetitions [c+] of a
    character class, the latter possibly inside a capturing group. *)
Inductive atom (C : Type) : Type :=
| Literal (s : list C)
| Plus (cls : C -> bool)
| Group (cls : C -> bool).

Arguments Literal {C} s.
Arguments Plus {C} cls.
Arguments Group {C} cls.

Definition pattern (C : Type) := list (atom C).

(** The subject starts with the literal. *)
Fixpoint literal_at {C} {char : Char C} (l s : list C) : bool :=
  match l, s with
  | [], _ => true
  | _ :: _, [] => false
  | x :: l', y :: s' => eqb x y && literal_at l' s'
  end.

(** A greedy [cls+] before the rest of the pattern [k]: one more character
    is tried first, and the repetition gives characters back one at a time
    when the rest fails. *)
Fixpoint plus {C A} (cls : C -> bool) (k : list C -> list C -> option A)
         (taken s : list C) : option A :=
  match s with
  | c :: r =>
      if cls c then
        match plus cls k (taken ++ [c]) r with
        | Some x => Some x
        | None => k (taken ++ [c]) r
        end
      else None
  | [] => None
  end.

(** A match anchored at the start of [s]; the result is the list of
    captured groups. *)
Fixpoint match_here {C} {char : Char C} (p : pattern C) (s : list C)
         (groups : list (list C)) : option (list (list C)) :=
  match p with
  | [] => Some groups
  | Literal l :: p' =>
      if literal_at l s then match_here p' (skipn (length l) s) groups
      else None
  | Plus cls :: p' => plus cls (fun _ rest => match_here p' rest groups) [] s
  | Group cls :: p' =>
      plus cls (fun taken rest => match_here p' rest (groups ++ [taken])) [] s
  end.

(** [pattern.search(s)]: the match at the leftmost position that has one. *)
Fixpoint search {C} {char : Char C} (p : pattern C) (s : list C)
  : option (list (list C)) :=
  match match_here p s [] with
  | Some g => Some g
  | None =>
      match s with
      | [] => None
      | _ :: r => search p r
      end
  end.

(** The classes [\s], [\S], [\d] and [[\d.]] on ASCII text. *)
Definition class_s (c : ascii) : bool := isspace c.
Definition class_S (c : ascii) : bool := negb (isspace c).
Definition class_d (c : ascii) : bool := (48 <=? ord c) && (ord c <=? 57).
Definition class_d_dot (c : ascii) : bool := class_d c || Ascii.eqb c ".".

(** The same classes on code points, as a pattern compiled from a [str]
    has them: Unicode white space and Unicode decimal digits. *)
Definition text_s (db : unicodedata.database) (ch : Z) : bool :=
  unicodedata.isspace db ch.
Definition text_S (db : unicodedata.database) (ch : Z) : bool :=
  negb (unicodedata.isspace db ch).
Definition text_d (db : unicodedata.database) (ch : Z) : bool :=
  match unicodedata.decimal db ch with Some _ => true | None => false end.
Definition text_d_dot (db : unicodedata.database) (ch : Z) : bool :=
  text_d db ch || (ch =? 46).

End re.

(** ** message_handler.py *)

Module message_handler.

(** [re.compile(r'<sn=(\S+)\s+ip=([\d.]+)\s+pt=(\d+)>')] *)
Definition AUTOCONNECT_PATTERN : re.pattern ascii :=
  [re.Literal (chars "<sn="); re.Group re.class_S; re.Plus re.class_s;
   re.Literal (chars "ip="); re.Group re.class_d_dot; re.Plus re.class_s;
   re.Literal (chars "pt="); re.Group re.class_d; re.Literal (chars ">")].

(** What a run of the processor does to its collaborators, in order. *)
Inductive event : Set :=
| on_autoconnect_called (sn ip : str) (port : Z)
| logged_autoconnect (port_info sn ip port_str : str)
| logged_text (port_info text_msg : str).

(** [raw_data.decode('utf-8', errors='replace')] on a buffer of bytes below
    0x80, where the decoder returns the same characters.  The definitions
    of this module that depend on the text are the processor on ASCII
    buffers; [MessageProcessor] below is the processor on every buffer. *)
Definition decode_utf8_replace (raw_data : bytes) : str :=
  map (fun b => ascii_of_N (Z.to_N b)) raw_data.

Definition is_ascii_buffer (raw_data : bytes) : Prop :=
  Forall (fun b => 0 <= b < 128) raw_data.

(** The processor's collaborators: the autoconnect callback, if one is
    registered, which may raise; and the DLMS branch
    [_process_dlms_frame], which runs the external codec.  The logger is
    total. *)
Record processor : Type := mk_processor {
  on_autoconnect : option (str -> str -> Z -> result unit);
  _process_dlms_frame : bytes -> str -> option bytes * list event
}.

(** [_is_autoconnect]: the bare [except] swallows whatever the conversion of
    the port or the callback raises, and the method then answers [False]. *)
Definition _is_autoconnect (self : processor) (raw_data : bytes)
           (port_info : str) : bool * list event :=
  let text_msg := decode_utf8_replace raw_data in
  match re.search AUTOCONNECT_PATTERN text_msg with
  | Some [sn; ip; port_str] =>
      match on_autoconnect self with
      | Some callback =>
          match int 10 port_str with
          | Raise _ => (false, [])
          | Ok port =>
              match callback sn ip port with
              | Raise _ => (false, [on_autoconnect_called sn ip port])
              | Ok _ =>
                  (true, [on_autoconnect_called sn ip port;
                          logged_autoconnect port_info sn ip port_str])
              end
          end
      | None => (true, [logged_autoconnect port_info sn ip port_str])
      end
  | _ => (false, [])
  end.

Definition _is_dlms_frame (raw_data : bytes) : bool :=
  match raw_data with
  | [] => false
  | b0 :: _ => b0 =? 0x7E
  end.

(** [process_message]: the response, if any, and the events it caused. *)
Definition process_message (self : processor) (raw_data : bytes)
           (local_port : option Z) : option bytes * list event :=
  let port_info :=
    match local_port with
    | Some p => if p =? 0 then []
                else chars " (port " ++ str_of_int p ++ chars ")"
    | None => []
    end in
  let '(auto, ev1) := _is_autoconnect self raw_data port_info in
  if auto then (None, ev1)
  else if negb (_is_dlms_frame raw_data)
  then (None, ev1 ++ [logged_text port_info (decode_utf8_replace raw_data)])
  else
    let '(resp, ev2) := _process_dlms_frame self raw_data port_info in
    (resp, ev1 ++ ev2).

(** [GXByteBuffer.setUInt8]: append one byte. *)
Definition setUInt8 (bb : bytes) (item : Z) : bytes := bb ++ [item].

(** [_generate_response]; [now] is [datetime.now()].  Any exception is
    logged and turned into [None]. *)
Definition _generate_response (_GXFCS16 : option (bytes -> Z -> Z -> Z))
           (now : datetime.t) (address_field : bytes)
           (invoke_clean_hex : str) : option bytes :=
  Push_Parser.to_option
    (invoke_bytes <- fromhex invoke_clean_hex ;;
     let bb := setUInt8 [] 0x10 in
     let bb := fold_left setUInt8 invoke_bytes bb in
     let bb :=
       fold_left setUInt8
         [0x0C;
          Z.land (Z.shiftr (datetime.year now) 8) 0xFF;
          Z.land (datetime.year now) 0xFF;
          datetime.month now; datetime.day now; 0xFF;
          datetime.hour now; datetime.minute now; datetime.second now;
          0xFF; 0xFF; 0x4C; 0x00; 0x00] bb in
     let pdu_response := bb in
     let control_byte := [0xA0] in
     let fixed_prefix := [0x13] in
     let llc := [0xE6; 0xE7; 0x00] in
     let information_field := fixed_prefix ++ llc ++ pdu_response in
     let length := Z.of_nat (length (address_field ++ information_field)) + 6 in
     length_byte <- bytes_of_list [length] ;;
     fcs_handler <-
       to_bytes_2_big
         (utils.calculate_fcs _GXFCS16
            (control_byte ++ length_byte ++ address_field ++ fixed_prefix)) ;;
     let payload :=
       address_field ++ fixed_prefix ++ fcs_handler ++ llc ++ pdu_response in
     let data_for_fcs := control_byte ++ length_byte ++ payload in
     fcs <- to_bytes_2_big (utils.calculate_fcs _GXFCS16 data_for_fcs) ;;
     frame <- bytes_of_list [0x7E; 0xA0; length] ;;
     Ok (frame ++ payload ++ fcs ++ [0x7E])).

End message_handler.

(** ** message_handler.py: the processor on arbitrary buffers *)

Module MessageProcessor.

(** The text decoded from a buffer: a sequence of code points. *)
Definition text := list Z.

(** [re.compile(r'<sn=(\S+)\s+ip=([\d.]+)\s+pt=(\d+)>')], a pattern on
    [str]: its classes are the Unicode ones. *)
Definition AUTOCONNECT_PATTERN (db : unicodedata.database) : re.pattern Z :=
  [re.Literal (utf_8.codes "<sn="); re.Group (re.text_S db);
   re.Plus (re.text_s db);
   re.Literal (utf_8.codes "ip="); re.Group (re.text_d_dot db);
   re.Plus (re.text_s db);
   re.Literal (utf_8.codes "pt="); re.Group (re.text_d db);
   re.Literal (utf_8.codes ">")].

(** What a run of the processor does to its collaborators, in order. *)
Inductive event : Set :=
| on_autoconnect_called (sn ip : text) (port : Z)
| logged_autoconnect (port_info : str) (sn ip port_str : text)
| logged_text (port_info : str) (text_msg : text).

(** The processor's collaborators: the autoconnect callback, if one is
    registered, which may raise; and the DLMS branch
    [_process_dlms_frame], which runs the external codec.  The logger is
    total.  The interpreter's Unicode database and its limit on the digits
    of an integer are arguments of the methods. *)
Record processor : Type := mk_processor {
  on_autoconnect : option (text -> text -> Z -> result unit);
  _process_dlms_frame : bytes -> str -> option bytes * list event
}.

(** [_is_autoconnect]: the bare [except] swallows whatever the conversion of
    the port or the callback raises, and the method then answers [False]. *)
Definition _is_autoconnect (db : unicodedata.database)
           (max_str_digits : nat) (self : processor)
           (raw_data : bytes) (port_info : str) : bool * list event :=
  let text_msg := utf_8.decode raw_data in
  match re.search (AUTOCONNECT_PATTERN db) text_msg with
  | Some [sn; ip; port_str] =>
      match on_autoconnect self with
      | Some callback =>
          match utf_8.int db max_str_digits port_str with
          | Raise _ => (false, [])
          | Ok port =>
              match callback sn ip port with
              | Raise _ => (false, [on_autoconnect_called sn ip port])
              | Ok _ =>
                  (true, [on_autoconnect_called sn ip port;
                          logged_autoconnect port_info sn ip port_str])
              end
          end
      | None => (true, [logged_autoconnect port_info sn ip port_str])
      end
  | _ => (false, [])
  end.

(** [process_message]: the response, if any, and the events it caused. *)
Definition process_message (db : unicodedata.database)
           (max_str_digits : nat) (self : processor)
           (raw_data : bytes) (local_port : option Z)
  : option bytes * list event :=
  let port_info :=
    match local_port with
    | Some p => if p =? 0 then []
                else chars " (port " ++ str_of_int p ++ chars ")"
    | None => []
    end in
  let '(auto, ev1) :=
    _is_autoconnect db max_str_digits self raw_data port_info in
  if auto then (None, ev1)
  else if negb (message_handler._is_dlms_frame raw_data)
  then (None, ev1 ++ [logged_text port_info (utf_8.decode raw_data)])
  else
    let '(resp, ev2) := _process_dlms_frame self raw_data port_info in
    (resp, ev1 ++ ev2).

End MessageProcessor.

(** ** The acknowledgment frame as the specification lays it out *)

Module AckFrame.

(** Two bytes, most significant first. *)
Definition be16 (v : Z) : bytes := [v / 256; v mod 256].

(** The raw bytes denoted by a string of hexadecimal digit pairs. *)
Fixpoint hex_pairs (s : str) : bytes :=
  match s with
  | c :: d :: r => 16 * digit_value c + digit_value d :: hex_pairs r
  | _ => []
  end.

(** The date-time block that follows the tag 0x0C. *)
Definition datetime_block (now : datetime.t) : bytes :=
  [datetime.year now / 256; datetime.year now mod 256;
   datetime.month now; datetime.day now; 0xFF;
   datetime.hour now; datetime.minute now; datetime.second now;
   0xFF; 0xFF; 0x4C; 0x00; 0x00].

Definition pdu_body (invoke_bytes block : bytes) : bytes :=
  [0x10] ++ invoke_bytes ++ [0x0C] ++ block.

Definition information_field (pdu : bytes) : bytes :=
  [0x13] ++ [0xE6; 0xE7; 0x00] ++ pdu.

Definition length_byte (address_field pdu : bytes) : Z :=
  Z.of_nat (length address_field)
  + Z.of_nat (length (information_field pdu)) + 6.

Section Frame.
Variable crc16 : bytes -> Z.
Variables address_field pdu : bytes.

Definition fcs1 : Z :=
  crc16 ([0xA0] ++ [length_byte address_field pdu] ++ address_field ++ [0x13]).

Definition fcs2 : Z :=
  crc16 ([0xA0] ++ [length_byte address_field pdu] ++ address_field
         ++ [0x13] ++ be16 fcs1 ++ [0xE6; 0xE7; 0x00] ++ pdu).

Definition frame : bytes :=
  [0x7E; 0xA0; length_byte address_field pdu] ++ address_field ++ [0x13]
  ++ be16 fcs1 ++ [0xE6; 0xE7; 0x00] ++ pdu ++ be16 fcs2 ++ [0x7E].
End Frame.

(** The external checksum primitive, when present, returns 16-bit values. *)
Definition fits_16_bits (_GXFCS16 : option (bytes -> Z -> Z -> Z)) : Prop :=
  match _GXFCS16 with
  | Some countFCS16 => forall d i n, 0 <= countFCS16 d i n < 65536
  | None => True
  end.

End AckFrame.


(** ** Sample documents *)

Module Samples.

Import ET.

Definition elem (t : string) (cs : list Element) : Element :=
  mkElement (chars t) [] None cs.

Definition leaf (t v : string) : Element :=
  mkElement (chars t) [(chars "Value", chars v)] None [].

Definition obis_structure (code : string) : Element :=
  elem "Structure" [leaf "OctetString" code].

(** An array of three OBIS entries. *)
Definition obis_array : Element :=
  elem "Array"
    [obis_structure "0000190900FF";
     obis_structure "0100010800FF";
     obis_structure "0000600A01FF"].

(** The structure that holds that array, followed in it by two values and
    one further element; the DataValue around it; and the notification. *)
Definition obis_parent : Element :=
  elem "Structure"
    [obis_array;
     leaf "UInt32" "0000002A";
     leaf "Int8" "FE";
     leaf "OctetString" "414243"].

Definition obis_data_value : Element := elem "DataValue" [obis_parent].

Definition obis_push_document : Element :=
  elem "DataNotification"
    [leaf "LongInvokeIdAndPriority" "C000001A";
     elem "NotificationBody" [obis_data_value]].

(** A notification with a logical name and three rows: a row with
    deviation -180 minutes, a row with the unspecified deviation 0x8000, and
    a row with deviation 0. *)
Definition day_push_document : Element :=
  elem "DataNotification"
    [leaf "LongInvokeIdAndPriority" "C000001A";
     elem "NotificationBody"
       [elem "DataValue"
          [elem "Structure"
             [leaf "OctetString" "50454E31";
              elem "Array"
                [elem "Structure"
                   [leaf "OctetString" "07EA010DFF0E2114FFFF4C00";
                    leaf "UInt32" "16"; leaf "UInt32" "0000001A"];
                 elem "Structure"
                   [leaf "OctetString" "07EA010DFF0E2114FF800000";
                    leaf "UInt32" "17"];
                 elem "Structure"
                   [leaf "OctetString" "07EA010EFF0E2114FF000000";
                    leaf "UInt32" "18"]]]]]].

Definition row (ts : string) (vs : list Z) : utils.day_row :=
  utils.mk_row (chars ts) vs.

(** Four half-hourly rows, out of order, and the same with one row a second
    late. *)
Definition half_hourly_entry : utils.day_entry :=
  utils.mk_entry (chars "PEN1")
    [row "2026-01-13T00:30:00+03:00" [1; 2; 3; 4];
     row "2026-01-13T00:00:00+03:00" [1; 2; 3; 4];
     row "2026-01-12T22:00:00Z" [1; 2; 3; 4];
     row "2026-01-13T01:30:00+03:00" [1; 2; 3; 4]].

Definition half_hourly_entry_late : utils.day_entry :=
  utils.mk_entry (chars "PEN1")
    [row "2026-01-13T00:30:01+03:00" [1; 2; 3; 4];
     row "2026-01-13T00:00:00+03:00" [1; 2; 3; 4];
     row "2026-01-12T22:00:00Z" [1; 2; 3; 4];
     row "2026-01-13T01:30:00+03:00" [1; 2; 3; 4]].

(** The timestamps of [half_hourly_entry], in the order of its rows. *)
Definition at_offset (h mi : Z) (off_minutes : Z) : datetime.t :=
  datetime.mk 2026 1 (if off_minutes =? 0 then 12 else 13) h mi 0 0
              (Some (off_minutes * datetime.us_per_minute)).

Definition half_hourly_timestamps : list datetime.t :=
  [at_offset 0 30 180; at_offset 0 0 180; at_offset 22 0 0;
   at_offset 1 30 180].

Definition half_hourly_sorted : list datetime.t :=
  [at_offset 0 0 180; at_offset 0 30 180; at_offset 22 0 0;
   at_offset 1 30 180].

(** A processor whose callback returns normally and whose DLMS branch gives
    no response. *)
Definition quiet_processor : message_handler.processor :=
  message_handler.mk_processor (Some (fun _ _ _ => Ok tt))
                               (fun _ _ => (None, [])).

(** The bytes of an ASCII text. *)
Definition ascii_bytes (s : string) : bytes := map ord (chars s).

(** The same processor for arbitrary buffers. *)
Definition quiet_listener : MessageProcessor.processor :=
  MessageProcessor.mk_processor (Some (fun _ _ _ => Ok tt))
                                (fun _ _ => (None, [])).

(** An announcement after two bytes that are not UTF-8, and one whose
    serial number is a two-byte sequence and whose port is written in
    Arabic-Indic digits (U+0664, U+0662), with a no-break space before it. *)
Definition announcement_after_invalid_bytes : bytes :=
  [0xFF; 0xFE] ++ ascii_bytes "<sn=A ip=1.2.3.4 pt=5>".

Definition announcement_in_other_scripts : bytes :=
  ascii_bytes "<sn=" ++ [0xC3; 0xA9] ++ ascii_bytes " ip=1.2.3.4"
  ++ [0xC2; 0xA0] ++ ascii_bytes "pt=" ++ [0xD9; 0xA4; 0xD9; 0xA2]
  ++ ascii_bytes ">".

(** The entries of the Unicode database for the code points above 0x7F of
    these samples. *)
Definition sample_database : unicodedata.database :=
  fun ch =>
    if ch =? 0xA0 then unicodedata.Space
    else if ch =? 0x664 then unicodedata.Decimal unicodedata.D4
    else if ch =? 0x662 then unicodedata.Decimal unicodedata.D2
    else unicodedata.Other.

(** A single row whose timestamp is not a date. *)
Definition single_bad_row_entry : utils.day_entry :=
  utils.mk_entry (chars "PEN1") [row "garbage" [1; 2; 3; 4]].

End Samples.

(** ** Notions used to state the properties *)

Module Spec.

(** The number denoted by a string of digits in a base, most significant
    digit first. *)
Fixpoint digits_val (base : Z) (s : str) (acc : Z) : Z :=
  match s with
  | [] => acc
  | c :: r => digits_val base r (acc * base + digit_value c)
  end.

Definition hex_value (s : str) : Z := digits_val 16 s 0.

Definition all_digits (base : Z) (s : str) : Prop :=
  Forall (fun c => digit_value c < base) s.

Definition is_hex (s : str) : Prop :=
  Forall (fun c => is_hex_digit c = true) s.


(** [x] is the first element of [l] that satisfies [p]. *)
Definition first_such {A} (p : A -> bool) (l : list A) (x : A) : Prop :=
  exists before after,
    l = before ++ x :: after /\ p x = true
    /\ Forall (fun y => p y = false) before.

(** A node is in place when its path leads from the root to its element. *)
Definition in_place (root : ET.Element) (n : ET.node) : Prop :=
  ET.subelement root (fst n) = Some (snd n).

(** The elements below the root in document order: each child of the root
    followed by its own descendants. *)
Definition below (root : ET.Element) : list ET.node :=
  flat_map ET.iter (ET.child_nodes ([], root)).

(** [n] has a child with tag [t]. *)
Definition has_child (t : str) (n : ET.node) : bool :=
  existsb (ET.has_tag t) (ET.child_nodes n).

(** [child] is the first child of [parent] with tag [t]. *)
Definition first_child (t : str) (parent child : ET.node) : Prop :=
  first_such (ET.has_tag t) (ET.child_nodes parent) child.

(** The DataValue of the notification body: the first DataValue child of
    the first NotificationBody below the root that has one. *)
Definition data_value_of (root : ET.Element) (data_value : ET.node) : Prop :=
  exists body,
    first_such (fun n => ET.has_tag (chars "NotificationBody") n
                         && has_child (chars "DataValue") n)
               (below root) body
    /\ first_child (chars "DataValue") body data_value.

(** A Structure that has an Array among its children. *)
Definition holds_array (n : ET.node) : bool :=
  ET.has_tag (chars "Structure") n && has_child (chars "Array") n.

(** The OBIS array of a notification and the structure that holds it: the
    first DataValue below the root with a Structure child that holds an
    Array, the first such Structure child, and its first Array child. *)
Definition obis_array_of (root : ET.Element) (parent obis_array : ET.node)
  : Prop :=
  exists data_value,
    first_such (fun n => ET.has_tag (chars "DataValue") n
                         && existsb holds_array (ET.child_nodes n))
               (below root) data_value
    /\ first_such holds_array (ET.child_nodes data_value) parent
    /\ first_child (chars "Array") parent obis_array.

(** The OctetString that names the entry of an OBIS-code structure: its
    first OctetString child. *)
Definition entry_octet (structure : ET.Element) : option ET.Element :=
  List.find (fun c => str_eqb (ET.tag c) (chars "OctetString"))
            (ET.children structure).

(** The entries an OBIS array holds, each given by the OctetString that
    names it: one for every Structure child of the array that has an
    OctetString child, in the order of the children. *)
Definition obis_octets (array : ET.Element) : list ET.Element :=
  flat_map
    (fun c =>
       if str_eqb (ET.tag c) (chars "Structure") then
         match entry_octet c with
         | Some octet => [octet]
         | None => []
         end
       else [])
    (ET.children array).

(** All offset-aware or all naive: the timestamps can be compared. *)
Definition homogeneous (ts : list datetime.t) : Prop :=
  exists k : bool, Forall (fun d => datetime.is_aware d = k) ts.

(** In non-decreasing order of time. *)
Definition ordered (ts : list datetime.t) : Prop :=
  StronglySorted (fun a b => datetime.instant a <= datetime.instant b) ts.

(** Every element exceeds the one before it by exactly [delta]. *)
Definition spaced (delta : Z) (zs : list Z) : Prop :=
  forall i a b,
    nth_error zs i = Some a -> nth_error zs (S i) = Some b -> b - a = delta.

Definition evenly_spaced (delta : Z) (ts : list datetime.t) : Prop :=
  spaced delta (map datetime.instant ts).

Definition hours_24 : Z := 24 * 3600 * 1000000.
Definition minutes_30 : Z := 30 * 60 * 1000000.

(** A non-empty run of characters of a class. *)
Definition run {C} (cls : C -> bool) (s : list C) : Prop :=
  s <> [] /\ Forall (fun c => cls c = true) s.


(** [\d+\.\d+\.\d+\.\d+] *)
Definition dotted_quad (ip : str) : Prop :=
  exists a b c d,
    ip = a ++ chars "." ++ b ++ chars "." ++ c ++ chars "." ++ d
    /\ run re.class_d a /\ run re.class_d b /\ run re.class_d c
    /\ run re.class_d d.

(** [text] holds, after [before], a match of the pattern as the
    specification writes it,
    [<sn=(\S+) ip=(\d+\.\d+\.\d+\.\d+) pt=(\d+)>]. *)
Definition claimed_match (before after sn ip pt text : str) : Prop :=
  text = before ++ chars "<sn=" ++ sn ++ chars " ip=" ++ ip ++ chars " pt="
         ++ pt ++ chars ">" ++ after
  /\ run re.class_S sn /\ dotted_quad ip /\ run re.class_d pt.

(** The same two notions for a decoded text, a sequence of code points,
    with the Unicode classes of the interpreter's database [db]: a match of
    the pattern of the code, and a match of the pattern as the
    specification writes it. *)
Definition text_match (db : unicodedata.database)
           (before after sn ip pt text : list Z) : Prop :=
  exists ws1 ws2,
    text = before ++ utf_8.codes "<sn=" ++ sn ++ ws1 ++ utf_8.codes "ip="
           ++ ip ++ ws2 ++ utf_8.codes "pt=" ++ pt ++ utf_8.codes ">"
           ++ after
    /\ run (re.text_S db) sn /\ run (re.text_s db) ws1
    /\ run (re.text_d_dot db) ip /\ run (re.text_s db) ws2
    /\ run (re.text_d db) pt.

Definition text_dotted_quad (db : unicodedata.database) (ip : list Z)
  : Prop :=
  exists a b c d,
    ip = a ++ utf_8.codes "." ++ b ++ utf_8.codes "." ++ c
         ++ utf_8.codes "." ++ d
    /\ run (re.text_d db) a /\ run (re.text_d db) b
    /\ run (re.text_d db) c /\ run (re.text_d db) d.

Definition claimed_text_match (db : unicodedata.database)
           (before after sn ip pt text : list Z) : Prop :=
  text = before ++ utf_8.codes "<sn=" ++ sn ++ utf_8.codes " ip=" ++ ip
         ++ utf_8.codes " pt=" ++ pt ++ utf_8.codes ">" ++ after
  /\ run (re.text_S db) sn /\ text_dotted_quad db ip
  /\ run (re.text_d db) pt.

(** Two atoms, one on characters and one on code points, that say the same
    of the characters that satisfy [ok]: [f] takes a character to its code
    point. *)
Definition same_atom {A B} (f : A -> B) (ok : A -> Prop)
           (a : re.atom A) (b : re.atom B) : Prop :=
  match a, b with
  | re.Literal l, re.Literal l' => l' = map f l
  | re.Plus cls, re.Plus cls' => forall x, ok x -> cls' (f x) = cls x
  | re.Group cls, re.Group cls' => forall x, ok x -> cls' (f x) = cls x
  | _, _ => False
  end.

(** A run of digits that [int] converts under the interpreter's limit:
    at most 640 digits, or no limit, or no more digits than the limit. *)
Definition within_int_limit (max_str_digits : nat) (pt : list Z) : Prop :=
  (length pt <= 640)%nat \/ max_str_digits = 0%nat
  \/ (length pt <= max_str_digits)%nat.

(** The number that a run of decimal digits denotes in base 10, each digit
    with the value the database gives it. *)
Definition port_number (db : unicodedata.database) (pt : list Z) : Z :=
  fold_left
    (fun acc ch =>
       acc * 10 + match unicodedata.decimal db ch with
                  | Some d => d
                  | None => 0
                  end)
    pt 0.

(** Two's complement reading of a 16-bit word. *)
Definition signed16 (word : Z) : Z :=
  if word <? 32768 then word else word - 65536.

(** ["YYYY-MM-DD"] and ["HH:MM:SS"], zero padded. *)
Definition date_text (y m d : Z) : str :=
  format_0d 4 y ++ chars "-" ++ format_0d 2 m ++ chars "-" ++ format_0d 2 d.
Definition time_text (h m s : Z) : str :=
  format_0d 2 h ++ chars ":" ++ format_0d 2 m ++ chars ":" ++ format_0d 2 s.

(** [" UTC+HH"], [" UTC-HH"], with [":MM"] when the offset is not a whole
    number of hours. *)
Definition utc_offset_text (minutes : Z) : str :=
  chars " UTC" ++ (if 0 <? minutes then chars "+" else chars "-")
  ++ format_0d 2 (Z.abs minutes / 60)
  ++ (if Z.abs minutes mod 60 =? 0 then []
      else chars ":" ++ format_0d 2 (Z.abs minutes mod 60)).

(** The suffix of a decoded DLMS date-time: present when the data has at
    least 11 bytes and the deviation word is neither 0x8000 nor 0. *)
Definition utc_suffix (data : bytes) : str :=
  if (11 <=? length data)%nat then
    let word := 256 * nth 9 data 0 + nth 10 data 0 in
    if (word =? 0x8000) || (word =? 0) then []
    else utc_offset_text (signed16 word)
  else [].

End Spec.

(** ** DLMS_Parser.py and utils.py: hexadecimal text *)

Module Hex.

(** The digit of a value 0..15 in an alphabet of sixteen characters. *)
Definition hex_digit (alphabet : str) (n : Z) : ascii :=
  nth (Z.to_nat n) alphabet "0"%char.

(** [f"{b:02X}"] for an item [b] of a [bytes] value. *)
Definition format_02X (b : Z) : str :=
  [hex_digit (chars "0123456789ABCDEF") (b / 16);
   hex_digit (chars "0123456789ABCDEF") (b mod 16)].

(** [data.hex()] *)
Definition hex (data : bytes) : str :=
  flat_map
    (fun b => [hex_digit (chars "0123456789abcdef") (b / 16);
               hex_digit (chars "0123456789abcdef") (b mod 16)])
    data.

(** [bytes_to_hex_str] of DLMS_Parser.py on a [bytes] or [bytearray]
    value. *)
Definition bytes_to_hex_str (data : bytes) : str :=
  join (chars " ") (map format_02X data).

(** [bytes_to_hex_display] of utils.py. *)
Definition bytes_to_hex_display (data : bytes) : str :=
  join (chars " ") (map format_02X data).

(** [get_current_dlms_datetime_hex]; [now] is [datetime.now()].
    [bytearray.append] checks the range of its item. *)
Definition get_current_dlms_datetime_hex (now : datetime.t) : result str :=
  let weekday := 0xFF in
  let hundredths := 0 in
  let before_deviation := 0xFFFF in
  let deviation := 0x4C in
  let clock_status := 0x00 in
  y <- to_bytes_2_big (datetime.year now) ;;
  fields <- bytes_of_list [datetime.month now; datetime.day now; weekday;
                           datetime.hour now; datetime.minute now;
                           datetime.second now; hundredths] ;;
  bd <- to_bytes_2_big before_deviation ;;
  tail <- bytes_of_list [deviation; clock_status] ;;
  Ok (upper (hex (y ++ fields ++ bd ++ tail))).

(** The argument of [hdlc_to_enhanced_xml]: a [str] or a [bytes] value. *)
Inductive data_input : Set :=
| of_str (s : str)
| of_bytes (b : bytes).

(** The first block of [hdlc_to_enhanced_xml]: the frame bytes [data] that
    are handed to the translator. *)
Definition hdlc_data (input : data_input) : result bytes :=
  match input with
  | of_str s =>
      let clean_hex := strip (replace (chars "-") [] (replace (chars " ") [] s)) in
      match clean_hex with
      | [] => Raise ValueError
      | _ :: _ =>
          match unhexlify clean_hex with
          | Ok data => Ok data
          | Raise BinasciiError => Raise ValueError
          | Raise e => Raise e
          end
      end
  | of_bytes b => Ok b
  end.

End Hex.

(** ** message_handler.py: the DLMS branch *)

Module dlms_branch.

Import message_handler.

(** The calls to the logger and to the push callback made by
    [_process_dlms_frame], in order. *)
Inductive action : Set :=
| log_packet (n : nat) (hex_display : str)
| log_too_short
| log_xml (xml_output : ET.document)
| on_dlms_push_called (xml_output : ET.document)
| log_your_address (hex_display : str)
| log_meter_address (hex_display : str)
| log_address_field (hex_display : str)
| log_no_invoke_id
| log_invoke_id (invoke_hex : str) (invoke_dec : Z)
| log_response_error
| log_response (n : nat) (resp_hex : str)
| log_error (e : exn)
| log_traceback.

(** What [_process_dlms_frame] depends on besides the frame: the external
    checksum primitive and the clock read by [_generate_response], the codec
    [hdlc_to_enhanced_xml] (the XML text it returns stands for the document
    a parser makes of it), and the push callback, if one is registered. *)
Record environment : Type := mk_environment {
  _GXFCS16 : option (bytes -> Z -> Z -> Z);
  now : datetime.t;
  hdlc_to_enhanced_xml : bytes -> result ET.document;
  on_dlms_push : option (ET.document -> result unit)
}.

(** [raw_data[i:j]] *)
Definition slice (b : bytes) (i j : nat) : bytes := firstn (j - i) (skipn i b).

(** [invoke_hex[2:].zfill(8) if len(invoke_hex) >= 8 else
    invoke_hex.zfill(8)] *)
Definition invoke_clean_hex_of (invoke_hex : str) : str :=
  if (8 <=? length invoke_hex)%nat then zfill 8 (skipn 2 invoke_hex)
  else zfill 8 invoke_hex.

(** The part of the [try] block after the length test.  The actions are
    accumulated alongside the result, so that those performed before an
    exception are kept. *)
Definition process_long_frame (env : environment) (raw_data : bytes)
  : list action * result (option bytes) :=
  match hdlc_to_enhanced_xml env raw_data with
  | Raise e => ([], Raise e)
  | Ok xml_output =>
      let pushed :=
        match on_dlms_push env with
        | Some callback => Some (callback xml_output)
        | None => None
        end in
      let acts1 :=
        [log_xml xml_output]
        ++ match pushed with
           | Some _ => [on_dlms_push_called xml_output]
           | None => []
           end in
      match pushed with
      | Some (Raise e) => (acts1, Raise e)
      | _ =>
          let your_addr := slice raw_data 3 4 in
          let meter_addr := slice raw_data 4 8 in
          let address_field := meter_addr ++ your_addr in
          let acts2 :=
            acts1 ++ [log_your_address (Hex.bytes_to_hex_str your_addr);
                      log_meter_address (Hex.bytes_to_hex_str meter_addr);
                      log_address_field (Hex.bytes_to_hex_str address_field)] in
          let invoke :=
            match DLMS_Parser.extract_dlms_request_info xml_output with
            | Some info =>
                match DLMS_Parser.invoke_id info with
                | Some (c :: r) => Some (c :: r)
                | _ => None
                end
            | None => None
            end in
          match invoke with
          | None => (acts2 ++ [log_no_invoke_id], Ok None)
          | Some invoke_id =>
              let invoke_hex := upper invoke_id in
              let invoke_clean_hex := invoke_clean_hex_of invoke_hex in
              match int 16 (replace (chars " ") [] invoke_hex) with
              | Raise e => (acts2, Raise e)
              | Ok invoke_dec =>
                  let acts3 := acts2 ++ [log_invoke_id invoke_hex invoke_dec] in
                  let response :=
                    _generate_response (_GXFCS16 env) (now env)
                      address_field invoke_clean_hex in
                  let acts4 :=
                    match response with
                    | Some (b :: r) =>
                        [log_response (length (b :: r))
                           (Hex.bytes_to_hex_str (b :: r))]
                    | Some [] => []
                    | None => [log_response_error]
                    end in
                  (acts3 ++ acts4, Ok response)
              end
          end
      end
  end.

(** [_process_dlms_frame]: the response, if any, and the actions performed.
    Whatever is raised inside is logged and answered with [None]. *)
Definition _process_dlms_frame (env : environment) (raw_data : bytes)
  : option bytes * list action :=
  let acts0 := [log_packet (length raw_data) (Hex.bytes_to_hex_str raw_data)] in
  if (length raw_data <? 10)%nat then (None, acts0 ++ [log_too_short])
  else
    match process_long_frame env raw_data with
    | (acts, Ok response) => (response, acts0 ++ acts)
    | (acts, Raise e) => (None, acts0 ++ acts ++ [log_error e; log_traceback])
    end.

End dlms_branch.

(** ** DLMS_Parser.py: the annotation of the decoded XML *)

Module Enhance.

(** [utils.CLASS_NAMES] and [utils.OBIS_NAMES]. *)
Definition CLASS_NAMES : list (Z * str) :=
  [(1, chars "Data"); (3, chars "Register"); (7, chars "ProfileGeneric");
   (18, chars "ImageTransfer"); (23, chars "IecHdlcSetup");
   (9, chars "ScriptTable"); (11, chars "SpecialDaysTable");
   (20, chars "ActivityCalendar"); (6, chars "RegisterActivation");
   (22, chars "ActionSchedule"); (45, chars "GprsSetup");
   (29, chars "AutoConnect"); (70, chars "DisconnectControl");
   (71, chars "Limiter"); (40, chars "PushSetup"); (41, chars "TcpUdpSetup");
   (42, chars "Ip4Setup"); (47, chars "GSMDiagnostic");
   (64, chars "SecuritySetup"); (124, chars "CommunicationPortProtection")].

Definition OBIS_NAMES : list (str * str) :=
  [(chars "0100620000FF", chars "Clock"); (chars "0000190900FF", chars "Push1");
   (chars "0000290900FF", chars "Push2"); (chars "0000390900FF", chars "Push3");
   (chars "0000A90900FF", chars "Push4"); (chars "0000B90900FF", chars "Push5")].

(** [d.get(key)] *)
Definition dict_get {K V} (eqb : K -> K -> bool) (d : list (K * V)) (key : K)
  : option V :=
  match find (fun kv => eqb (fst kv) key) d with
  | Some kv => Some (snd kv)
  | None => None
  end.

(** A node of the annotated tree: an element, or a comment made by
    [ET.Comment]. *)
Inductive Node : Set :=
| Elem (tag : str) (attrib : list (str * str)) (text : option str)
       (children : list Node)
| Comment (text : str).

(** [element.set(key, value)]: the value of an existing key is replaced in
    place, a new key is added at the end. *)
Fixpoint set_attr (a : list (str * str)) (key value : str) : list (str * str) :=
  match a with
  | [] => [(key, value)]
  | (k, v) :: r =>
      if str_eqb k key then (k, value) :: r else (k, v) :: set_attr r key value
  end.

(** [s.isprintable()] on a string of characters below 0x80: none of them is
    a control character. *)
Definition isprintable (s : str) : bool :=
  forallb (fun c => (32 <=? ord c) && (ord c <=? 126)) s.

(** Truth value of a string. *)
Definition nonempty (s : str) : bool :=
  match s with [] => false | _ :: _ => true end.

(** The logical and physical parts of a source address. *)
Definition source_address_parts (dec : Z) : Z * Z :=
  if 0x3FFF <? dec then (Z.shiftr dec 14, Z.land dec 0x3FFF)
  else (Z.shiftr dec 7, Z.land dec 0x7F).

(** The branch [tag == "OctetString" and value]: the comments appended. *)
Definition enhance_OctetString (value : str) : list str :=
  let ascii_str := DLMS_Parser.try_decode_ascii value in
  let as_text :=
    match ascii_str with
    | Some (c :: r) => if isprintable (c :: r) then Some (c :: r) else None
    | _ => None
    end in
  match as_text with
  | Some s => [chars " " ++ s ++ chars " "]
  | None =>
      let as_obis :=
        if (length value =? 12)%nat then
          match DLMS_Parser.hex_to_obis value with
          | Ok obis_dot =>
              let comment := chars " OBIS: " ++ obis_dot ++ chars " " in
              Some (match dict_get str_eqb OBIS_NAMES (upper value) with
                    | Some (c :: r) => comment ++ chars "(" ++ (c :: r) ++ chars ")"
                    | _ => comment
                    end)
          | Raise _ => None
          end
        else None in
      match as_obis with
      | Some comment => [comment]
      | None =>
          match DLMS_Parser.try_decode_dlms_datetime value with
          | Some (c :: r) => [chars " DateTime: " ++ (c :: r) ++ chars " "]
          | _ => []
          end
      end
  end.

(** What [enhance_xml_element] does at one element, before it descends:
    the attributes after the call and the texts of the comments appended,
    in order.  The conversions outside a [try] block raise to the caller. *)
Definition enhance_here (tag : str) (attrib : list (str * str))
  : result (list (str * str) * list str) :=
  let value := ET.get_attr attrib (chars "Value") [] in
  if str_eqb tag (chars "TargetAddress") && nonempty value then
    dec <- int 16 value ;;
    Ok (attrib, [chars " TargetAddress " ++ str_of_int dec ++ chars " "])
  else if str_eqb tag (chars "SourceAddress") then
    dec <- int 16 value ;;
    let '(logical, physical) := source_address_parts dec in
    Ok (attrib,
        [chars " Logical address - " ++ str_of_int logical
         ++ chars ", Physical address - " ++ str_of_int physical])
  else if str_eqb tag (chars "ClassId") && nonempty value then
    match int 16 value with
    | Ok dec =>
        Ok (set_attr attrib (chars "Value") (str_of_int dec),
            match dict_get Z.eqb CLASS_NAMES dec with
            | Some (c :: r) => [chars " " ++ (c :: r) ++ chars " "]
            | _ => []
            end)
    | Raise ValueError => Ok (attrib, [])
    | Raise e => Raise e
    end
  else if str_eqb tag (chars "AttributeId") && nonempty value then
    match int 16 value with
    | Ok dec => Ok (set_attr attrib (chars "Value") (str_of_int dec), [])
    | Raise ValueError => Ok (attrib, [])
    | Raise e => Raise e
    end
  else if str_eqb tag (chars "InstanceId") && nonempty value then
    obis_str <- DLMS_Parser.hex_to_obis value ;;
    Ok (set_attr attrib (chars "Value") obis_str, [])
  else if str_eqb tag (chars "LongInvokeIdAndPriority") && nonempty value then
    Ok (attrib, DLMS_Parser.enhance_LongInvokeIdAndPriority value)
  else if str_eqb tag (chars "DateTime") && nonempty value then
    Ok (attrib,
        match DLMS_Parser.try_decode_dlms_datetime value with
        | Some (c :: r) => [chars " " ++ (c :: r) ++ chars " "]
        | _ => []
        end)
  else if str_eqb tag (chars "OctetString") && nonempty value then
    Ok (attrib, enhance_OctetString value)
  else Ok (attrib, []).

(** [enhance_xml_element] on an element of a parsed document.  The element
    is changed first, then each child in turn; the comments appended to an
    element come after its children and the loop passes over them without
    effect. *)
Fixpoint enhance_xml_element (element : ET.Element) : result Node :=
  match element with
  | ET.mkElement tag attrib text cs =>
      here <- enhance_here tag attrib ;;
      children <-
        (fix each (cs : list ET.Element) : result (list Node) :=
           match cs with
           | [] => Ok []
           | child :: rest =>
               child' <- enhance_xml_element child ;;
               rest' <- each rest ;;
               Ok (child' :: rest')
           end) cs ;;
      Ok (Elem tag (fst here) text (children ++ map Comment (snd here)))
  end.

(** The loop over the children inside [enhance_xml_element], on its own. *)
Definition enhance_each : list ET.Element -> result (list Node) :=
  fix each (cs : list ET.Element) : result (list Node) :=
    match cs with
    | [] => Ok []
    | child :: rest =>
        child' <- enhance_xml_element child ;;
        rest' <- each rest ;;
        Ok (child' :: rest')
    end.

(** The elements of an annotated tree in memory, its comment nodes left
    out. *)
Fixpoint elements_of (n : Node) : list ET.Element :=
  match n with
  | Comment _ => []
  | Elem tag attrib text cs =>
      [ET.mkElement tag attrib text (flat_map elements_of cs)]
  end.

(** The texts of the comments directly below a node. *)
Definition comments_of (n : Node) : list str :=
  match n with
  | Comment _ => []
  | Elem _ _ _ cs =>
      flat_map (fun c => match c with Comment t => [t] | Elem _ _ _ _ => [] end)
               cs
  end.

(** What [translator.messageToXml(data)] returns: a blank text, or a text
    that stands for the document [ET.fromstring] makes of it ([None] when
    it raises [ParseError]). *)
Inductive translation : Set :=
| Blank
| Xml (document : ET.document).

(** [hdlc_to_enhanced_xml] up to the serialisation of the annotated tree;
    [messageToXml] is the external translator, which may raise. *)
Definition hdlc_to_enhanced_xml (messageToXml : bytes -> result translation)
           (input : Hex.data_input) : result Node :=
  data <- Hex.hdlc_data input ;;
  xml_str <- messageToXml data ;;
  match xml_str with
  | Blank => Raise ValueError
  | Xml None => Raise ParseError
  | Xml (Some root) => enhance_xml_element root
  end.

End Enhance.

(** ** json_viewer_tables/obis_push.py: the text shown for a value *)

Module obis_push_view.

Import Push_Parser.

Definition present {A} (o : option A) : nat :=
  match o with Some _ => 1%nat | None => 0%nat end.

(** [len(value_obj)]: the key ["type"] and the optional keys that are set. *)
Definition len (value_obj : TypedValue) : nat :=
  match value_obj with
  | TV _ value obis_key ascii_key decimal qty fields items =>
      (1 + present value + present obis_key + present ascii_key
       + present decimal + present qty + present fields + present items)%nat
  end.

(** [_format_value] on a dictionary; [str_of_dict] is [str(value_obj)], the
    fall-back of the last line. *)
Fixpoint _format_value (str_of_dict : TypedValue -> str)
         (value_obj : TypedValue) : str :=
  match value_obj with
  | TV type value obis_key ascii_key decimal qty fields items =>
      match decimal, ascii_key, obis_key with
      | Some d, _, _ => d
      | None, Some a, _ => chars "ASCII: " ++ a
      | None, None, Some o => chars "OBIS: " ++ o
      | None, None, None =>
          let simple :=
            match value with
            | Some v => if (len value_obj =? 2)%nat then Some v else None
            | None => None
            end in
          match simple with
          | Some v => v
          | None =>
              let as_structure :=
                if str_eqb type (chars "Structure") then
                  match fields with
                  | Some fs =>
                      Some (chars "Struct["
                            ++ join (chars ", ")
                                    (map (_format_value str_of_dict) fs)
                            ++ chars "]")
                  | None => None
                  end
                else None in
              match as_structure with
              | Some s => s
              | None =>
                  let as_array :=
                    if str_eqb type (chars "Array") then
                      match items with
                      | Some its =>
                          Some (chars "Array["
                                ++ join (chars ", ")
                                        (map (_format_value str_of_dict) its)
                                ++ chars "]")
                      | None => None
                      end
                    else None in
                  match as_array with
                  | Some s => s
                  | None => str_of_dict value_obj
                  end
              end
          end
      end
  end.

(** [_format_value] on the value of a record, which is a dictionary or a
    plain string. *)
Definition format_record_value (str_of_dict : TypedValue -> str)
           (value : record_value) : str :=
  match value with
  | Text s => s
  | Dict v => _format_value str_of_dict v
  end.

End obis_push_view.

(** ** Further notions used to state the properties *)

Module Notions.

(** The loop over the children inside [DLMS_Parser.search], on its own. *)
Definition search_each
  : list ET.Element -> DLMS_Parser.request_info -> DLMS_Parser.request_info :=
  fix each (cs : list ET.Element) (info : DLMS_Parser.request_info)
    : DLMS_Parser.request_info :=
    match cs with
    | [] => info
    | child :: rest => each rest (DLMS_Parser.search child info)
    end.

(** The hexadecimal digits of the [Value] of an element, upper-cased. *)
Definition value_digits (e : ET.Element) : str :=
  DLMS_Parser.clean_hex (ET.get e (chars "Value") []).

(** A [LongInvokeIdAndPriority] element whose value has at least eight
    hexadecimal digits. *)
Definition carries_invoke_id (e : ET.Element) : bool :=
  str_eqb (ET.tag e) (chars "LongInvokeIdAndPriority")
  && (8 <=? length (value_digits e))%nat.

Definition is_attribute_descriptor (e : ET.Element) : bool :=
  str_eqb (ET.tag e) (chars "AttributeDescriptor").

(** The last item of a list, if any. *)
Definition last_of {A} (l : list A) : option A := hd_error (rev l).

(** The elements of a document, in document order. *)
Definition elements (root : ET.Element) : list ET.Element :=
  map snd (ET.iter ([], root)).

(** An upper-case hexadecimal digit. *)
Definition upper_hex_char (c : ascii) : bool :=
  char_in c (chars "0123456789ABCDEF").

Definition is_push_call (a : dlms_branch.action) : bool :=
  match a with
  | dlms_branch.on_dlms_push_called _ => true
  | _ => false
  end.

(** The tags whose [Value] the annotation rewrites. *)
Definition rewritten (tag : str) : bool :=
  str_eqb tag (chars "ClassId") || str_eqb tag (chars "AttributeId")
  || str_eqb tag (chars "InstanceId").

(** Two documents agree when they have the same shape and tags and equal
    attributes everywhere except, possibly, the values of the attributes of
    the elements with a rewritten tag; text is not compared. *)
Inductive agree : ET.Element -> ET.Element -> Prop :=
| agree_intro tag a a' x x' cs cs' :
    (rewritten tag = false -> a' = a) ->
    map fst a' = map fst a ->
    Forall2 agree cs cs' ->
    agree (ET.mkElement tag a x cs) (ET.mkElement tag a' x' cs').

(** A date-time as [_parse_dlms_datetime] builds it: valid fields, whole
    seconds, and an offset of a whole number of minutes strictly within 24
    hours. *)
Definition written (dt : datetime.t) : Prop :=
  datetime.valid dt = true /\ datetime.microsecond dt = 0
  /\ exists m, -1440 < m < 1440
               /\ datetime.utcoffset dt = Some (m * datetime.us_per_minute).

(** [f"{v:02d}"] and [f"{v:04d}"] give two and four digits that read back
    as [v]. *)
Definition two_digits_ok (v : Z) : bool :=
  match format_0d 2 v with
  | [a; b] =>
      match datetime.digits_value [a; b] 0 with
      | Some x => x =? v
      | None => false
      end
  | _ => false
  end.

Definition four_digits_ok (v : Z) : bool :=
  match format_0d 4 v with
  | [a; b; c; d] =>
      match datetime.digits_value [a; b; c; d] 0 with
      | Some x => x =? v
      | None => false
      end
  | _ => false
  end.

(** The ["ascii"] and ["obis"] keys of a parsed value. *)
Definition ascii_of (v : Push_Parser.TypedValue) : option str :=
  match v with Push_Parser.TV _ _ _ ascii_key _ _ _ _ => ascii_key end.
Definition obis_of (v : Push_Parser.TypedValue) : option str :=
  match v with Push_Parser.TV _ _ obis_key _ _ _ _ _ => obis_key end.

(** An element at which the annotation raises: a TargetAddress with a
    non-empty value or a SourceAddress with any value that [int(value, 16)]
    rejects, or an InstanceId of twelve characters with a pair that it
    rejects. *)
Definition rejected (e : ET.Element) : bool :=
  let value := ET.get e (chars "Value") [] in
  (str_eqb (ET.tag e) (chars "TargetAddress") && Enhance.nonempty value
   && negb (is_ok (int 16 value)))
  || (str_eqb (ET.tag e) (chars "SourceAddress") && negb (is_ok (int 16 value)))
  || (str_eqb (ET.tag e) (chars "InstanceId") && (length value =? 12)%nat
      && negb (is_ok (DLMS_Parser.obis_parts value))).


End Notions.

(** ** Further samples *)

Module Runs.

(** The first bytes of a request frame: flag, format, length, the
    listener's address 0x03, the meter's address 00 02 44 C9, control. *)
Definition request_frame : bytes :=
  [0x7E; 0xA0; 0x19; 0x03; 0x00; 0x02; 0x44; 0xC9; 0x13; 0x00].

(** An environment whose codec decodes every frame to the sample
    notification and whose push callback returns normally. *)
Definition environment : dlms_branch.environment :=
  dlms_branch.mk_environment None (datetime.mk 2026 1 13 14 33 20 0 None)
    (fun _ => Ok (Some Samples.obis_push_document))
    (Some (fun _ => Ok tt)).

(** A request as the codec shows it: addresses, invoke-id, a date-time and
    one attribute descriptor. *)
Definition request_document : ET.Element :=
  Samples.elem "HDLC"
    [Samples.leaf "TargetAddress" "1";
     Samples.leaf "SourceAddress" "4489";
     Samples.elem "PDU"
       [Samples.elem "DataNotification"
          [Samples.leaf "LongInvokeIdAndPriority" "C000001A";
           Samples.leaf "DateTime" "07EA010DFF0E2114FFFF4C00";
           Samples.elem "AttributeDescriptor"
             [Samples.leaf "ClassId" "0028";
              Samples.leaf "InstanceId" "0000190900FF";
              Samples.leaf "AttributeId" "02"]]]].

(** Its annotation. *)
Definition annotated_request : Enhance.Node :=
  Eval vm_compute in
    match Enhance.enhance_xml_element request_document with
    | Ok n => n
    | Raise _ => Enhance.Comment []
    end.

(** The array of rows of the sample day push. *)
Definition day_push_array : ET.node :=
  ([1; 0; 0; 1]%nat,
   Samples.elem "Array"
     [Samples.elem "Structure"
        [Samples.leaf "OctetString" "07EA010DFF0E2114FFFF4C00";
         Samples.leaf "UInt32" "16"; Samples.leaf "UInt32" "0000001A"];
      Samples.elem "Structure"
        [Samples.leaf "OctetString" "07EA010DFF0E2114FF800000";
         Samples.leaf "UInt32" "17"];
      Samples.elem "Structure"
        [Samples.leaf "OctetString" "07EA010EFF0E2114FF000000";
         Samples.leaf "UInt32" "18"]]).

(** A request whose InstanceId is not hexadecimal, and an environment whose
    codec annotates it, which raises; no text is made of an annotated
    tree here. *)
Definition malformed_document : ET.Element :=
  Samples.elem "DataNotification"
    [Samples.leaf "LongInvokeIdAndPriority" "C000001A";
     Samples.elem "AttributeDescriptor"
       [Samples.leaf "InstanceId" "0000190900FG"]].

Definition malformed_environment : dlms_branch.environment :=
  dlms_branch.mk_environment None (datetime.mk 2026 1 13 14 33 20 0 None)
    (fun raw =>
       _ <- Enhance.hdlc_to_enhanced_xml
              (fun _ => Ok (Enhance.Xml (Some malformed_document)))
              (Hex.of_bytes raw) ;;
       Ok None)
    (Some (fun _ => Ok tt)).

(** A processor whose autoconnect callback raises and whose DLMS branch
    gives no response. *)
Definition failing_processor : message_handler.processor :=
  message_handler.mk_processor (Some (fun _ _ _ => Raise CallbackError))
                               (fun _ _ => (None, [])).

End Runs.
(* ===================================================================== *)
(** * Part II.  Properties                                                *)
(* ===================================================================== *)

(** ** Generic facts about the Python built-ins *)

Lemma digit_value_range c : 0 <= digit_value c.
Proof.
  unfold digit_value.
  repeat match goal with |- context [if ?b then _ else _] => destruct b eqn:? end;
    lia.
Qed.

Lemma hex_digit_range c : is_hex_digit c = true -> 0 <= digit_value c < 16.
Proof.
  unfold is_hex_digit. intros H. apply Z.ltb_lt in H.
  pose proof (digit_value_range c). lia.
Qed.

Lemma land_16_bits x : 0 <= Z.land x 0xFFFF < 65536.
Proof.
  change 0xFFFF with (Z.ones 16). rewrite Z.land_ones by lia.
  change (2 ^ 16) with 65536. apply Z.mod_pos_bound. lia.
Qed.

Lemma to_bytes_2_big_ok v :
  0 <= v < 65536 -> to_bytes_2_big v = Ok (AckFrame.be16 v).
Proof.
  intros H. unfold to_bytes_2_big, AckFrame.be16.
  replace ((0 <=? v) && (v <? 65536)) with true; [reflexivity|].
  symmetry. apply andb_true_iff. split; [apply Z.leb_le | apply Z.ltb_lt]; lia.
Qed.

(** [bytes.fromhex] on an even number of hexadecimal digits. *)
Lemma fromhex_hex_pairs s :
  Forall (fun c => is_hex_digit c = true) s ->
  Nat.even (length s) = true ->
  fromhex s = Ok (AckFrame.hex_pairs s).
Proof.
  revert s. fix IH 1. intros [|c [|d r]] Hall Hev.
  - reflexivity.
  - discriminate.
  - inversion Hall as [|? ? Hc Hall']; subst.
    inversion Hall' as [|? ? Hd Hall'']; subst.
    assert (Hsp : Py_ISSPACE c = false).
    { unfold is_hex_digit, digit_value in Hc. unfold Py_ISSPACE.
      destruct ((9 <=? ord c) && (ord c <=? 13)) eqn:E1;
        destruct (ord c =? 32) eqn:E2; try reflexivity; exfalso;
        repeat match type of Hc with
               | context [if ?b then _ else _] => destruct b eqn:?
               end; lia. }
    cbn [fromhex AckFrame.hex_pairs]. rewrite Hsp, Hc, Hd.
    rewrite (IH r Hall'' Hev). reflexivity.
Qed.

(** ** The frame check sequence *)

Lemma fcs_shift_range crc : 0 <= utils.fcs_shift crc < 65536.
Proof. unfold utils.fcs_shift. apply land_16_bits. Qed.

Lemma fcs_byte_range crc byte : 0 <= utils.fcs_byte crc byte < 65536.
Proof.
  unfold utils.fcs_byte. cbn [utils.repeat_apply]. apply fcs_shift_range.
Qed.

Lemma fcs_fallback_range data : 0 <= utils.fcs_fallback data < 65536.
Proof.
  unfold utils.fcs_fallback.
  assert (H : forall l acc, 0 <= acc < 65536 ->
                            0 <= fold_left utils.fcs_byte l acc < 65536).
  { induction l as [|b l IH]; intros acc Hacc; cbn [fold_left]; [exact Hacc|].
    apply IH, fcs_byte_range. }
  apply H. lia.
Qed.

Lemma calculate_fcs_range gx data :
  AckFrame.fits_16_bits gx -> 0 <= utils.calculate_fcs gx data < 65536.
Proof.
  destruct gx as [f|]; cbn; intros H; [apply H | apply fcs_fallback_range].
Qed.

(** CRC-16/X.25 and the fall-back loop take different check values on the
    ASCII digits 1..9: 0x906E, and 0x29B1, the check value of the
    unreflected CRC with the same polynomial and no final complement. *)
Lemma fcs_check_values :
  let digits := map ord (chars "123456789") in
  Reference.crc16_x25 digits = 0x906E
  /\ Reference.countFCS16 digits 0 9 = 0x6E90
  /\ utils.fcs_fallback digits = 0x29B1.
Proof. vm_compute. repeat split. Qed.

(** The first and last entries of the reference table are those of the
    RFC 1662 table. *)
Lemma fcstab_entries :
  Reference.fcstab 0 = 0x0000 /\ Reference.fcstab 1 = 0x1189
  /\ Reference.fcstab 255 = 0x0F78.
Proof. vm_compute. repeat split. Qed.

(** The fall-back loop differs from CRC-16/X.25 on the empty input and on
    every single byte except 0xFF. *)
Lemma fcs_fallback_differs_on_short_inputs :
  utils.fcs_fallback [] <> Reference.crc16_x25 []
  /\ filter
       (fun n =>
          utils.fcs_fallback [Z.of_nat n] =? Reference.crc16_x25 [Z.of_nat n])
       (seq 0 256)
     = [255%nat].
Proof.
  split; [vm_compute; discriminate | vm_compute; reflexivity].
Qed.


Lemma In_byte_values b :
  0 <= b <= 255 -> In b (map Z.of_nat (seq 0 256)).
Proof.
  intros H. apply in_map_iff. exists (Z.to_nat b).
  split; [apply Z2Nat.id; lia | apply in_seq; lia].
Qed.













Lemma fold_fcs_byte_range l acc :
  0 <= acc < 65536 -> 0 <= fold_left utils.fcs_byte l acc < 65536.
Proof.
  revert acc. induction l as [|b l IH]; intros acc Hacc; cbn [fold_left];
    [exact Hacc|]. apply IH, fcs_byte_range.
Qed.



(** ** The acknowledgment frame *)

Lemma year_high_byte y :
  0 <= y < 65536 -> Z.land (Z.shiftr y 8) 0xFF = y / 256.
Proof.
  intros H. rewrite Z.shiftr_div_pow2 by lia.
  change 0xFF with (Z.ones 8). rewrite Z.land_ones by lia.
  change (2 ^ 8) with 256. apply Z.mod_small.
  split; [apply Z.div_pos; lia | apply Z.div_lt_upper_bound; lia].
Qed.

Lemma year_low_byte y : Z.land y 0xFF = y mod 256.
Proof. change 0xFF with (Z.ones 8). rewrite Z.land_ones by lia. reflexivity. Qed.

Lemma valid_year now : datetime.valid now = true -> 1 <= datetime.year now <= 9999.
Proof.
  unfold datetime.valid, datetime._check_fields, datetime.between.
  intros H. repeat (apply andb_true_iff in H; destruct H as [H ?]).
  lia.
Qed.

Lemma length_8_inv {A} (l : list A) :
  length l = 8%nat -> exists a b c d e f g h, l = [a; b; c; d; e; f; g; h].
Proof.
  destruct l as [|a [|b [|c [|d [|e [|f [|g [|h [|]]]]]]]]]; try discriminate.
  intros _. repeat eexists.
Qed.

Lemma length_5_inv {A} (l : list A) :
  length l = 5%nat -> exists a b c d e, l = [a; b; c; d; e].
Proof.
  destruct l as [|a [|b [|c [|d [|e [|]]]]]]; try discriminate.
  intros _. repeat eexists.
Qed.

(** C1 (as amended).  For every 5-byte address field, every invoke-id of 8
    hexadecimal characters and every current time, [_generate_response]
    returns the frame 0x7E 0xA0 length addressField 0x13 FCS1 0xE6 0xE7 0x00
    PDUbody FCS2 0x7E, where the PDU body is 0x10, the 4 invoke-id bytes,
    0x0C and then 13 bytes (year_hi year_lo month day 0xFF hour minute second
    0xFF 0xFF 0x4C 0x00 0x00), the length byte is
    len(addressField) + len(informationField) + 6 = 34, and FCS1 and FCS2
    are the big-endian checksums of the two prefixes the specification
    names. *)
Theorem generate_response_frame
        (_GXFCS16 : option (bytes -> Z -> Z -> Z)) (now : datetime.t)
        (address_field : bytes) (invoke_clean_hex : str) :
  length address_field = 5%nat ->
  length invoke_clean_hex = 8%nat ->
  Forall (fun c => is_hex_digit c = true) invoke_clean_hex ->
  datetime.valid now = true ->
  AckFrame.fits_16_bits _GXFCS16 ->
  let invoke_bytes := AckFrame.hex_pairs invoke_clean_hex in
  let block := AckFrame.datetime_block now in
  let pdu := AckFrame.pdu_body invoke_bytes block in
  length invoke_bytes = 4%nat
  /\ length block = 13%nat
  /\ AckFrame.length_byte address_field pdu = 34
  /\ message_handler._generate_response _GXFCS16 now address_field
       invoke_clean_hex
     = Some (AckFrame.frame (utils.calculate_fcs _GXFCS16) address_field pdu).
Proof.
  intros Haddr Hinv Hhex Hnow Hfits.
  pose proof (valid_year now Hnow) as Hy.
  assert (Hcrc : forall d, 0 <= utils.calculate_fcs _GXFCS16 d < 65536)
    by (intros d; apply calculate_fcs_range, Hfits).
  destruct (length_8_inv _ Hinv) as (c0 & c1 & c2 & c3 & c4 & c5 & c6 & c7 & ->).
  destruct (length_5_inv _ Haddr) as (a0 & a1 & a2 & a3 & a4 & ->).
  cbv zeta. repeat split.
  unfold message_handler._generate_response.
  rewrite fromhex_hex_pairs by (assumption || reflexivity).
  rewrite year_high_byte by lia. rewrite year_low_byte.
  generalize dependent (utils.calculate_fcs _GXFCS16). intros crc16 Hcrc.
  unfold AckFrame.frame, AckFrame.fcs1, AckFrame.fcs2, AckFrame.length_byte,
    AckFrame.information_field, AckFrame.pdu_body, AckFrame.datetime_block.
  cbn -[Z.div Z.modulo to_bytes_2_big AckFrame.be16].
  rewrite to_bytes_2_big_ok by apply Hcrc.
  cbn -[Z.div Z.modulo to_bytes_2_big AckFrame.be16].
  rewrite to_bytes_2_big_ok by apply Hcrc.
  reflexivity.
Qed.

Lemma generate_response_frame_witness :
  let now := datetime.mk 2026 1 13 14 33 20 0 None in
  let address_field := [0x00; 0x02; 0x44; 0xC9; 0x03] in
  let invoke_clean_hex := chars "0000001A" in
  let pdu :=
    AckFrame.pdu_body (AckFrame.hex_pairs invoke_clean_hex)
                      (AckFrame.datetime_block now) in
  length (AckFrame.hex_pairs invoke_clean_hex) = 4%nat
  /\ length (AckFrame.datetime_block now) = 13%nat
  /\ AckFrame.length_byte address_field pdu = 34
  /\ message_handler._generate_response None now address_field
       invoke_clean_hex
     = Some (AckFrame.frame (utils.calculate_fcs None) address_field pdu).
Proof.
  cbv zeta.
  apply (generate_response_frame None (datetime.mk 2026 1 13 14 33 20 0 None)
           [0x00; 0x02; 0x44; 0xC9; 0x03] (chars "0000001A")).
  - reflexivity.
  - reflexivity.
  - repeat constructor.
  - reflexivity.
  - exact I.
Defined.

(** The frame of that run, byte by byte, with either checksum branch. *)
Lemma generate_response_example :
  let now := datetime.mk 2026 1 13 14 33 20 0 None in
  message_handler._generate_response None now [0x00; 0x02; 0x44; 0xC9; 0x03]
    (chars "0000001A")
  = Some [0x7E; 0xA0; 34; 0x00; 0x02; 0x44; 0xC9; 0x03; 0x13; 0x96; 0x4B;
          0xE6; 0xE7; 0x00; 0x10; 0x00; 0x00; 0x00; 0x1A; 0x0C;
          0x07; 0xEA; 1; 13; 0xFF; 14; 33; 20; 0xFF; 0xFF; 0x4C; 0x00; 0x00;
          0x6D; 0x90; 0x7E]
  /\ option_map (@List.length Z)
       (message_handler._generate_response (Some Reference.countFCS16) now
          [0x00; 0x02; 0x44; 0xC9; 0x03] (chars "0000001A"))
     = Some 36%nat.
Proof. vm_compute. split; reflexivity. Qed.

Lemma frame_length crc16 address_field pdu :
  length (AckFrame.frame crc16 address_field pdu)
  = (length address_field + length pdu + 12)%nat.
Proof.
  unfold AckFrame.frame, AckFrame.be16.
  repeat (rewrite length_app || cbn [List.length]). lia.
Qed.

(** C1 (as stated, refuted).  With a 12-byte date-time block after the tag
    0x0C the frame of the claim is 35 bytes long, but the frame returned is
    36 bytes long: no 12-byte block makes the claimed layout the response. *)
Lemma generate_response_block_not_12_bytes :
  let now := datetime.mk 2026 1 13 14 33 20 0 None in
  let address_field := [0x00; 0x02; 0x44; 0xC9; 0x03] in
  let invoke_clean_hex := chars "0000001A" in
  ~ exists block,
      length block = 12%nat
      /\ message_handler._generate_response None now address_field
           invoke_clean_hex
         = Some (AckFrame.frame (utils.calculate_fcs None) address_field
                   (AckFrame.pdu_body (AckFrame.hex_pairs invoke_clean_hex)
                                      block)).
Proof.
  cbv zeta. intros (block & Hlen & H).
  apply (f_equal (option_map (@List.length Z))) in H.
  cbn [option_map] in H. rewrite frame_length in H.
  unfold AckFrame.pdu_body in H.
  repeat (rewrite length_app in H || cbn [List.length] in H).
  rewrite Hlen in H. vm_compute in H. discriminate H.
Qed.

(** ** [int] on strings of digits *)

Ltac bool_cases H :=
  repeat match type of H with
         | context [if ?b then _ else _] => destruct b eqn:?
         end.

Lemma digit_not_space c : digit_value c < 37 -> Py_ISSPACE c = false.
Proof.
  unfold digit_value, Py_ISSPACE. intros H.
  destruct ((9 <=? ord c) && (ord c <=? 13)) eqn:E1;
    destruct (ord c =? 32) eqn:E2; try reflexivity; exfalso;
    bool_cases H; lia.
Qed.

Lemma digit_not_char c x :
  digit_value c < 37 -> digit_value x = 37 -> Ascii.eqb c x = false.
Proof.
  intros Hc Hx. destruct (Ascii.eqb_spec c x) as [->|]; [lia | reflexivity].
Qed.

Lemma hex_digit_not_x c x :
  digit_value c < 16 -> 16 <= digit_value x -> Ascii.eqb c x = false.
Proof.
  intros Hc Hx. destruct (Ascii.eqb_spec c x) as [->|]; [lia | reflexivity].
Qed.

Lemma scan_digits_all base s :
  Spec.all_digits base s -> base <= 16 ->
  forall acc p n,
    Ascii.eqb p "_" = false ->
    exists q,
      scan_digits base s acc (Some p) n
      = Ok (Spec.digits_val base s acc, Some q, (n + length s)%nat, [])
      /\ Ascii.eqb q "_" = false.
Proof.
  intros Hall Hb. induction Hall as [|c r Hc Hall IH]; intros acc p n Hp.
  - exists p. cbn. rewrite Nat.add_0_r. auto.
  - cbn [scan_digits Spec.digits_val].
    apply Z.ltb_lt in Hc as Hc'. rewrite Hc'.
    destruct (IH (acc * base + digit_value c) c (S n)) as (q & Hq & Hq').
    { apply digit_not_char; [lia | reflexivity]. }
    exists q. rewrite Hq. cbn [List.length].
    replace (S n + length r)%nat with (n + S (length r))%nat by lia. auto.
Qed.

(** On a non-empty string of digits of the base, [int] returns the number
    the digits denote. *)
Lemma int_digits base s :
  (base = 10 \/ base = 16) -> s <> [] -> Spec.all_digits base s ->
  int base s = Ok (Spec.digits_val base s 0).
Proof.
  intros Hbase Hne Hall. destruct s as [|c r]; [congruence|].
  inversion Hall as [|? ? Hc Hr]; subst.
  assert (Hb : base <= 16) by lia.
  assert (Hc37 : digit_value c < 37) by lia.
  assert (Hsign : split_sign (c :: r) = (1, c :: r)).
  { unfold split_sign.
    rewrite (digit_not_char c "+" Hc37 eq_refl).
    rewrite (digit_not_char c "-" Hc37 eq_refl). reflexivity. }
  assert (Hs3 : skip_prefix base (c :: r) = c :: r).
  { unfold skip_prefix. destruct (base =? 16) eqn:E16; [|reflexivity].
    destruct r as [|x r0]; [reflexivity|].
    inversion Hr as [|? ? Hx _]; subst.
    assert (Hx16 : digit_value x < 16) by lia.
    rewrite (hex_digit_not_x x "x" Hx16) by (vm_compute; discriminate).
    rewrite (hex_digit_not_x x "X" Hx16) by (vm_compute; discriminate).
    rewrite andb_false_r. reflexivity. }
  unfold int. cbn [lstrip_with]. rewrite (digit_not_space c Hc37).
  rewrite Hsign. cbn [fst snd].
  rewrite Hs3. rewrite (digit_not_char c "_" Hc37 eq_refl).
  cbn [scan_digits]. apply Z.ltb_lt in Hc as Hc'. rewrite Hc'.
  destruct (scan_digits_all base r Hr Hb (0 * base + digit_value c) c 1%nat)
    as (q & Hq & Hq').
  { apply digit_not_char; [lia | reflexivity]. }
  rewrite Hq. cbn [bind]. rewrite Hq'. cbn [Nat.add lstrip_with].
  rewrite Z.mul_1_l. reflexivity.
Qed.

Lemma is_hex_all_digits s : Spec.is_hex s -> Spec.all_digits 16 s.
Proof.
  unfold Spec.is_hex, Spec.all_digits. apply Forall_impl.
  intros c H. unfold is_hex_digit in H. apply Z.ltb_lt, H.
Qed.

Lemma str_eqb_eq a b : str_eqb a b = true <-> a = b.
Proof.
  revert b. induction a as [|x a IH]; intros [|y b]; cbn; split;
    try congruence; try discriminate.
  - intros H. apply andb_true_iff in H as [H1 H2].
    apply Ascii.eqb_eq in H1. apply IH in H2. congruence.
  - intros H. injection H as -> ->. rewrite Ascii.eqb_refl.
    apply IH. reflexivity.
Qed.

Lemma str_eqb_neq a b : str_eqb a b = false <-> a <> b.
Proof.
  split.
  - intros H E. apply str_eqb_eq in E. congruence.
  - intros H. destruct (str_eqb a b) eqn:E; [|reflexivity].
    apply str_eqb_eq in E. contradiction.
Qed.

(** ** [hex_to_obis] *)

(** A string whose length is not 12 is returned unchanged. *)
Lemma hex_to_obis_passthrough s :
  length s <> 12%nat -> DLMS_Parser.hex_to_obis s = Ok s.
Proof.
  intros H. unfold DLMS_Parser.hex_to_obis.
  apply Nat.eqb_neq in H. rewrite H. reflexivity.
Qed.

Lemma hex_pairs_bytes s :
  Spec.is_hex s -> Forall (fun b => 0 <= b <= 255) (AckFrame.hex_pairs s).
Proof.
  revert s. fix IH 1. intros [|c [|d r]] H; cbn [AckFrame.hex_pairs].
  - constructor.
  - constructor.
  - inversion H as [|? ? Hc H']; subst. inversion H' as [|? ? Hd H'']; subst.
    constructor; [|apply IH, H''].
    apply hex_digit_range in Hc, Hd. lia.
Qed.

Lemma int_hex_pair c d :
  is_hex_digit c = true -> is_hex_digit d = true ->
  int 16 [c; d] = Ok (16 * digit_value c + digit_value d).
Proof.
  intros Hc Hd. rewrite int_digits.
  - cbn [Spec.digits_val]. f_equal. lia.
  - right. reflexivity.
  - discriminate.
  - apply is_hex_all_digits. repeat constructor; assumption.
Qed.

Lemma obis_parts_hex s :
  length s = 12%nat -> Spec.is_hex s ->
  DLMS_Parser.obis_parts s = Ok (AckFrame.hex_pairs s).
Proof.
  intros Hlen Hhex.
  do 12 (destruct s as [|? s]; [discriminate|]).
  destruct s; [|discriminate].
  repeat match goal with
         | H : Spec.is_hex (_ :: _) |- _ => inversion H; subst; clear H
         | H : Forall _ (_ :: _) |- _ => inversion H; subst; clear H
         end.
  unfold DLMS_Parser.obis_parts, DLMS_Parser.slice.
  cbn [DLMS_Parser.map_result Nat.add Nat.sub firstn skipn].
  repeat (rewrite int_hex_pair by assumption; cbn [bind]).
  reflexivity.
Qed.

(** A string of 12 hexadecimal digits gives its six bytes in dotted
    decimal, each between 0 and 255. *)
Lemma hex_to_obis_dotted s :
  length s = 12%nat -> Spec.is_hex s ->
  DLMS_Parser.hex_to_obis s
  = Ok (join (chars ".") (map str_of_int (AckFrame.hex_pairs s)))
  /\ length (AckFrame.hex_pairs s) = 6%nat
  /\ Forall (fun b => 0 <= b <= 255) (AckFrame.hex_pairs s).
Proof.
  intros Hlen Hhex. split; [|split].
  - unfold DLMS_Parser.hex_to_obis. rewrite Hlen. cbn [Nat.eqb negb].
    rewrite obis_parts_hex by assumption. reflexivity.
  - do 12 (destruct s as [|? s]; [discriminate|]).
    destruct s; [reflexivity | discriminate].
  - apply hex_pairs_bytes, Hhex.
Qed.

Lemma hex_to_obis_push1 :
  DLMS_Parser.hex_to_obis (chars "0000190900FF") = Ok (chars "0.0.25.9.0.255").
Proof. reflexivity. Qed.

(** C6 (fails on the code).  On the 12-character string ["ZZZZZZZZZZZZ"]
    [hex_to_obis] raises [ValueError] (from [int("ZZ", 16)]) instead of
    returning a value; the same happens when only the last pair is not
    hexadecimal. *)
Theorem hex_to_obis_raises_on_non_hex :
  DLMS_Parser.hex_to_obis (chars "ZZZZZZZZZZZZ") = Raise ValueError
  /\ DLMS_Parser.hex_to_obis (chars "0000190900FG") = Raise ValueError.
Proof. split; reflexivity. Qed.

(** The sibling conversion in Push_Parser.py keeps such a value verbatim. *)
Lemma obis_dotted_keeps_non_hex :
  Push_Parser.obis_dotted (chars "ZZZZZZZZZZZZ") = chars "ZZZZZZZZZZZZ".
Proof. reflexivity. Qed.

(** ** Invoke-id and priority *)

Lemma char_in_hex_upper c :
  char_in c (chars "0123456789ABCDEF") = true -> digit_value c < 16.
Proof.
  unfold char_in. intros H. apply existsb_exists in H as (x & Hin & Hx).
  apply Ascii.eqb_eq in Hx. subst x.
  cbn in Hin.
  repeat (destruct Hin as [<-|Hin]; [vm_compute; reflexivity|]).
  contradiction.
Qed.

Lemma clean_hex_digits value : Spec.all_digits 16 (DLMS_Parser.clean_hex value).
Proof.
  unfold Spec.all_digits, DLMS_Parser.clean_hex. apply Forall_forall.
  intros c Hc. apply filter_In in Hc as [_ Hc]. apply char_in_hex_upper, Hc.
Qed.

Lemma digits_val_bounds base s :
  1 < base -> Spec.all_digits base s ->
  forall acc, 0 <= acc ->
    0 <= Spec.digits_val base s acc
    < (acc + 1) * base ^ Z.of_nat (length s).
Proof.
  intros Hb Hall. induction Hall as [|c r Hc Hall IH]; intros acc Hacc.
  - cbn. lia.
  - cbn [Spec.digits_val List.length].
    pose proof (digit_value_range c) as Hc0.
    specialize (IH (acc * base + digit_value c) ltac:(nia)).
    rewrite Nat2Z.inj_succ, Z.pow_succ_r by lia.
    split; [lia|]. eapply Z.lt_le_trans; [apply IH|].
    assert (0 < base ^ Z.of_nat (length r)) by (apply Z.pow_pos_nonneg; lia).
    nia.
Qed.

Lemma space_not_hex_upper c :
  isspace c = true -> char_in (upper_char c) (chars "0123456789ABCDEF") = false.
Proof.
  intros Hs. destruct (char_in _ _) eqn:E; [|reflexivity]. exfalso.
  apply char_in_hex_upper in E. revert E Hs.
  unfold upper_char, digit_value, isspace.
  destruct ((97 <=? ord c) && (ord c <=? 122)) eqn:Elow.
  - intros _ Hs. apply andb_true_iff in Elow as [E1 E2].
    apply orb_true_iff in Hs as [Hs|Hs]; apply andb_true_iff in Hs as [? ?]; lia.
  - intros E Hs. bool_cases E; try lia.
    all: apply orb_true_iff in Hs as [Hs|Hs];
      apply andb_true_iff in Hs as [? ?]; lia.
Qed.

Lemma clean_hex_lstrip s :
  DLMS_Parser.clean_hex (lstrip_with isspace s) = DLMS_Parser.clean_hex s.
Proof.
  unfold DLMS_Parser.clean_hex, upper.
  induction s as [|c s IH]; [reflexivity|].
  cbn [lstrip_with]. destruct (isspace c) eqn:E; [|reflexivity].
  rewrite IH. cbn [map filter]. rewrite (space_not_hex_upper c E). reflexivity.
Qed.

Lemma clean_hex_rev s :
  DLMS_Parser.clean_hex (rev s) = rev (DLMS_Parser.clean_hex s).
Proof.
  unfold DLMS_Parser.clean_hex, upper. rewrite map_rev. apply filter_rev.
Qed.

(** Stripping white space does not change the hexadecimal characters. *)
Lemma clean_hex_strip s :
  DLMS_Parser.clean_hex (strip s) = DLMS_Parser.clean_hex s.
Proof.
  unfold strip, rstrip_with.
  rewrite clean_hex_rev, clean_hex_lstrip, clean_hex_rev, rev_involutive.
  apply clean_hex_lstrip.
Qed.

(** C8 (as amended).  When the value holds at least 8 hexadecimal characters
    once the others are dropped, the first two of them select the comments
    (40: normal priority, confirmed; 80: high priority, non-confirmed; C0:
    high priority, confirmed; anything else: service type unknown) and all
    the characters after them are read as the invoke-id, an unsigned
    integer; they are 6 characters when the value holds exactly 8.
    [extract_dlms_request_info] records the same two parts. *)
Theorem long_invoke_id_and_priority_decoding (value : str) :
  let clean := DLMS_Parser.clean_hex value in
  (8 <= length clean)%nat ->
  let high_byte := firstn 2 clean in
  let invoke_id_hex := skipn 2 clean in
  let invoke_id := Spec.hex_value invoke_id_hex in
  exists priority confirmed,
    DLMS_Parser.enhance_LongInvokeIdAndPriority value
    = [chars " " ++ priority ++ chars " ";
       chars " " ++ confirmed ++ chars " ";
       chars " Invoke ID: " ++ str_of_int invoke_id ++ chars " "]
    /\ (high_byte = chars "40" ->
        priority = chars "Normal priority."
        /\ confirmed = chars "Confirmed service.")
    /\ (high_byte = chars "80" ->
        priority = chars "High priority."
        /\ confirmed = chars "Non-confirmed service.")
    /\ (high_byte = chars "C0" ->
        priority = chars "High priority."
        /\ confirmed = chars "Confirmed service.")
    /\ (high_byte <> chars "40" -> high_byte <> chars "80" ->
        high_byte <> chars "C0" ->
        priority = chars "Priority byte: 0x" ++ high_byte
        /\ confirmed = chars "Service type unknown.")
    /\ 0 <= invoke_id < 16 ^ Z.of_nat (length invoke_id_hex)
    /\ (length clean = 8%nat -> length invoke_id_hex = 6%nat)
    /\ (forall elem info,
          ET.tag elem = chars "LongInvokeIdAndPriority" ->
          ET.get elem (chars "Value") [] = value ->
          let info' := DLMS_Parser.search_here elem info in
          DLMS_Parser.invoke_id info' = Some invoke_id_hex
          /\ DLMS_Parser.high_byte info' = Some high_byte
          /\ DLMS_Parser.has_long_invoke info' = true).
Proof.
  intros clean Hlen high_byte invoke_id_hex invoke_id.
  assert (Hdig : Spec.all_digits 16 invoke_id_hex).
  { unfold invoke_id_hex, Spec.all_digits.
    apply Forall_forall. intros c Hc.
    pose proof (clean_hex_digits value) as H.
    unfold Spec.all_digits in H. rewrite Forall_forall in H. apply H.
    fold clean. rewrite <- (firstn_skipn 2 clean). apply in_or_app. auto. }
  assert (Hlen2 : length invoke_id_hex = (length clean - 2)%nat)
    by apply length_skipn.
  assert (Hne : invoke_id_hex <> []).
  { intros E. rewrite E in Hlen2. cbn in Hlen2. lia. }
  assert (Hint : int 16 invoke_id_hex = Ok invoke_id).
  { apply int_digits; auto. }
  assert (Hval : value <> []).
  { intros E. subst value. cbn in Hlen. lia. }
  assert (Hleb : (8 <=? length clean)%nat = true) by (apply Nat.leb_le, Hlen).
  set (pc :=
         if str_eqb high_byte (chars "40")
         then (chars "Normal priority.", chars "Confirmed service.")
         else if str_eqb high_byte (chars "80")
         then (chars "High priority.", chars "Non-confirmed service.")
         else if str_eqb high_byte (chars "C0")
         then (chars "High priority.", chars "Confirmed service.")
         else (chars "Priority byte: 0x" ++ high_byte,
               chars "Service type unknown.")).
  exists (fst pc), (snd pc). split; [|split; [|split; [|split; [|split; [|split; [|split]]]]]].
  - unfold DLMS_Parser.enhance_LongInvokeIdAndPriority.
    destruct value as [|v0 value']; [congruence|].
    fold clean. rewrite Hleb. fold invoke_id_hex. rewrite Hint.
    fold high_byte. fold pc. destruct pc as [p c]. reflexivity.
  - intros E. unfold pc. rewrite E. split; reflexivity.
  - intros E. unfold pc. rewrite E. split; reflexivity.
  - intros E. unfold pc. rewrite E. split; reflexivity.
  - intros E1 E2 E3. unfold pc.
    apply str_eqb_neq in E1, E2, E3. rewrite E1, E2, E3. split; reflexivity.
  - pose proof (digits_val_bounds 16 invoke_id_hex ltac:(lia) Hdig 0 ltac:(lia))
      as H.
    unfold invoke_id, Spec.hex_value. lia.
  - intros E. rewrite Hlen2, E. reflexivity.
  - intros elem info Htag Hget. cbv zeta.
    unfold DLMS_Parser.search_here. rewrite Htag, Hget.
    cbn [str_eqb chars list_ascii_of_string Ascii.eqb Bool.eqb andb].
    assert (Hcs : DLMS_Parser.clean_hex (strip value) = clean)
      by apply clean_hex_strip.
    destruct (strip value) as [|s0 s'] eqn:Es.
    { cbn in Hcs. rewrite <- Hcs in Hlen. cbn in Hlen. lia. }
    rewrite Hcs, Hleb. cbn. auto.
Qed.

(** The value of the specification's example. *)
Lemma long_invoke_id_and_priority_decoding_witness :
  DLMS_Parser.enhance_LongInvokeIdAndPriority (chars "C000001A")
  = [chars " High priority. "; chars " Confirmed service. ";
     chars " Invoke ID: 26 "].
Proof.
  destruct (long_invoke_id_and_priority_decoding (chars "C000001A"))
    as (priority & confirmed & H & _ & _ & HC0 & _).
  - vm_compute. lia.
  - destruct (HC0 eq_refl) as [-> ->]. exact H.
Defined.

(** C8 (as stated, refuted).  A value with ten hexadecimal characters: the
    six characters after the priority byte denote 26, but the invoke-id
    decoded is that of all eight remaining characters, 6656. *)
Lemma long_invoke_id_not_six_characters :
  let value := chars "C000001A00" in
  let clean := DLMS_Parser.clean_hex value in
  (8 <= length clean)%nat
  /\ Spec.hex_value (firstn 6 (skipn 2 clean)) = 26
  /\ DLMS_Parser.enhance_LongInvokeIdAndPriority value
     = [chars " High priority. "; chars " Confirmed service. ";
        chars " Invoke ID: 6656 "]
  /\ ~ In (chars " Invoke ID: 26 ")
          (DLMS_Parser.enhance_LongInvokeIdAndPriority value).
Proof.
  cbv zeta. split; [vm_compute; lia|].
  split; [reflexivity|]. split; [reflexivity|].
  vm_compute. intros [H|[H|[H|[]]]]; discriminate H.
Qed.

(** ** DLMS date-time decoding *)

Lemma unhexlify_pair c d r :
  unhexlify (c :: d :: r)
  = if is_hex_digit c && is_hex_digit d
    then bind (unhexlify r)
              (fun bs => Ok (16 * digit_value c + digit_value d :: bs))
    else Raise BinasciiError.
Proof. reflexivity. Qed.

Lemma unhexlify_bytes s data :
  unhexlify s = Ok data ->
  Forall (fun b => 0 <= b <= 255) data /\ (2 * length data = length s)%nat.
Proof.
  revert s data. fix IH 1. intros [|c [|d r]] data H.
  - injection H as <-. split; [constructor | reflexivity].
  - discriminate H.
  - rewrite unhexlify_pair in H.
    destruct (is_hex_digit c) eqn:Hc; [|discriminate H].
    destruct (is_hex_digit d) eqn:Hd; [|discriminate H].
    unfold andb in H. destruct (unhexlify r) as [bs|e] eqn:Hr; [|discriminate H].
    unfold bind in H.
    assert (Ed : data = 16 * digit_value c + digit_value d :: bs) by congruence.
    subst data. clear H.
    destruct (IH r bs Hr) as [Hb Hl]. split.
    + constructor; [|exact Hb].
      apply hex_digit_range in Hc. apply hex_digit_range in Hd. lia.
    + cbn [List.length]. lia.
Qed.

Lemma word_of_bytes hi lo :
  0 <= lo <= 255 -> Z.lor (Z.shiftl hi 8) lo = 256 * hi + lo.
Proof.
  intros Hlo. rewrite Z.shiftl_mul_pow2 by lia. change (2 ^ 8) with 256.
  assert (Hland : Z.land (hi * 256) lo = 0).
  { apply Z.bits_inj'. intros n Hn. rewrite Z.land_spec, Z.bits_0.
    destruct (Z.ltb_spec n 8).
    - change 256 with (2 ^ 8). rewrite Z.mul_pow2_bits_low by lia. reflexivity.
    - replace lo with (lo mod 2 ^ 8) by (apply Z.mod_small; lia).
      rewrite Z.mod_pow2_bits_high by lia. apply andb_false_r. }
  rewrite <- Z.lxor_lor by exact Hland.
  rewrite <- Z.add_nocarry_lxor by exact Hland. lia.
Qed.

Lemma nth_guarded (l : list Z) i d :
  (if (i <? length l)%nat then nth i l 0 else d) = nth i l d.
Proof.
  destruct (Nat.ltb_spec i (length l)).
  - apply nth_indep. assumption.
  - symmetry. apply nth_overflow. assumption.
Qed.

Lemma nth_byte (data : bytes) i :
  Forall (fun b => 0 <= b <= 255) data -> 0 <= nth i data 0 <= 255.
Proof.
  intros H. destruct (Nat.ltb_spec i (length data)).
  - rewrite Forall_forall in H. apply H, nth_In. assumption.
  - rewrite nth_overflow by assumption. lia.
Qed.

Lemma deviation_suffix_spec (data : bytes) :
  Forall (fun b => 0 <= b <= 255) data ->
  (if (11 <=? length data)%nat
   then DLMS_Parser.deviation_suffix (nth 9 data 0) (nth 10 data 0)
   else [])
  = Spec.utc_suffix data.
Proof.
  intros Hb. unfold Spec.utc_suffix.
  destruct (11 <=? length data)%nat; [|reflexivity].
  pose proof (nth_byte data 9 Hb) as H9. pose proof (nth_byte data 10 Hb) as H10.
  unfold DLMS_Parser.deviation_suffix. rewrite word_of_bytes by assumption.
  set (word := 256 * nth 9 data 0 + nth 10 data 0) in *.
  assert (Hw : 0 <= word <= 65535) by (unfold word; lia).
  cbv zeta. unfold Spec.signed16, Spec.utc_offset_text.
  destruct (Z.eqb_spec word 0x8000) as [E|E]; [reflexivity|]. cbn [negb orb].
  destruct (Z.ltb_spec 32767 word); destruct (Z.ltb_spec word 32768); try lia.
  - destruct (Z.eqb_spec (word - 65536) 0); [lia|].
    destruct (Z.eqb_spec word 0); [lia|]. cbn [negb].
    destruct (Z.leb_spec 0 (word - 65536)); [lia|].
    destruct (Z.ltb_spec 0 (word - 65536)); [lia|].
    destruct (Z.abs (word - 65536) mod 60 =? 0);
      repeat rewrite <- app_assoc; rewrite ?app_nil_r; reflexivity.
  - destruct (Z.eqb_spec word 0) as [E0|E0]; [reflexivity|]. cbn [negb].
    destruct (Z.leb_spec 0 word); [|lia].
    destruct (Z.ltb_spec 0 word); [|lia].
    destruct (Z.abs word mod 60 =? 0);
      repeat rewrite <- app_assoc; rewrite ?app_nil_r; reflexivity.
Qed.

Lemma if_app_suffix (c : bool) (r s : str) :
  (if c then r ++ s else r) = r ++ (if c then s else []).
Proof. destruct c; [reflexivity | symmetry; apply app_nil_r]. Qed.

Lemma three_specified a b c x y z :
  negb (a =? x) && negb (b =? y) && negb (c =? z) = true
  <-> a <> x /\ b <> y /\ c <> z.
Proof.
  rewrite !andb_true_iff, !negb_true_iff, !Z.eqb_neq. tauto.
Qed.

(** C5.  [try_decode_dlms_datetime] returns [None] for a string of odd
    length or of fewer than 10 or more than 24 characters, for a string that
    is not hexadecimal, and for decoded bytes that specify neither a full
    date nor a full time; otherwise it returns the date and/or the time,
    joined by a space, followed by the UTC offset suffix when at least 11
    bytes are present and the deviation word is neither 0x8000 nor zero. *)
Theorem try_decode_dlms_datetime_spec (hex_str : str) :
  (Nat.Odd (length hex_str) \/ (length hex_str < 10)%nat
   \/ (24 < length hex_str)%nat ->
   DLMS_Parser.try_decode_dlms_datetime hex_str = None)
  /\ (forall e, unhexlify hex_str = Raise e ->
      DLMS_Parser.try_decode_dlms_datetime hex_str = None)
  /\ (forall data,
        unhexlify hex_str = Ok data ->
        (10 <= length hex_str <= 24)%nat ->
        let year := 256 * nth 0 data 0 + nth 1 data 0 in
        let month := nth 2 data 0 in
        let day := nth 3 data 0 in
        let hour := nth 5 data 0xFF in
        let minute := nth 6 data 0xFF in
        let second := nth 7 data 0xFF in
        let has_date := year <> 0xFFFF /\ month <> 0xFF /\ day <> 0xFF in
        let has_time := hour <> 0xFF /\ minute <> 0xFF /\ second <> 0xFF in
        let date := Spec.date_text year month day in
        let time := Spec.time_text hour minute second in
        let suffix := Spec.utc_suffix data in
        let result := DLMS_Parser.try_decode_dlms_datetime hex_str in
        (~ has_date -> ~ has_time -> result = None)
        /\ (has_date -> ~ has_time -> result = Some (date ++ suffix))
        /\ (~ has_date -> has_time -> result = Some (time ++ suffix))
        /\ (has_date -> has_time ->
            result = Some (date ++ chars " " ++ time ++ suffix))).
Proof.
  unfold DLMS_Parser.try_decode_dlms_datetime,
    DLMS_Parser.try_decode_dlms_datetime_body.
  split; [|split].
  - intros H.
    assert (E : ((length hex_str <? 10)%nat || (24 <? length hex_str)%nat
                 || negb (length hex_str mod 2 =? 0)%nat) = true).
    { destruct H as [[k Hk]|[H|H]].
      - apply orb_true_iff. right. apply negb_true_iff, Nat.eqb_neq.
        rewrite Hk. intros E.
        rewrite Nat.add_comm, Nat.mul_comm, Nat.Div0.mod_add in E.
        discriminate E.
      - apply Nat.ltb_lt in H. rewrite H. reflexivity.
      - apply Nat.ltb_lt in H. rewrite H. apply orb_true_iff. left.
        apply orb_true_r. }
    rewrite E. reflexivity.
  - intros e He. rewrite He.
    destruct (_ || _ || _); reflexivity.
  - intros data Hdata Hlen.
    destruct (unhexlify_bytes _ _ Hdata) as [Hb Hl].
    assert (E : ((length hex_str <? 10)%nat || (24 <? length hex_str)%nat
                 || negb (length hex_str mod 2 =? 0)%nat) = false).
    { apply orb_false_iff. split; [apply orb_false_iff; split|].
      - apply Nat.ltb_ge. lia.
      - apply Nat.ltb_ge. lia.
      - apply negb_false_iff, Nat.eqb_eq. rewrite <- Hl.
        rewrite Nat.mul_comm. apply Nat.Div0.mod_mul. }
    rewrite E, Hdata. cbn [bind].
    assert (E5 : (length data <? 5)%nat = false) by (apply Nat.ltb_ge; lia).
    rewrite E5. cbv zeta.
    rewrite !nth_guarded.
    rewrite word_of_bytes by (apply nth_byte, Hb).
    rewrite (if_app_suffix (11 <=? length data)%nat).
    set (suffix := if (11 <=? length data)%nat then _ else _).
    assert (Hsuffix : suffix = Spec.utc_suffix data)
      by apply (deviation_suffix_spec data Hb).
    clearbody suffix. subst suffix.
    set (year := 256 * nth 0 data 0 + nth 1 data 0).
    set (suffix := Spec.utc_suffix data).
    unfold Spec.date_text, Spec.time_text.
    destruct (negb (year =? 65535) && _ && _) eqn:Ed;
      destruct (negb (nth 5 data 255 =? 255) && _ && _) eqn:Et;
      (apply three_specified in Ed
       || (apply not_true_iff_false in Ed; rewrite three_specified in Ed));
      (apply three_specified in Et
       || (apply not_true_iff_false in Et; rewrite three_specified in Et));
      cbn [negb orb app join try_except];
      repeat rewrite <- app_assoc;
      repeat split; intros; try contradiction; reflexivity.
Qed.

Lemma try_decode_dlms_datetime_spec_witness :
  DLMS_Parser.try_decode_dlms_datetime (chars "07EA010DFF0E2114FFFF4C00")
  = Some (chars "2026-01-13 14:33:20 UTC-03").
Proof.
  destruct (try_decode_dlms_datetime_spec (chars "07EA010DFF0E2114FFFF4C00"))
    as (_ & _ & H).
  destruct (H [0x07; 0xEA; 1; 13; 0xFF; 14; 33; 20; 0xFF; 0xFF; 0x4C; 0x00])
    as (_ & _ & _ & Hboth).
  - reflexivity.
  - vm_compute. lia.
  - rewrite Hboth.
    + reflexivity.
    + vm_compute. repeat split; intros E; discriminate E.
    + vm_compute. repeat split; intros E; discriminate E.
Defined.

(** A date without a time, the deviation -180 stored as 0xFF4C, and the
    unspecified deviation 0x8000. *)
Lemma try_decode_dlms_datetime_examples :
  DLMS_Parser.try_decode_dlms_datetime (chars "07EA0101FFFFFFFFFFFF4C00")
  = Some (chars "2026-01-01 UTC-03")
  /\ DLMS_Parser.deviation_suffix 0xFF 0x4C = chars " UTC-03"
  /\ DLMS_Parser.deviation_suffix 0x00 0xB4 = chars " UTC+03"
  /\ DLMS_Parser.deviation_suffix 0x01 0x4A = chars " UTC+05:30"
  /\ DLMS_Parser.try_decode_dlms_datetime (chars "07EA010DFF0E2114FF800000")
     = Some (chars "2026-01-13 14:33:20")
  /\ DLMS_Parser.try_decode_dlms_datetime (chars "FFFFFFFFFFFFFFFF")
     = None.
Proof. vm_compute. repeat split. Qed.

(** ** Elements, paths and parents *)

Lemma Element_induction (P : ET.Element -> Prop) :
  (forall t a x cs, Forall P cs -> P (ET.mkElement t a x cs)) ->
  forall e, P e.
Proof.
  intros H. fix IH 1. intros [t a x cs]. apply H.
  induction cs as [|c cs IHcs]; constructor; [apply IH | exact IHcs].
Qed.

Lemma skipn_cons_nth {A} i (l : list A) c rest :
  skipn i l = c :: rest -> nth_error l i = Some c /\ skipn (S i) l = rest.
Proof.
  revert l. induction i as [|i IH]; intros [|x l] H; try discriminate H.
  - cbn in H. assert (x = c /\ l = rest) as [-> ->] by (split; congruence).
    auto.
  - apply IH. exact H.
Qed.

Lemma subelement_app e p q :
  ET.subelement e (p ++ q)
  = match ET.subelement e p with
    | Some x => ET.subelement x q
    | None => None
    end.
Proof.
  revert e. induction p as [|i p IH]; intros e; cbn [app ET.subelement].
  - reflexivity.
  - destruct (nth_error (ET.children e) i); [apply IH | reflexivity].
Qed.

Lemma number_from_In p i cs m :
  In m (ET.number_from p i cs) ->
  exists j, fst m = p ++ [(i + j)%nat] /\ nth_error cs j = Some (snd m).
Proof.
  revert i. induction cs as [|c cs IH]; intros i; cbn [ET.number_from].
  - intros [].
  - intros [<-|H].
    + exists 0%nat. rewrite Nat.add_0_r. auto.
    + destruct (IH _ H) as (j & Hj & Hn). exists (S j).
      rewrite Hj. split; [f_equal; f_equal; lia | exact Hn].
Qed.

Lemma child_nodes_In n m :
  In m (ET.child_nodes n) ->
  exists j, fst m = fst n ++ [j] /\ nth_error (ET.children (snd n)) j = Some (snd m).
Proof.
  unfold ET.child_nodes. intros H.
  destruct (number_from_In _ _ _ _ H) as (j & Hj & Hn). exists j. auto.
Qed.

Lemma child_in_place root n m :
  Spec.in_place root n -> In m (ET.child_nodes n) -> Spec.in_place root m.
Proof.
  unfold Spec.in_place. intros Hn Hm.
  destruct (child_nodes_In _ _ Hm) as (j & Hj & Hc).
  rewrite Hj, subelement_app, Hn. cbn [ET.subelement]. rewrite Hc. reflexivity.
Qed.

Lemma iter_from_eq p t a x cs :
  ET.iter_from p (ET.mkElement t a x cs)
  = (p, ET.mkElement t a x cs) :: ET.iter_children p cs 0.
Proof. reflexivity. Qed.

Lemma iter_children_cons p c rest i :
  ET.iter_children p (c :: rest) i
  = ET.iter_from (p ++ [i]) c ++ ET.iter_children p rest (S i).
Proof. reflexivity. Qed.

(** Every node that [iter] yields lies below the start, at the path it
    carries. *)
Lemma iter_from_In e :
  forall p m, In m (ET.iter_from p e) ->
              exists s, fst m = p ++ s /\ ET.subelement e s = Some (snd m).
Proof.
  induction e as [t a x cs IH] using Element_induction. intros p m.
  rewrite iter_from_eq. intros [<-|H].
  - exists []. rewrite app_nil_r. auto.
  - assert (Hgen : forall i,
      In m (ET.iter_children p (skipn i cs) i) ->
      exists s, fst m = p ++ s
                /\ ET.subelement (ET.mkElement t a x cs) s = Some (snd m)).
    { clear H. 
      assert (Hsuf : forall rest i, skipn i cs = rest ->
        In m (ET.iter_children p rest i) ->
        exists s, fst m = p ++ s
                  /\ ET.subelement (ET.mkElement t a x cs) s = Some (snd m)).
      { induction rest as [|c rest IHrest]; intros i Hsk Hin.
        - destruct Hin.
        - rewrite iter_children_cons in Hin. apply in_app_or in Hin.
          destruct (skipn_cons_nth _ _ _ _ Hsk) as [Hc Hsk'].
          destruct Hin as [Hin|Hin].
          + rewrite Forall_forall in IH.
            destruct (IH c (nth_error_In _ _ Hc) _ _ Hin) as (s & Hs & Hsub).
            exists (i :: s). rewrite Hs, <- app_assoc. split; [reflexivity|].
            cbn [ET.subelement ET.children]. rewrite Hc. exact Hsub.
          + apply (IHrest (S i)); assumption. }
      intros i. apply Hsuf. reflexivity. }
    apply (Hgen 0%nat). exact H.
Qed.

Lemma iter_in_place root n m :
  Spec.in_place root n -> In m (ET.iter n) -> Spec.in_place root m.
Proof.
  unfold Spec.in_place, ET.iter. intros Hn Hm.
  destruct (iter_from_In _ _ _ Hm) as (s & Hs & Hsub).
  rewrite Hs, subelement_app, Hn. exact Hsub.
Qed.

Lemma select_in_place root s ctx :
  Forall (Spec.in_place root) ctx -> Forall (Spec.in_place root) (ET.select s ctx).
Proof.
  intros Hctx. apply Forall_forall. intros m Hm.
  rewrite Forall_forall in Hctx.
  destruct s as [t|t]; cbn [ET.select] in Hm;
    apply in_flat_map in Hm as (n & Hn & Hm);
    apply filter_In in Hm as [Hm _].
  - apply (iter_in_place root n); [auto|].
    unfold ET.iter in *. destruct (ET.iter_from (fst n) (snd n)); [destruct Hm|].
    right. exact Hm.
  - apply (child_in_place root n); auto.
Qed.

Lemma select_child_In t ctx m :
  In m (ET.select (ET.Child t) ctx) ->
  exists n j, In n ctx /\ fst m = fst n ++ [j]
              /\ nth_error (ET.children (snd n)) j = Some (snd m)
              /\ ET.tag (snd m) = t.
Proof.
  cbn [ET.select]. intros Hm.
  apply in_flat_map in Hm as (n & Hn & Hm).
  apply filter_In in Hm as [Hm Ht].
  destruct (child_nodes_In _ _ Hm) as (j & Hj & Hc).
  exists n, j. repeat split; auto. apply str_eqb_eq, Ht.
Qed.

Lemma path_eqb_eq p q : ET.path_eqb p q = true <-> p = q.
Proof.
  unfold ET.path_eqb. destruct (list_eq_dec Nat.eq_dec p q); split;
    congruence.
Qed.

Lemma path_eqb_neq p q : p <> q -> ET.path_eqb p q = false.
Proof.
  intros H. destruct (ET.path_eqb p q) eqn:E; [|reflexivity].
  apply path_eqb_eq in E. contradiction.
Qed.

Lemma _iter_eq t a x cs ppath target :
  Push_Parser._iter (ET.mkElement t a x cs) ppath target
  = Push_Parser._iter_each (ET.mkElement t a x cs) ppath target cs 0.
Proof. reflexivity. Qed.

Lemma _iter_each_cons parent ppath target elem rest i :
  Push_Parser._iter_each parent ppath target (elem :: rest) i
  = if ET.path_eqb (ppath ++ [i]) target then Some (ppath, parent)
    else match Push_Parser._iter elem (ppath ++ [i]) target with
         | Some result => Some result
         | None => Push_Parser._iter_each parent ppath target rest (S i)
         end.
Proof. reflexivity. Qed.

(** [_iter] only finds targets strictly below the element it starts at. *)
Lemma _iter_some_below e :
  forall ppath target r,
    Push_Parser._iter e ppath target = Some r ->
    exists s, s <> [] /\ target = ppath ++ s.
Proof.
  induction e as [t a x cs IH] using Element_induction.
  intros ppath target r. rewrite _iter_eq.
  generalize 0%nat as i. revert IH.
  generalize (ET.mkElement t a x cs) as parent.
  induction cs as [|c cs IHcs]; intros parent IH i H.
  - discriminate H.
  - rewrite _iter_each_cons in H. inversion IH as [|? ? Hc Hcs]; subst.
    destruct (ET.path_eqb (ppath ++ [i]) target) eqn:E.
    + apply path_eqb_eq in E. exists [i]. split; [discriminate | auto].
    + destruct (Push_Parser._iter c (ppath ++ [i]) target) as [r'|] eqn:E'.
      * destruct (Hc _ _ _ E') as (s & Hs & ->).
        exists (i :: s). split; [discriminate|].
        rewrite <- app_assoc. reflexivity.
      * apply (IHcs parent Hcs (S i) H).
Qed.

Lemma _iter_none_elsewhere e ppath j k rest :
  j <> k -> Push_Parser._iter e (ppath ++ [j]) (ppath ++ k :: rest) = None.
Proof.
  intros Hjk. destruct (Push_Parser._iter _ _ _) as [r|] eqn:E; [|reflexivity].
  destruct (_iter_some_below _ _ _ _ E) as (s & _ & Hs).
  rewrite <- app_assoc in Hs. apply app_inv_head in Hs.
  cbn in Hs. congruence.
Qed.

(** The loop passes over the children before position [k] when the target
    lies below child [k]. *)
Lemma _iter_each_skip parent ppath k rest :
  forall cs i,
    (i <= k)%nat ->
    Push_Parser._iter_each parent ppath (ppath ++ k :: rest) cs i
    = Push_Parser._iter_each parent ppath (ppath ++ k :: rest)
        (skipn (k - i) cs) k.
Proof.
  induction cs as [|c cs IH]; intros i Hi.
  - rewrite skipn_nil. destruct (Nat.eq_dec i k) as [->|]; reflexivity.
  - destruct (Nat.eq_dec i k) as [->|Hne].
    + rewrite Nat.sub_diag. reflexivity.
    + rewrite _iter_each_cons.
      rewrite path_eqb_neq.
      2:{ intros E. apply app_inv_head in E. congruence. }
      rewrite _iter_none_elsewhere by exact Hne.
      rewrite IH by lia.
      replace (k - i)%nat with (S (k - S i)) by lia. reflexivity.
Qed.

(** [_iter] returns the element that holds the target as a child. *)
Lemma _iter_finds_parent s :
  forall e ppath i parent c,
    ET.subelement e s = Some parent ->
    nth_error (ET.children parent) i = Some c ->
    Push_Parser._iter e ppath (ppath ++ s ++ [i]) = Some (ppath ++ s, parent).
Proof.
  induction s as [|k s IH]; intros [t a x cs] ppath i parent c Hsub Hc.
  - cbn in Hsub. assert (parent = ET.mkElement t a x cs) by congruence.
    subst parent. cbn [ET.children] in Hc.
    rewrite _iter_eq. cbn [app].
    rewrite (_iter_each_skip _ ppath i []) by lia. rewrite Nat.sub_0_r.
    destruct (skipn i cs) as [|c' rest] eqn:Hsk.
    + assert (i < length cs)%nat by (apply nth_error_Some; congruence).
      assert (length (skipn i cs) = 0%nat) by (rewrite Hsk; reflexivity).
      rewrite length_skipn in *. lia.
    + rewrite _iter_each_cons.
      assert (E : ET.path_eqb (ppath ++ [i]) (ppath ++ [i]) = true)
        by (apply path_eqb_eq; reflexivity).
      rewrite E, app_nil_r. reflexivity.
  - cbn [ET.subelement ET.children] in Hsub.
    destruct (nth_error cs k) as [ck|] eqn:Hk; [|discriminate Hsub].
    rewrite _iter_eq. cbn [app].
    rewrite (_iter_each_skip _ ppath k (s ++ [i])) by lia. rewrite Nat.sub_0_r.
    destruct (skipn k cs) as [|c' rest] eqn:Hsk.
    + assert (k < length cs)%nat by (apply nth_error_Some; congruence).
      assert (length (skipn k cs) = 0%nat) by (rewrite Hsk; reflexivity).
      rewrite length_skipn in *. lia.
    + destruct (skipn_cons_nth _ _ _ _ Hsk) as [Hk' _].
      assert (c' = ck) by congruence. subst c'.
      rewrite _iter_each_cons. rewrite path_eqb_neq.
      2:{ intros E. apply app_inv_head in E.
          assert (E' : length [k] = length (k :: s ++ [i])) by (rewrite <- E; reflexivity).
          cbn in E'. rewrite length_app in E'. cbn in E'. lia. }
      replace (ppath ++ k :: s ++ [i]) with ((ppath ++ [k]) ++ s ++ [i])
        by (rewrite <- app_assoc; reflexivity).
      rewrite (IH ck (ppath ++ [k]) i parent c Hsub Hc).
      rewrite <- app_assoc. reflexivity.
Qed.

(** ** Places in a document *)

Lemma find_first_such {A} (p : A -> bool) (l : list A) (x : A) :
  List.find p l = Some x <-> Spec.first_such p l x.
Proof.
  unfold Spec.first_such. split.
  - induction l as [|y l IH]; cbn [List.find]; [discriminate|].
    destruct (p y) eqn:E.
    + intros H. assert (y = x) by congruence. subst y.
      exists [], l. auto.
    + intros H. destruct (IH H) as (b & a & -> & Hx & Hb).
      exists (y :: b), a. auto.
  - intros (b & a & -> & Hx & Hb).
    induction Hb as [|y b Hy Hb IH]; cbn [List.find app].
    + rewrite Hx. reflexivity.
    + rewrite Hy. exact IH.
Qed.

Lemma find_none_no_such {A} (p : A -> bool) (l : list A) :
  List.find p l = None <-> Forall (fun y => p y = false) l.
Proof.
  induction l as [|y l IH]; cbn [List.find].
  - split; auto.
  - destruct (p y) eqn:E; split; intros H.
    + discriminate H.
    + inversion H; congruence.
    + constructor; [assumption | apply IH, H].
    + inversion H; subst. apply IH. assumption.
Qed.

Lemma first_such_In {A} (p : A -> bool) l x :
  Spec.first_such p l x -> In x l /\ p x = true.
Proof.
  intros (b & a & -> & Hx & _). split; [|exact Hx].
  apply in_or_app. right. left. reflexivity.
Qed.

Lemma find_filter {A} (q : A -> bool) l :
  hd_error (filter q l) = List.find q l.
Proof.
  induction l as [|y l IH]; [reflexivity|]. cbn [filter List.find].
  destruct (q y); [reflexivity | exact IH].
Qed.

Lemma find_existsb {A} (q : A -> bool) l :
  existsb q l = match List.find q l with Some _ => true | None => false end.
Proof.
  induction l as [|y l IH]; [reflexivity|]. cbn [existsb List.find].
  destruct (q y); [reflexivity | exact IH].
Qed.

Lemma find_ext {A} (p q : A -> bool) l :
  (forall x, p x = q x) -> List.find p l = List.find q l.
Proof.
  intros H. induction l as [|y l IH]; [reflexivity|]. cbn [List.find].
  rewrite H, IH. reflexivity.
Qed.

(** The first element that a nested enumeration yields: the outer loop runs
    over the elements of [l] that satisfy [p], the inner one over [F]. *)
Lemma hd_flat_map_filter {A B} (p : A -> bool) (F : A -> list B) l :
  hd_error (flat_map F (filter p l))
  = match List.find
            (fun n => p n && match F n with [] => false | _ :: _ => true end) l
    with
    | Some x => hd_error (F x)
    | None => None
    end.
Proof.
  induction l as [|y l IH]; [reflexivity|]. cbn [filter List.find].
  destruct (p y); cbn [andb flat_map]; [|exact IH].
  destruct (F y) as [|z r] eqn:E; cbn [app].
  - exact IH.
  - rewrite E. reflexivity.
Qed.

Lemma children_walk p cs i :
  ET.iter_children p cs i = flat_map ET.iter (ET.number_from p i cs).
Proof.
  revert i. induction cs as [|c cs IH]; intros i; [reflexivity|].
  rewrite iter_children_cons. cbn [ET.number_from flat_map].
  rewrite IH. reflexivity.
Qed.

(** What [iter] yields after the element itself. *)
Lemma tl_iter n : tl (ET.iter n) = flat_map ET.iter (ET.child_nodes n).
Proof.
  destruct n as [p [t a x cs]]. unfold ET.iter, ET.child_nodes.
  cbn [fst snd ET.children]. rewrite iter_from_eq. cbn [tl].
  apply children_walk.
Qed.

Lemma below_in_place root n : In n (Spec.below root) -> Spec.in_place root n.
Proof.
  unfold Spec.below. rewrite <- tl_iter. intros H.
  apply (iter_in_place root ([], root)); [reflexivity|].
  destruct (ET.iter ([], root)); [destruct H | right; exact H].
Qed.

(** [root.find(".//NotificationBody/DataValue")] as two searches. *)
Lemma find_data_value root :
  ET.find ([], root) Push_Parser.data_value_path
  = match List.find
            (fun n => ET.has_tag (chars "NotificationBody") n
                      && Spec.has_child (chars "DataValue") n)
            (Spec.below root)
    with
    | Some body => List.find (ET.has_tag (chars "DataValue")) (ET.child_nodes body)
    | None => None
    end.
Proof.
  unfold ET.find, ET.iterfind, Push_Parser.data_value_path.
  cbn [fold_left ET.select flat_map]. rewrite app_nil_r, tl_iter.
  fold (Spec.below root). rewrite hd_flat_map_filter.
  rewrite (find_ext _ (fun n => ET.has_tag (chars "NotificationBody") n
                                && Spec.has_child (chars "DataValue") n)).
  - destruct (List.find _ (Spec.below root)); [apply find_filter | reflexivity].
  - intros n. f_equal. unfold Spec.has_child.
    rewrite find_existsb, <- find_filter.
    destruct (filter _ _); reflexivity.
Qed.

Lemma data_value_of_find root data_value :
  Spec.data_value_of root data_value
  <-> ET.find ([], root) Push_Parser.data_value_path = Some data_value.
Proof.
  rewrite find_data_value. unfold Spec.data_value_of, Spec.first_child. split.
  - intros (body & Hbody & Hdv).
    apply find_first_such in Hbody. apply find_first_such in Hdv.
    rewrite Hbody. exact Hdv.
  - destruct (List.find _ (Spec.below root)) as [body|] eqn:E; [|discriminate].
    intros H. exists body. split; apply find_first_such; assumption.
Qed.

Lemma no_data_value_find root :
  (forall data_value, ~ Spec.data_value_of root data_value)
  <-> ET.find ([], root) Push_Parser.data_value_path = None.
Proof.
  split.
  - intros H.
    destruct (ET.find ([], root) Push_Parser.data_value_path) as [dv|] eqn:E;
      [|reflexivity].
    exfalso. apply (H dv), data_value_of_find, E.
  - intros H dv Hdv. apply data_value_of_find in Hdv. congruence.
Qed.

(** ** Day-push detection *)

(** The answers of [is_new_style_push], by what its searches find. *)
Lemma is_new_style_push_cases (xml : ET.document) :
  (Push_Parser.is_new_style_push xml = true
   <-> exists root data_value structure first rest,
         xml = Some root
         /\ ET.find ([], root) Push_Parser.data_value_path = Some data_value
         /\ Spec.first_such (ET.has_tag (chars "Structure"))
                            (ET.iter data_value) structure
         /\ ET.children (snd structure) = first :: rest
         /\ ET.tag first = chars "OctetString"
         /\ length (ET.get first (chars "Value") []) <> 12%nat)
  /\ (xml = None -> Push_Parser.is_new_style_push xml = false)
  /\ (forall root,
        xml = Some root ->
        ET.find ([], root) Push_Parser.data_value_path = None ->
        Push_Parser.is_new_style_push xml = false)
  /\ (forall root data_value,
        xml = Some root ->
        ET.find ([], root) Push_Parser.data_value_path = Some data_value ->
        Forall (fun n => ET.has_tag (chars "Structure") n = false)
               (ET.iter data_value) ->
        Push_Parser.is_new_style_push xml = false)
  /\ (forall root data_value structure,
        xml = Some root ->
        ET.find ([], root) Push_Parser.data_value_path = Some data_value ->
        Spec.first_such (ET.has_tag (chars "Structure"))
                        (ET.iter data_value) structure ->
        (ET.children (snd structure) = []
         \/ (exists first rest,
               ET.children (snd structure) = first :: rest
               /\ (ET.tag first <> chars "OctetString"
                   \/ length (ET.get first (chars "Value") []) = 12%nat))) ->
        Push_Parser.is_new_style_push xml = false)
  /\ (Push_Parser.is_new_style_push xml = false ->
      Push_Parser.parse_dlms_push_xml xml
      = (r <- Push_Parser.extract_obis_values_and_invoke_id xml ;;
         Ok (Push_Parser.obis_push_type r))).
Proof.
  split; [|split; [|split; [|split; [|split]]]].
  - unfold Push_Parser.is_new_style_push. split.
    + destruct xml as [root|]; [|discriminate].
      destruct (ET.find _ _) as [data_value|] eqn:Hdv; [|discriminate].
      destruct (List.find _ _) as [structure|] eqn:Hst; [|discriminate].
      destruct (ET.children (snd structure)) as [|first rest] eqn:Hch;
        [discriminate|].
      destruct (str_eqb (ET.tag first) (chars "OctetString")) eqn:Htag;
        [|discriminate].
      cbn [negb].
      destruct (Nat.eqb_spec (length (ET.get first (chars "Value") [])) 12);
        [discriminate|].
      intros _. exists root, data_value, structure, first, rest.
      repeat split; auto.
      * apply find_first_such, Hst.
      * apply str_eqb_eq, Htag.
    + intros (root & data_value & structure & first & rest
              & -> & Hdv & Hst & Hch & Htag & Hlen).
      rewrite Hdv. apply find_first_such in Hst. rewrite Hst, Hch.
      apply str_eqb_eq in Htag. rewrite Htag. cbn [negb].
      apply Nat.eqb_neq in Hlen. rewrite Hlen. reflexivity.
  - intros ->. reflexivity.
  - intros root -> Hdv. unfold Push_Parser.is_new_style_push.
    rewrite Hdv. reflexivity.
  - intros root data_value -> Hdv Hnone.
    unfold Push_Parser.is_new_style_push. rewrite Hdv.
    apply find_none_no_such in Hnone. rewrite Hnone. reflexivity.
  - intros root data_value structure -> Hdv Hst Hcases.
    unfold Push_Parser.is_new_style_push. rewrite Hdv.
    apply find_first_such in Hst. rewrite Hst.
    destruct Hcases as [Hch|(first & rest & Hch & [Htag|Hlen])]; rewrite Hch.
    + reflexivity.
    + apply str_eqb_neq in Htag. rewrite Htag. reflexivity.
    + destruct (str_eqb _ _); [|reflexivity]. cbn [negb].
      rewrite Hlen. reflexivity.
  - intros H. unfold Push_Parser.parse_dlms_push_xml. rewrite H. reflexivity.
Qed.

(** C4.  [is_new_style_push] answers true exactly when the document parses,
    it has a DataValue of the notification body (the first DataValue child
    of the first NotificationBody below the root that has one), a Structure
    is reachable inside that DataValue, the first such Structure in
    document order has a first child, that child is an OctetString, and the
    length of its value is not 12.  In every other case (no parse, no such
    DataValue, no Structure inside it, no children, a first child that is
    no OctetString, a value of length 12) it answers false, and
    [parse_dlms_push_xml] then takes the OBIS-push path. *)
Theorem is_new_style_push_spec (xml : ET.document) :
  (Push_Parser.is_new_style_push xml = true
   <-> exists root data_value structure first rest,
         xml = Some root
         /\ Spec.data_value_of root data_value
         /\ Spec.first_such (ET.has_tag (chars "Structure"))
                            (ET.iter data_value) structure
         /\ ET.children (snd structure) = first :: rest
         /\ ET.tag first = chars "OctetString"
         /\ length (ET.get first (chars "Value") []) <> 12%nat)
  /\ (xml = None -> Push_Parser.is_new_style_push xml = false)
  /\ (forall root,
        xml = Some root ->
        (forall data_value, ~ Spec.data_value_of root data_value) ->
        Push_Parser.is_new_style_push xml = false)
  /\ (forall root data_value,
        xml = Some root ->
        Spec.data_value_of root data_value ->
        Forall (fun n => ET.has_tag (chars "Structure") n = false)
               (ET.iter data_value) ->
        Push_Parser.is_new_style_push xml = false)
  /\ (forall root data_value structure,
        xml = Some root ->
        Spec.data_value_of root data_value ->
        Spec.first_such (ET.has_tag (chars "Structure"))
                        (ET.iter data_value) structure ->
        (ET.children (snd structure) = []
         \/ (exists first rest,
               ET.children (snd structure) = first :: rest
               /\ (ET.tag first <> chars "OctetString"
                   \/ length (ET.get first (chars "Value") []) = 12%nat))) ->
        Push_Parser.is_new_style_push xml = false)
  /\ (Push_Parser.is_new_style_push xml = false ->
      Push_Parser.parse_dlms_push_xml xml
      = (r <- Push_Parser.extract_obis_values_and_invoke_id xml ;;
         Ok (Push_Parser.obis_push_type r))).
Proof.
  destruct (is_new_style_push_cases xml)
    as (Htrue & Hnone & Hnodv & Hnost & Hshape & Hroute).
  split; [|split; [|split; [|split; [|split]]]].
  - rewrite Htrue. split.
    + intros (root & dv & st & first & rest & Hx & Hdv & H).
      exists root, dv, st, first, rest. split; [exact Hx|].
      split; [apply data_value_of_find, Hdv | exact H].
    + intros (root & dv & st & first & rest & Hx & Hdv & H).
      exists root, dv, st, first, rest. split; [exact Hx|].
      split; [apply data_value_of_find, Hdv | exact H].
  - exact Hnone.
  - intros root Hx Hno. apply (Hnodv root Hx). apply no_data_value_find, Hno.
  - intros root dv Hx Hdv. apply (Hnost root dv Hx).
    apply data_value_of_find, Hdv.
  - intros root dv st Hx Hdv. apply (Hshape root dv st Hx).
    apply data_value_of_find, Hdv.
  - exact Hroute.
Qed.

Lemma is_new_style_push_spec_witness :
  exists root data_value structure first rest,
    Some Samples.day_push_document = Some root
    /\ Spec.data_value_of root data_value
    /\ Spec.first_such (ET.has_tag (chars "Structure"))
                       (ET.iter data_value) structure
    /\ ET.children (snd structure) = first :: rest
    /\ ET.tag first = chars "OctetString"
    /\ length (ET.get first (chars "Value") []) <> 12%nat.
Proof.
  apply (proj1 (proj1 (is_new_style_push_spec (Some Samples.day_push_document)))).
  reflexivity.
Defined.

Lemma is_new_style_push_examples :
  Push_Parser.is_new_style_push (Some Samples.day_push_document) = true
  /\ Push_Parser.is_new_style_push (Some Samples.obis_push_document) = false
  /\ Push_Parser.is_new_style_push None = false.
Proof. repeat split. Qed.

(** A structure with a logical name counts only inside the DataValue of the
    notification body: before the body it is not looked at. *)
Lemma is_new_style_push_outside_data_value :
  let structure :=
    Samples.elem "Structure" [Samples.leaf "OctetString" "50454E31"] in
  Push_Parser.is_new_style_push
    (Some (Samples.elem "DataNotification"
             [structure;
              Samples.elem "NotificationBody" [Samples.elem "DataValue" []]]))
  = false
  /\ Push_Parser.is_new_style_push
       (Some (Samples.elem "DataNotification"
                [Samples.elem "NotificationBody"
                   [Samples.elem "DataValue" [structure]]]))
     = true.
Proof. repeat split. Qed.

(** ** Assembly of the OBIS-push records *)

Lemma index_of_number_from p i cs :
  forall j, (j <= i < j + length cs)%nat ->
            Push_Parser.index_of (p ++ [i]) (ET.number_from p j cs)
            = Some (i - j)%nat.
Proof.
  induction cs as [|c cs IH]; intros j Hj; cbn [List.length] in Hj; [lia|].
  cbn [ET.number_from Push_Parser.index_of fst].
  destruct (Nat.eq_dec j i) as [->|Hne].
  - assert (E : ET.path_eqb (p ++ [i]) (p ++ [i]) = true)
      by (apply path_eqb_eq; reflexivity).
    rewrite E, Nat.sub_diag. reflexivity.
  - rewrite path_eqb_neq.
    2:{ intros E. apply app_inv_head in E. congruence. }
    rewrite IH by lia. f_equal. lia.
Qed.

Lemma number_from_snd p j cs : map snd (ET.number_from p j cs) = cs.
Proof.
  revert j. induction cs as [|c cs IH]; intros j; cbn; [|rewrite IH];
    reflexivity.
Qed.

Lemma split_values_fst expected elements :
  forall i,
    fst (Push_Parser.split_values i expected elements)
    = map Push_Parser._parse_xml_element_value
          (map snd (firstn (Z.to_nat (expected - i)) elements)).
Proof.
  induction elements as [|e r IH]; intros i.
  - rewrite firstn_nil. reflexivity.
  - cbn [Push_Parser.split_values].
    specialize (IH (i + 1)).
    destruct (Push_Parser.split_values (i + 1) expected r) as [values extra].
    cbn [fst] in IH. destruct (Z.ltb_spec i expected).
    + cbn [fst]. rewrite IH.
      replace (Z.to_nat (expected - i))
        with (S (Z.to_nat (expected - (i + 1)))) by lia.
      reflexivity.
    + cbn [fst]. rewrite IH.
      replace (Z.to_nat (expected - (i + 1))) with 0%nat by lia.
      replace (Z.to_nat (expected - i)) with 0%nat by lia.
      reflexivity.
Qed.

Lemma assemble_nth values entries :
  forall i k entry,
    0 <= i ->
    nth_error entries k = Some entry ->
    nth_error (Push_Parser.assemble i values entries) k
    = Some (Push_Parser.mk_record (Push_Parser.obis entry)
              (match Z.to_nat (i + Z.of_nat k) with
               | O => Push_Parser.Empty
               | S j => match nth_error values j with
                        | Some v => Push_Parser.Dict v
                        | None => Push_Parser.Missing
                        end
               end)
              (Push_Parser.comment entry)).
Proof.
  induction entries as [|e entries IH]; intros i k entry Hi Hk.
  - destruct k; discriminate Hk.
  - destruct k as [|k]; cbn [nth_error] in Hk.
    + assert (e = entry) by congruence. subst e.
      cbn [Push_Parser.assemble nth_error]. f_equal. f_equal.
      rewrite Z.add_0_r. destruct (Z.eqb_spec i 0) as [->|Hne].
      * reflexivity.
      * destruct (Z.to_nat i) as [|j] eqn:Ej; [lia|].
        replace (Z.to_nat (i - 1)) with j by lia.
        destruct (Z.ltb_spec (i - 1) (Z.of_nat (length values))).
        -- reflexivity.
        -- assert (Hnone : nth_error values j = None)
             by (apply nth_error_None; lia).
           rewrite Hnone. reflexivity.
    + cbn [Push_Parser.assemble nth_error].
      rewrite (IH (i + 1) k entry) by (lia || assumption).
      replace (i + 1 + Z.of_nat k) with (i + Z.of_nat (S k)) by lia.
      reflexivity.
Qed.

Lemma assemble_length values entries :
  forall i, length (Push_Parser.assemble i values entries) = length entries.
Proof.
  induction entries as [|e entries IH]; intros i; cbn; [|rewrite IH];
    reflexivity.
Qed.

(** The array found by the path query is a child, at a definite position, of
    an element of the document. *)
Lemma obis_array_found root obis_array :
  ET.find ([], root) Push_Parser.obis_array_path = Some obis_array ->
  exists ppath i parent,
    fst obis_array = ppath ++ [i]
    /\ ET.subelement root ppath = Some parent
    /\ nth_error (ET.children parent) i = Some (snd obis_array).
Proof.
  unfold ET.find, ET.iterfind, Push_Parser.obis_array_path.
  cbn [fold_left]. intros H.
  assert (Hin : In obis_array
    (ET.select (ET.Child (chars "Array"))
       (ET.select (ET.Child (chars "Structure"))
          (ET.select (ET.Descendant (chars "DataValue")) [([], root)])))).
  { destruct (ET.select (ET.Child (chars "Array")) _) as [|x l];
      [discriminate H|]. cbn in H. left. congruence. }
  destruct (select_child_In _ _ _ Hin) as (n & j & Hn & Hj & Hc & _).
  assert (Hplace : Forall (Spec.in_place root)
    (ET.select (ET.Child (chars "Structure"))
       (ET.select (ET.Descendant (chars "DataValue")) [([], root)]))).
  { do 2 apply select_in_place. constructor; [reflexivity | constructor]. }
  rewrite Forall_forall in Hplace.
  exists (fst n), j, (snd n). repeat split; auto. apply (Hplace n Hn).
Qed.

(** The records assembled from the entries that the loop over the array
    collects, when the path query finds the array. *)
Lemma records_of_entries (root : ET.Element) (obis_array : ET.node) :
  ET.find ([], root) Push_Parser.obis_array_path = Some obis_array ->
  exists ppath i parent result,
    fst obis_array = ppath ++ [i]
    /\ ET.subelement root ppath = Some parent
    /\ nth_error (ET.children parent) i = Some (snd obis_array)
    /\ Push_Parser.extract_obis_values_and_invoke_id (Some root) = Ok result
    /\ let entries := Push_Parser.obis_entries_of obis_array in
       let n := length entries in
       let siblings := skipn (S i) (ET.children parent) in
       let values :=
         map Push_Parser._parse_xml_element_value (firstn (n - 1) siblings) in
       length values = Nat.min (n - 1) (length siblings)
       /\ length (Push_Parser.records result) = n
       /\ forall k entry,
            nth_error entries k = Some entry ->
            nth_error (Push_Parser.records result) k
            = Some (Push_Parser.mk_record (Push_Parser.obis entry)
                      (match k with
                       | O => Push_Parser.Empty
                       | S j => match nth_error values j with
                                | Some v => Push_Parser.Dict v
                                | None => Push_Parser.Missing
                                end
                       end)
                      (Push_Parser.comment entry)).
Proof.
  intros Hfind.
  destruct (obis_array_found _ _ Hfind) as (ppath & i & parent & Hp & Hsub & Hc).
  set (entries := Push_Parser.obis_entries_of obis_array).
  set (siblings := skipn (S i) (ET.children parent)).
  set (values := map Push_Parser._parse_xml_element_value
                     (firstn (length entries - 1) siblings)).
  exists ppath, i, parent,
    (Push_Parser.mk_obis_push (Push_Parser.extract_invoke_id ([], root))
       (Push_Parser.assemble 0 values entries) []).
  assert (Hi : (i < length (ET.children parent))%nat)
    by (apply nth_error_Some; congruence).
  split; [exact Hp|]. split; [exact Hsub|]. split; [exact Hc|]. split.
  - unfold Push_Parser.extract_obis_values_and_invoke_id.
    rewrite Hfind. fold entries.
    unfold Push_Parser._find_parent. cbn [fst snd].
    rewrite path_eqb_neq.
    2:{ rewrite Hp. intros E. destruct ppath; discriminate E. }
    cbn [negb]. rewrite Hp.
    rewrite <- (app_nil_l (ppath ++ [i])).
    rewrite (_iter_finds_parent ppath root [] i parent (snd obis_array) Hsub Hc).
    cbn [app]. unfold ET.child_nodes. cbn [fst snd].
    rewrite index_of_number_from by lia.
    rewrite Nat.sub_0_r.
    pose proof (split_values_fst
                  (Z.max 0 (Z.of_nat (length entries) - 1))
                  (skipn (i + 1) (ET.number_from ppath 0 (ET.children parent)))
                  0) as Hsv.
    destruct (Push_Parser.split_values _ _ _) as [vs extra].
    cbn [fst] in Hsv. rewrite Hsv.
    rewrite <- firstn_map, <- skipn_map, number_from_snd.
    replace (Z.to_nat (Z.max 0 (Z.of_nat (length entries) - 1) - 0))
      with (length entries - 1)%nat by lia.
    replace (i + 1)%nat with (S i) by lia.
    reflexivity.
  - cbv zeta. fold entries siblings values. cbn [Push_Parser.records].
    split; [|split].
    + unfold values. rewrite length_map, length_firstn. reflexivity.
    + apply assemble_length.
    + intros k entry Hk.
      rewrite (assemble_nth values entries 0 k entry) by (lia || assumption).
      rewrite Z.add_0_l, Nat2Z.id. reflexivity.
Qed.

Lemma flat_map_flat_map {A B C} (g : A -> list B) (h : B -> list C) l :
  flat_map h (flat_map g l) = flat_map (fun x => flat_map h (g x)) l.
Proof.
  induction l as [|x l IH]; [reflexivity|]. cbn [flat_map].
  rewrite flat_map_app, IH. reflexivity.
Qed.

Lemma nonempty_filter {A} (q : A -> bool) l :
  match filter q l with [] => false | _ :: _ => true end = existsb q l.
Proof.
  induction l as [|y l IH]; [reflexivity|]. cbn [filter existsb].
  destruct (q y); [reflexivity | exact IH].
Qed.

Lemma nonempty_flat_map_filter {A B} (p : A -> bool) (F : A -> list B) l :
  match flat_map F (filter p l) with [] => false | _ :: _ => true end
  = existsb (fun n => p n && match F n with [] => false | _ :: _ => true end) l.
Proof.
  induction l as [|y l IH]; [reflexivity|]. cbn [filter existsb].
  destruct (p y); cbn [andb orb flat_map]; [|exact IH].
  destruct (F y); cbn [app orb]; [exact IH | reflexivity].
Qed.

Lemma existsb_ext {A} (p q : A -> bool) l :
  (forall x, p x = q x) -> existsb p l = existsb q l.
Proof.
  intros H. induction l as [|y l IH]; [reflexivity|]. cbn [existsb].
  rewrite H, IH. reflexivity.
Qed.

Lemma holds_array_eq n :
  ET.has_tag (chars "Structure") n
  && match filter (ET.has_tag (chars "Array")) (ET.child_nodes n) with
     | [] => false
     | _ :: _ => true
     end
  = Spec.holds_array n.
Proof. rewrite nonempty_filter. reflexivity. Qed.

(** [root.find(".//DataValue/Structure/Array")] as three searches. *)
Lemma find_obis_array root :
  ET.find ([], root) Push_Parser.obis_array_path
  = match List.find
            (fun n => ET.has_tag (chars "DataValue") n
                      && existsb Spec.holds_array (ET.child_nodes n))
            (Spec.below root)
    with
    | Some data_value =>
        match List.find Spec.holds_array (ET.child_nodes data_value) with
        | Some parent =>
            List.find (ET.has_tag (chars "Array")) (ET.child_nodes parent)
        | None => None
        end
    | None => None
    end.
Proof.
  unfold ET.find, ET.iterfind, Push_Parser.obis_array_path.
  cbn [fold_left]. unfold ET.select at 3. cbn [flat_map].
  rewrite app_nil_r, tl_iter. fold (Spec.below root).
  cbn [ET.select]. rewrite flat_map_flat_map, hd_flat_map_filter.
  rewrite (find_ext _ (fun n => ET.has_tag (chars "DataValue") n
                                && existsb Spec.holds_array (ET.child_nodes n))).
  2:{ intros n. f_equal. rewrite nonempty_flat_map_filter.
      apply existsb_ext. intros st. apply holds_array_eq. }
  destruct (List.find _ (Spec.below root)) as [dv|]; [|reflexivity].
  rewrite hd_flat_map_filter.
  rewrite (find_ext _ Spec.holds_array) by (intros st; apply holds_array_eq).
  destruct (List.find Spec.holds_array _); [apply find_filter | reflexivity].
Qed.

(** The query finds the array exactly when the document has one, in the
    structure that holds it. *)
Lemma obis_array_of_find root obis_array :
  (exists parent, Spec.obis_array_of root parent obis_array)
  <-> ET.find ([], root) Push_Parser.obis_array_path = Some obis_array.
Proof.
  rewrite find_obis_array. unfold Spec.obis_array_of, Spec.first_child. split.
  - intros (parent & dv & Hdv & Hparent & Harr).
    apply find_first_such in Hdv. apply find_first_such in Hparent.
    apply find_first_such in Harr. rewrite Hdv, Hparent. exact Harr.
  - destruct (List.find _ (Spec.below root)) as [dv|] eqn:Edv; [|discriminate].
    destruct (List.find Spec.holds_array _) as [parent|] eqn:Ep; [|discriminate].
    intros H. exists parent, dv. repeat split; apply find_first_such; assumption.
Qed.

Lemma obis_array_parent root parent obis_array :
  Spec.obis_array_of root parent obis_array ->
  Spec.in_place root parent
  /\ exists i, fst obis_array = fst parent ++ [i]
               /\ nth_error (ET.children (snd parent)) i = Some (snd obis_array).
Proof.
  intros (dv & Hdv & Hparent & Harr).
  apply first_such_In in Hdv as [Hdv _].
  apply first_such_In in Hparent as [Hparent _].
  apply first_such_In in Harr as [Harr _].
  split.
  - apply (child_in_place root dv); [apply below_in_place, Hdv | exact Hparent].
  - apply child_nodes_In, Harr.
Qed.

(** The entries collected by the loop over the array are those the array
    holds. *)
Lemma obis_entries_of_octets p array :
  Push_Parser.obis_entries_of (p, array)
  = map (fun octet =>
           Push_Parser.mk_obis
             (Push_Parser.obis_dotted (ET.get octet (chars "Value") []))
             (ET.get octet (chars "Value") [])
             (Push_Parser.entry_comment octet))
        (Spec.obis_octets array).
Proof.
  unfold Push_Parser.obis_entries_of, ET.findall, ET.iterfind, Spec.obis_octets.
  cbn [fold_left ET.select flat_map]. rewrite app_nil_r.
  unfold ET.child_nodes. cbn [fst snd].
  generalize 0%nat as i.
  induction (ET.children array) as [|c cs IH]; intros i; [reflexivity|].
  cbn [ET.number_from filter flat_map]. unfold ET.has_tag at 1. cbn [snd].
  destruct (str_eqb (ET.tag c) (chars "Structure")); cbn [flat_map].
  2:{ cbn [app map]. apply IH. }
  rewrite map_app, <- (IH (S i)). f_equal.
  unfold ET.find, ET.iterfind, Spec.entry_octet.
  cbn [fold_left ET.select flat_map]. rewrite app_nil_r, find_filter.
  unfold ET.child_nodes. cbn [fst snd].
  generalize 0%nat as j. generalize (p ++ [i]) as q.
  induction (ET.children c) as [|d ds IHd]; intros q j; [reflexivity|].
  cbn [ET.number_from List.find]. unfold ET.has_tag at 1. cbn [snd].
  destruct (str_eqb (ET.tag d) (chars "OctetString")); [reflexivity|].
  apply IHd.
Qed.

(** C3.  For a notification that has an OBIS array, which is child [i] of
    the structure that holds it, and whose array holds [n] entries (its
    Structure children that have an OctetString), the values are the
    decoded first [max(0, n - 1)] siblings that follow the array in that
    structure, in order (all of them when there are fewer); further
    siblings are ignored; there is one record per entry, in order; record 0
    has the Empty value, and record [k >= 1] has value [k - 1], or the
    Missing value when that position is beyond the values. *)
Theorem obis_push_record_assembly (root : ET.Element)
        (parent obis_array : ET.node) :
  Spec.obis_array_of root parent obis_array ->
  exists i result,
    Spec.in_place root parent
    /\ fst obis_array = fst parent ++ [i]
    /\ nth_error (ET.children (snd parent)) i = Some (snd obis_array)
    /\ Push_Parser.extract_obis_values_and_invoke_id (Some root) = Ok result
    /\ let octets := Spec.obis_octets (snd obis_array) in
       let n := length octets in
       let siblings := skipn (S i) (ET.children (snd parent)) in
       let values :=
         map Push_Parser._parse_xml_element_value (firstn (n - 1) siblings) in
       length values = Nat.min (n - 1) (length siblings)
       /\ length (Push_Parser.records result) = n
       /\ forall k octet,
            nth_error octets k = Some octet ->
            nth_error (Push_Parser.records result) k
            = Some (Push_Parser.mk_record
                      (Push_Parser.obis_dotted
                         (ET.get octet (chars "Value") []))
                      (match k with
                       | O => Push_Parser.Empty
                       | S j => match nth_error values j with
                                | Some v => Push_Parser.Dict v
                                | None => Push_Parser.Missing
                                end
                       end)
                      (Push_Parser.entry_comment octet)).
Proof.
  intros Hspec.
  destruct (obis_array_parent _ _ _ Hspec) as (Hplace & i & Hpath & Hchild).
  assert (Hfind : ET.find ([], root) Push_Parser.obis_array_path
                  = Some obis_array)
    by (apply obis_array_of_find; exists parent; exact Hspec).
  destruct (records_of_entries root obis_array Hfind)
    as (ppath & i' & pe & result & Hp & Hsub & Hc & Hres & Hrec).
  assert (ppath = fst parent /\ i' = i) as [-> ->].
  { rewrite Hpath in Hp. apply app_inj_tail in Hp as [-> ->]. auto. }
  assert (pe = snd parent).
  { unfold Spec.in_place in Hplace. congruence. }
  subst pe.
  exists i, result.
  split; [exact Hplace|]. split; [exact Hpath|]. split; [exact Hchild|].
  split; [exact Hres|].
  cbv zeta in Hrec |- *.
  destruct obis_array as [apath array]. cbn [snd] in *.
  rewrite obis_entries_of_octets in Hrec.
  rewrite (length_map _ (Spec.obis_octets array)) in Hrec.
  destruct Hrec as (Hlen & Hn & Hk).
  split; [exact Hlen|]. split; [exact Hn|].
  intros k octet Hoct.
  rewrite (Hk k _ (map_nth_error _ _ _ Hoct)). reflexivity.
Qed.

Lemma obis_push_record_assembly_witness :
  let parent : ET.node := ([1; 0; 0]%nat, Samples.obis_parent) in
  let obis_array : ET.node := ([1; 0; 0; 0]%nat, Samples.obis_array) in
  exists i result,
    Spec.in_place Samples.obis_push_document parent
    /\ fst obis_array = fst parent ++ [i]
    /\ nth_error (ET.children (snd parent)) i = Some (snd obis_array)
    /\ Push_Parser.extract_obis_values_and_invoke_id
         (Some Samples.obis_push_document) = Ok result
    /\ let octets := Spec.obis_octets (snd obis_array) in
       let n := length octets in
       let siblings := skipn (S i) (ET.children (snd parent)) in
       let values :=
         map Push_Parser._parse_xml_element_value (firstn (n - 1) siblings) in
       length values = Nat.min (n - 1) (length siblings)
       /\ length (Push_Parser.records result) = n
       /\ forall k octet,
            nth_error octets k = Some octet ->
            nth_error (Push_Parser.records result) k
            = Some (Push_Parser.mk_record
                      (Push_Parser.obis_dotted
                         (ET.get octet (chars "Value") []))
                      (match k with
                       | O => Push_Parser.Empty
                       | S j => match nth_error values j with
                                | Some v => Push_Parser.Dict v
                                | None => Push_Parser.Missing
                                end
                       end)
                      (Push_Parser.entry_comment octet)).
Proof.
  cbv zeta.
  apply (obis_push_record_assembly Samples.obis_push_document
           ([1; 0; 0]%nat, Samples.obis_parent)
           ([1; 0; 0; 0]%nat, Samples.obis_array)).
  exists ([1; 0]%nat, Samples.obis_data_value).
  repeat split; apply find_first_such; reflexivity.
Defined.

(** Three OBIS entries followed by two values and a further element: record
    0 is Empty, records 1 and 2 carry the two decoded values in order, and
    the further element is ignored.  With the two values removed, records 1
    and 2 carry the Missing value. *)
Lemma obis_push_example :
  option_map
    (fun r => map Push_Parser.r_value (Push_Parser.records r))
    (Push_Parser.to_option
       (Push_Parser.extract_obis_values_and_invoke_id
          (Some Samples.obis_push_document)))
  = Some
      [Push_Parser.Empty;
       Push_Parser.Dict
         (Push_Parser.scalar (chars "UInt32") (chars "0000002A")
                             (Some (chars "42")));
       Push_Parser.Dict
         (Push_Parser.scalar (chars "Int8") (chars "FE") (Some (chars "-2")))]
  /\ option_map
       (fun r => map Push_Parser.r_value (Push_Parser.records r))
       (Push_Parser.to_option
          (Push_Parser.extract_obis_values_and_invoke_id
             (Some (Samples.elem "DataValue"
                      [Samples.elem "DataValue"
                         [Samples.elem "Structure" [Samples.obis_array]]]))))
     = Some [Push_Parser.Empty; Push_Parser.Missing; Push_Parser.Missing].
Proof. vm_compute. split; reflexivity. Qed.

(** ** Day-push rows and the deviation word *)

Lemma fromhex_bytes s :
  forall b, fromhex s = Ok b -> Forall (fun x => 0 <= x <= 255) b.
Proof.
  revert s. fix IH 1. intros [|c r] b H.
  - assert (b = []) by (cbn in H; congruence). subst b. constructor.
  - cbn [fromhex] in H. destruct (Py_ISSPACE c).
    + apply (IH r b H).
    + destruct (is_hex_digit c) eqn:Hc; [|discriminate H].
      destruct r as [|d r']; [discriminate H|].
      destruct (is_hex_digit d) eqn:Hd; [|discriminate H].
      destruct (fromhex r') as [bs|e] eqn:Hr; [|discriminate H].
      unfold bind in H.
      assert (Eb : b = 16 * digit_value c + digit_value d :: bs) by congruence.
      subst b. constructor; [|apply (IH r' bs Hr)].
      apply hex_digit_range in Hc. apply hex_digit_range in Hd. lia.
Qed.

Lemma signed16_range hi lo :
  0 <= hi <= 255 -> 0 <= lo <= 255 ->
  -32768 <= from_bytes_big_signed16 hi lo <= 32767.
Proof.
  intros Hhi Hlo. unfold from_bytes_big_signed16, from_bytes_big.
  cbn [fold_left]. destruct (Z.ltb_spec ((0 * 256 + hi) * 256 + lo) 32768); lia.
Qed.

Lemma timezone_of_minutes_ok m off :
  datetime.timezone_of_minutes m = Ok off ->
  -1440 < m < 1440 /\ off = m * datetime.us_per_minute.
Proof.
  unfold datetime.timezone_of_minutes.
  destruct (Z.ltb_spec (-1440) m) as [Hlo|Hlo];
    destruct (Z.ltb_spec m 1440) as [Hhi|Hhi];
    cbn [andb]; intros E; try discriminate E.
  split; [lia | congruence].
Qed.

Lemma make_aware y mo d h mi s tz dt :
  datetime.make y mo d h mi s (Some tz) = Ok dt -> datetime.is_aware dt = true.
Proof.
  unfold datetime.make. destruct (datetime._check_fields y mo d h mi s);
    intros H; [|discriminate H].
  assert (dt = datetime.mk y mo d h mi s 0 (Some tz)) by congruence.
  subst dt. reflexivity.
Qed.

(** C10.  The deviation read as a signed 16-bit integer is never 0x8000, so
    the guard of [_parse_dlms_datetime] always takes the [timezone(...)]
    branch; a parsed timestamp comes from at least 12 bytes, fields that form
    a valid date and time and a deviation strictly within 24 hours, and is
    timezone-aware; bytes 0x80 0x00 in the deviation position are read as
    -32768 minutes, for which the time zone cannot be built, so the function
    raises; and the row loop keeps a row only when its first child is an
    OctetString whose value parses, so a row with that sentinel is dropped. *)
Theorem day_push_rows_and_deviation :
  (forall hi lo,
     0 <= hi <= 255 -> 0 <= lo <= 255 ->
     from_bytes_big_signed16 hi lo <> 0x8000)
  /\ (forall hex_str b,
        fromhex hex_str = Ok b ->
        (from_bytes_big_signed16 (nth 9 b 0) (nth 10 b 0) =? 0x8000) = false)
  /\ (forall hex_str ts,
        Push_Parser._parse_dlms_datetime hex_str = Ok ts ->
        exists b dt,
          fromhex hex_str = Ok b
          /\ (12 <= length b)%nat
          /\ let deviation :=
               from_bytes_big_signed16 (nth 9 b 0) (nth 10 b 0) in
             -1440 < deviation < 1440
             /\ datetime.make (256 * nth 0 b 0 + nth 1 b 0) (nth 2 b 0)
                  (nth 3 b 0) (nth 5 b 0) (nth 6 b 0) (nth 7 b 0)
                  (Some (deviation * datetime.us_per_minute)) = Ok dt
             /\ datetime.is_aware dt = true
             /\ ts = datetime.isoformat dt)
  /\ (from_bytes_big_signed16 0x80 0x00 = -32768
      /\ datetime.timezone_of_minutes (-32768) = Raise ValueError)
  /\ (forall hex_str b,
        fromhex hex_str = Ok b ->
        nth 9 b 0 = 0x80 -> nth 10 b 0 = 0x00 ->
        Push_Parser._parse_dlms_datetime hex_str = Raise ValueError)
  /\ (forall struct_elem row,
        Push_Parser.row_of struct_elem = Some row ->
        exists date_octet fields,
          ET.children struct_elem = date_octet :: fields
          /\ ET.tag date_octet = chars "OctetString"
          /\ Push_Parser._parse_dlms_datetime
               (ET.get date_octet (chars "Value") [])
             = Ok (utils.timestamp row)
          /\ utils.values row = Push_Parser.row_values fields)
  /\ (forall array_elem row,
        In row (Push_Parser.day_push_rows array_elem) ->
        exists struct_elem,
          In struct_elem (ET.findall array_elem [ET.Child (chars "Structure")])
          /\ Push_Parser.row_of (snd struct_elem) = Some row)
  /\ (forall struct_elem date_octet fields b,
        ET.children struct_elem = date_octet :: fields ->
        fromhex (ET.get date_octet (chars "Value") []) = Ok b ->
        nth 9 b 0 = 0x80 -> nth 10 b 0 = 0x00 ->
        Push_Parser.row_of struct_elem = None).
Proof.
  assert (Hguard : forall hi lo,
            0 <= hi <= 255 -> 0 <= lo <= 255 ->
            from_bytes_big_signed16 hi lo <> 0x8000).
  { intros hi lo Hhi Hlo. pose proof (signed16_range hi lo Hhi Hlo). lia. }
  assert (Hguard' : forall hex_str b,
            fromhex hex_str = Ok b ->
            (from_bytes_big_signed16 (nth 9 b 0) (nth 10 b 0) =? 0x8000) = false).
  { intros hex_str b Hb. apply Z.eqb_neq.
    apply fromhex_bytes in Hb. apply Hguard; apply nth_byte; exact Hb. }
  assert (Hsentinel : forall hex_str b,
            fromhex hex_str = Ok b ->
            nth 9 b 0 = 0x80 -> nth 10 b 0 = 0x00 ->
            Push_Parser._parse_dlms_datetime hex_str = Raise ValueError).
  { intros hex_str b Hb H9 H10. unfold Push_Parser._parse_dlms_datetime.
    rewrite Hb. cbn [bind]. destruct (length b <? 12)%nat; [reflexivity|].
    rewrite H9, H10. reflexivity. }
  split; [exact Hguard|]. split; [exact Hguard'|].
  split; [|split; [|split; [|split; [|split]]]].
  - intros hex_str ts H. unfold Push_Parser._parse_dlms_datetime in H.
    destruct (fromhex hex_str) as [b|e] eqn:Hb; [|discriminate H].
    cbn [bind] in H.
    destruct (Nat.ltb_spec (length b) 12) as [|Hlen]; [discriminate H|].
    rewrite (Hguard' hex_str b Hb) in H. cbn [negb] in H.
    destruct (datetime.timezone_of_minutes _) as [tz|e] eqn:Htz;
      [|discriminate H].
    cbn [bind] in H.
    destruct (datetime.make _ _ _ _ _ _ _) as [dt|e] eqn:Hdt; [|discriminate H].
    cbn [bind] in H.
    destruct (timezone_of_minutes_ok _ _ Htz) as [Hrange ->].
    exists b, dt. split; [reflexivity|]. split; [exact Hlen|].
    cbv zeta. split; [exact Hrange|].
    destruct b as [|b0 [|b1 b']]; cbn [List.length] in Hlen; try lia.
    cbn [firstn from_bytes_big fold_left nth] in Hdt |- *.
    replace (256 * b0 + b1) with ((0 * 256 + b0) * 256 + b1) by lia.
    split; [exact Hdt|]. split; [apply (make_aware _ _ _ _ _ _ _ _ Hdt)|].
    congruence.
  - split; reflexivity.
  - exact Hsentinel.
  - intros struct_elem row H. unfold Push_Parser.row_of in H.
    destruct (ET.children struct_elem) as [|date_octet fields]; [discriminate H|].
    destruct (str_eqb (ET.tag date_octet) (chars "OctetString")) eqn:Htag;
      [|discriminate H].
    cbn [negb] in H.
    destruct (Push_Parser._parse_dlms_datetime _) as [ts|e] eqn:Hts;
      [|discriminate H].
    assert (row = utils.mk_row ts (Push_Parser.row_values fields))
      by congruence.
    subst row. exists date_octet, fields.
    split; [reflexivity|]. split; [apply str_eqb_eq, Htag|].
    split; [exact Hts | reflexivity].
  - intros array_elem row H. unfold Push_Parser.day_push_rows in H.
    apply in_flat_map in H. destruct H as (struct_elem & Hin & Hrow).
    exists struct_elem. split; [exact Hin|].
    destruct (Push_Parser.row_of (snd struct_elem)) as [row'|]; [|destruct Hrow].
    destruct Hrow as [->|[]]. reflexivity.
  - intros struct_elem date_octet fields b Hch Hb H9 H10.
    unfold Push_Parser.row_of. rewrite Hch.
    destruct (str_eqb _ _); [|reflexivity]. cbn [negb].
    rewrite (Hsentinel _ b Hb H9 H10). reflexivity.
Qed.

Lemma day_push_rows_and_deviation_witness :
  exists b dt,
    fromhex (chars "07EA010DFF0E2114FFFF4C00") = Ok b
    /\ (12 <= length b)%nat
    /\ let deviation := from_bytes_big_signed16 (nth 9 b 0) (nth 10 b 0) in
       -1440 < deviation < 1440
       /\ datetime.make (256 * nth 0 b 0 + nth 1 b 0) (nth 2 b 0)
            (nth 3 b 0) (nth 5 b 0) (nth 6 b 0) (nth 7 b 0)
            (Some (deviation * datetime.us_per_minute)) = Ok dt
       /\ datetime.is_aware dt = true
       /\ chars "2026-01-13T14:33:20-03:00" = datetime.isoformat dt.
Proof.
  apply (proj1 (proj2 (proj2 day_push_rows_and_deviation))
           (chars "07EA010DFF0E2114FFFF4C00")).
  reflexivity.
Defined.

(** Of the three rows of the sample, the one with deviation 0x8000 is
    dropped; the others keep their offsets. *)
Lemma day_push_rows_example :
  option_map (fun r => map utils.timestamp (Push_Parser.dp_data r))
    (Push_Parser.to_option
       (Push_Parser.parse_new_style_push (Some Samples.day_push_document)))
  = Some [chars "2026-01-13T14:33:20-03:00"; chars "2026-01-14T14:33:20+00:00"]
  /\ Push_Parser._parse_dlms_datetime (chars "07EA010DFF0E2114FF800000")
     = Raise ValueError.
Proof. vm_compute. split; reflexivity. Qed.

(** ** Day-push classification and interval validation *)

Lemma sorted_perm_unique (l1 l2 : list Z) :
  StronglySorted Z.le l1 -> StronglySorted Z.le l2 -> Permutation l1 l2 ->
  l1 = l2.
Proof.
  revert l2. induction l1 as [|a l1 IH]; intros l2 H1 H2 HP.
  - apply Permutation_nil in HP. congruence.
  - destruct l2 as [|b l2].
    { apply Permutation_sym, Permutation_nil in HP. discriminate HP. }
    apply StronglySorted_inv in H1 as [H1 Ha].
    apply StronglySorted_inv in H2 as [H2 Hb].
    rewrite Forall_forall in Ha, Hb.
    assert (Hab : a = b).
    { assert (Ina : In a (b :: l2))
        by (apply (Permutation_in _ HP); left; reflexivity).
      assert (Inb : In b (a :: l1))
        by (apply (Permutation_in _ (Permutation_sym HP)); left; reflexivity).
      destruct Ina as [|Ina]; [congruence|].
      destruct Inb as [|Inb]; [congruence|].
      specialize (Ha _ Inb). specialize (Hb _ Ina). lia. }
    subst b. f_equal. apply IH; auto.
    apply (Permutation_cons_inv HP).
Qed.

Lemma ordered_instants ts :
  Spec.ordered ts -> StronglySorted Z.le (map datetime.instant ts).
Proof.
  unfold Spec.ordered. induction 1 as [|a l Hs IH Ha]; cbn [map].
  - constructor.
  - constructor; [exact IH|]. rewrite Forall_map. exact Ha.
Qed.

Lemma lt_same_kind k a b :
  datetime.is_aware a = k -> datetime.is_aware b = k ->
  datetime.lt a b = Ok (datetime.instant a <? datetime.instant b)
  /\ datetime.sub a b = Ok (datetime.instant a - datetime.instant b).
Proof.
  intros Ha Hb. unfold datetime.lt, datetime.sub. rewrite Ha, Hb.
  rewrite Bool.eqb_reflx. auto.
Qed.

Lemma insert_sorted_ok k x l :
  datetime.is_aware x = k ->
  Forall (fun d => datetime.is_aware d = k) l ->
  Spec.ordered l ->
  exists r, utils.insert_sorted x l = Ok r
            /\ Permutation r (x :: l) /\ Spec.ordered r.
Proof.
  intros Hx Hall Hord. induction l as [|y l IH].
  - exists [x]. repeat split; auto. repeat constructor.
  - apply Forall_cons_iff in Hall as [Hy Hall'].
    apply StronglySorted_inv in Hord as [Hord Hy_le].
    cbn [utils.insert_sorted].
    destruct (lt_same_kind _ y x Hy Hx) as [Hlt _]. rewrite Hlt.
    cbn [bind]. destruct (Z.ltb_spec (datetime.instant y) (datetime.instant x)).
    + destruct (IH Hall' Hord) as (r & Hr & HP & Hs). rewrite Hr. cbn [bind].
      exists (y :: r). split; [reflexivity|]. split.
      * rewrite HP. apply perm_swap.
      * constructor; [exact Hs|].
        apply (Permutation_Forall (Permutation_sym HP)).
        constructor; [lia | exact Hy_le].
    + exists (x :: y :: l). split; [reflexivity|]. split; [reflexivity|].
      constructor; [constructor; assumption|].
      constructor; [lia|].
      eapply Forall_impl; [|exact Hy_le]. cbn. intros; lia.
Qed.

Lemma sort_ok k l :
  Forall (fun d => datetime.is_aware d = k) l ->
  exists s, utils.sort l = Ok s /\ Permutation s l /\ Spec.ordered s.
Proof.
  induction 1 as [|x l Hx Hall IH].
  - exists []. repeat split; auto. constructor.
  - destruct IH as (s & Hs & HP & Hord). cbn [utils.sort]. rewrite Hs.
    cbn [bind].
    destruct (insert_sorted_ok k x s Hx) as (r & Hr & HPr & Hordr); auto.
    { apply (Permutation_Forall (Permutation_sym HP)). exact Hall. }
    exists r. repeat split; auto. rewrite HPr. constructor. exact HP.
Qed.

(** The sort succeeds only on timestamps that are all aware or all naive. *)
Lemma sort_ok_homogeneous l s : utils.sort l = Ok s -> Spec.homogeneous l.
Proof.
  revert s. induction l as [|x l IH]; intros s H.
  - exists true. constructor.
  - cbn [utils.sort] in H.
    destruct (utils.sort l) as [s'|e] eqn:Hs'; [|discriminate H].
    cbn [bind] in H. destruct (IH s' eq_refl) as (k & Hk).
    destruct (sort_ok k l Hk) as (s'' & Hs'' & HP & _).
    assert (s'' = s') by congruence. subst s''.
    destruct s' as [|y s'].
    + apply Permutation_nil in HP. subst l.
      exists (datetime.is_aware x). repeat constructor.
    + exists k. constructor; [|exact Hk].
      cbn [utils.insert_sorted] in H. unfold datetime.lt in H.
      assert (Hy : datetime.is_aware y = k).
      { rewrite Forall_forall in Hk. apply Hk.
        apply (Permutation_in _ HP). left. reflexivity. }
      rewrite Hy in H.
      destruct (datetime.is_aware x), k; cbn in H; congruence.
Qed.

Lemma spaced_cons delta a b zs :
  Spec.spaced delta (a :: b :: zs)
  <-> b - a = delta /\ Spec.spaced delta (b :: zs).
Proof.
  unfold Spec.spaced. split.
  - intros H. split.
    + apply (H 0%nat); reflexivity.
    + intros i x y Hx Hy. apply (H (S i)); assumption.
  - intros [H0 H] [|i] x y Hx Hy.
    + cbn in Hx, Hy. congruence.
    + apply (H i); assumption.
Qed.

Lemma spaced_short delta zs : (length zs < 2)%nat -> Spec.spaced delta zs.
Proof.
  intros Hl i a b Ha Hb.
  assert (S i < length zs)%nat by (apply nth_error_Some; congruence). lia.
Qed.

Lemma check_intervals_spec k delta rest :
  forall prev,
    Forall (fun d => datetime.is_aware d = k) (prev :: rest) ->
    exists b, utils.check_intervals delta prev rest = Ok b
              /\ (b = true
                  <-> Spec.spaced delta (map datetime.instant (prev :: rest))).
Proof.
  induction rest as [|cur rest IH]; intros prev Hall.
  - exists true. split; [reflexivity|]. split; [|reflexivity].
    intros _. apply spaced_short. cbn. lia.
  - apply Forall_cons_iff in Hall as [Hp Hall'].
    pose proof (proj1 (proj1 (Forall_cons_iff _ _ _) Hall')) as Hc.
    cbn [utils.check_intervals].
    destruct (lt_same_kind _ cur prev Hc Hp) as [_ Hsub]. rewrite Hsub.
    cbn [bind map].
    destruct (Z.eqb_spec (datetime.instant cur - datetime.instant prev) delta)
      as [E|E]; cbn [negb].
    + destruct (IH cur Hall') as (b & Hb & Hiff). exists b.
      split; [exact Hb|]. rewrite spaced_cons, Hiff. cbn [map]. tauto.
    + exists false. split; [reflexivity|]. rewrite spaced_cons.
      split; [discriminate | tauto].
Qed.

Lemma parse_timestamps_ok f data ts :
  utils.parse_timestamps f data = Ok ts
  <-> Forall2
        (fun r t =>
           f (replace (chars "Z") (chars "+00:00") (utils.timestamp r)) = Ok t)
        data ts.
Proof.
  revert ts. induction data as [|r data IH]; intros ts; cbn [utils.parse_timestamps].
  - split.
    + intros H. assert (ts = []) by congruence. subst. constructor.
    + intros H. inversion H. reflexivity.
  - split.
    + intros H. destruct (f _) as [t|e] eqn:Hf; [|discriminate H].
      cbn [bind] in H.
      destruct (utils.parse_timestamps f data) as [ts'|e] eqn:Hts;
        [|discriminate H].
      cbn [bind] in H. assert (ts = t :: ts') by congruence. subst ts.
      constructor; [exact Hf | apply IH; reflexivity].
    + intros H. inversion H as [|? t ? ts' Hf Hrest]; subst.
      rewrite Hf. cbn [bind]. apply IH in Hrest. rewrite Hrest. reflexivity.
Qed.

Lemma parse_timestamps_raise f data r e :
  In r data ->
  f (replace (chars "Z") (chars "+00:00") (utils.timestamp r)) = Raise e ->
  exists e', utils.parse_timestamps f data = Raise e'.
Proof.
  intros Hin Hr. induction data as [|r0 data IH]; [destruct Hin|].
  cbn [utils.parse_timestamps]. destruct Hin as [->|Hin].
  - rewrite Hr. exists e. reflexivity.
  - destruct (f (replace (chars "Z") (chars "+00:00") (utils.timestamp r0)))
      as [t|e0]; [|exists e0; reflexivity].
    cbn [bind].
    destruct (IH Hin) as (e' & He'). rewrite He'. exists e'. reflexivity.
Qed.

Lemma validate_unfold f entry profile_type :
  utils.validate_day_push_intervals f entry profile_type
  = if (length (utils.data entry) <? 2)%nat then true
    else
      try_except
        (timestamps <- utils.parse_timestamps f (utils.data entry) ;;
         timestamps <- utils.sort timestamps ;;
         match timestamps with
         | [] => Ok true
         | t0 :: rest =>
             utils.check_intervals
               (if str_eqb profile_type (chars "daily")
                then datetime.timedelta_days 1
                else datetime.timedelta_minutes 30) t0 rest
         end)
        false.
Proof. reflexivity. Qed.

(** C7 (as amended).  [classify_day_push_entry] answers "daily" exactly when
    the first row has 20 values, "half_hourly" exactly when it has 4, and
    "unknown" otherwise, also for no rows.  [validate_day_push_intervals]
    answers true for fewer than 2 rows, whatever their timestamps; with at
    least 2 rows it answers false when a timestamp fails to parse or when
    the timestamps cannot be compared (aware mixed with naive); and when all
    timestamps parse and can be compared it answers true exactly when, in
    sorted order, every timestamp exceeds the one before it by exactly 24
    hours for "daily" and exactly 30 minutes for "half_hourly". *)
Theorem day_push_classification_and_intervals
        (fromisoformat : str -> result datetime.t)
        (entry : utils.day_entry) (profile_type : str) :
  let data := utils.data entry in
  let parsed r :=
    fromisoformat (replace (chars "Z") (chars "+00:00") (utils.timestamp r)) in
  let valid := utils.validate_day_push_intervals fromisoformat entry
                 profile_type in
  (utils.classify_day_push_entry entry = chars "daily"
   <-> exists first rest,
         data = first :: rest /\ length (utils.values first) = 20%nat)
  /\ (utils.classify_day_push_entry entry = chars "half_hourly"
      <-> exists first rest,
            data = first :: rest /\ length (utils.values first) = 4%nat)
  /\ (utils.classify_day_push_entry entry = chars "unknown"
      <-> data = []
          \/ exists first rest,
               data = first :: rest
               /\ length (utils.values first) <> 20%nat
               /\ length (utils.values first) <> 4%nat)
  /\ ((length data < 2)%nat -> valid = true)
  /\ ((2 <= length data)%nat ->
      (exists r e, In r data /\ parsed r = Raise e) -> valid = false)
  /\ (forall ts delta,
        Forall2 (fun r t => parsed r = Ok t) data ts ->
        (profile_type = chars "daily" /\ delta = Spec.hours_24)
        \/ (profile_type = chars "half_hourly" /\ delta = Spec.minutes_30) ->
        (~ Spec.homogeneous ts -> valid = false)
        /\ (Spec.homogeneous ts ->
            forall sorted,
              Permutation sorted ts -> Spec.ordered sorted ->
              (valid = true <-> Spec.evenly_spaced delta sorted))).
Proof.
  cbv zeta.
  split; [|split; [|split; [|split; [|split]]]].
  - unfold utils.classify_day_push_entry.
    destruct (utils.data entry) as [|first rest].
    + split; [discriminate | intros (? & ? & H & _); discriminate H].
    + destruct (Nat.eqb_spec (length (utils.values first)) 20) as [E|E].
      * split; [exists first, rest; auto | reflexivity].
      * split.
        -- destruct (length (utils.values first) =? 4)%nat; discriminate.
        -- intros (f' & r' & H & H'). congruence.
  - unfold utils.classify_day_push_entry.
    destruct (utils.data entry) as [|first rest].
    + split; [discriminate | intros (? & ? & H & _); discriminate H].
    + destruct (Nat.eqb_spec (length (utils.values first)) 20) as [E|E].
      * split; [discriminate|]. intros (f' & r' & H & H').
        assert (f' = first) by congruence. subst f'. lia.
      * destruct (Nat.eqb_spec (length (utils.values first)) 4) as [E4|E4].
        -- split; [exists first, rest; auto | reflexivity].
        -- split; [discriminate|]. intros (f' & r' & H & H'). congruence.
  - unfold utils.classify_day_push_entry.
    destruct (utils.data entry) as [|first rest].
    + split; [auto | reflexivity].
    + destruct (Nat.eqb_spec (length (utils.values first)) 20) as [E|E].
      * split; [discriminate|]. intros [H|(f' & r' & H & H20 & _)];
          [discriminate H|]. congruence.
      * destruct (Nat.eqb_spec (length (utils.values first)) 4) as [E4|E4].
        -- split; [discriminate|]. intros [H|(f' & r' & H & _ & H4)];
             [discriminate H|]. congruence.
        -- split; [|reflexivity]. intros _. right. exists first, rest. auto.
  - intros Hlen. rewrite validate_unfold.
    apply Nat.ltb_lt in Hlen. rewrite Hlen. reflexivity.
  - intros Hlen (r & e & Hin & Hr). rewrite validate_unfold.
    apply Nat.ltb_ge in Hlen. rewrite Hlen.
    destruct (parse_timestamps_raise _ _ _ _ Hin Hr) as (e' & He').
    rewrite He'. reflexivity.
  - intros ts delta Hts Hprofile.
    assert (Hdelta :
      (if str_eqb profile_type (chars "daily")
       then datetime.timedelta_days 1
       else datetime.timedelta_minutes 30) = delta).
    { destruct Hprofile as [[-> ->]|[-> ->]]; reflexivity. }
    assert (Hl : length ts = length (utils.data entry))
      by (symmetry; apply (Forall2_length Hts)).
    apply parse_timestamps_ok in Hts.
    rewrite validate_unfold, Hts, Hdelta. cbn [bind].
    destruct (Nat.ltb_spec (length (utils.data entry)) 2) as [Hlen|Hlen].
    + split.
      * intros Hnot. exfalso. apply Hnot.
        destruct ts as [|t [|t' ts]]; cbn in Hl; try lia.
        -- exists true. constructor.
        -- exists (datetime.is_aware t). repeat constructor.
      * intros _ sorted HP _. split; [|reflexivity]. intros _.
        apply spaced_short. rewrite length_map, (Permutation_length HP). lia.
    + split.
      * intros Hnot. destruct (utils.sort ts) as [s|e] eqn:Hs; [|reflexivity].
        exfalso. apply Hnot. apply (sort_ok_homogeneous _ _ Hs).
      * intros (k & Hk) sorted HP Hord.
        destruct (sort_ok k ts Hk) as (s & Hs & HPs & Hords). rewrite Hs.
        cbn [bind].
        assert (Heq : map datetime.instant s = map datetime.instant sorted).
        { apply sorted_perm_unique; try apply ordered_instants; auto.
          apply Permutation_map. rewrite HPs, HP. reflexivity. }
        unfold Spec.evenly_spaced. rewrite <- Heq.
        destruct s as [|t0 rest].
        -- cbn [try_except]. split; [|reflexivity]. intros _.
           apply spaced_short. cbn. lia.
        -- assert (Hks : Forall (fun d => datetime.is_aware d = k) (t0 :: rest))
             by (apply (Permutation_Forall (Permutation_sym HPs)); exact Hk).
           destruct (check_intervals_spec k delta rest t0 Hks) as (b & Hb & Hiff).
           rewrite Hb. cbn [try_except]. exact Hiff.
Qed.

Lemma day_push_classification_and_intervals_witness :
  utils.validate_day_push_intervals datetime.fromisoformat_seconds
    Samples.half_hourly_entry (chars "half_hourly") = true.
Proof.
  destruct (day_push_classification_and_intervals
              datetime.fromisoformat_seconds Samples.half_hourly_entry
              (chars "half_hourly"))
    as (_ & _ & _ & _ & _ & H).
  destruct (H Samples.half_hourly_timestamps Spec.minutes_30) as [_ Hiff].
  - repeat constructor.
  - right. split; reflexivity.
  - assert (Hhom : Spec.homogeneous Samples.half_hourly_timestamps)
      by (exists true; repeat constructor).
    apply (Hiff Hhom Samples.half_hourly_sorted).
    + apply perm_swap.
    + repeat constructor; vm_compute; discriminate.
    + unfold Spec.evenly_spaced.
      set (zs := map datetime.instant Samples.half_hourly_sorted).
      vm_compute in zs. subst zs.
      intros [|[|[|[|i]]]] a b Ha Hb; cbn [nth_error] in Ha, Hb;
        try discriminate Hb;
        assert (Ea := f_equal (fun o => match o with Some x => x | None => 0 end) Ha);
        assert (Eb := f_equal (fun o => match o with Some x => x | None => 0 end) Hb);
        cbn beta iota in Ea, Eb; subst a b; reflexivity.
Defined.

(** Four rows half an hour apart, out of order and in two time zones,
    classify as "half_hourly" and validate; with one row a second late, or
    against the "daily" profile, they do not. *)
Lemma day_push_interval_examples :
  utils.classify_day_push_entry Samples.half_hourly_entry = chars "half_hourly"
  /\ utils.validate_day_push_intervals datetime.fromisoformat_seconds
       Samples.half_hourly_entry (chars "half_hourly") = true
  /\ utils.validate_day_push_intervals datetime.fromisoformat_seconds
       Samples.half_hourly_entry_late (chars "half_hourly") = false
  /\ utils.validate_day_push_intervals datetime.fromisoformat_seconds
       Samples.half_hourly_entry (chars "daily") = false.
Proof. vm_compute. repeat split. Qed.

(** C7 (as stated, refuted).  It is not the case that a timestamp that fails
    to parse always makes the answer false: an entry with a single row whose
    timestamp is not a date validates. *)
Lemma validate_single_unparsable_row :
  (exists r e,
     In r (utils.data Samples.single_bad_row_entry)
     /\ datetime.fromisoformat_seconds
          (replace (chars "Z") (chars "+00:00") (utils.timestamp r))
        = Raise e)
  /\ utils.validate_day_push_intervals datetime.fromisoformat_seconds
       Samples.single_bad_row_entry (chars "half_hourly") = true
  /\ ~ (forall fromisoformat entry profile_type,
          (exists r e,
             In r (utils.data entry)
             /\ fromisoformat
                  (replace (chars "Z") (chars "+00:00") (utils.timestamp r))
                = Raise e) ->
          utils.validate_day_push_intervals fromisoformat entry profile_type
          = false).
Proof.
  assert (Hbad : exists r e,
     In r (utils.data Samples.single_bad_row_entry)
     /\ datetime.fromisoformat_seconds
          (replace (chars "Z") (chars "+00:00") (utils.timestamp r))
        = Raise e).
  { exists (Samples.row "garbage" [1; 2; 3; 4]), ValueError.
    split; [left; reflexivity | reflexivity]. }
  split; [exact Hbad|]. split; [reflexivity|].
  intros H.
  specialize (H datetime.fromisoformat_seconds Samples.single_bad_row_entry
                (chars "half_hourly") Hbad).
  vm_compute in H. discriminate H.
Qed.

(** ** The matcher *)

Section Matcher.

Context {C : Type} {char : re.Char C}.

Lemma literal_at_app (l s : list C) :
  re.literal_at l s = true <-> exists r, s = l ++ r.
Proof.
  revert s. induction l as [|c l IH]; intros s; cbn [re.literal_at app].
  - split; [exists s; reflexivity | reflexivity].
  - destruct s as [|d s].
    + split; [discriminate | intros (r & H); discriminate H].
    + rewrite andb_true_iff, re.eqb_eq, IH. split.
      * intros (-> & r & ->). exists r. reflexivity.
      * intros (r & H). assert (c = d /\ s = l ++ r) as [-> ->]
          by (split; congruence).
        split; [reflexivity | exists r; reflexivity].
Qed.

Lemma literal_match (l : list C) p s g x :
  re.match_here (re.Literal l :: p) s g = Some x
  <-> exists r, s = l ++ r /\ re.match_here p r g = Some x.
Proof.
  cbn [re.match_here]. destruct (re.literal_at l s) eqn:E.
  - apply literal_at_app in E as (r & ->).
    rewrite skipn_app, skipn_all, Nat.sub_diag. cbn [app skipn]. split.
    + intros H. exists r. auto.
    + intros (r' & Hr & H). apply app_inv_head in Hr. subst r'. exact H.
  - split; [discriminate|]. intros (r & -> & _).
    assert (re.literal_at l (l ++ r) = true) by (apply literal_at_app; eauto).
    congruence.
Qed.

(** What a successful greedy repetition consumed. *)
Lemma plus_sound {A} (cls : C -> bool) (k : list C -> list C -> option A) s :
  forall acc x,
    re.plus cls k acc s = Some x ->
    exists t r, s = t ++ r /\ Spec.run cls t /\ k (acc ++ t) r = Some x.
Proof.
  induction s as [|c s IH]; intros acc x H; cbn [re.plus] in H.
  - discriminate H.
  - destruct (cls c) eqn:Hc; [|discriminate H].
    destruct (re.plus cls k (acc ++ [c]) s) as [y|] eqn:E.
    + assert (y = x) by congruence. subst y.
      destruct (IH _ _ E) as (t & r & -> & [_ Ht] & Hk).
      exists (c :: t), r. rewrite <- app_assoc in Hk.
      repeat split; auto. discriminate.
    + exists [c], s. repeat split; auto. discriminate.
Qed.

(** A run that cannot be extended is what the greedy repetition takes,
    provided the rest of the pattern matches after it. *)
Lemma plus_maximal {A} (cls : C -> bool) (k : list C -> list C -> option A) t :
  Spec.run cls t ->
  forall acc r x,
    match r with [] => True | c :: _ => cls c = false end ->
    k (acc ++ t) r = Some x ->
    re.plus cls k acc (t ++ r) = Some x.
Proof.
  intros [Hne Hall]. induction Hall as [|c t Hc Hall IH]; [congruence|].
  intros acc r x Hr Hk. cbn [app re.plus]. rewrite Hc.
  destruct t as [|c' t'].
  - cbn [app].
    assert (Hstop : re.plus cls k (acc ++ [c]) r = None).
    { destruct r as [|d r']; [reflexivity|]. cbn [re.plus]. rewrite Hr.
      reflexivity. }
    rewrite Hstop. exact Hk.
  - rewrite (IH ltac:(discriminate) (acc ++ [c]) r x Hr).
    + reflexivity.
    + rewrite <- app_assoc. exact Hk.
Qed.

Lemma run_head_class (cls : C -> bool) t r :
  Spec.run cls t -> exists c t', t ++ r = c :: t' /\ cls c = true.
Proof.
  intros [Hne Hall]. destruct t as [|c t]; [congruence|].
  exists c, (t ++ r). split; [reflexivity|]. inversion Hall; assumption.
Qed.

Lemma group_sound (cls : C -> bool) p s g x :
  re.match_here (re.Group cls :: p) s g = Some x ->
  exists t r, s = t ++ r /\ Spec.run cls t
              /\ re.match_here p r (g ++ [t]) = Some x.
Proof.
  cbn [re.match_here]. intros H.
  destruct (plus_sound _ _ _ _ _ H) as (t & r & Hs & Ht & Hk).
  exists t, r. auto.
Qed.

Lemma plus_atom_sound (cls : C -> bool) p s g x :
  re.match_here (re.Plus cls :: p) s g = Some x ->
  exists t r, s = t ++ r /\ Spec.run cls t /\ re.match_here p r g = Some x.
Proof.
  cbn [re.match_here]. intros H.
  destruct (plus_sound _ _ _ _ _ H) as (t & r & Hs & Ht & Hk).
  exists t, r. auto.
Qed.

Lemma group_complete (cls : C -> bool) p t r g x :
  Spec.run cls t ->
  match r with [] => True | c :: _ => cls c = false end ->
  re.match_here p r (g ++ [t]) = Some x ->
  re.match_here (re.Group cls :: p) (t ++ r) g = Some x.
Proof.
  intros Ht Hr Hk. cbn [re.match_here].
  apply (plus_maximal cls _ t Ht [] r x Hr). exact Hk.
Qed.

Lemma plus_atom_complete (cls : C -> bool) p t r g x :
  Spec.run cls t ->
  match r with [] => True | c :: _ => cls c = false end ->
  re.match_here p r g = Some x ->
  re.match_here (re.Plus cls :: p) (t ++ r) g = Some x.
Proof.
  intros Ht Hr Hk. cbn [re.match_here].
  apply (plus_maximal cls _ t Ht [] r x Hr). exact Hk.
Qed.

(** [search] returns the match at the first position that has one. *)
Lemma search_some (p : re.pattern C) s g :
  re.search p s = Some g ->
  exists before rest,
    s = before ++ rest /\ re.match_here p rest [] = Some g
    /\ forall b' r', s = b' ++ r' -> (length b' < length before)%nat ->
                     re.match_here p r' [] = None.
Proof.
  induction s as [|c s IH]; cbn [re.search]; intros H.
  - destruct (re.match_here p [] []) as [g'|] eqn:E; [|discriminate H].
    exists [], []. repeat split; [congruence|]. intros b' r' _ Hl. cbn in Hl. lia.
  - destruct (re.match_here p (c :: s) []) as [g'|] eqn:E.
    + exists [], (c :: s). repeat split; [congruence|].
      intros b' r' _ Hl. cbn in Hl. lia.
    + destruct (IH H) as (before & rest & -> & Hm & Hleft).
      exists (c :: before), rest. repeat split; [exact Hm|].
      intros [|c' b'] r' Hs Hl.
      * cbn in Hs. subst r'. exact E.
      * cbn in Hs, Hl.
        assert (c' = c /\ b' ++ r' = before ++ rest) as [-> Hs']
          by (split; congruence).
        apply (Hleft b' r'); [symmetry; exact Hs' | lia].
Qed.

Lemma search_none (p : re.pattern C) s :
  re.search p s = None ->
  forall before rest, s = before ++ rest -> re.match_here p rest [] = None.
Proof.
  induction s as [|c s IH]; cbn [re.search]; intros H before rest Hs.
  - destruct before; [|discriminate Hs]. cbn in Hs. subst rest.
    destruct (re.match_here p [] []); [discriminate H | reflexivity].
  - destruct (re.match_here p (c :: s) []) eqn:E; [discriminate H|].
    destruct before as [|c' before].
    + cbn in Hs. subst rest. exact E.
    + cbn in Hs. assert (s = before ++ rest) by congruence.
      apply (IH H before rest). assumption.
Qed.

End Matcher.

Lemma same_length_prefix {A} (a a' b b' : list A) :
  a ++ b = a' ++ b' -> length a = length a' -> a = a' /\ b = b'.
Proof.
  revert a'. induction a as [|x a IH]; intros [|x' a'] H Hl;
    try discriminate Hl.
  - auto.
  - cbn in H, Hl. assert (x = x' /\ a ++ b = a' ++ b') as [-> H']
      by (split; congruence).
    destruct (IH a' H' ltac:(lia)) as [-> ->]. auto.
Qed.

(** ** The autoconnect pattern on ASCII text *)







(** The announcement of the specification, a variant without [pt=], and a
    variant with a tab and an address that is no dotted quad, on the
    processor for ASCII buffers. *)
Lemma autoconnect_examples :
  message_handler.process_message Samples.quiet_processor
    (Samples.ascii_bytes "<sn=ABC123 ip=10.0.0.5 pt=4059>") None
  = (None,
     [message_handler.on_autoconnect_called (chars "ABC123") (chars "10.0.0.5")
        4059;
      message_handler.logged_autoconnect [] (chars "ABC123") (chars "10.0.0.5")
        (chars "4059")])
  /\ message_handler._is_autoconnect Samples.quiet_processor
       (Samples.ascii_bytes "<sn=ABC123 ip=10.0.0.5>") [] = (false, [])
  /\ fst (message_handler._is_autoconnect Samples.quiet_processor
            (map ord (chars "<sn=A" ++ ["009"%char] ++ chars "ip=1..2  pt=7>"))
            [])
     = true.
Proof. vm_compute. repeat split. Qed.

(** ** The autoconnect pattern on decoded text *)

(** On a buffer of bytes below 0x80 the decoder returns the bytes. *)
Lemma decode_ascii_buffer raw_data :
  Forall (fun b => b < 128) raw_data -> utf_8.decode raw_data = raw_data.
Proof.
  induction 1 as [|b l Hb _ IH]; [reflexivity|]. cbn [utf_8.decode].
  replace (b <? 128) with true by (symmetry; apply Z.ltb_lt; exact Hb).
  rewrite IH. reflexivity.
Qed.

(** The text has at most as many code points as the buffer has bytes. *)
Lemma decode_length raw_data :
  (length (utf_8.decode raw_data) <= length raw_data)%nat.
Proof.
  assert (H : forall n data, (length data <= n)%nat ->
                (length (utf_8.decode data) <= length data)%nat).
  { induction n as [|n IH]; intros data Hn.
    - destruct data; [cbn; lia | cbn in Hn; lia].
    - destruct data as [|b0 r1]; [cbn; lia|].
      cbn [List.length] in Hn.
      assert (H1 : (length (utf_8.decode r1) <= length r1)%nat)
        by (apply IH; lia).
      cbn [utf_8.decode].
      repeat match goal with
             | |- context [if ?b then _ else _] => destruct b
             | |- context [match ?l with [] => _ | _ :: _ => _ end] =>
                 let x := fresh "b" in
                 let r := fresh "r" in
                 destruct l as [|x r];
                   [|pose proof (IH r ltac:(cbn [List.length] in *; lia))]
             end; cbn [List.length] in *; lia. }
  apply (H (length raw_data)). lia.
Qed.

(** A match of the pattern at the start of [s] is a decomposition of [s],
    and the groups are its three fields. *)
Lemma text_match_here_sound db s g :
  re.match_here (MessageProcessor.AUTOCONNECT_PATTERN db) s [] = Some g ->
  exists sn ip pt after,
    g = [sn; ip; pt] /\ Spec.text_match db [] after sn ip pt s.
Proof.
  unfold MessageProcessor.AUTOCONNECT_PATTERN. intros H.
  apply literal_match in H as (r1 & -> & H).
  apply group_sound in H as (sn & r2 & -> & Hsn & H).
  apply plus_atom_sound in H as (ws1 & r3 & -> & Hws1 & H).
  apply literal_match in H as (r4 & -> & H).
  apply group_sound in H as (ip & r5 & -> & Hip & H).
  apply plus_atom_sound in H as (ws2 & r6 & -> & Hws2 & H).
  apply literal_match in H as (r7 & -> & H).
  apply group_sound in H as (pt & r8 & -> & Hpt & H).
  apply literal_match in H as (after & -> & H).
  cbn [re.match_here app] in H.
  exists sn, ip, pt, after. split; [inversion H; reflexivity|].
  exists ws1, ws2. cbn [app]. repeat split; try apply Hsn; try apply Hws1;
    try apply Hip; try apply Hws2; try apply Hpt.
Qed.

(** White space is neither a digit nor a dot. *)
Lemma text_space_classes db ch :
  re.text_s db ch = true ->
  re.text_S db ch = false /\ re.text_d_dot db ch = false.
Proof.
  unfold re.text_s, re.text_S, re.text_d_dot, re.text_d.
  unfold unicodedata.isspace, unicodedata.decimal. intros H.
  rewrite H. split; [reflexivity|].
  destruct (ch <? 128) eqn:Ea.
  - destruct (Z.eqb_spec ch 46) as [->|_]; [discriminate H|].
    rewrite orb_false_r.
    destruct ((48 <=? ch) && (ch <=? 57)) eqn:E; [|reflexivity].
    apply andb_true_iff in E as [E1 E2].
    apply orb_true_iff in H as [H|H]; apply andb_true_iff in H as [? ?]; lia.
  - apply Z.ltb_ge in Ea.
    replace (ch =? 46) with false by (symmetry; apply Z.eqb_neq; lia).
    destruct (db ch); (discriminate H || reflexivity).
Qed.

(** A decomposition of [s] makes the pattern match at its start, with the
    fields of the decomposition as groups. *)
Lemma text_match_here_complete db s sn ip pt after :
  Spec.text_match db [] after sn ip pt s ->
  re.match_here (MessageProcessor.AUTOCONNECT_PATTERN db) s []
  = Some [sn; ip; pt].
Proof.
  intros (ws1 & ws2 & -> & Hsn & Hws1 & Hip & Hws2 & Hpt).
  unfold MessageProcessor.AUTOCONNECT_PATTERN. cbn [app].
  apply literal_match. eexists. split; [reflexivity|].
  apply group_complete; [exact Hsn | |].
  { destruct (run_head_class _ ws1
                (utf_8.codes "ip=" ++ ip ++ ws2 ++ utf_8.codes "pt=" ++ pt
                 ++ utf_8.codes ">" ++ after) Hws1) as (c & t' & -> & Hc).
    apply text_space_classes, Hc. }
  apply plus_atom_complete; [exact Hws1 | reflexivity |].
  apply literal_match. eexists. split; [reflexivity|].
  apply group_complete; [exact Hip | |].
  { destruct (run_head_class _ ws2
                (utf_8.codes "pt=" ++ pt ++ utf_8.codes ">" ++ after) Hws2)
      as (c & t' & -> & Hc).
    apply text_space_classes, Hc. }
  apply plus_atom_complete; [exact Hws2 | reflexivity |].
  apply literal_match. eexists. split; [reflexivity|].
  apply group_complete; [exact Hpt | reflexivity |].
  apply literal_match. eexists. split; reflexivity.
Qed.

Lemma text_match_at db before after sn ip pt text :
  Spec.text_match db before after sn ip pt text
  <-> exists rest, text = before ++ rest
                   /\ Spec.text_match db [] after sn ip pt rest.
Proof.
  unfold Spec.text_match. split.
  - intros (ws1 & ws2 & -> & H). eexists. split; [reflexivity|].
    exists ws1, ws2. split; [reflexivity | exact H].
  - intros (rest & -> & ws1 & ws2 & -> & H). exists ws1, ws2.
    split; [reflexivity | exact H].
Qed.

(** The value of a decimal digit, and the ASCII digit that stands for it. *)
Lemma text_d_value db ch :
  re.text_d db ch = true ->
  exists d, unicodedata.decimal db ch = Some d /\ 0 <= d <= 9
            /\ (ch < 128 -> ch = 48 + d).
Proof.
  unfold re.text_d, unicodedata.decimal.
  destruct (ch <? 128) eqn:Ea.
  - destruct ((48 <=? ch) && (ch <=? 57)) eqn:E; [|discriminate].
    apply andb_true_iff in E as [E1 E2]. intros _. exists (ch - 48).
    repeat split; lia.
  - apply Z.ltb_ge in Ea. destruct (db ch) as [|d|]; try discriminate.
    intros _. exists (unicodedata.digit_number d).
    split; [reflexivity|]. split; [destruct d; cbn; lia | lia].
Qed.

Lemma ascii_digit_value d :
  0 <= d <= 9 -> digit_value (ascii_of_N (Z.to_N (48 + d))) = d.
Proof.
  intros H.
  assert (E : d = 0 \/ d = 1 \/ d = 2 \/ d = 3 \/ d = 4 \/ d = 5 \/ d = 6
              \/ d = 7 \/ d = 8 \/ d = 9) by lia.
  repeat (destruct E as [->|E]; [reflexivity|]). subst d. reflexivity.
Qed.

(** The ASCII text that [int] reads for a run of decimal digits. *)
Lemma transform_digits db pt :
  Forall (fun ch => re.text_d db ch = true) pt ->
  utf_8.TransformDecimalAndSpaceToASCII db pt
  = map (fun ch => 48 + match unicodedata.decimal db ch with
                        | Some d => d
                        | None => 0
                        end) pt
  /\ (forallb (fun ch => ch <? 128) pt = true ->
      pt = map (fun ch => 48 + match unicodedata.decimal db ch with
                               | Some d => d
                               | None => 0
                               end) pt).
Proof.
  induction 1 as [|ch pt Hch _ [IH1 IH2]]; [split; reflexivity|].
  destruct (text_d_value db ch Hch) as (d & Hd & Hrange & Hascii).
  cbn [utf_8.TransformDecimalAndSpaceToASCII map forallb]. rewrite Hd. split.
  - destruct (ch <? 127) eqn:E.
    + apply Z.ltb_lt in E. rewrite IH1. f_equal. apply Hascii. lia.
    + assert (Hs : unicodedata.isspace db ch = false).
      { destruct (unicodedata.isspace db ch) eqn:Hs; [|reflexivity].
        destruct (text_space_classes db ch Hs) as [_ Hdd].
        unfold re.text_d_dot in Hdd. rewrite Hch in Hdd. discriminate Hdd. }
      rewrite Hs, IH1. reflexivity.
  - intros H. apply andb_true_iff in H as [Ha Hrest].
    apply Z.ltb_lt in Ha. rewrite <- (IH2 Hrest). f_equal. apply Hascii, Ha.
Qed.

Lemma digits_of_port db pt acc :
  Forall (fun ch => re.text_d db ch = true) pt ->
  Spec.digits_val 10
    (map (fun ch => ascii_of_N (Z.to_N ch))
       (map (fun ch => 48 + match unicodedata.decimal db ch with
                             | Some d => d
                             | None => 0
                             end) pt)) acc
  = fold_left
      (fun acc ch =>
         acc * 10 + match unicodedata.decimal db ch with
                    | Some d => d
                    | None => 0
                    end)
      pt acc
  /\ Spec.all_digits 10
       (map (fun ch => ascii_of_N (Z.to_N ch))
          (map (fun ch => 48 + match unicodedata.decimal db ch with
                                | Some d => d
                                | None => 0
                                end) pt)).
Proof.
  intros H. revert acc. induction H as [|ch pt Hch _ IH]; intros acc.
  - split; [reflexivity | constructor].
  - destruct (text_d_value db ch Hch) as (d & Hd & Hrange & _).
    cbn [map Spec.digits_val fold_left]. rewrite Hd.
    rewrite ascii_digit_value by exact Hrange.
    destruct (IH (acc * 10 + d)) as [IH1 IH2]. split; [exact IH1|].
    constructor; [rewrite ascii_digit_value by exact Hrange; lia | exact IH2].
Qed.

Lemma ascii_digits_count pt :
  Spec.all_digits 10 pt ->
  length (filter (fun c => digit_value c <? 10) pt) = length pt.
Proof.
  induction 1 as [|c pt Hc _ IH]; [reflexivity|]. cbn [filter].
  replace (digit_value c <? 10) with true
    by (symmetry; apply Z.ltb_lt; exact Hc).
  cbn [List.length]. rewrite IH. reflexivity.
Qed.

(** [int] reads a run of decimal digits as the number they denote, unless
    it has more digits than the interpreter converts. *)
Lemma text_int_port db max_str_digits pt :
  Spec.run (re.text_d db) pt ->
  (Spec.within_int_limit max_str_digits pt ->
   utf_8.int db max_str_digits pt = Ok (Spec.port_number db pt))
  /\ (~ Spec.within_int_limit max_str_digits pt ->
      utf_8.int db max_str_digits pt = Raise ValueError).
Proof.
  intros [Hne Hall]. unfold utf_8.int, Spec.port_number, Spec.within_int_limit.
  destruct (transform_digits db pt Hall) as [Ht Ha].
  destruct (digits_of_port db pt 0 Hall) as [Hv Hd].
  assert (E : (if forallb (fun ch => ch <? 128) pt then pt
               else utf_8.TransformDecimalAndSpaceToASCII db pt)
              = map (fun ch => 48 + match unicodedata.decimal db ch with
                                    | Some d => d
                                    | None => 0
                                    end) pt).
  { destruct (forallb _ pt); [apply Ha; reflexivity | exact Ht]. }
  cbv zeta. rewrite E, <- Hv, (ascii_digits_count _ Hd), !length_map.
  destruct ((640 <? length pt)%nat && (0 <? max_str_digits)%nat
            && (max_str_digits <? length pt)%nat) eqn:Elim.
  - apply andb_true_iff in Elim as [Elim E3].
    apply andb_true_iff in Elim as [E1 E2].
    apply Nat.ltb_lt in E1, E2, E3. split; [lia | reflexivity].
  - split.
    + intros _. apply int_digits; [left; reflexivity | | exact Hd].
      destruct pt; [congruence | discriminate].
    + intros Hout. exfalso. apply Hout.
      destruct (Nat.ltb_spec 640 (length pt)); [|lia].
      destruct (Nat.ltb_spec 0 max_str_digits); [|lia].
      destruct (Nat.ltb_spec max_str_digits (length pt)); [|lia].
      discriminate Elim.
Qed.

(** ** The two processors on ASCII buffers *)

Section Simulation.

Context {A B : Type} {char_A : re.Char A} {char_B : re.Char B}.
Variable f : A -> B.
Variable ok : A -> Prop.
Hypothesis f_injective : forall x y, f x = f y -> x = y.

Lemma literal_at_map l s :
  re.literal_at (map f l) (map f s) = re.literal_at l s.
Proof.
  revert s. induction l as [|x l IH]; intros [|y s]; cbn [map re.literal_at];
    try reflexivity.
  rewrite IH. f_equal.
  destruct (re.eqb x y) eqn:E.
  - apply re.eqb_eq in E. subst y. apply re.eqb_eq. reflexivity.
  - destruct (re.eqb (f x) (f y)) eqn:E'; [|reflexivity].
    apply re.eqb_eq, f_injective in E'. subst y.
    assert (re.eqb x x = true) by (apply re.eqb_eq; reflexivity). congruence.
Qed.

Lemma plus_map {R R'} (g : R -> R') cls cls'
      (k : list A -> list A -> option R) (k' : list B -> list B -> option R') s :
  (forall x, ok x -> cls' (f x) = cls x) ->
  Forall ok s ->
  (forall t r, Forall ok r -> k' (map f t) (map f r) = option_map g (k t r)) ->
  forall taken,
    re.plus cls' k' (map f taken) (map f s)
    = option_map g (re.plus cls k taken s).
Proof.
  intros Hcls Hs Hk. induction Hs as [|c s Hc Hs IH]; intros taken;
    [reflexivity|].
  cbn [map re.plus]. rewrite (Hcls c Hc).
  destruct (cls c); [|reflexivity].
  specialize (IH (taken ++ [c])). rewrite map_app in IH. cbn [map] in IH.
  rewrite IH.
  destruct (re.plus cls k (taken ++ [c]) s); [reflexivity|].
  cbn [option_map]. rewrite <- (Hk (taken ++ [c]) s Hs), map_app.
  reflexivity.
Qed.

(** Atom by atom the same pattern gives the same match, character by
    character. *)
Lemma match_here_map p p' :
  Forall2 (Spec.same_atom f ok) p p' ->
  forall s g,
    Forall ok s ->
    re.match_here p' (map f s) (map (map f) g)
    = option_map (map (map f)) (re.match_here p s g).
Proof.
  induction 1 as [|a b p p' Hab Hp IH]; intros s g Hs; [reflexivity|].
  destruct a as [l|cls|cls], b as [l'|cls'|cls']; cbn in Hab;
    try contradiction.
  - subst l'. cbn [re.match_here]. rewrite literal_at_map.
    destruct (re.literal_at l s); [|reflexivity].
    rewrite length_map, skipn_map. apply IH.
    rewrite <- (firstn_skipn (length l) s) in Hs.
    apply Forall_app in Hs as [_ Hs]. exact Hs.
  - cbn [re.match_here].
    refine (plus_map (map (map f)) cls cls' _ _ s Hab Hs _ []).
    intros _ r Hr. apply IH, Hr.
  - cbn [re.match_here].
    refine (plus_map (map (map f)) cls cls' _ _ s Hab Hs _ []).
    intros t r Hr. rewrite <- (IH r (g ++ [t]) Hr), map_app. reflexivity.
Qed.

Lemma search_map p p' :
  Forall2 (Spec.same_atom f ok) p p' ->
  forall s,
    Forall ok s ->
    re.search p' (map f s) = option_map (map (map f)) (re.search p s).
Proof.
  intros Hp. induction 1 as [|c s Hc Hs IH]; cbn [map re.search].
  - pose proof (match_here_map p p' Hp [] [] (Forall_nil _)) as H.
    cbn [map] in H. rewrite H.
    destruct (re.match_here p [] []); reflexivity.
  - pose proof (match_here_map p p' Hp (c :: s) [] (Forall_cons _ Hc Hs)) as H.
    cbn [map] in H. rewrite H.
    destruct (re.match_here p (c :: s) []); [reflexivity | exact IH].
Qed.

End Simulation.

Lemma ord_injective x y : ord x = ord y -> x = y.
Proof.
  unfold ord. intros H. apply N2Z.inj in H.
  rewrite <- (ascii_N_embedding x), <- (ascii_N_embedding y), H. reflexivity.
Qed.

Lemma ord_byte b :
  0 <= b < 256 -> ord (ascii_of_N (Z.to_N b)) = b.
Proof.
  intros H. unfold ord. rewrite N_ascii_embedding; [apply Z2N.id; lia|].
  change 256%N with (Z.to_N 256). apply Z2N.inj_lt; lia.
Qed.

(** On a buffer of bytes below 0x80 the two processors read the same text
    and find the same match, whatever the Unicode database: the processor
    of [message_handler] is the processor on ASCII buffers. *)
Lemma ascii_buffers_same_match db raw_data :
  message_handler.is_ascii_buffer raw_data ->
  utf_8.decode raw_data
  = map ord (message_handler.decode_utf8_replace raw_data)
  /\ re.search (MessageProcessor.AUTOCONNECT_PATTERN db)
       (utf_8.decode raw_data)
     = option_map (map (map ord))
         (re.search message_handler.AUTOCONNECT_PATTERN
            (message_handler.decode_utf8_replace raw_data)).
Proof.
  intros Hascii.
  assert (Htext : utf_8.decode raw_data
                  = map ord (message_handler.decode_utf8_replace raw_data)).
  { rewrite decode_ascii_buffer
      by (eapply Forall_impl; [|exact Hascii]; cbn; lia).
    unfold message_handler.decode_utf8_replace. rewrite map_map.
    symmetry. rewrite <- (map_id raw_data) at 2.
    apply map_ext_in. intros b Hb.
    unfold message_handler.is_ascii_buffer in Hascii.
    rewrite Forall_forall in Hascii. apply ord_byte.
    specialize (Hascii b Hb). lia. }
  split; [exact Htext|]. rewrite Htext.
  apply (search_map ord (fun c => ord c < 128) ord_injective).
  - unfold message_handler.AUTOCONNECT_PATTERN,
      MessageProcessor.AUTOCONNECT_PATTERN.
    assert (Hs : forall c, ord c < 128 -> re.text_s db (ord c) = re.class_s c).
    { intros c Hc. unfold re.text_s, re.class_s, unicodedata.isspace, isspace.
      replace (ord c <? 128) with true by (symmetry; apply Z.ltb_lt; exact Hc).
      reflexivity. }
    assert (Hd : forall c, ord c < 128 -> re.text_d db (ord c) = re.class_d c).
    { intros c Hc. unfold re.text_d, re.class_d, unicodedata.decimal.
      replace (ord c <? 128) with true by (symmetry; apply Z.ltb_lt; exact Hc).
      destruct ((48 <=? ord c) && (ord c <=? 57)); reflexivity. }
    repeat constructor; cbn [Spec.same_atom]; try reflexivity.
    + intros c Hc. unfold re.text_S, re.class_S. fold (re.text_s db (ord c)).
      rewrite (Hs c Hc). reflexivity.
    + exact Hs.
    + intros c Hc. unfold re.text_d_dot, re.class_d_dot. rewrite (Hd c Hc).
      f_equal. destruct (Ascii.eqb_spec c "."%char) as [->|Hne];
        [reflexivity|].
      apply Z.eqb_neq. intros E. apply Hne. apply ord_injective. exact E.
    + exact Hs.
    + exact Hd.
  - unfold message_handler.decode_utf8_replace.
    apply Forall_map. eapply Forall_impl; [|exact Hascii].
    cbn. intros b Hb. rewrite ord_byte by lia. lia.
Qed.

(** C9 (as amended).  The pattern of the code is
    [<sn=(\S+)\s+ip=([\d.]+)\s+pt=(\d+)>].  The text of a buffer is its
    decoding as UTF-8 with U+FFFD in place of malformed sequences.  For
    every buffer whose text holds no match of the pattern,
    [_is_autoconnect] answers false and calls nothing.  For every buffer
    whose text holds a match, the fields are those of the leftmost match;
    when a callback is registered and returns normally, [process_message]
    calls it exactly once, with the serial number, the address and the
    port as an integer, logs the announcement and returns no response;
    when no callback is registered it logs the announcement and returns no
    response.  A port of more digits than the interpreter converts is not
    converted, and [_is_autoconnect] then answers false without a call;
    with the interpreter's own limit of 4300 digits, or none, this takes a
    buffer longer than the 4096 bytes the listener reads at a time. *)
Theorem autoconnect_dispatch (db : unicodedata.database)
        (max_str_digits : nat) (self : MessageProcessor.processor)
        (raw_data : bytes) (local_port : option Z) :
  let text := utf_8.decode raw_data in
  ((~ exists before after sn ip pt,
        Spec.text_match db before after sn ip pt text) ->
   forall port_info,
     MessageProcessor._is_autoconnect db max_str_digits self raw_data
       port_info
     = (false, []))
  /\ ((exists before after sn ip pt,
          Spec.text_match db before after sn ip pt text) ->
      exists before after sn ip pt port_info,
        Spec.text_match db before after sn ip pt text
        /\ (forall before' after' sn' ip' pt',
              Spec.text_match db before' after' sn' ip' pt' text ->
              (length before <= length before')%nat
              /\ (length before' = length before ->
                  sn' = sn /\ ip' = ip /\ pt' = pt))
        /\ (forall callback,
              MessageProcessor.on_autoconnect self = Some callback ->
              (Spec.within_int_limit max_str_digits pt ->
               callback sn ip (Spec.port_number db pt) = Ok tt ->
               MessageProcessor.process_message db max_str_digits self
                 raw_data local_port
               = (None,
                  [MessageProcessor.on_autoconnect_called sn ip
                     (Spec.port_number db pt);
                   MessageProcessor.logged_autoconnect port_info sn ip pt]))
              /\ (~ Spec.within_int_limit max_str_digits pt ->
                  MessageProcessor._is_autoconnect db max_str_digits self
                    raw_data port_info
                  = (false, [])))
        /\ (MessageProcessor.on_autoconnect self = None ->
            MessageProcessor.process_message db max_str_digits self raw_data
              local_port
            = (None,
               [MessageProcessor.logged_autoconnect port_info sn ip pt]))
        /\ ((length raw_data <= 4096)%nat ->
            (max_str_digits = 0 \/ 4096 <= max_str_digits)%nat ->
            Spec.within_int_limit max_str_digits pt)).
Proof.
  cbv zeta. split.
  - intros Hnone port_info. unfold MessageProcessor._is_autoconnect.
    destruct (re.search _ _) as [g|] eqn:Hs; [|reflexivity].
    exfalso. apply Hnone.
    destruct (search_some _ _ _ Hs) as (before & rest & Ht & Hm & _).
    destruct (text_match_here_sound _ _ _ Hm)
      as (sn & ip & pt & after & _ & H).
    exists before, after, sn, ip, pt. apply text_match_at. eauto.
  - intros (b0 & a0 & sn0 & ip0 & pt0 & H0).
    apply text_match_at in H0 as (rest0 & Ht0 & H0).
    apply text_match_here_complete in H0.
    destruct (re.search (MessageProcessor.AUTOCONNECT_PATTERN db)
                (utf_8.decode raw_data)) as [g|] eqn:Hs.
    2:{ rewrite (search_none _ _ Hs b0 rest0 Ht0) in H0. discriminate H0. }
    destruct (search_some _ _ _ Hs) as (before & rest & Ht & Hm & Hleft).
    destruct (text_match_here_sound _ _ _ Hm)
      as (sn & ip & pt & after & -> & H).
    pose proof H as (ws1 & ws2 & Hrest & _ & _ & _ & _ & Hpt).
    destruct (text_int_port db max_str_digits pt Hpt) as [Hin Hout].
    set (port_info :=
           match local_port with
           | Some p => if p =? 0 then []
                       else chars " (port " ++ str_of_int p ++ chars ")"
           | None => []
           end).
    exists before, after, sn, ip, pt, port_info.
    split; [apply text_match_at; eauto|]. split; [|split; [|split]].
    + intros before' after' sn' ip' pt' H'.
      apply text_match_at in H' as (rest' & Ht' & H').
      apply text_match_here_complete in H'.
      split.
      * destruct (Nat.le_gt_cases (length before) (length before'))
          as [|Hlt]; [assumption|].
        rewrite (Hleft before' rest' Ht' Hlt) in H'. discriminate H'.
      * intros Hl.
        destruct (same_length_prefix before' before rest' rest) as [_ ->];
          [congruence | exact Hl |].
        rewrite Hm in H'. inversion H'. auto.
    + intros callback Hcb. split.
      * intros Hlim Hok.
        unfold MessageProcessor.process_message,
          MessageProcessor._is_autoconnect.
        fold port_info. rewrite Hs, Hcb, (Hin Hlim), Hok. reflexivity.
      * intros Hlim. unfold MessageProcessor._is_autoconnect.
        rewrite Hs, Hcb, (Hout Hlim). reflexivity.
    + intros Hcb.
      unfold MessageProcessor.process_message, MessageProcessor._is_autoconnect.
      fold port_info. rewrite Hs, Hcb. reflexivity.
    + intros Hlen [Hmax|Hmax]; [right; left; exact Hmax|].
      right. right.
      pose proof (decode_length raw_data) as Hdec.
      rewrite Ht, Hrest in Hdec. rewrite !length_app in Hdec. lia.
Qed.

Lemma autoconnect_dispatch_witness :
  let db := Samples.sample_database in
  let raw_data := Samples.announcement_in_other_scripts in
  let text := utf_8.decode raw_data in
  exists before after sn ip pt port_info,
    Spec.text_match db before after sn ip pt text
    /\ (forall before' after' sn' ip' pt',
          Spec.text_match db before' after' sn' ip' pt' text ->
          (length before <= length before')%nat
          /\ (length before' = length before ->
              sn' = sn /\ ip' = ip /\ pt' = pt))
    /\ (forall callback,
          MessageProcessor.on_autoconnect Samples.quiet_listener
          = Some callback ->
          (Spec.within_int_limit 4300 pt ->
           callback sn ip (Spec.port_number db pt) = Ok tt ->
           MessageProcessor.process_message db 4300 Samples.quiet_listener
             raw_data None
           = (None,
              [MessageProcessor.on_autoconnect_called sn ip
                 (Spec.port_number db pt);
               MessageProcessor.logged_autoconnect port_info sn ip pt]))
          /\ (~ Spec.within_int_limit 4300 pt ->
              MessageProcessor._is_autoconnect db 4300 Samples.quiet_listener
                raw_data port_info
              = (false, [])))
    /\ (MessageProcessor.on_autoconnect Samples.quiet_listener = None ->
        MessageProcessor.process_message db 4300 Samples.quiet_listener
          raw_data None
        = (None, [MessageProcessor.logged_autoconnect port_info sn ip pt]))
    /\ ((length raw_data <= 4096)%nat ->
        (4300 = 0 \/ 4096 <= 4300)%nat ->
        Spec.within_int_limit 4300 pt).
Proof.
  cbv zeta.
  apply (proj2 (autoconnect_dispatch Samples.sample_database 4300
                  Samples.quiet_listener
                  Samples.announcement_in_other_scripts None)).
  exists [], [], [0xE9], (utf_8.codes "1.2.3.4"), [0x664; 0x662].
  exists (utf_8.codes " "), [0xA0].
  split; [reflexivity|].
  repeat split; try discriminate; repeat constructor.
Defined.

(** The announcement of the specification; a variant without [pt=]; an
    announcement after two bytes that are not UTF-8, each decoded as
    U+FFFD; and an announcement with a serial number outside ASCII, a
    no-break space and a port in Arabic-Indic digits. *)
Lemma autoconnect_text_examples :
  (forall db limit,
     MessageProcessor.process_message db limit Samples.quiet_listener
       (Samples.ascii_bytes "<sn=ABC123 ip=10.0.0.5 pt=4059>") None
     = (None,
        [MessageProcessor.on_autoconnect_called (utf_8.codes "ABC123")
           (utf_8.codes "10.0.0.5") 4059;
         MessageProcessor.logged_autoconnect [] (utf_8.codes "ABC123")
           (utf_8.codes "10.0.0.5") (utf_8.codes "4059")]))
  /\ (forall db limit,
        MessageProcessor.process_message db limit Samples.quiet_listener
          (Samples.ascii_bytes "<sn=ABC123 ip=10.0.0.5>") None
        = (None,
           [MessageProcessor.logged_text []
              (utf_8.codes "<sn=ABC123 ip=10.0.0.5>")]))
  /\ (forall db limit,
        utf_8.decode Samples.announcement_after_invalid_bytes
        = [0xFFFD; 0xFFFD] ++ utf_8.codes "<sn=A ip=1.2.3.4 pt=5>"
        /\ MessageProcessor.process_message db limit Samples.quiet_listener
             Samples.announcement_after_invalid_bytes None
           = (None,
              [MessageProcessor.on_autoconnect_called (utf_8.codes "A")
                 (utf_8.codes "1.2.3.4") 5;
               MessageProcessor.logged_autoconnect [] (utf_8.codes "A")
                 (utf_8.codes "1.2.3.4") (utf_8.codes "5")]))
  /\ MessageProcessor.process_message Samples.sample_database 4300
       Samples.quiet_listener Samples.announcement_in_other_scripts None
     = (None,
        [MessageProcessor.on_autoconnect_called [0xE9]
           (utf_8.codes "1.2.3.4") 42;
         MessageProcessor.logged_autoconnect [] [0xE9]
           (utf_8.codes "1.2.3.4") [0x664; 0x662]]).
Proof.
  split; [|split; [|split]]; try intros db limit; vm_compute; repeat split.
Qed.

Lemma text_dotted_quad_length db ip :
  Spec.text_dotted_quad db ip -> (7 <= length ip)%nat.
Proof.
  intros (a & b & c & d & -> & [Ha _] & [Hb _] & [Hc _] & [Hd _]).
  repeat rewrite length_app. unfold utf_8.codes.
  cbn [List.length chars list_ascii_of_string map].
  destruct a; [congruence|]. destruct b; [congruence|].
  destruct c; [congruence|]. destruct d; [congruence|].
  cbn [List.length]. lia.
Qed.

(** C9 (as stated, refuted).  The text below holds a match of the pattern as
    the specification writes it, with fields ABC, 1.2.3.4 and 5; the
    callback is called with X, 1 and 2, the fields of an earlier match of
    the pattern of the code, and 1 is not a dotted quad.  The buffer is
    ASCII, so this holds on every interpreter. *)
Lemma autoconnect_claimed_pattern_refuted :
  let raw_data :=
    Samples.ascii_bytes "<sn=X ip=1 pt=2> <sn=ABC ip=1.2.3.4 pt=5>" in
  (forall db,
     Spec.claimed_text_match db (utf_8.codes "<sn=X ip=1 pt=2> ") []
       (utf_8.codes "ABC") (utf_8.codes "1.2.3.4") (utf_8.codes "5")
       (utf_8.decode raw_data))
  /\ (forall db limit,
        MessageProcessor.process_message db limit Samples.quiet_listener
          raw_data None
        = (None,
           [MessageProcessor.on_autoconnect_called (utf_8.codes "X")
              (utf_8.codes "1") 2;
            MessageProcessor.logged_autoconnect [] (utf_8.codes "X")
              (utf_8.codes "1") (utf_8.codes "2")]))
  /\ (forall db, ~ Spec.text_dotted_quad db (utf_8.codes "1")).
Proof.
  cbv zeta. split; [|split].
  - intros db. split; [reflexivity|]. split; [|split].
    + split; [discriminate | repeat constructor].
    + exists (utf_8.codes "1"), (utf_8.codes "2"), (utf_8.codes "3"),
        (utf_8.codes "4").
      split; [reflexivity|].
      repeat split; try discriminate; repeat constructor.
    + split; [discriminate | repeat constructor].
  - intros db limit. vm_compute. reflexivity.
  - intros db H. apply text_dotted_quad_length in H. cbn in H. lia.
Qed.

(** The decoder on well-formed and malformed sequences: a three-byte and a
    four-byte character; a sequence cut short by the end of the buffer,
    replaced as a whole; a wrong byte inside a sequence, where decoding
    resumes; an encoded surrogate, an overlong form and a value above
    U+10FFFF, replaced byte by byte. *)
Lemma decode_examples :
  utf_8.decode [0xE2; 0x82; 0xAC] = [0x20AC]
  /\ utf_8.decode [0xF0; 0x9F; 0x98; 0x80] = [0x1F600]
  /\ utf_8.decode [0x41; 0xE2; 0x82] = [0x41; 0xFFFD]
  /\ utf_8.decode [0xE2; 0x28; 0xA1] = [0xFFFD; 0x28; 0xFFFD]
  /\ utf_8.decode [0xF0; 0x90; 0x28; 0xBC] = [0xFFFD; 0x28; 0xFFFD]
  /\ utf_8.decode [0xED; 0xA0; 0x80] = [0xFFFD; 0xFFFD; 0xFFFD]
  /\ utf_8.decode [0xC0; 0xAF] = [0xFFFD; 0xFFFD]
  /\ utf_8.decode [0xF4; 0x90; 0x80; 0x80] = [0xFFFD; 0xFFFD; 0xFFFD; 0xFFFD].
Proof. vm_compute. repeat split. Qed.


(* ===================================================================== *)
(** * Part III.  Further properties of the sources                        *)
(* ===================================================================== *)

(** ** Hexadecimal text *)

Lemma below_16_cases (P : Z -> Prop) :
  P 0 -> P 1 -> P 2 -> P 3 -> P 4 -> P 5 -> P 6 -> P 7 -> P 8 -> P 9 ->
  P 10 -> P 11 -> P 12 -> P 13 -> P 14 -> P 15 ->
  forall k, 0 <= k < 16 -> P k.
Proof.
  intros. 
  assert (E : k = 0 \/ k = 1 \/ k = 2 \/ k = 3 \/ k = 4 \/ k = 5 \/ k = 6
              \/ k = 7 \/ k = 8 \/ k = 9 \/ k = 10 \/ k = 11 \/ k = 12
              \/ k = 13 \/ k = 14 \/ k = 15) by lia.
  repeat (destruct E as [->|E]; [assumption|]). subst k. assumption.
Qed.

(** The digits written by [format_02X]: hexadecimal digits with the value
    they stand for, none of them white space or a dash. *)
Lemma upper_hex_digit k :
  0 <= k < 16 ->
  let c := Hex.hex_digit (chars "0123456789ABCDEF") k in
  is_hex_digit c = true /\ digit_value c = k
  /\ Py_ISSPACE c = false /\ isspace c = false
  /\ Ascii.eqb c " " = false /\ Ascii.eqb c "-" = false
  /\ upper_char (Hex.hex_digit (chars "0123456789abcdef") k) = c.
Proof.
  revert k. apply below_16_cases; vm_compute; repeat split.
Qed.

Lemma byte_halves b :
  0 <= b <= 255 ->
  0 <= b / 16 < 16 /\ 0 <= b mod 16 < 16 /\ 16 * (b / 16) + b mod 16 = b.
Proof.
  intros H. split; [|split].
  - split; [apply Z.div_pos; lia | apply Z.div_lt_upper_bound; lia].
  - apply Z.mod_pos_bound. lia.
  - symmetry. apply Z.div_mod. lia.
Qed.

Lemma upper_hex data :
  Forall (fun b => 0 <= b <= 255) data ->
  upper (Hex.hex data) = flat_map Hex.format_02X data.
Proof.
  induction 1 as [|b data Hb _ IH]; [reflexivity|].
  destruct (byte_halves b Hb) as (Hhi & Hlo & _).
  unfold upper, Hex.hex in *. cbn [flat_map app map]. rewrite IH.
  unfold Hex.format_02X. cbn [app].
  destruct (upper_hex_digit _ Hhi) as (_ & _ & _ & _ & _ & _ & ->).
  destruct (upper_hex_digit _ Hlo) as (_ & _ & _ & _ & _ & _ & ->).
  reflexivity.
Qed.

Lemma unhexlify_format_02X b rest :
  0 <= b <= 255 ->
  unhexlify (Hex.format_02X b ++ rest)
  = (bs <- unhexlify rest ;; Ok (b :: bs)).
Proof.
  intros Hb. destruct (byte_halves b Hb) as (Hhi & Hlo & Hsum).
  destruct (upper_hex_digit _ Hhi) as (Hh1 & Hv1 & _).
  destruct (upper_hex_digit _ Hlo) as (Hh2 & Hv2 & _).
  unfold Hex.format_02X. cbn [app unhexlify].
  rewrite Hh1, Hh2, Hv1, Hv2, Hsum. reflexivity.
Qed.

Lemma unhexlify_flat_format data :
  Forall (fun b => 0 <= b <= 255) data ->
  unhexlify (flat_map Hex.format_02X data) = Ok data.
Proof.
  induction 1 as [|b data Hb _ IH]; [reflexivity|].
  cbn [flat_map]. rewrite unhexlify_format_02X by exact Hb.
  rewrite IH. reflexivity.
Qed.

Lemma fromhex_format_02X b rest :
  0 <= b <= 255 ->
  fromhex (Hex.format_02X b ++ rest) = (bs <- fromhex rest ;; Ok (b :: bs)).
Proof.
  intros Hb. destruct (byte_halves b Hb) as (Hhi & Hlo & Hsum).
  destruct (upper_hex_digit _ Hhi) as (Hh1 & Hv1 & Hs1 & _).
  destruct (upper_hex_digit _ Hlo) as (Hh2 & Hv2 & _).
  unfold Hex.format_02X. cbn [app fromhex].
  rewrite Hs1, Hh1, Hh2, Hv1, Hv2, Hsum. reflexivity.
Qed.

Lemma fromhex_flat_format data :
  Forall (fun b => 0 <= b <= 255) data ->
  fromhex (flat_map Hex.format_02X data) = Ok data.
Proof.
  induction 1 as [|b data Hb _ IH]; [reflexivity|].
  cbn [flat_map]. rewrite fromhex_format_02X by exact Hb.
  rewrite IH. reflexivity.
Qed.

Lemma join_cons2 sep (p q : str) rest :
  join sep (p :: q :: rest) = p ++ sep ++ join sep (q :: rest).
Proof. reflexivity. Qed.

Lemma fromhex_join_format data :
  Forall (fun b => 0 <= b <= 255) data ->
  fromhex (join (chars " ") (map Hex.format_02X data)) = Ok data.
Proof.
  induction 1 as [|b data Hb Hall IH]; [reflexivity|].
  destruct data as [|b' data].
  - cbn [map join]. rewrite <- (app_nil_r (Hex.format_02X b)).
    rewrite fromhex_format_02X by exact Hb. reflexivity.
  - cbn [map] in *. rewrite join_cons2.
    rewrite fromhex_format_02X by exact Hb.
    change (chars " " ++ ?x) with (" "%char :: x).
    cbn [fromhex]. change (Py_ISSPACE " ") with true. cbn iota.
    rewrite IH. reflexivity.
Qed.

Lemma length_join_format data :
  data <> [] ->
  length (join (chars " ") (map Hex.format_02X data))
  = (3 * length data - 1)%nat.
Proof.
  induction data as [|b data IH]; [congruence|]. intros _.
  destruct data as [|b' data]; [reflexivity|].
  cbn [map] in *. rewrite join_cons2.
  rewrite !length_app, IH by discriminate.
  cbn [List.length chars list_ascii_of_string Hex.format_02X]. lia.
Qed.

(** [s.replace(c, "")] for a single character [c] drops every [c]. *)
Lemma replace_fuel_char c n s :
  (length s < n)%nat ->
  replace_fuel n [c] [] s = filter (fun x => negb (Ascii.eqb c x)) s.
Proof.
  revert s. induction n as [|n IH]; intros s Hn; [lia|].
  destruct s as [|x r]; [reflexivity|].
  cbn [replace_fuel starts_with List.length skipn filter app].
  cbn [List.length] in Hn.
  rewrite andb_true_r. destruct (Ascii.eqb c x); cbn [negb];
    rewrite IH by lia; reflexivity.
Qed.

Lemma replace_char c s :
  replace [c] [] s = filter (fun x => negb (Ascii.eqb c x)) s.
Proof. unfold replace. apply replace_fuel_char. lia. Qed.

Lemma filter_all {A} (p : A -> bool) l :
  Forall (fun x => p x = true) l -> filter p l = l.
Proof.
  induction 1 as [|x l Hx _ IH]; [reflexivity|].
  cbn [filter]. rewrite Hx, IH. reflexivity.
Qed.

Lemma format_02X_chars b :
  0 <= b <= 255 ->
  Forall (fun c => is_hex_digit c = true /\ isspace c = false
                   /\ Ascii.eqb " " c = false /\ Ascii.eqb "-" c = false)
         (Hex.format_02X b).
Proof.
  intros Hb. destruct (byte_halves b Hb) as (Hhi & Hlo & _).
  destruct (upper_hex_digit _ Hhi) as (A1 & _ & _ & A2 & A3 & A4 & _).
  destruct (upper_hex_digit _ Hlo) as (B1 & _ & _ & B2 & B3 & B4 & _).
  unfold Hex.format_02X.
  repeat constructor; try assumption;
    rewrite Ascii.eqb_sym; assumption.
Qed.

Lemma flat_format_chars data :
  Forall (fun b => 0 <= b <= 255) data ->
  Forall (fun c => is_hex_digit c = true /\ isspace c = false
                   /\ Ascii.eqb " " c = false /\ Ascii.eqb "-" c = false)
         (flat_map Hex.format_02X data).
Proof.
  induction 1 as [|b data Hb _ IH]; [constructor|].
  cbn [flat_map]. apply Forall_app. split; [apply format_02X_chars, Hb | exact IH].
Qed.

Lemma filter_spaces_join data :
  Forall (fun b => 0 <= b <= 255) data ->
  filter (fun x => negb (Ascii.eqb " " x))
         (join (chars " ") (map Hex.format_02X data))
  = flat_map Hex.format_02X data.
Proof.
  induction 1 as [|b data Hb Hall IH]; [reflexivity|].
  assert (Hf : filter (fun x => negb (Ascii.eqb " " x)) (Hex.format_02X b)
               = Hex.format_02X b).
  { apply filter_all. eapply Forall_impl; [|apply format_02X_chars, Hb].
    cbn beta. intros c (_ & _ & -> & _). reflexivity. }
  destruct data as [|b' data].
  - cbn [map join flat_map]. rewrite app_nil_r. exact Hf.
  - cbn [map] in *. rewrite join_cons2, !filter_app, Hf, IH.
    cbn [flat_map]. reflexivity.
Qed.

Lemma lstrip_no_space s :
  Forall (fun c => isspace c = false) s -> lstrip_with isspace s = s.
Proof.
  destruct 1 as [|c r Hc _]; [reflexivity|]. cbn [lstrip_with]. rewrite Hc.
  reflexivity.
Qed.

Lemma strip_no_space s :
  Forall (fun c => isspace c = false) s -> strip s = s.
Proof.
  intros H. unfold strip, rstrip_with. rewrite (lstrip_no_space s H).
  rewrite lstrip_no_space; [apply rev_involutive|].
  apply Forall_rev, H.
Qed.

(** The normalisation of [hdlc_to_enhanced_xml] applied to the text that
    [bytes_to_hex_str] writes. *)
Lemma hdlc_clean_hex_of_display data :
  Forall (fun b => 0 <= b <= 255) data ->
  strip (replace (chars "-") []
           (replace (chars " ") [] (Hex.bytes_to_hex_str data)))
  = flat_map Hex.format_02X data.
Proof.
  intros H. unfold Hex.bytes_to_hex_str.
  change (chars " ") with [" "%char]. change (chars "-") with ["-"%char].
  rewrite !replace_char, filter_spaces_join by exact H.
  pose proof (flat_format_chars data H) as Hc.
  rewrite filter_all.
  - apply strip_no_space. eapply Forall_impl; [|exact Hc].
    cbn beta. intros c (_ & E & _). exact E.
  - eapply Forall_impl; [|exact Hc]. cbn beta. intros c (_ & _ & _ & ->).
    reflexivity.
Qed.

(** X1.  The text that [bytes_to_hex_str] and [bytes_to_hex_display] write
    for a byte string (two upper-case digits per byte, single spaces
    between) has 3n - 1 characters for n > 0 bytes and is read back to the
    same bytes by [bytes.fromhex]; given as a string to
    [hdlc_to_enhanced_xml] it denotes the same frame bytes as the byte
    string itself, except that the text of no bytes is rejected with
    [ValueError]. *)
Theorem hex_display_round_trip (data : bytes) :
  Forall (fun b => 0 <= b <= 255) data ->
  Hex.bytes_to_hex_display data = Hex.bytes_to_hex_str data
  /\ fromhex (Hex.bytes_to_hex_str data) = Ok data
  /\ (data <> [] ->
      length (Hex.bytes_to_hex_str data) = (3 * length data - 1)%nat
      /\ Hex.hdlc_data (Hex.of_str (Hex.bytes_to_hex_str data))
         = Hex.hdlc_data (Hex.of_bytes data))
  /\ (data = [] ->
      Hex.hdlc_data (Hex.of_str (Hex.bytes_to_hex_str data))
      = Raise ValueError).
Proof.
  intros H. split; [reflexivity|]. split; [apply fromhex_join_format, H|].
  split.
  - intros Hne. split; [apply length_join_format, Hne|].
    unfold Hex.hdlc_data. rewrite hdlc_clean_hex_of_display by exact H.
    rewrite unhexlify_flat_format by exact H.
    destruct data as [|b data]; [congruence|]. reflexivity.
  - intros ->. reflexivity.
Qed.

Lemma hex_display_round_trip_witness :
  Hex.bytes_to_hex_display [0x7E; 0xA0; 0x0A] = Hex.bytes_to_hex_str [0x7E; 0xA0; 0x0A]
  /\ fromhex (Hex.bytes_to_hex_str [0x7E; 0xA0; 0x0A]) = Ok [0x7E; 0xA0; 0x0A]
  /\ ([0x7E; 0xA0; 0x0A] <> [] ->
      length (Hex.bytes_to_hex_str [0x7E; 0xA0; 0x0A])
      = (3 * length [0x7E; 0xA0; 0x0A] - 1)%nat
      /\ Hex.hdlc_data (Hex.of_str (Hex.bytes_to_hex_str [0x7E; 0xA0; 0x0A]))
         = Hex.hdlc_data (Hex.of_bytes [0x7E; 0xA0; 0x0A]))
  /\ ([0x7E; 0xA0; 0x0A] = [] ->
      Hex.hdlc_data (Hex.of_str (Hex.bytes_to_hex_str [0x7E; 0xA0; 0x0A]))
      = Raise ValueError).
Proof.
  apply (hex_display_round_trip [0x7E; 0xA0; 0x0A]).
  repeat constructor; lia.
Defined.

(** ** DLMS date-times written and read back *)

Lemma check_fields_of_valid now :
  datetime.valid now = true ->
  datetime._check_fields (datetime.year now) (datetime.month now)
    (datetime.day now) (datetime.hour now) (datetime.minute now)
    (datetime.second now) = true.
Proof.
  unfold datetime.valid. intros H. apply andb_true_iff in H. apply H.
Qed.

Lemma days_in_month_bound y m : datetime._days_in_month y m <= 31.
Proof.
  unfold datetime._days_in_month.
  destruct ((m =? 2) && datetime._is_leap y); [lia|].
  unfold datetime._DAYS_IN_MONTH.
  destruct (Z.to_nat (m - 1)) as [|[|[|[|[|[|[|[|[|[|[|[|[|n]]]]]]]]]]]]];
    cbn [nth]; lia.
Qed.

Lemma check_fields_bytes y mo d h mi s :
  datetime._check_fields y mo d h mi s = true ->
  1 <= y <= 9999 /\ 1 <= mo <= 12 /\ 1 <= d <= 31
  /\ 0 <= h <= 23 /\ 0 <= mi <= 59 /\ 0 <= s <= 59.
Proof.
  unfold datetime._check_fields, datetime.between. intros H.
  repeat (apply andb_true_iff in H; destruct H as [H ?]).
  pose proof (days_in_month_bound y mo). lia.
Qed.

Lemma year_bytes y :
  0 <= y < 65536 -> 0 <= y / 256 <= 255 /\ 0 <= y mod 256 <= 255.
Proof.
  intros H. split.
  - split; [apply Z.div_pos; lia|].
    assert (y / 256 < 256) by (apply Z.div_lt_upper_bound; lia). lia.
  - pose proof (Z.mod_pos_bound y 256). lia.
Qed.

(** [_parse_dlms_datetime] on the upper-case hexadecimal text of at least
    twelve bytes that start with a two-byte year. *)
Lemma parse_dlms_datetime_encoded y mo d wd h mi s hs dh dl cs rest :
  0 <= y < 65536 ->
  Forall (fun b => 0 <= b <= 255) ([mo; d; wd; h; mi; s; hs; dh; dl; cs] ++ rest) ->
  Push_Parser._parse_dlms_datetime
    (flat_map Hex.format_02X
       ([y / 256; y mod 256; mo; d; wd; h; mi; s; hs; dh; dl; cs] ++ rest))
  = (tz <- datetime.timezone_of_minutes (from_bytes_big_signed16 dh dl) ;;
     dt <- datetime.make y mo d h mi s (Some tz) ;;
     Ok (datetime.isoformat dt)).
Proof.
  intros Hy Hall. destruct (year_bytes y Hy) as [Hyh Hyl].
  unfold Push_Parser._parse_dlms_datetime.
  rewrite fromhex_flat_format
    by (cbn [app] in *; constructor; [exact Hyh|]; constructor; [exact Hyl|];
        exact Hall).
  cbn [bind app List.length Nat.ltb Nat.leb firstn nth from_bytes_big fold_left].
  replace ((0 * 256 + y / 256) * 256 + y mod 256) with y
    by (pose proof (Z.div_mod y 256); lia).
  assert (Hdh : 0 <= dh <= 255 /\ 0 <= dl <= 255).
  { cbn [app] in Hall. repeat (apply Forall_cons_iff in Hall as [? Hall]).
    split; assumption. }
  pose proof (signed16_range dh dl (proj1 Hdh) (proj2 Hdh)) as Hr.
  replace (from_bytes_big_signed16 dh dl =? 0x8000) with false
    by (symmetry; apply Z.eqb_neq; lia).
  reflexivity.
Qed.

(** [try_decode_dlms_datetime] on the upper-case hexadecimal text of twelve
    bytes that hold a full date and a full time. *)
Lemma try_decode_dlms_datetime_encoded y mo d wd h mi s hs dh dl cs :
  datetime._check_fields y mo d h mi s = true ->
  Forall (fun b => 0 <= b <= 255) [wd; hs; dh; dl; cs] ->
  DLMS_Parser.try_decode_dlms_datetime
    (flat_map Hex.format_02X
       [y / 256; y mod 256; mo; d; wd; h; mi; s; hs; dh; dl; cs])
  = Some (Spec.date_text y mo d ++ chars " " ++ Spec.time_text h mi s
          ++ DLMS_Parser.deviation_suffix dh dl).
Proof.
  intros Hf Hall. destruct (check_fields_bytes _ _ _ _ _ _ Hf)
    as (Hy & Hmo & Hd & Hh & Hmi & Hs).
  destruct (year_bytes y ltac:(lia)) as [Hyh Hyl].
  repeat (apply Forall_cons_iff in Hall as [? Hall]).
  unfold DLMS_Parser.try_decode_dlms_datetime,
    DLMS_Parser.try_decode_dlms_datetime_body.
  rewrite unhexlify_flat_format by (repeat constructor; lia).
  cbn [flat_map Hex.format_02X app List.length Nat.ltb Nat.leb Nat.eqb
       Nat.modulo Nat.divmod fst snd orb negb bind nth].
  rewrite word_of_bytes by lia.
  replace (256 * (y / 256) + y mod 256) with y
    by (pose proof (Z.div_mod y 256); lia).
  replace (y =? 65535) with false by (symmetry; apply Z.eqb_neq; lia).
  replace (mo =? 255) with false by (symmetry; apply Z.eqb_neq; lia).
  replace (d =? 255) with false by (symmetry; apply Z.eqb_neq; lia).
  replace (h =? 255) with false by (symmetry; apply Z.eqb_neq; lia).
  replace (mi =? 255) with false by (symmetry; apply Z.eqb_neq; lia).
  replace (s =? 255) with false by (symmetry; apply Z.eqb_neq; lia).
  cbn [negb andb orb app join try_except].
  unfold Spec.date_text, Spec.time_text. rewrite <- !app_assoc. reflexivity.
Qed.

Lemma isoformat_whole_seconds y mo d h mi s off :
  datetime.isoformat (datetime.mk y mo d h mi s 0 (Some off))
  = Spec.date_text y mo d ++ chars "T" ++ Spec.time_text h mi s
    ++ datetime._format_offset off.
Proof.
  unfold datetime.isoformat, Spec.date_text, Spec.time_text.
  cbn [datetime.year datetime.month datetime.day datetime.hour
       datetime.minute datetime.second datetime.microsecond
       datetime.utcoffset Z.eqb app].
  rewrite <- !app_assoc. reflexivity.
Qed.

(** X2.  The string returned by [get_current_dlms_datetime_hex] encodes 13
    bytes in 26 upper-case hexadecimal characters: the date and time of the
    clock followed by 00 FF FF 4C 00.  Neither decoder of the repository
    recovers the offset UTC-03 from it: [try_decode_dlms_datetime] returns
    [None] because the string exceeds 24 characters, and
    [_parse_dlms_datetime], which reads the deviation from bytes 9 and 10
    (FF FF), returns the clock's date and time with the offset -00:01. *)
Theorem current_dlms_datetime_hex_read_back (now : datetime.t) :
  datetime.valid now = true ->
  let date :=
    Spec.date_text (datetime.year now) (datetime.month now) (datetime.day now) in
  let time :=
    Spec.time_text (datetime.hour now) (datetime.minute now)
                   (datetime.second now) in
  exists s,
    Hex.get_current_dlms_datetime_hex now = Ok s
    /\ length s = 26%nat
    /\ unhexlify s
       = Ok [datetime.year now / 256; datetime.year now mod 256;
             datetime.month now; datetime.day now; 0xFF;
             datetime.hour now; datetime.minute now; datetime.second now;
             0x00; 0xFF; 0xFF; 0x4C; 0x00]
    /\ DLMS_Parser.try_decode_dlms_datetime s = None
    /\ Push_Parser._parse_dlms_datetime s
       = Ok (date ++ chars "T" ++ time ++ chars "-00:01").
Proof.
  intros Hnow. cbv zeta.
  pose proof (check_fields_of_valid now Hnow) as Hf.
  destruct (check_fields_bytes _ _ _ _ _ _ Hf) as (Hy & Hmo & Hd & Hh & Hmi & Hs).
  destruct (year_bytes (datetime.year now) ltac:(lia)) as [Hyh Hyl].
  set (data := [datetime.year now / 256; datetime.year now mod 256;
                datetime.month now; datetime.day now; 0xFF;
                datetime.hour now; datetime.minute now; datetime.second now;
                0x00; 0xFF; 0xFF; 0x4C; 0x00]).
  assert (Hdata : Forall (fun b => 0 <= b <= 255) data)
    by (unfold data; repeat constructor; lia).
  assert (Hget : Hex.get_current_dlms_datetime_hex now
                 = Ok (flat_map Hex.format_02X data)).
  { unfold Hex.get_current_dlms_datetime_hex.
    rewrite to_bytes_2_big_ok by lia. cbn [bind].
    unfold bytes_of_list. cbn [forallb].
    repeat match goal with
           | |- context [(0 <=? ?x) && (?x <? 256)] =>
               replace ((0 <=? x) && (x <? 256)) with true
                 by (symmetry; apply andb_true_iff; split;
                     [apply Z.leb_le | apply Z.ltb_lt]; lia)
           end.
    cbn [andb bind]. rewrite to_bytes_2_big_ok by lia. cbn [bind].
    unfold AckFrame.be16. cbn [app].
    change (65535 / 256) with 255. change (65535 mod 256) with 255.
    rewrite upper_hex by exact Hdata. reflexivity. }
  exists (flat_map Hex.format_02X data).
  split; [exact Hget|]. split; [reflexivity|].
  split; [apply unhexlify_flat_format, Hdata|].
  split; [reflexivity|].
  unfold data.
  etransitivity;
    [apply (parse_dlms_datetime_encoded (datetime.year now)
              (datetime.month now) (datetime.day now) 0xFF (datetime.hour now)
              (datetime.minute now) (datetime.second now) 0x00 0xFF 0xFF 0x4C
              [0x00]); [lia | repeat constructor; lia]|].
  change (from_bytes_big_signed16 255 255) with (-1).
  change (datetime.timezone_of_minutes (-1))
    with (Ok (A := Z) (-1 * datetime.us_per_minute)).
  cbn [bind]. unfold datetime.make. rewrite Hf. cbn [bind].
  rewrite isoformat_whole_seconds. reflexivity.
Qed.

Lemma current_dlms_datetime_hex_read_back_witness :
  exists s,
    Hex.get_current_dlms_datetime_hex (datetime.mk 2026 1 13 14 33 20 0 None)
    = Ok s
    /\ length s = 26%nat
    /\ unhexlify s
       = Ok [2026 / 256; 2026 mod 256; 1; 13; 0xFF; 14; 33; 20;
             0x00; 0xFF; 0xFF; 0x4C; 0x00]
    /\ DLMS_Parser.try_decode_dlms_datetime s = None
    /\ Push_Parser._parse_dlms_datetime s
       = Ok (chars "2026-01-13T14:33:20-00:01").
Proof.
  apply (current_dlms_datetime_hex_read_back
           (datetime.mk 2026 1 13 14 33 20 0 None)).
  reflexivity.
Defined.

(** ** The acknowledgment frame for any address field and invoke-id *)

Lemma fold_setUInt8 l bb :
  fold_left message_handler.setUInt8 l bb = bb ++ l.
Proof.
  revert bb. induction l as [|x l IH]; intros bb; cbn [fold_left].
  - symmetry. apply app_nil_r.
  - rewrite IH. unfold message_handler.setUInt8. rewrite <- app_assoc.
    reflexivity.
Qed.

(** [_generate_response] for any address field and any invoke-id text that
    [bytes.fromhex] accepts: the frame, when its length fits in one byte,
    and no frame otherwise. *)
Lemma generate_response_layout gx now address_field invoke_clean_hex
      invoke_bytes :
  fromhex invoke_clean_hex = Ok invoke_bytes ->
  datetime.valid now = true ->
  AckFrame.fits_16_bits gx ->
  let pdu := AckFrame.pdu_body invoke_bytes (AckFrame.datetime_block now) in
  message_handler._generate_response gx now address_field invoke_clean_hex
  = if AckFrame.length_byte address_field pdu <? 256
    then Some (AckFrame.frame (utils.calculate_fcs gx) address_field pdu)
    else None.
Proof.
  intros Hhex Hnow Hfits. cbv zeta.
  pose proof (valid_year now Hnow) as Hy.
  assert (Hcrc : forall d, 0 <= utils.calculate_fcs gx d < 65536)
    by (intros d; apply calculate_fcs_range, Hfits).
  unfold message_handler._generate_response.
  rewrite Hhex. cbn [bind]. rewrite !fold_setUInt8.
  rewrite year_high_byte by lia. rewrite year_low_byte.
  generalize dependent (utils.calculate_fcs gx). intros crc16 Hcrc.
  unfold message_handler.setUInt8.
  change ([] ++ [16]) with [16].
  set (pdu := AckFrame.pdu_body invoke_bytes (AckFrame.datetime_block now)).
  assert (Epdu : ([16] ++ invoke_bytes)
                 ++ [12; datetime.year now / 256; datetime.year now mod 256;
                     datetime.month now; datetime.day now; 255;
                     datetime.hour now; datetime.minute now;
                     datetime.second now; 255; 255; 76; 0; 0] = pdu).
  { unfold pdu, AckFrame.pdu_body, AckFrame.datetime_block.
    rewrite <- app_assoc. reflexivity. }
  rewrite Epdu.
  assert (Elen : Z.of_nat (length (address_field ++ [19] ++ [230; 231; 0] ++ pdu))
                 + 6 = AckFrame.length_byte address_field pdu).
  { unfold AckFrame.length_byte, AckFrame.information_field.
    rewrite length_app. lia. }
  rewrite Elen.
  set (L := AckFrame.length_byte address_field pdu).
  assert (HL : 0 <= L) by (unfold L, AckFrame.length_byte; lia).
  unfold bytes_of_list. cbn [forallb].
  replace (0 <=? L) with true by (symmetry; apply Z.leb_le; lia).
  cbn [andb]. rewrite andb_true_r.
  destruct (L <? 256); [|reflexivity].
  cbn [bind]. rewrite to_bytes_2_big_ok by apply Hcrc. cbn [bind].
  rewrite to_bytes_2_big_ok by apply Hcrc. cbn [bind Push_Parser.to_option].
  unfold AckFrame.frame, AckFrame.fcs1, AckFrame.fcs2. fold L.
  rewrite <- !app_assoc. reflexivity.
Qed.

(** ** The fall-back checksum of a message followed by its checksum *)

Lemma fcs_residue_step_all :
  forallb
    (fun hi =>
       forallb
         (fun lo => utils.fcs_byte (utils.fcs_byte (256 * hi + lo) hi) lo =? 0)
         (map Z.of_nat (seq 0 256)))
    (map Z.of_nat (seq 0 256))
  = true.
Proof. vm_compute. reflexivity. Qed.

Lemma fcs_residue_step crc :
  0 <= crc < 65536 ->
  utils.fcs_byte (utils.fcs_byte crc (crc / 256)) (crc mod 256) = 0.
Proof.
  intros H. destruct (year_bytes crc H) as [Hhi Hlo].
  pose proof fcs_residue_step_all as Hall.
  rewrite forallb_forall in Hall.
  specialize (Hall (crc / 256) (In_byte_values _ Hhi)).
  rewrite forallb_forall in Hall.
  specialize (Hall (crc mod 256) (In_byte_values _ Hlo)).
  apply Z.eqb_eq in Hall.
  replace (256 * (crc / 256) + crc mod 256) with crc in Hall
    by (apply Z.div_mod; lia).
  exact Hall.
Qed.

Lemma fcs_fallback_app data more :
  utils.fcs_fallback (data ++ more)
  = fold_left utils.fcs_byte more (utils.fcs_fallback data).
Proof. unfold utils.fcs_fallback. apply fold_left_app. Qed.

Lemma fcs_fallback_residue data more :
  utils.fcs_fallback (data ++ AckFrame.be16 (utils.fcs_fallback data) ++ more)
  = fold_left utils.fcs_byte more 0.
Proof.
  rewrite app_assoc, fcs_fallback_app, fcs_fallback_app.
  unfold AckFrame.be16. cbn [fold_left].
  rewrite fcs_residue_step by apply fcs_fallback_range. reflexivity.
Qed.

(** X3.  With the fall-back loop, the checksum of a message followed by its
    own big-endian checksum is 0, and the checksum of anything that follows
    such a checked prefix does not depend on the prefix. *)
Theorem fallback_fcs_after_checked_prefix (data data' more : bytes) :
  exists fcs fcs',
    to_bytes_2_big (utils.calculate_fcs None data) = Ok fcs
    /\ to_bytes_2_big (utils.calculate_fcs None data') = Ok fcs'
    /\ utils.calculate_fcs None (data ++ fcs) = 0
    /\ utils.calculate_fcs None (data ++ fcs ++ more)
       = utils.calculate_fcs None (data' ++ fcs' ++ more).
Proof.
  exists (AckFrame.be16 (utils.fcs_fallback data)),
         (AckFrame.be16 (utils.fcs_fallback data')).
  cbn [utils.calculate_fcs].
  split; [apply to_bytes_2_big_ok, fcs_fallback_range|].
  split; [apply to_bytes_2_big_ok, fcs_fallback_range|].
  split.
  - rewrite <- (app_nil_r (AckFrame.be16 _)). rewrite fcs_fallback_residue.
    reflexivity.
  - rewrite !fcs_fallback_residue. reflexivity.
Qed.

Lemma pdu_body_length invoke_bytes now :
  length (AckFrame.pdu_body invoke_bytes (AckFrame.datetime_block now))
  = (length invoke_bytes + 15)%nat.
Proof.
  unfold AckFrame.pdu_body, AckFrame.datetime_block.
  rewrite !length_app. cbn [List.length]. lia.
Qed.

Lemma length_byte_value address_field invoke_bytes now :
  AckFrame.length_byte address_field
    (AckFrame.pdu_body invoke_bytes (AckFrame.datetime_block now))
  = Z.of_nat (length address_field) + Z.of_nat (length invoke_bytes) + 25.
Proof.
  unfold AckFrame.length_byte, AckFrame.information_field.
  rewrite !length_app, pdu_body_length. cbn [List.length]. lia.
Qed.

(** X4.  [_generate_response] builds the frame for an address field and an
    invoke-id of any length: when [bytes.fromhex] accepts the invoke-id text
    and the length byte len(address) + len(invoke) + 25 is at most 255 the
    frame is returned, it is two bytes longer than its length byte says,
    and it starts and ends with 0x7E; when the length byte would exceed 255
    or the text is rejected, nothing is returned. *)
Theorem generate_response_any_length
        (_GXFCS16 : option (bytes -> Z -> Z -> Z)) (now : datetime.t)
        (address_field : bytes) (invoke_clean_hex : str) :
  datetime.valid now = true ->
  AckFrame.fits_16_bits _GXFCS16 ->
  let response :=
    message_handler._generate_response _GXFCS16 now address_field
      invoke_clean_hex in
  (forall invoke_bytes,
     fromhex invoke_clean_hex = Ok invoke_bytes ->
     let n :=
       Z.of_nat (length address_field) + Z.of_nat (length invoke_bytes) + 25 in
     (n <= 255 ->
      exists body,
        response = Some ([0x7E; 0xA0; n] ++ body ++ [0x7E])
        /\ Z.of_nat (length ([0x7E; 0xA0; n] ++ body ++ [0x7E])) = n + 2
        /\ response
           = Some (AckFrame.frame (utils.calculate_fcs _GXFCS16) address_field
                     (AckFrame.pdu_body invoke_bytes
                        (AckFrame.datetime_block now))))
     /\ (255 < n -> response = None))
  /\ (forall e, fromhex invoke_clean_hex = Raise e -> response = None).
Proof.
  intros Hnow Hfits. cbv zeta. split.
  - intros invoke_bytes Hhex.
    rewrite (generate_response_layout _ _ _ _ _ Hhex Hnow Hfits).
    rewrite length_byte_value.
    set (n := Z.of_nat (length address_field)
              + Z.of_nat (length invoke_bytes) + 25).
    split; intros Hn.
    + replace (n <? 256) with true by (symmetry; apply Z.ltb_lt; lia).
      set (pdu := AckFrame.pdu_body invoke_bytes (AckFrame.datetime_block now)).
      set (crc := utils.calculate_fcs _GXFCS16).
      exists (address_field ++ [0x13] ++ AckFrame.be16 (AckFrame.fcs1 crc address_field pdu)
              ++ [0xE6; 0xE7; 0x00] ++ pdu
              ++ AckFrame.be16 (AckFrame.fcs2 crc address_field pdu)).
      assert (E : AckFrame.frame crc address_field pdu
                  = [0x7E; 0xA0; n]
                    ++ (address_field ++ [0x13]
                        ++ AckFrame.be16 (AckFrame.fcs1 crc address_field pdu)
                        ++ [0xE6; 0xE7; 0x00] ++ pdu
                        ++ AckFrame.be16 (AckFrame.fcs2 crc address_field pdu))
                    ++ [0x7E]).
      { unfold AckFrame.frame. unfold pdu at 1. rewrite length_byte_value.
        fold n. rewrite <- !app_assoc. reflexivity. }
      split; [rewrite E; reflexivity|]. split; [|reflexivity].
      rewrite <- E, frame_length. unfold pdu. rewrite pdu_body_length.
      unfold n. lia.
    + replace (n <? 256) with false by (symmetry; apply Z.ltb_ge; lia).
      reflexivity.
  - intros e Hraise. unfold message_handler._generate_response.
    rewrite Hraise. reflexivity.
Qed.

Lemma generate_response_any_length_witness :
  let response :=
    message_handler._generate_response None
      (datetime.mk 2026 1 13 14 33 20 0 None) [0x03] (chars "1A") in
  (forall invoke_bytes,
     fromhex (chars "1A") = Ok invoke_bytes ->
     let n := Z.of_nat (length [0x03]) + Z.of_nat (length invoke_bytes) + 25 in
     (n <= 255 ->
      exists body,
        response = Some ([0x7E; 0xA0; n] ++ body ++ [0x7E])
        /\ Z.of_nat (length ([0x7E; 0xA0; n] ++ body ++ [0x7E])) = n + 2
        /\ response
           = Some (AckFrame.frame (utils.calculate_fcs None) [0x03]
                     (AckFrame.pdu_body invoke_bytes
                        (AckFrame.datetime_block
                           (datetime.mk 2026 1 13 14 33 20 0 None)))))
     /\ (255 < n -> response = None))
  /\ (forall e, fromhex (chars "1A") = Raise e -> response = None).
Proof.
  apply (generate_response_any_length None
           (datetime.mk 2026 1 13 14 33 20 0 None) [0x03] (chars "1A")).
  - reflexivity.
  - exact I.
Defined.

(** X5.  With the fall-back checksum the trailing FCS of the acknowledgment
    does not cover the address: for two address fields (of any lengths)
    the frames returned for the same invoke-id and clock differ only in
    the header (flag, control, length, address, 0x13 and the header
    checksum); everything from the LLC bytes on, the trailing FCS
    included, is the same, the FCS being the fall-back checksum register
    started at 0 and run over the LLC bytes and the PDU. *)
Theorem ack_trailing_checksum_ignores_address
        (now : datetime.t) (address1 address2 : bytes)
        (invoke_clean_hex : str) (invoke_bytes : bytes) :
  fromhex invoke_clean_hex = Ok invoke_bytes ->
  datetime.valid now = true ->
  Z.of_nat (length address1) + Z.of_nat (length invoke_bytes) + 25 <= 255 ->
  Z.of_nat (length address2) + Z.of_nat (length invoke_bytes) + 25 <= 255 ->
  exists header1 header2 tail,
    message_handler._generate_response None now address1 invoke_clean_hex
    = Some (header1 ++ tail)
    /\ message_handler._generate_response None now address2 invoke_clean_hex
       = Some (header2 ++ tail)
    /\ length header1 = (length address1 + 6)%nat
    /\ length header2 = (length address2 + 6)%nat
    /\ let rest :=
         [0xE6; 0xE7; 0x00]
         ++ AckFrame.pdu_body invoke_bytes (AckFrame.datetime_block now) in
       tail = rest ++ AckFrame.be16 (fold_left utils.fcs_byte rest 0) ++ [0x7E].
Proof.
  intros Hhex Hnow H1 H2.
  set (pdu := AckFrame.pdu_body invoke_bytes (AckFrame.datetime_block now)).
  assert (Hframe : forall address,
            Z.of_nat (length address) + Z.of_nat (length invoke_bytes) + 25
            <= 255 ->
            exists header,
              message_handler._generate_response None now address
                invoke_clean_hex
              = Some (header
                      ++ ([0xE6; 0xE7; 0x00] ++ pdu)
                      ++ AckFrame.be16
                           (fold_left utils.fcs_byte ([0xE6; 0xE7; 0x00] ++ pdu) 0)
                      ++ [0x7E])
              /\ length header = (length address + 6)%nat).
  { intros address Hlen.
    rewrite (generate_response_layout None _ _ _ _ Hhex Hnow I).
    rewrite length_byte_value.
    replace (_ <? 256) with true by (symmetry; apply Z.ltb_lt; lia).
    fold pdu. set (L := AckFrame.length_byte address pdu).
    exists ([0x7E; 0xA0; L] ++ address ++ [0x13]
            ++ AckFrame.be16 (utils.fcs_fallback ([0xA0; L] ++ address ++ [0x13]))).
    split.
    - f_equal. unfold AckFrame.frame, AckFrame.fcs2, AckFrame.fcs1.
      fold L. cbn [utils.calculate_fcs].
      replace ([160] ++ [L] ++ address ++ [19]
               ++ AckFrame.be16 (utils.fcs_fallback ([160] ++ [L] ++ address ++ [19]))
               ++ [230; 231; 0] ++ pdu)
        with (([160] ++ [L] ++ address ++ [19])
              ++ AckFrame.be16 (utils.fcs_fallback ([160] ++ [L] ++ address ++ [19]))
              ++ [230; 231; 0] ++ pdu)
        by (rewrite <- !app_assoc; reflexivity).
      rewrite fcs_fallback_residue.
      rewrite <- !app_assoc. reflexivity.
    - rewrite !length_app. cbn [List.length AckFrame.be16]. lia. }
  destruct (Hframe address1 H1) as (h1 & E1 & L1).
  destruct (Hframe address2 H2) as (h2 & E2 & L2).
  exists h1, h2,
    (([0xE6; 0xE7; 0x00] ++ pdu)
     ++ AckFrame.be16 (fold_left utils.fcs_byte ([0xE6; 0xE7; 0x00] ++ pdu) 0)
     ++ [0x7E]).
  repeat split; assumption.
Qed.

Lemma ack_trailing_checksum_ignores_address_witness :
  exists header1 header2 tail,
    message_handler._generate_response None
      (datetime.mk 2026 1 13 14 33 20 0 None) [0x00; 0x02; 0x44; 0xC9; 0x03]
      (chars "0000001A")
    = Some (header1 ++ tail)
    /\ message_handler._generate_response None
         (datetime.mk 2026 1 13 14 33 20 0 None) [0x21] (chars "0000001A")
       = Some (header2 ++ tail)
    /\ length header1 = (length [0x00; 0x02; 0x44; 0xC9; 0x03] + 6)%nat
    /\ length header2 = (length [0x21] + 6)%nat
    /\ let rest :=
         [0xE6; 0xE7; 0x00]
         ++ AckFrame.pdu_body [0x00; 0x00; 0x00; 0x1A]
              (AckFrame.datetime_block (datetime.mk 2026 1 13 14 33 20 0 None)) in
       tail = rest ++ AckFrame.be16 (fold_left utils.fcs_byte rest 0) ++ [0x7E].
Proof.
  apply (ack_trailing_checksum_ignores_address
           (datetime.mk 2026 1 13 14 33 20 0 None)
           [0x00; 0x02; 0x44; 0xC9; 0x03] [0x21] (chars "0000001A")
           [0x00; 0x00; 0x00; 0x1A]).
  - reflexivity.
  - reflexivity.
  - cbn. lia.
  - cbn. lia.
Defined.

(** X6.  The date-time block of the acknowledgment read back by the
    repository's decoders: the 13 bytes after the tag 0x0C, written as
    hexadecimal text, are read by [_parse_dlms_datetime] as the clock's date
    and time at the offset -03:00; [try_decode_dlms_datetime] renders the
    first 12 of them with the suffix UTC-03 and rejects all 13, which make
    more than 24 characters. *)
Theorem ack_datetime_block_read_back
        (_GXFCS16 : option (bytes -> Z -> Z -> Z)) (now : datetime.t)
        (address_field : bytes) (invoke_clean_hex : str) :
  length address_field = 5%nat ->
  length invoke_clean_hex = 8%nat ->
  Forall (fun c => is_hex_digit c = true) invoke_clean_hex ->
  datetime.valid now = true ->
  AckFrame.fits_16_bits _GXFCS16 ->
  let date :=
    Spec.date_text (datetime.year now) (datetime.month now) (datetime.day now) in
  let time :=
    Spec.time_text (datetime.hour now) (datetime.minute now)
                   (datetime.second now) in
  exists response,
    message_handler._generate_response _GXFCS16 now address_field
      invoke_clean_hex = Some response
    /\ nth 19 response 0 = 0x0C
    /\ let block := firstn 13 (skipn 20 response) in
       Push_Parser._parse_dlms_datetime (upper (Hex.hex block))
       = Ok (date ++ chars "T" ++ time ++ chars "-03:00")
       /\ DLMS_Parser.try_decode_dlms_datetime
            (upper (Hex.hex (firstn 12 block)))
          = Some (date ++ chars " " ++ time ++ chars " UTC-03")
       /\ DLMS_Parser.try_decode_dlms_datetime (upper (Hex.hex block)) = None.
Proof.
  intros Haddr Hinv Hhex Hnow Hfits. cbv zeta.
  pose proof (check_fields_of_valid now Hnow) as Hf.
  destruct (check_fields_bytes _ _ _ _ _ _ Hf) as (Hy & Hmo & Hd & Hh & Hmi & Hs).
  destruct (year_bytes (datetime.year now) ltac:(lia)) as [Hyh Hyl].
  destruct (length_8_inv _ Hinv) as (c0 & c1 & c2 & c3 & c4 & c5 & c6 & c7 & ->).
  destruct (length_5_inv _ Haddr) as (a0 & a1 & a2 & a3 & a4 & ->).
  eexists. split.
  - rewrite (generate_response_layout _ _ _ _ _
               (fromhex_hex_pairs _ Hhex eq_refl) Hnow Hfits).
    rewrite length_byte_value. reflexivity.
  - assert (Hblock : Forall (fun b => 0 <= b <= 255) (AckFrame.datetime_block now))
      by (unfold AckFrame.datetime_block; repeat constructor; lia).
    unfold AckFrame.frame, AckFrame.pdu_body, AckFrame.be16.
    cbn [AckFrame.hex_pairs app skipn firstn nth].
    split; [reflexivity|].
    change [datetime.year now / 256; datetime.year now mod 256;
            datetime.month now; datetime.day now; 255; datetime.hour now;
            datetime.minute now; datetime.second now; 255; 255; 76; 0; 0]
      with (AckFrame.datetime_block now).
    rewrite upper_hex by exact Hblock.
    rewrite upper_hex
      by (unfold AckFrame.datetime_block; repeat constructor; lia).
    split; [|split; [|reflexivity]].
    + etransitivity;
        [apply (parse_dlms_datetime_encoded (datetime.year now)
                  (datetime.month now) (datetime.day now) 0xFF
                  (datetime.hour now) (datetime.minute now)
                  (datetime.second now) 0xFF 0xFF 0x4C 0x00 [0x00]);
         [lia | repeat constructor; lia]|].
      change (from_bytes_big_signed16 255 76) with (-180).
      change (datetime.timezone_of_minutes (-180))
        with (Ok (A := Z) (-180 * datetime.us_per_minute)).
      cbn [bind]. unfold datetime.make. rewrite Hf. cbn [bind].
      rewrite isoformat_whole_seconds. reflexivity.
    + etransitivity;
        [apply (try_decode_dlms_datetime_encoded (datetime.year now)
                  (datetime.month now) (datetime.day now) 0xFF
                  (datetime.hour now) (datetime.minute now)
                  (datetime.second now) 0xFF 0xFF 0x4C 0x00 Hf);
         repeat constructor; lia|].
      reflexivity.
Qed.

Lemma ack_datetime_block_read_back_witness :
  exists response,
    message_handler._generate_response None
      (datetime.mk 2026 1 13 14 33 20 0 None) [0x00; 0x02; 0x44; 0xC9; 0x03]
      (chars "0000001A") = Some response
    /\ nth 19 response 0 = 0x0C
    /\ let block := firstn 13 (skipn 20 response) in
       Push_Parser._parse_dlms_datetime (upper (Hex.hex block))
       = Ok (chars "2026-01-13T14:33:20-03:00")
       /\ DLMS_Parser.try_decode_dlms_datetime
            (upper (Hex.hex (firstn 12 block)))
          = Some (chars "2026-01-13 14:33:20 UTC-03")
       /\ DLMS_Parser.try_decode_dlms_datetime (upper (Hex.hex block)) = None.
Proof.
  apply (ack_datetime_block_read_back None
           (datetime.mk 2026 1 13 14 33 20 0 None)
           [0x00; 0x02; 0x44; 0xC9; 0x03] (chars "0000001A")).
  - reflexivity.
  - reflexivity.
  - repeat constructor.
  - reflexivity.
  - exact I.
Defined.

(** ** Parents *)

(** X7.  [_find_parent] on a document: for the root it returns [None]; for
    any other node of the document it returns the node one step up the
    path, whose child list holds the node at the last index of its path. *)
Theorem find_parent_correct (root : ET.Element) (child : ET.node) :
  Spec.in_place root child ->
  (fst child = [] -> Push_Parser._find_parent ([], root) child = None)
  /\ (forall s i,
        fst child = s ++ [i] ->
        exists parent,
          Spec.in_place root (s, parent)
          /\ nth_error (ET.children parent) i = Some (snd child)
          /\ Push_Parser._find_parent ([], root) child = Some (s, parent)).
Proof.
  unfold Spec.in_place. intros Hin. split.
  - intros E. unfold Push_Parser._find_parent. cbn [fst]. rewrite E.
    reflexivity.
  - intros s i E. rewrite E, subelement_app in Hin.
    destruct (ET.subelement root s) as [parent|] eqn:Hs; [|discriminate Hin].
    cbn [ET.subelement] in Hin.
    destruct (nth_error (ET.children parent) i) as [c|] eqn:Hc;
      [|discriminate Hin].
    assert (c = snd child) by congruence. subst c.
    exists parent. split; [exact Hs|]. split; [exact Hc|].
    unfold Push_Parser._find_parent. cbn [fst snd]. rewrite E.
    replace (ET.path_eqb [] (s ++ [i])) with false
      by (symmetry; apply path_eqb_neq; destruct s; discriminate).
    cbn [negb].
    apply (_iter_finds_parent s root [] i parent (snd child) Hs Hc).
Qed.

Lemma find_parent_correct_witness :
  (fst ([1; 0; 0; 0]%nat, Samples.obis_array) = [] ->
   Push_Parser._find_parent ([], Samples.obis_push_document)
     ([1; 0; 0; 0]%nat, Samples.obis_array) = None)
  /\ (forall s i,
        fst ([1; 0; 0; 0]%nat, Samples.obis_array) = s ++ [i] ->
        exists parent,
          Spec.in_place Samples.obis_push_document (s, parent)
          /\ nth_error (ET.children parent) i
             = Some (snd ([1; 0; 0; 0]%nat, Samples.obis_array))
          /\ Push_Parser._find_parent ([], Samples.obis_push_document)
               ([1; 0; 0; 0]%nat, Samples.obis_array)
             = Some (s, parent)).
Proof.
  apply (find_parent_correct Samples.obis_push_document
           ([1; 0; 0; 0]%nat, Samples.obis_array)).
  reflexivity.
Defined.

(** ** The request information read from a document *)

Lemma search_eq t a x cs info :
  DLMS_Parser.search (ET.mkElement t a x cs) info
  = Notions.search_each cs
      (DLMS_Parser.search_here (ET.mkElement t a x cs) info).
Proof. reflexivity. Qed.

(** [search] visits the elements in document order. *)
Lemma search_fold e :
  forall p info,
    DLMS_Parser.search e info
    = fold_left (fun i n => DLMS_Parser.search_here (snd n) i)
                (ET.iter_from p e) info.
Proof.
  induction e as [t a x cs IH] using Element_induction. intros p info.
  rewrite search_eq, iter_from_eq. cbn [fold_left snd].
  generalize (DLMS_Parser.search_here (ET.mkElement t a x cs) info) as info'.
  generalize 0%nat as i.
  induction IH as [|c cs Hc _ IHcs]; intros i info'; [reflexivity|].
  rewrite iter_children_cons, fold_left_app. cbn [Notions.search_each].
  rewrite (Hc (p ++ [i]) info'). apply IHcs.
Qed.

Lemma search_elements root info :
  DLMS_Parser.search root info
  = fold_left (fun i e => DLMS_Parser.search_here e i)
              (Notions.elements root) info.
Proof.
  unfold Notions.elements, ET.iter. cbn [fst snd].
  rewrite (search_fold root [] info).
  generalize (ET.iter_from [] root) as l. intros l. revert info.
  induction l as [|n l IH]; intros info; [reflexivity|].
  cbn [map fold_left]. apply IH.
Qed.

(** What one visit changes. *)
Lemma search_here_fields e info :
  let info' := DLMS_Parser.search_here e info in
  DLMS_Parser.attribute_count info'
  = DLMS_Parser.attribute_count info
    + (if Notions.is_attribute_descriptor e then 1 else 0)
  /\ DLMS_Parser.invoke_id info'
     = (if Notions.carries_invoke_id e
        then Some (skipn 2 (Notions.value_digits e))
        else DLMS_Parser.invoke_id info)
  /\ DLMS_Parser.high_byte info'
     = (if Notions.carries_invoke_id e
        then Some (firstn 2 (Notions.value_digits e))
        else DLMS_Parser.high_byte info)
  /\ DLMS_Parser.has_long_invoke info'
     = Notions.carries_invoke_id e || DLMS_Parser.has_long_invoke info.
Proof.
  cbv zeta.
  unfold DLMS_Parser.search_here, Notions.carries_invoke_id,
    Notions.is_attribute_descriptor, Notions.value_digits.
  rewrite <- (clean_hex_strip (ET.get e (chars "Value") [])).
  set (val := strip (ET.get e (chars "Value") [])).
  destruct (str_eqb (ET.tag e) (chars "TargetAddress")) eqn:E1.
  { apply str_eqb_eq in E1. rewrite E1. cbn [str_eqb chars list_ascii_of_string andb Ascii.eqb Bool.eqb].
    destruct val; [|destruct (DLMS_Parser.address_of _)];
      cbn; repeat split; lia. }
  destruct (str_eqb (ET.tag e) (chars "SourceAddress")) eqn:E2.
  { apply str_eqb_eq in E2. rewrite E2. cbn [str_eqb chars list_ascii_of_string andb Ascii.eqb Bool.eqb].
    destruct val; [|destruct (DLMS_Parser.address_of _)];
      cbn; repeat split; lia. }
  destruct (str_eqb (ET.tag e) (chars "LongInvokeIdAndPriority")) eqn:E3.
  { apply str_eqb_eq in E3. rewrite E3. cbn [str_eqb chars list_ascii_of_string andb Ascii.eqb Bool.eqb].
    destruct val as [|c r] eqn:Ev.
    - cbn. repeat split; lia.
    - destruct (8 <=? length (DLMS_Parser.clean_hex (c :: r)))%nat;
        cbn; repeat split; lia. }
  cbn [andb].
  destruct (str_eqb (ET.tag e) (chars "AttributeDescriptor")); cbn;
    repeat split; lia.
Qed.

Lemma last_of_app_one {A} (l : list A) x : Notions.last_of (l ++ [x]) = Some x.
Proof. unfold Notions.last_of. rewrite rev_app_distr. reflexivity. Qed.

Lemma last_of_cons {A} (x : A) l :
  Notions.last_of (x :: l)
  = match Notions.last_of l with Some y => Some y | None => Some x end.
Proof.
  destruct l as [|y l] using rev_ind; [reflexivity|].
  rewrite app_comm_cons, !last_of_app_one. reflexivity.
Qed.

(** The dictionary after a run of visits. *)
Lemma search_fold_fields l :
  forall info,
    let info' := fold_left (fun i e => DLMS_Parser.search_here e i) l info in
    let carrier := Notions.last_of (filter Notions.carries_invoke_id l) in
    DLMS_Parser.attribute_count info'
    = DLMS_Parser.attribute_count info
      + Z.of_nat (length (filter Notions.is_attribute_descriptor l))
    /\ DLMS_Parser.invoke_id info'
       = match carrier with
         | Some e => Some (skipn 2 (Notions.value_digits e))
         | None => DLMS_Parser.invoke_id info
         end
    /\ DLMS_Parser.high_byte info'
       = match carrier with
         | Some e => Some (firstn 2 (Notions.value_digits e))
         | None => DLMS_Parser.high_byte info
         end
    /\ DLMS_Parser.has_long_invoke info'
       = existsb Notions.carries_invoke_id l || DLMS_Parser.has_long_invoke info.
Proof.
  induction l as [|e l IH]; intros info; cbv zeta.
  - cbn. repeat split; lia.
  - cbn [fold_left filter existsb].
    destruct (IH (DLMS_Parser.search_here e info)) as (A1 & A2 & A3 & A4).
    destruct (search_here_fields e info) as (B1 & B2 & B3 & B4).
    rewrite A1, A2, A3, A4, B1, B2, B3, B4. clear A1 A2 A3 A4 B1 B2 B3 B4.
    split; [|split; [|split]].
    + destruct (Notions.is_attribute_descriptor e); cbn [List.length]; lia.
    + destruct (Notions.carries_invoke_id e); [|reflexivity].
      rewrite last_of_cons. destruct (Notions.last_of _); reflexivity.
    + destruct (Notions.carries_invoke_id e); [|reflexivity].
      rewrite last_of_cons. destruct (Notions.last_of _); reflexivity.
    + destruct (Notions.carries_invoke_id e), (existsb _ l); reflexivity.
Qed.

(** X8.  What [extract_dlms_request_info] reports for a parsed document:
    the attribute count is the number of AttributeDescriptor elements of
    the document, the root included; the invoke-id and the priority byte
    come from the last LongInvokeIdAndPriority element, in document order,
    whose value has at least eight hexadecimal digits: its digits after
    the first two, and its first two digits; the three keys invoke_id,
    high_byte and has_long_invoke are set together, and an invoke-id has at
    least six characters. *)
Theorem request_info_summary (root : ET.Element) :
  exists info,
    DLMS_Parser.extract_dlms_request_info (Some root) = Some info
    /\ let carrier :=
         Notions.last_of
           (filter Notions.carries_invoke_id (Notions.elements root)) in
       DLMS_Parser.attribute_count info
       = Z.of_nat (length (filter Notions.is_attribute_descriptor
                                  (Notions.elements root)))
       /\ DLMS_Parser.invoke_id info
          = option_map (fun e => skipn 2 (Notions.value_digits e)) carrier
       /\ DLMS_Parser.high_byte info
          = option_map (fun e => firstn 2 (Notions.value_digits e)) carrier
       /\ (DLMS_Parser.has_long_invoke info = true
           <-> DLMS_Parser.invoke_id info <> None)
       /\ (DLMS_Parser.has_long_invoke info = true
           <-> DLMS_Parser.high_byte info <> None)
       /\ (forall h, DLMS_Parser.invoke_id info = Some h ->
                     (6 <= length h)%nat)
       /\ (forall b, DLMS_Parser.high_byte info = Some b -> length b = 2%nat).
Proof.
  eexists. split; [reflexivity|]. cbv zeta.
  rewrite search_elements.
  destruct (search_fold_fields (Notions.elements root) DLMS_Parser.info0)
    as (A1 & A2 & A3 & A4).
  cbv zeta in A1, A2, A3, A4. rewrite A1, A2, A3, A4. clear A1 A2 A3 A4.
  cbn [DLMS_Parser.attribute_count DLMS_Parser.invoke_id
       DLMS_Parser.high_byte DLMS_Parser.has_long_invoke DLMS_Parser.info0].
  rewrite orb_false_r.
  set (l := Notions.elements root).
  assert (Hcarrier :
            match Notions.last_of (filter Notions.carries_invoke_id l) with
            | Some e => Notions.carries_invoke_id e = true
                        /\ existsb Notions.carries_invoke_id l = true
            | None => existsb Notions.carries_invoke_id l = false
            end).
  { destruct (filter Notions.carries_invoke_id l) as [|x f] eqn:Ef
      using rev_ind.
    - unfold Notions.last_of. cbn [rev hd_error].
      destruct (existsb Notions.carries_invoke_id l) eqn:Ex; [|reflexivity].
      apply existsb_exists in Ex as (y & Hy & Hc).
      assert (Hin : In y (filter Notions.carries_invoke_id l))
        by (apply filter_In; auto).
      rewrite Ef in Hin. destruct Hin.
    - rewrite last_of_app_one.
      assert (Hin : In x (filter Notions.carries_invoke_id l))
        by (rewrite Ef; apply in_or_app; right; left; reflexivity).
      apply filter_In in Hin as [Hin Hc]. split; [exact Hc|].
      apply existsb_exists. eauto. }
  destruct (Notions.last_of (filter Notions.carries_invoke_id l)) as [e|].
  - destruct Hcarrier as [Hc Hex]. rewrite Hex. cbn [option_map].
    unfold Notions.carries_invoke_id in Hc.
    apply andb_true_iff in Hc as [_ Hlen]. apply Nat.leb_le in Hlen.
    split; [lia|]. split; [reflexivity|]. split; [reflexivity|].
    split; [split; [discriminate | reflexivity]|].
    split; [split; [discriminate | reflexivity]|].
    split.
    + intros h Hh. assert (h = skipn 2 (Notions.value_digits e)) by congruence.
      subst h. rewrite length_skipn. lia.
    + intros b Hb. assert (b = firstn 2 (Notions.value_digits e)) by congruence.
      subst b. rewrite length_firstn. lia.
  - rewrite Hcarrier. cbn [option_map].
    split; [lia|]. split; [reflexivity|]. split; [reflexivity|].
    split; [split; [discriminate | congruence]|].
    split; [split; [discriminate | congruence]|].
    split; intros ? H; discriminate H.
Qed.

Lemma search_invoke_id root :
  DLMS_Parser.invoke_id (DLMS_Parser.search root DLMS_Parser.info0)
  = option_map (fun e => skipn 2 (Notions.value_digits e))
      (Notions.last_of
         (filter Notions.carries_invoke_id (Notions.elements root))).
Proof.
  rewrite search_elements.
  destruct (search_fold_fields (Notions.elements root) DLMS_Parser.info0)
    as (_ & A & _).
  cbv zeta in A. rewrite A.
  destruct (Notions.last_of _); reflexivity.
Qed.

Lemma filter_map_snd {A B} (p : B -> bool) (l : list (A * B)) :
  filter p (map snd l) = map snd (filter (fun x => p (snd x)) l).
Proof.
  induction l as [|x l IH]; [reflexivity|].
  cbn [map filter]. destruct (p (snd x)); cbn [map]; rewrite IH; reflexivity.
Qed.

Lemma filter_and {A} (p q : A -> bool) l :
  filter (fun x => p x && q x) l = filter q (filter p l).
Proof.
  induction l as [|x l IH]; [reflexivity|].
  cbn [filter]. destruct (p x); cbn [andb filter]; [|exact IH].
  destruct (q x); rewrite IH; reflexivity.
Qed.

Lemma int_hex_digits s :
  s <> [] -> Spec.all_digits 16 s -> int 16 s = Ok (Spec.hex_value s).
Proof.
  intros Hne Hall. apply int_digits; [right; reflexivity | exact Hne | exact Hall].
Qed.

Lemma all_digits_skipn base n s :
  Spec.all_digits base s -> Spec.all_digits base (skipn n s).
Proof.
  unfold Spec.all_digits. intros H. apply Forall_forall. intros c Hc.
  rewrite Forall_forall in H. apply H. revert Hc.
  rewrite <- (firstn_skipn n s) at 2. intros Hc. apply in_or_app. auto.
Qed.

(** X9.  The two readers of the invoke-id agree on a document that has a
    single LongInvokeIdAndPriority element and has it below the root: the
    number that [extract_obis_values_and_invoke_id] and
    [parse_new_style_push] store is the value, read in base 16, of the
    text that [extract_dlms_request_info] returns and the acknowledgment
    is built from; both are absent together. *)
Theorem invoke_id_readers_agree (root : ET.Element) (n : ET.node) :
  filter (ET.has_tag (chars "LongInvokeIdAndPriority")) (ET.iter ([], root))
  = [n] ->
  fst n <> [] ->
  Push_Parser.extract_invoke_id ([], root)
  = option_map Spec.hex_value
      (DLMS_Parser.invoke_id (DLMS_Parser.search root DLMS_Parser.info0)).
Proof.
  intros Hone Hn.
  set (t := chars "LongInvokeIdAndPriority") in *.
  assert (Htl : filter (ET.has_tag t) (tl (ET.iter ([], root))) = [n]).
  { unfold ET.iter in *. cbn [fst snd] in *. destruct root as [rt a x cs].
    rewrite iter_from_eq in *. cbn [tl]. cbn [filter] in Hone.
    match type of Hone with
    | context [if ?b then _ else _] => destruct b
    end; [|exact Hone].
    exfalso. apply Hn. inversion Hone. reflexivity. }
  rewrite search_invoke_id.
  unfold Notions.elements. rewrite filter_map_snd.
  assert (Hf : filter (fun x : ET.path * ET.Element =>
                         Notions.carries_invoke_id (snd x))
                      (ET.iter ([], root))
               = filter (fun x : ET.path * ET.Element =>
                           (8 <=? length (Notions.value_digits (snd x)))%nat)
                        [n]).
  { transitivity
      (filter (fun x : ET.path * ET.Element =>
                 (8 <=? length (Notions.value_digits (snd x)))%nat)
              (filter (ET.has_tag t) (ET.iter ([], root))));
      [|f_equal; exact Hone].
    transitivity
      (filter (fun x : ET.path * ET.Element =>
                 ET.has_tag t x
                 && (8 <=? length (Notions.value_digits (snd x)))%nat)
              (ET.iter ([], root)));
      [apply filter_ext; intros x; reflexivity | apply filter_and]. }
  rewrite Hf.
  unfold Push_Parser.extract_invoke_id, ET.find, ET.iterfind.
  cbn [fold_left ET.select flat_map]. fold t. rewrite app_nil_r, Htl.
  cbn [hd_error filter]. fold (Notions.value_digits (snd n)).
  destruct (ET.get (snd n) (chars "Value") []) as [|c r] eqn:Ev.
  - unfold Notions.value_digits. rewrite Ev. reflexivity.
  - destruct (Nat.leb_spec 8 (length (Notions.value_digits (snd n))))
      as [Hlen|Hlen]; [|reflexivity].
    cbn [map Notions.last_of rev app hd_error option_map snd].
    rewrite int_hex_digits; [reflexivity| |].
    + intros E. apply (f_equal (@List.length ascii)) in E.
      rewrite length_skipn in E. cbn in E. lia.
    + apply all_digits_skipn, clean_hex_digits.
Qed.

Lemma invoke_id_readers_agree_witness :
  Push_Parser.extract_invoke_id ([], Samples.obis_push_document)
  = option_map Spec.hex_value
      (DLMS_Parser.invoke_id
         (DLMS_Parser.search Samples.obis_push_document DLMS_Parser.info0)).
Proof.
  apply (invoke_id_readers_agree Samples.obis_push_document
           ([0]%nat, Samples.leaf "LongInvokeIdAndPriority" "C000001A")).
  - reflexivity.
  - discriminate.
Defined.

(** With two such elements the readers part: the first one wins for the
    stored number, the last one for the acknowledgment. *)
Lemma invoke_id_readers_differ :
  let root :=
    Samples.elem "DataNotification"
      [Samples.leaf "LongInvokeIdAndPriority" "C000001A";
       Samples.leaf "LongInvokeIdAndPriority" "C000002B"] in
  Push_Parser.extract_invoke_id ([], root) = Some 0x1A
  /\ DLMS_Parser.invoke_id (DLMS_Parser.search root DLMS_Parser.info0)
     = Some (chars "00002B").
Proof. vm_compute. split; reflexivity. Qed.

(** ** The DLMS branch of the processor *)

Lemma last_of_filter {A} (p : A -> bool) l x :
  Notions.last_of (filter p l) = Some x -> p x = true /\ In x l.
Proof.
  destruct (filter p l) as [|y f _] eqn:Ef using rev_ind.
  - discriminate.
  - rewrite last_of_app_one. intros E.
    assert (y = x) by congruence. subst y.
    assert (Hin : In x (filter p l))
      by (rewrite Ef; apply in_or_app; right; left; reflexivity).
    apply filter_In in Hin. tauto.
Qed.

Lemma upper_hex_char_facts c :
  Notions.upper_hex_char c = true ->
  is_hex_digit c = true /\ upper_char c = c /\ Ascii.eqb " " c = false.
Proof.
  unfold Notions.upper_hex_char, char_in. intros H.
  apply existsb_exists in H as (x & Hin & Hx).
  apply Ascii.eqb_eq in Hx. subst x. cbn in Hin.
  repeat (destruct Hin as [<-|Hin]; [vm_compute; repeat split|]).
  contradiction.
Qed.

Lemma value_digits_chars e :
  Forall (fun c => Notions.upper_hex_char c = true) (Notions.value_digits e).
Proof.
  unfold Notions.value_digits, DLMS_Parser.clean_hex. apply Forall_forall.
  intros c Hc. apply filter_In in Hc as [_ Hc]. exact Hc.
Qed.

Lemma Forall_skipn {A} (P : A -> Prop) n l : Forall P l -> Forall P (skipn n l).
Proof.
  intros H. apply Forall_forall. intros x Hx. rewrite Forall_forall in H.
  apply H. rewrite <- (firstn_skipn n l). apply in_or_app. auto.
Qed.

(** The invoke-id text found in a document: upper-case hexadecimal digits,
    at least six of them. *)
Lemma search_invoke_id_chars root h :
  DLMS_Parser.invoke_id (DLMS_Parser.search root DLMS_Parser.info0) = Some h ->
  Forall (fun c => Notions.upper_hex_char c = true) h /\ (6 <= length h)%nat.
Proof.
  rewrite search_invoke_id.
  destruct (Notions.last_of _) as [e|] eqn:El; [|discriminate].
  cbn [option_map]. intros E.
  assert (h = skipn 2 (Notions.value_digits e)) by congruence. subst h.
  apply last_of_filter in El as [Hc _].
  unfold Notions.carries_invoke_id in Hc.
  apply andb_true_iff in Hc as [_ Hlen]. apply Nat.leb_le in Hlen.
  split; [apply Forall_skipn, value_digits_chars|].
  rewrite length_skipn. lia.
Qed.

Lemma upper_of_upper_hex h :
  Forall (fun c => Notions.upper_hex_char c = true) h -> upper h = h.
Proof.
  induction 1 as [|c h Hc _ IH]; [reflexivity|].
  unfold upper in *. cbn [map]. rewrite IH.
  destruct (upper_hex_char_facts c Hc) as (_ & -> & _). reflexivity.
Qed.

Lemma replace_space_upper_hex h :
  Forall (fun c => Notions.upper_hex_char c = true) h ->
  replace (chars " ") [] h = h.
Proof.
  intros H. change (chars " ") with [" "%char]. rewrite replace_char.
  apply filter_all. eapply Forall_impl; [|exact H]. cbn beta.
  intros c Hc. destruct (upper_hex_char_facts c Hc) as (_ & _ & ->).
  reflexivity.
Qed.

Lemma upper_hex_is_hex h :
  Forall (fun c => Notions.upper_hex_char c = true) h -> Spec.is_hex h.
Proof.
  unfold Spec.is_hex. apply Forall_impl. intros c Hc.
  apply (upper_hex_char_facts c Hc).
Qed.

Lemma length_6_inv {A} (l : list A) :
  length l = 6%nat -> exists a b c d e f, l = [a; b; c; d; e; f].
Proof.
  destruct l as [|a [|b [|c [|d [|e [|f [|]]]]]]]; try discriminate.
  intros _. repeat eexists.
Qed.

(** The invoke-id text handed to [_generate_response] for an invoke-id of
    six or eight characters: two zeros and the last six characters. *)
Lemma invoke_clean_hex_of_short h :
  (length h = 6 \/ length h = 8)%nat ->
  dlms_branch.invoke_clean_hex_of h
  = chars "00" ++ skipn (length h - 6) h
  /\ length (skipn (length h - 6) h) = 6%nat.
Proof.
  unfold dlms_branch.invoke_clean_hex_of, zfill. intros [E|E]; rewrite E.
  - cbn [Nat.leb Nat.sub skipn]. rewrite E. split; reflexivity.
  - cbn [Nat.leb Nat.sub]. rewrite length_skipn, E. split; reflexivity.
Qed.

Lemma slice_lengths (raw_data : bytes) :
  (10 <= length raw_data)%nat ->
  length (dlms_branch.slice raw_data 4 8 ++ dlms_branch.slice raw_data 3 4)
  = 5%nat.
Proof.
  intros H. unfold dlms_branch.slice.
  rewrite length_app, !length_firstn, !length_skipn. lia.
Qed.

(** X10.  A frame of at least ten bytes that the codec decodes, whose
    document carries an invoke-id of six (or eight) hexadecimal digits, is
    acknowledged after the push callback, if one is registered, has
    returned: the response is the 36-byte acknowledgment frame addressed to
    bytes 4..7 of the request followed by byte 3, and its invoke-id field
    is 00 followed by the last three bytes of the invoke-id, so the
    priority byte of the request is not echoed. *)
Theorem dlms_frame_acknowledged (env : dlms_branch.environment)
        (raw_data : bytes) (root : ET.Element) (h : str) :
  (10 <= length raw_data)%nat ->
  dlms_branch.hdlc_to_enhanced_xml env raw_data = Ok (Some root) ->
  (forall callback,
     dlms_branch.on_dlms_push env = Some callback ->
     callback (Some root) = Ok tt) ->
  DLMS_Parser.invoke_id (DLMS_Parser.search root DLMS_Parser.info0) = Some h ->
  (length h = 6 \/ length h = 8)%nat ->
  datetime.valid (dlms_branch.now env) = true ->
  AckFrame.fits_16_bits (dlms_branch._GXFCS16 env) ->
  let your_addr := dlms_branch.slice raw_data 3 4 in
  let meter_addr := dlms_branch.slice raw_data 4 8 in
  let address_field := meter_addr ++ your_addr in
  let invoke_bytes := 0 :: AckFrame.hex_pairs (skipn (length h - 6) h) in
  let response :=
    AckFrame.frame (utils.calculate_fcs (dlms_branch._GXFCS16 env))
      address_field
      (AckFrame.pdu_body invoke_bytes
         (AckFrame.datetime_block (dlms_branch.now env))) in
  dlms_branch._process_dlms_frame env raw_data
  = (Some response,
     [dlms_branch.log_packet (length raw_data) (Hex.bytes_to_hex_str raw_data);
      dlms_branch.log_xml (Some root)]
     ++ match dlms_branch.on_dlms_push env with
        | Some _ => [dlms_branch.on_dlms_push_called (Some root)]
        | None => []
        end
     ++ [dlms_branch.log_your_address (Hex.bytes_to_hex_str your_addr);
         dlms_branch.log_meter_address (Hex.bytes_to_hex_str meter_addr);
         dlms_branch.log_address_field (Hex.bytes_to_hex_str address_field);
         dlms_branch.log_invoke_id h (Spec.hex_value h);
         dlms_branch.log_response 36 (Hex.bytes_to_hex_str response)])
  /\ length address_field = 5%nat
  /\ length invoke_bytes = 4%nat
  /\ length response = 36%nat.
Proof.
  intros Hlen Hxml Hcb Hid Hh Hnow Hfits. cbv zeta.
  destruct (search_invoke_id_chars root h Hid) as [Hchars Hh6].
  destruct (invoke_clean_hex_of_short h Hh) as [Eclean Hlen6].
  set (h6 := skipn (length h - 6) h) in *.
  assert (Hchars6 : Forall (fun c => Notions.upper_hex_char c = true) h6)
    by (apply Forall_skipn, Hchars).
  pose proof (upper_hex_is_hex h6 Hchars6) as Hhex6.
  pose proof (slice_lengths raw_data Hlen) as Haddr.
  set (address_field :=
         dlms_branch.slice raw_data 4 8 ++ dlms_branch.slice raw_data 3 4) in *.
  assert (Hfromhex : fromhex (chars "00" ++ h6)
                     = Ok (0 :: AckFrame.hex_pairs h6)).
  { rewrite fromhex_hex_pairs.
    - reflexivity.
    - constructor; [reflexivity|]. constructor; [reflexivity|]. exact Hhex6.
    - cbn [chars list_ascii_of_string app List.length]. rewrite Hlen6.
      reflexivity. }
  assert (Hbytes : length (AckFrame.hex_pairs h6) = 3%nat).
  { destruct (length_6_inv _ Hlen6) as (a & b & c & d & e & f & ->).
    reflexivity. }
  set (pdu := AckFrame.pdu_body (0 :: AckFrame.hex_pairs h6)
                (AckFrame.datetime_block (dlms_branch.now env))).
  assert (Hresp : message_handler._generate_response (dlms_branch._GXFCS16 env)
                    (dlms_branch.now env) address_field
                    (dlms_branch.invoke_clean_hex_of h)
                  = Some (AckFrame.frame
                            (utils.calculate_fcs (dlms_branch._GXFCS16 env))
                            address_field pdu)).
  { rewrite Eclean.
    rewrite (generate_response_layout _ _ _ _ _ Hfromhex Hnow Hfits).
    rewrite length_byte_value. cbn [List.length]. rewrite Haddr, Hbytes.
    reflexivity. }
  assert (Hflen : length (AckFrame.frame
                            (utils.calculate_fcs (dlms_branch._GXFCS16 env))
                            address_field pdu) = 36%nat).
  { rewrite frame_length. unfold pdu. rewrite pdu_body_length.
    cbn [List.length]. rewrite Haddr, Hbytes. reflexivity. }
  split; [|split; [exact Haddr | split; [cbn [List.length]; lia | exact Hflen]]].
  unfold dlms_branch._process_dlms_frame, dlms_branch.process_long_frame.
  replace (length raw_data <? 10)%nat with false
    by (symmetry; apply Nat.ltb_ge; lia).
  rewrite Hxml. cbn [DLMS_Parser.extract_dlms_request_info]. rewrite Hid.
  destruct h as [|c r]; [cbn in Hh6; lia|].
  rewrite (upper_of_upper_hex _ Hchars), (replace_space_upper_hex _ Hchars).
  rewrite int_hex_digits
    by (try discriminate; apply is_hex_all_digits, upper_hex_is_hex, Hchars).
  fold address_field. rewrite Hresp.
  destruct (AckFrame.frame _ address_field pdu) as [|b0 fr] eqn:Efr;
    [cbn in Hflen; lia|].
  rewrite Hflen.
  destruct (dlms_branch.on_dlms_push env) as [callback|] eqn:Ecb.
  - rewrite (Hcb callback eq_refl). reflexivity.
  - reflexivity.
Qed.

Lemma dlms_frame_acknowledged_witness :
  let env := Runs.environment in
  let raw_data := Runs.request_frame in
  let h := chars "00001A" in
  let your_addr := dlms_branch.slice raw_data 3 4 in
  let meter_addr := dlms_branch.slice raw_data 4 8 in
  let address_field := meter_addr ++ your_addr in
  let invoke_bytes := 0 :: AckFrame.hex_pairs (skipn (length h - 6) h) in
  let response :=
    AckFrame.frame (utils.calculate_fcs (dlms_branch._GXFCS16 env))
      address_field
      (AckFrame.pdu_body invoke_bytes
         (AckFrame.datetime_block (dlms_branch.now env))) in
  dlms_branch._process_dlms_frame env raw_data
  = (Some response,
     [dlms_branch.log_packet (length raw_data) (Hex.bytes_to_hex_str raw_data);
      dlms_branch.log_xml (Some Samples.obis_push_document)]
     ++ match dlms_branch.on_dlms_push env with
        | Some _ =>
            [dlms_branch.on_dlms_push_called (Some Samples.obis_push_document)]
        | None => []
        end
     ++ [dlms_branch.log_your_address (Hex.bytes_to_hex_str your_addr);
         dlms_branch.log_meter_address (Hex.bytes_to_hex_str meter_addr);
         dlms_branch.log_address_field (Hex.bytes_to_hex_str address_field);
         dlms_branch.log_invoke_id h (Spec.hex_value h);
         dlms_branch.log_response 36 (Hex.bytes_to_hex_str response)])
  /\ length address_field = 5%nat
  /\ length invoke_bytes = 4%nat
  /\ length response = 36%nat.
Proof.
  apply (dlms_frame_acknowledged Runs.environment Runs.request_frame
           Samples.obis_push_document (chars "00001A")).
  - cbn. lia.
  - reflexivity.
  - intros callback E. injection E as <-. reflexivity.
  - reflexivity.
  - left. reflexivity.
  - reflexivity.
  - exact I.
Defined.

(** The response of that run. *)
Lemma dlms_frame_acknowledged_example :
  fst (dlms_branch._process_dlms_frame Runs.environment Runs.request_frame)
  = Some [0x7E; 0xA0; 34; 0x00; 0x02; 0x44; 0xC9; 0x03; 0x13; 0x96; 0x4B;
          0xE6; 0xE7; 0x00; 0x10; 0x00; 0x00; 0x00; 0x1A; 0x0C;
          0x07; 0xEA; 1; 13; 0xFF; 14; 33; 20; 0xFF; 0xFF; 0x4C; 0x00; 0x00;
          0x6D; 0x90; 0x7E].
Proof. vm_compute. reflexivity. Qed.

(** X11.  [_process_dlms_frame] calls the push callback at most once, and
    only with the document the codec returned for a frame of at least ten
    bytes; a response is returned only when the codec decoded the frame,
    the callback, if registered, returned normally, the document carries an
    invoke-id and [_generate_response] built the frame.  A push that the
    callback failed to take is therefore never acknowledged. *)
Theorem dlms_frame_ack_follows_push (env : dlms_branch.environment)
        (raw_data : bytes) :
  let response := fst (dlms_branch._process_dlms_frame env raw_data) in
  let acts := snd (dlms_branch._process_dlms_frame env raw_data) in
  (length (filter Notions.is_push_call acts) <= 1)%nat
  /\ (forall xml,
        In (dlms_branch.on_dlms_push_called xml) acts ->
        (10 <= length raw_data)%nat
        /\ dlms_branch.hdlc_to_enhanced_xml env raw_data = Ok xml
        /\ dlms_branch.on_dlms_push env <> None)
  /\ (forall r,
        response = Some r ->
        (10 <= length raw_data)%nat
        /\ exists xml info invoke_id,
             dlms_branch.hdlc_to_enhanced_xml env raw_data = Ok xml
             /\ (forall callback,
                   dlms_branch.on_dlms_push env = Some callback ->
                   callback xml = Ok tt
                   /\ In (dlms_branch.on_dlms_push_called xml) acts)
             /\ DLMS_Parser.extract_dlms_request_info xml = Some info
             /\ DLMS_Parser.invoke_id info = Some invoke_id
             /\ message_handler._generate_response (dlms_branch._GXFCS16 env)
                  (dlms_branch.now env)
                  (dlms_branch.slice raw_data 4 8
                   ++ dlms_branch.slice raw_data 3 4)
                  (dlms_branch.invoke_clean_hex_of (upper invoke_id))
                = Some r).
Proof.
  cbv zeta.
  unfold dlms_branch._process_dlms_frame, dlms_branch.process_long_frame.
  destruct (Nat.ltb_spec (length raw_data) 10) as [Hlen|Hlen].
  { cbn. split; [lia|]. split.
    - intros xml [E|[E|[]]]; discriminate E.
    - intros r E. discriminate E. }
  destruct (dlms_branch.hdlc_to_enhanced_xml env raw_data) as [xml|e] eqn:Hx.
  2:{ cbn. split; [lia|]. split.
      - intros xml [E|[E|[E|[]]]]; discriminate E.
      - intros r E. discriminate E. }
  destruct (dlms_branch.on_dlms_push env) as [callback|] eqn:Hcb.
  - destruct (callback xml) as [[]|e] eqn:Hcall.
    2:{ cbn. split; [lia|]. split.
        - intros xml' [E|[E|[E|[E|[E|[]]]]]]; try discriminate E.
          injection E as <-. repeat split; [exact Hlen | discriminate].
        - intros r E. discriminate E. }
    destruct (DLMS_Parser.extract_dlms_request_info xml) as [info|] eqn:Hi.
    2:{ cbn. split; [lia|]. split.
        - intros xml' H. repeat (destruct H as [E|H]; [try discriminate E|]);
            [|destruct H].
          injection E as <-. repeat split; [exact Hlen | discriminate].
        - intros r E. discriminate E. }
    destruct (DLMS_Parser.invoke_id info) as [[|c h]|] eqn:Hid.
    1,3: cbn; (split; [lia|]); split;
      [intros xml' H; repeat (destruct H as [E|H]; [try discriminate E|]);
         [|destruct H];
       injection E as <-; repeat split; [exact Hlen | discriminate]
      |intros r E; discriminate E].
    destruct (int 16 _) as [dec|e] eqn:Hint.
    2:{ cbn. split; [lia|]. split.
        - intros xml' H. repeat (destruct H as [E|H]; [try discriminate E|]);
            [|destruct H].
          injection E as <-. repeat split; [exact Hlen | discriminate].
        - intros r E. discriminate E. }
    destruct (message_handler._generate_response _ _ _ _) as [[|b fr]|] eqn:Hg;
      cbn; (split; [lia|]); (split;
      [intros xml' H; repeat (destruct H as [E|H]; [try discriminate E|]);
         [|destruct H];
       injection E as <-; repeat split; [exact Hlen | discriminate]|]);
      intros r E; try discriminate E;
      (split; [exact Hlen|]); exists xml, info, (c :: h);
      (split; [reflexivity|]); (split;
        [intros cb Ecb; assert (cb = callback) by congruence; subst cb;
         split; [exact Hcall | right; right; left; reflexivity]|]);
      (split; [exact Hi|]); (split; [exact Hid|]);
      (etransitivity; [exact Hg | exact E]).
  - destruct (DLMS_Parser.extract_dlms_request_info xml) as [info|] eqn:Hi.
    2:{ cbn. split; [lia|]. split.
        - intros xml' H. repeat (destruct H as [E|H]; [try discriminate E|]).
          destruct H.
        - intros r E. discriminate E. }
    destruct (DLMS_Parser.invoke_id info) as [[|c h]|] eqn:Hid.
    1,3: cbn; (split; [lia|]); split;
      [intros xml' H; repeat (destruct H as [E|H]; [try discriminate E|]);
       destruct H
      |intros r E; discriminate E].
    destruct (int 16 _) as [dec|e] eqn:Hint.
    2:{ cbn. split; [lia|]. split.
        - intros xml' H. repeat (destruct H as [E|H]; [try discriminate E|]).
          destruct H.
        - intros r E. discriminate E. }
    destruct (message_handler._generate_response _ _ _ _) as [[|b fr]|] eqn:Hg;
      cbn; (split; [lia|]); (split;
      [intros xml' H; repeat (destruct H as [E|H]; [try discriminate E|]);
       destruct H|]);
      intros r E; try discriminate E;
      (split; [exact Hlen|]); exists xml, info, (c :: h);
      (split; [reflexivity|]); (split; [intros cb Ecb; discriminate Ecb|]);
      (split; [exact Hi|]); (split; [exact Hid|]);
      (etransitivity; [exact Hg | exact E]).
Qed.

(** ** Autoconnect messages whose callback fails or is absent *)



(** That run: the callback is called, the message is then logged as text. *)
Lemma autoconnect_callback_failure_example :
  message_handler.process_message Runs.failing_processor
    (Samples.ascii_bytes "<sn=ABC123 ip=10.0.0.5 pt=4059>") None
  = (None,
     [message_handler.on_autoconnect_called (chars "ABC123") (chars "10.0.0.5")
        4059;
      message_handler.logged_text []
        (chars "<sn=ABC123 ip=10.0.0.5 pt=4059>")]).
Proof. vm_compute. reflexivity. Qed.

(** ** The annotation of the decoded XML *)

Ltac eval_tags :=
  repeat match goal with
         | |- context [str_eqb (chars ?a) (chars ?b)] =>
             let v := eval vm_compute in (str_eqb (chars a) (chars b)) in
             change (str_eqb (chars a) (chars b)) with v
         end.

Ltac tag_case t s :=
  let E := fresh "Etag" in
  destruct (str_eqb t (chars s)) eqn:E;
  [apply str_eqb_eq in E; subst t; eval_tags; cbn [andb orb negb]|].

Lemma snd_iter_from e :
  forall p q, map snd (ET.iter_from p e) = map snd (ET.iter_from q e).
Proof.
  induction e as [t a x cs IH] using Element_induction. intros p q.
  rewrite !iter_from_eq. cbn [map snd]. f_equal.
  generalize 0%nat at 1 as i. generalize 0%nat as j.
  induction IH as [|c cs Hc _ IHcs]; intros j i; [reflexivity|].
  rewrite !iter_children_cons, !map_app.
  f_equal; [apply Hc | apply IHcs].
Qed.

Lemma elements_cons t a x cs :
  Notions.elements (ET.mkElement t a x cs)
  = ET.mkElement t a x cs :: flat_map Notions.elements cs.
Proof.
  unfold Notions.elements at 1, ET.iter. cbn [fst snd].
  rewrite iter_from_eq. cbn [map snd]. f_equal.
  generalize 0%nat as i.
  induction cs as [|c cs IH]; intros i; [reflexivity|].
  rewrite iter_children_cons, map_app. cbn [flat_map].
  f_equal; [apply snd_iter_from | apply IH].
Qed.

Lemma int_raises base s e : int base s = Raise e -> e = ValueError.
Proof.
  unfold int.
  destruct (skip_prefix base _) as [|u r] eqn:Es; [congruence|].
  destruct (Ascii.eqb u "_"); [congruence|].
  assert (Hscan : forall s acc prev n e,
            scan_digits base s acc prev n = Raise e -> e = ValueError).
  { clear. induction s as [|c r IH]; intros acc prev n e; cbn [scan_digits];
      [discriminate|].
    destruct (digit_value c <? base); [apply IH|].
    destruct (Ascii.eqb c "_"); [|discriminate].
    destruct prev as [p|]; [|apply IH].
    destruct (Ascii.eqb p "_"); [congruence | apply IH]. }
  destruct (scan_digits base (u :: r) 0 None 0) as [[[[v prev] nd] rest]|e']
    eqn:Escan; cbn [bind].
  - destruct prev as [p|]; [destruct (Ascii.eqb p "_")|];
      try congruence;
      (destruct nd; [congruence|]);
      destruct (lstrip_with Py_ISSPACE rest); congruence.
  - intros E. apply Hscan in Escan. congruence.
Qed.

Lemma map_result_raises {A B} (f : A -> result B) xs e :
  (forall x e', f x = Raise e' -> e' = ValueError) ->
  DLMS_Parser.map_result f xs = Raise e -> e = ValueError.
Proof.
  intros Hf. induction xs as [|x xs IH]; cbn [DLMS_Parser.map_result];
    [discriminate|].
  destruct (f x) as [y|e'] eqn:Ef; cbn [bind].
  - destruct (DLMS_Parser.map_result f xs) as [ys|e'']; cbn [bind];
      [discriminate|]. intros E. apply IH. congruence.
  - intros E. apply Hf in Ef. congruence.
Qed.

Lemma obis_parts_raises h e :
  DLMS_Parser.obis_parts h = Raise e -> e = ValueError.
Proof.
  unfold DLMS_Parser.obis_parts. apply map_result_raises.
  intros i e'. apply int_raises.
Qed.

Lemma hex_to_obis_result value :
  DLMS_Parser.hex_to_obis value
  = if (length value =? 12)%nat
    then match DLMS_Parser.obis_parts value with
         | Ok parts => Ok (join (chars ".") (map str_of_int parts))
         | Raise e => Raise e
         end
    else Ok value.
Proof.
  unfold DLMS_Parser.hex_to_obis. destruct (length value =? 12)%nat;
    reflexivity.
Qed.

(** Where the annotation of one element raises, and what it raises. *)
Lemma enhance_here_ok t a x cs :
  is_ok (Enhance.enhance_here t a)
  = negb (Notions.rejected (ET.mkElement t a x cs))
  /\ (forall e, Enhance.enhance_here t a = Raise e -> e = ValueError).
Proof.
  unfold Enhance.enhance_here, Notions.rejected, ET.get.
  cbn [ET.tag ET.attrib].
  set (value := ET.get_attr a (chars "Value") []).
  tag_case t "TargetAddress"%string.
  { destruct (Enhance.nonempty value); cbn [andb orb negb].
    - destruct (int 16 value) as [dec|e] eqn:Ei; cbn [bind is_ok negb];
        rewrite ?orb_false_r; split; try reflexivity; try discriminate.
      intros e' E. apply int_raises in Ei. congruence.
    - split; [reflexivity | discriminate]. }
  cbn [andb].
  tag_case t "SourceAddress"%string.
  { destruct (int 16 value) as [dec|e] eqn:Ei; cbn [bind is_ok negb].
    - destruct (Enhance.source_address_parts dec).
      split; [reflexivity | discriminate].
    - split; [reflexivity|]. intros e' E. apply int_raises in Ei. congruence. }
  cbn [andb orb].
  tag_case t "ClassId"%string.
  { destruct (Enhance.nonempty value); cbn [andb];
      [|split; [reflexivity | discriminate]].
    destruct (int 16 value) as [dec|e] eqn:Ei;
      [split; [reflexivity | discriminate]|].
    apply int_raises in Ei. subst e. split; [reflexivity | discriminate]. }
  cbn [andb].
  tag_case t "AttributeId"%string.
  { destruct (Enhance.nonempty value); cbn [andb];
      [|split; [reflexivity | discriminate]].
    destruct (int 16 value) as [dec|e] eqn:Ei;
      [split; [reflexivity | discriminate]|].
    apply int_raises in Ei. subst e. split; [reflexivity | discriminate]. }
  cbn [andb].
  tag_case t "InstanceId"%string.
  { rewrite hex_to_obis_result.
    destruct (length value =? 12)%nat eqn:El; cbn [andb].
    - assert (Hne : Enhance.nonempty value = true)
        by (destruct value; [discriminate El | reflexivity]).
      rewrite Hne.
      destruct (DLMS_Parser.obis_parts value) as [parts|e] eqn:Ep;
        cbn [bind is_ok negb]; split; try reflexivity; try discriminate.
      intros e' E. apply obis_parts_raises in Ep. congruence.
    - destruct (Enhance.nonempty value); cbn [bind is_ok negb];
        split; try reflexivity; discriminate. }
  cbn [andb orb negb].
  repeat match goal with
         | |- context [if ?b then _ else _] => destruct b
         end; split; try reflexivity; discriminate.
Qed.

Lemma enhance_eq t a x cs :
  Enhance.enhance_xml_element (ET.mkElement t a x cs)
  = (here <- Enhance.enhance_here t a ;;
     children <- Enhance.enhance_each cs ;;
     Ok (Enhance.Elem t (fst here) x (children ++ map Enhance.Comment (snd here)))).
Proof. reflexivity. Qed.

Lemma enhance_each_cons c rest :
  Enhance.enhance_each (c :: rest)
  = (child' <- Enhance.enhance_xml_element c ;;
     rest' <- Enhance.enhance_each rest ;;
     Ok (child' :: rest')).
Proof. reflexivity. Qed.

Lemma enhance_outcome e :
  is_ok (Enhance.enhance_xml_element e)
  = negb (existsb Notions.rejected (Notions.elements e))
  /\ (forall ex, Enhance.enhance_xml_element e = Raise ex -> ex = ValueError).
Proof.
  induction e as [t a x cs IH] using Element_induction.
  rewrite enhance_eq, elements_cons. cbn [existsb].
  destruct (enhance_here_ok t a x cs) as [Hok Hex].
  assert (Heach : is_ok (Enhance.enhance_each cs)
                  = negb (existsb Notions.rejected
                            (flat_map Notions.elements cs))
                  /\ (forall ex, Enhance.enhance_each cs = Raise ex ->
                                 ex = ValueError)).
  { clear Hok Hex. induction IH as [|c cs [Hc1 Hc2] _ [IH1 IH2]].
    - split; [reflexivity | discriminate].
    - rewrite enhance_each_cons. cbn [flat_map]. rewrite existsb_app.
      destruct (Enhance.enhance_xml_element c) as [c'|e] eqn:Ec; cbn [bind].
      + cbn [is_ok] in Hc1. 
        destruct (existsb Notions.rejected (Notions.elements c));
          [discriminate Hc1|]. cbn [orb].
        destruct (Enhance.enhance_each cs) as [cs'|e] eqn:Ecs; cbn [bind].
        * split; [exact IH1 | discriminate].
        * split; [exact IH1|]. intros ex E. apply IH2. congruence.
      + cbn [is_ok] in Hc1.
        destruct (existsb Notions.rejected (Notions.elements c));
          [|discriminate Hc1]. cbn [orb negb].
        split; [reflexivity|]. intros ex E. apply Hc2. congruence. }
  destruct Heach as [Heach1 Heach2].
  destruct (Enhance.enhance_here t a) as [here|e] eqn:Eh; cbn [bind].
  - cbn [is_ok] in Hok.
    destruct (Notions.rejected (ET.mkElement t a x cs)); [discriminate Hok|].
    cbn [orb].
    destruct (Enhance.enhance_each cs) as [cs'|e] eqn:Ecs; cbn [bind].
    + split; [exact Heach1 | discriminate].
    + split; [exact Heach1|]. intros ex E. apply Heach2. congruence.
  - cbn [is_ok] in Hok.
    destruct (Notions.rejected (ET.mkElement t a x cs)); [|discriminate Hok].
    cbn [orb negb]. split; [reflexivity|].
    intros ex E. apply Hex. congruence.
Qed.

(** X13.  [enhance_xml_element] raises exactly when the document has an
    element at which a conversion outside a [try] block fails: a
    TargetAddress with a non-empty value, or a SourceAddress with any value
    (an absent one included), that [int(value, 16)] rejects, or an
    InstanceId of twelve characters with a pair that is not hexadecimal.
    What it raises is [ValueError]; on every other document it returns the
    annotated tree. *)
Theorem enhance_xml_element_raises_iff (root : ET.Element) :
  ((exists ex, Enhance.enhance_xml_element root = Raise ex)
   <-> exists e, In e (Notions.elements root) /\ Notions.rejected e = true)
  /\ (forall ex, Enhance.enhance_xml_element root = Raise ex ->
                 ex = ValueError)
  /\ ((forall e, In e (Notions.elements root) -> Notions.rejected e = false)
      -> exists n, Enhance.enhance_xml_element root = Ok n).
Proof.
  destruct (enhance_outcome root) as [Hok Hex].
  split; [|split; [exact Hex|]].
  - split.
    + intros [ex E]. rewrite E in Hok. cbn [is_ok] in Hok.
      destruct (existsb Notions.rejected (Notions.elements root)) eqn:Eb;
        [|discriminate Hok].
      apply existsb_exists in Eb. exact Eb.
    + intros He. apply existsb_exists in He. rewrite He in Hok.
      destruct (Enhance.enhance_xml_element root) as [n|ex];
        [discriminate Hok | eauto].
  - intros Hall.
    destruct (existsb Notions.rejected (Notions.elements root)) eqn:Eb.
    + apply existsb_exists in Eb as (e & Hin & Hr).
      rewrite (Hall e Hin) in Hr. discriminate Hr.
    + destruct (Enhance.enhance_xml_element root) as [n|ex];
        [eauto | discriminate Hok].
Qed.

Lemma set_attr_keys a key value :
  Enhance.nonempty (ET.get_attr a key []) = true ->
  map fst (Enhance.set_attr a key value) = map fst a.
Proof.
  unfold ET.get_attr. induction a as [|[k v] a IH]; cbn [find fst snd].
  - discriminate.
  - cbn [Enhance.set_attr]. destruct (str_eqb k key) eqn:E; cbn [map fst].
    + reflexivity.
    + intros H. rewrite (IH H). reflexivity.
Qed.

(** What the annotation of one element does to its attributes. *)
Lemma enhance_here_attrib t a a' comments :
  Enhance.enhance_here t a = Ok (a', comments) ->
  (Notions.rewritten t = false -> a' = a) /\ map fst a' = map fst a.
Proof.
  unfold Enhance.enhance_here, Notions.rewritten.
  set (value := ET.get_attr a (chars "Value") []).
  tag_case t "TargetAddress"%string.
  { destruct (Enhance.nonempty value); cbn [andb].
    - destruct (int 16 value); cbn [bind]; [|discriminate].
      intros E. injection E as <- _. auto.
    - intros E. injection E as <- _. auto. }
  cbn [andb].
  tag_case t "SourceAddress"%string.
  { destruct (int 16 value) as [dec|]; cbn [bind]; [|discriminate].
    destruct (Enhance.source_address_parts dec).
    intros E. injection E as <- _. auto. }
  tag_case t "ClassId"%string.
  { destruct (Enhance.nonempty value) eqn:Hne; cbn [andb].
    - destruct (int 16 value) as [dec|[]]; intros E; try discriminate E;
        injection E as <- _; (split; [discriminate|]);
        [apply set_attr_keys; exact Hne | reflexivity].
    - intros E. injection E as <- _. split; [discriminate | reflexivity]. }
  cbn [andb].
  tag_case t "AttributeId"%string.
  { destruct (Enhance.nonempty value) eqn:Hne; cbn [andb].
    - destruct (int 16 value) as [dec|[]]; intros E; try discriminate E;
        injection E as <- _; (split; [discriminate|]);
        [apply set_attr_keys; exact Hne | reflexivity].
    - intros E. injection E as <- _. split; [discriminate | reflexivity]. }
  cbn [andb].
  tag_case t "InstanceId"%string.
  { destruct (Enhance.nonempty value) eqn:Hne; cbn [andb].
    - destruct (DLMS_Parser.hex_to_obis value); cbn [bind]; [|discriminate].
      intros E. injection E as <- _. split; [discriminate|].
      apply set_attr_keys; exact Hne.
    - intros E. injection E as <- _. split; [discriminate | reflexivity]. }
  cbn [andb orb].
  repeat match goal with
         | |- context [if ?b then _ else _] => destruct b
         end; intros E; injection E as <- _; auto.
Qed.

Lemma elements_of_comments l :
  flat_map Enhance.elements_of (map Enhance.Comment l) = [].
Proof. induction l as [|c l IH]; [reflexivity | exact IH]. Qed.

(** The elements of the annotated tree agree with the document. *)
Lemma enhance_agrees e :
  forall n,
    Enhance.enhance_xml_element e = Ok n ->
    exists e', Enhance.elements_of n = [e'] /\ Notions.agree e e'.
Proof.
  induction e as [t a x cs IH] using Element_induction. intros n.
  rewrite enhance_eq.
  destruct (Enhance.enhance_here t a) as [[a' comments]|] eqn:Eh;
    cbn [bind]; [|discriminate].
  destruct (enhance_here_attrib _ _ _ _ Eh) as [Ha Hk].
  assert (Heach : forall cs',
            Enhance.enhance_each cs = Ok cs' ->
            exists es, flat_map Enhance.elements_of cs' = es
                       /\ Forall2 Notions.agree cs es).
  { clear Eh Ha Hk. induction IH as [|c cs Hc _ IHcs]; intros cs'.
    - intros E. injection E as <-. exists []. split; [reflexivity|constructor].
    - rewrite enhance_each_cons.
      destruct (Enhance.enhance_xml_element c) as [c'|] eqn:Ec; cbn [bind];
        [|discriminate].
      destruct (Enhance.enhance_each cs) as [rest'|] eqn:Er; cbn [bind];
        [|discriminate].
      intros E. injection E as <-.
      destruct (Hc c' eq_refl) as (e' & He' & Hagree).
      destruct (IHcs rest' eq_refl) as (es & Hes & Hall).
      exists (e' :: es). cbn [flat_map]. rewrite He', Hes.
      split; [reflexivity | constructor; assumption]. }
  destruct (Enhance.enhance_each cs) as [cs'|] eqn:Ecs; cbn [bind];
    [|discriminate].
  intros E. injection E as <-.
  destruct (Heach cs' eq_refl) as (es & Hes & Hall).
  exists (ET.mkElement t a' x es). cbn [Enhance.elements_of fst snd].
  rewrite flat_map_app, elements_of_comments, app_nil_r, Hes.
  split; [reflexivity|]. constructor; assumption.
Qed.

Lemma search_here_rewritten t a x cs info :
  Notions.rewritten t = true ->
  DLMS_Parser.search_here (ET.mkElement t a x cs) info = info.
Proof.
  unfold Notions.rewritten, DLMS_Parser.search_here. cbn [ET.tag].
  intros H. apply orb_true_iff in H as [H|H];
    [apply orb_true_iff in H as [H|H]|];
    apply str_eqb_eq in H; subst t; reflexivity.
Qed.

(** Documents that agree give the same request information. *)
Lemma search_agree e :
  forall e' info,
    Notions.agree e e' -> DLMS_Parser.search e' info = DLMS_Parser.search e info.
Proof.
  induction e as [t a x cs IH] using Element_induction.
  intros e' info Hagree.
  inversion Hagree as [t' a0 a' x0 x' cs0 cs' Ha Hk Hcs]; subst.
  rewrite !search_eq.
  assert (Hhere : DLMS_Parser.search_here (ET.mkElement t a' x' cs') info
                  = DLMS_Parser.search_here (ET.mkElement t a x cs) info).
  { destruct (Notions.rewritten t) eqn:Er.
    - rewrite !search_here_rewritten by exact Er. reflexivity.
    - rewrite (Ha eq_refl). reflexivity. }
  rewrite Hhere.
  generalize (DLMS_Parser.search_here (ET.mkElement t a x cs) info) as info'.
  clear Hagree Hhere Ha Hk.
  induction Hcs as [|c c' cs cs' Hc Hcs IHcs]; intros info'; [reflexivity|].
  inversion IH as [|? ? IHc IHrest]; subst.
  cbn [Notions.search_each]. rewrite (IHc c' info' Hc). apply (IHcs IHrest).
Qed.

(** X14.  [enhance_xml_element] changes the tree in memory only by
    rewriting the value of ClassId, AttributeId and InstanceId elements and
    by appending comment nodes.  When it returns, the elements of the
    annotated tree, its comment nodes left out, have the shape, the tags
    and the attribute names of the document, and the same attribute values
    at every element other than ClassId, AttributeId and InstanceId.
    [extract_dlms_request_info] does not depend on the rewritten values:
    every parsed document that agrees with the original in this way yields
    the same request information (addresses, invoke-id, priority byte and
    attribute count).  The statement is about trees in memory; the text
    that [ET.tostring] makes of the comments, and what a parser reads back
    from it, are not part of it. *)
Theorem annotation_rewrites_values_only (root : ET.Element)
        (n : Enhance.Node) :
  Enhance.enhance_xml_element root = Ok n ->
  exists root',
    Enhance.elements_of n = [root']
    /\ Notions.agree root root'
    /\ map ET.tag (Notions.elements root') = map ET.tag (Notions.elements root)
    /\ (forall other,
          Notions.agree root other ->
          DLMS_Parser.extract_dlms_request_info (Some other)
          = DLMS_Parser.extract_dlms_request_info (Some root)).
Proof.
  intros H. destruct (enhance_agrees root n H) as (root' & Hn & Hagree).
  exists root'. split; [exact Hn|]. split; [exact Hagree|].
  split.
  - clear H Hn. revert root' Hagree.
    induction root as [t a x cs IH] using Element_induction.
    intros root' Hagree.
    inversion Hagree as [t' a0 a' x0 x' cs0 cs' Ha Hk Hcs]; subst.
    rewrite !elements_cons. cbn [map ET.tag]. f_equal.
    clear Hagree Ha Hk.
    induction Hcs as [|c c' cs cs' Hc Hcs IHcs]; [reflexivity|].
    inversion IH as [|? ? IHc IHrest]; subst.
    cbn [flat_map]. rewrite !map_app. f_equal; [apply IHc, Hc | apply IHcs, IHrest].
  - intros other Hother. cbn [DLMS_Parser.extract_dlms_request_info]. f_equal.
    apply search_agree, Hother.
Qed.

Lemma annotation_rewrites_values_only_witness :
  exists root',
    Enhance.elements_of Runs.annotated_request = [root']
    /\ Notions.agree Runs.request_document root'
    /\ map ET.tag (Notions.elements root')
       = map ET.tag (Notions.elements Runs.request_document)
    /\ (forall other,
          Notions.agree Runs.request_document other ->
          DLMS_Parser.extract_dlms_request_info (Some other)
          = DLMS_Parser.extract_dlms_request_info (Some Runs.request_document)).
Proof.
  apply (annotation_rewrites_values_only Runs.request_document
           Runs.annotated_request).
  vm_compute. reflexivity.
Defined.

(** The annotation of the sample request: the comments added and the three
    values rewritten. *)
Lemma annotated_request_example :
  Enhance.enhance_xml_element Runs.request_document
  = Ok Runs.annotated_request
  /\ Runs.annotated_request
     = Enhance.Elem (chars "HDLC") [] None
         [Enhance.Elem (chars "TargetAddress") [(chars "Value", chars "1")] None
            [Enhance.Comment (chars " TargetAddress 1 ")];
          Enhance.Elem (chars "SourceAddress") [(chars "Value", chars "4489")]
            None
            [Enhance.Comment
               (chars " Logical address - 1, Physical address - 1161")];
          Enhance.Elem (chars "PDU") [] None
            [Enhance.Elem (chars "DataNotification") [] None
               [Enhance.Elem (chars "LongInvokeIdAndPriority")
                  [(chars "Value", chars "C000001A")] None
                  [Enhance.Comment (chars " High priority. ");
                   Enhance.Comment (chars " Confirmed service. ");
                   Enhance.Comment (chars " Invoke ID: 26 ")];
                Enhance.Elem (chars "DateTime")
                  [(chars "Value", chars "07EA010DFF0E2114FFFF4C00")] None
                  [Enhance.Comment (chars " 2026-01-13 14:33:20 UTC-03 ")];
                Enhance.Elem (chars "AttributeDescriptor") [] None
                  [Enhance.Elem (chars "ClassId")
                     [(chars "Value", chars "40")] None
                     [Enhance.Comment (chars " PushSetup ")];
                   Enhance.Elem (chars "InstanceId")
                     [(chars "Value", chars "0.0.25.9.0.255")] None [];
                   Enhance.Elem (chars "AttributeId")
                     [(chars "Value", chars "2")] None []]]]].
Proof. vm_compute. split; reflexivity. Qed.

Lemma source_address_parts_spec dec :
  let '(logical, physical) := Enhance.source_address_parts dec in
  (dec <= 0x3FFF -> dec = logical * 128 + physical /\ 0 <= physical < 128)
  /\ (0x3FFF < dec ->
      dec = logical * 16384 + physical /\ 0 <= physical < 16384
      /\ 1 <= logical)
  /\ (0 <= dec <= 0x3FFF -> 0 <= logical < 128).
Proof.
  unfold Enhance.source_address_parts.
  destruct (Z.ltb_spec 0x3FFF dec) as [Hbig|Hsmall].
  - rewrite Z.shiftr_div_pow2 by lia.
    change 0x3FFF with (Z.ones 14). rewrite Z.land_ones by lia.
    change (2 ^ 14) with 16384.
    pose proof (Z.div_mod dec 16384 ltac:(lia)).
    pose proof (Z.mod_pos_bound dec 16384 ltac:(lia)).
    change (Z.ones 14) with 16383 in *.
    split; [lia|]. split; [|lia]. intros _.
    split; [lia|]. split; [lia|].
    apply Z.div_le_lower_bound; lia.
  - rewrite Z.shiftr_div_pow2 by lia.
    change 0x7F with (Z.ones 7). rewrite Z.land_ones by lia.
    change (2 ^ 7) with 128.
    pose proof (Z.div_mod dec 128 ltac:(lia)).
    pose proof (Z.mod_pos_bound dec 128 ltac:(lia)).
    split; [intros _; lia|]. split; [lia|]. intros Hr.
    split; [apply Z.div_pos; lia | apply Z.div_lt_upper_bound; lia].
Qed.

(** X15.  The comment that [enhance_xml_element] appends to a SourceAddress
    whose value reads as the number dec in base 16 splits dec without loss:
    above 0x3FFF the logical address is dec divided by 2^14 and the physical
    address the remainder, otherwise they are the quotient and the
    remainder by 128; for a non-negative dec both parts are non-negative,
    and up to 0x3FFF the logical address is below 128. *)
Theorem source_address_annotation (a : list (str * str)) (x : option str)
        (dec : Z) :
  int 16 (ET.get_attr a (chars "Value") []) = Ok dec ->
  exists logical physical,
    Enhance.enhance_xml_element
      (ET.mkElement (chars "SourceAddress") a x [])
    = Ok (Enhance.Elem (chars "SourceAddress") a x
            [Enhance.Comment
               (chars " Logical address - " ++ str_of_int logical
                ++ chars ", Physical address - " ++ str_of_int physical)])
    /\ (dec <= 0x3FFF -> dec = logical * 128 + physical /\ 0 <= physical < 128)
    /\ (0x3FFF < dec ->
        dec = logical * 16384 + physical /\ 0 <= physical < 16384
        /\ 1 <= logical)
    /\ (0 <= dec <= 0x3FFF -> 0 <= logical < 128).
Proof.
  intros Hdec. pose proof (source_address_parts_spec dec) as Hspec.
  destruct (Enhance.source_address_parts dec) as [logical physical] eqn:Ep.
  exists logical, physical. split; [|exact Hspec].
  rewrite enhance_eq. unfold Enhance.enhance_here. eval_tags.
  cbn [andb]. rewrite Hdec. cbn [bind]. rewrite Ep. reflexivity.
Qed.

Lemma source_address_annotation_witness :
  exists logical physical,
    Enhance.enhance_xml_element
      (ET.mkElement (chars "SourceAddress") [(chars "Value", chars "4489")]
         None [])
    = Ok (Enhance.Elem (chars "SourceAddress") [(chars "Value", chars "4489")]
            None
            [Enhance.Comment
               (chars " Logical address - " ++ str_of_int logical
                ++ chars ", Physical address - " ++ str_of_int physical)])
    /\ (0x4489 <= 0x3FFF ->
        0x4489 = logical * 128 + physical /\ 0 <= physical < 128)
    /\ (0x3FFF < 0x4489 ->
        0x4489 = logical * 16384 + physical /\ 0 <= physical < 16384
        /\ 1 <= logical)
    /\ (0 <= 0x4489 <= 0x3FFF -> 0 <= logical < 128).
Proof.
  apply (source_address_annotation [(chars "Value", chars "4489")] None 0x4489).
  reflexivity.
Defined.

(** ** The outcome of the push parser *)

Lemma getitem_child_nodes n i :
  getitem (ET.child_nodes n) i
  = match nth_error (ET.children (snd n)) i with
    | Some c => Ok (fst n ++ [i], c)
    | None => Raise IndexError
    end.
Proof.
  unfold getitem, ET.child_nodes.
  assert (H : forall cs k i,
            nth_error (ET.number_from (fst n) k cs) i
            = match nth_error cs i with
              | Some c => Some (fst n ++ [(k + i)%nat], c)
              | None => None
              end).
  { induction cs as [|c cs IH]; intros k j.
    - destruct j; reflexivity.
    - destruct j as [|j]; cbn [ET.number_from nth_error].
      + rewrite Nat.add_0_r. reflexivity.
      + rewrite IH. replace (S k + j)%nat with (k + S j)%nat by lia.
        reflexivity. }
  rewrite H. destruct (nth_error (ET.children (snd n)) i); reflexivity.
Qed.

(** X16.  The outcome of [parse_dlms_push_xml] (and of
    [process_dlms_message], which has the same body).  A text that is not
    XML raises [ValueError]; a document that is not classified as a day
    push always yields an OBIS-push result; a document classified as a day
    push has a NotificationBody/DataValue element and yields a day-push
    result when that element has a Structure among its children with at
    least two children of its own, raises [ValueError] when it has no
    Structure among its children (the Structure that classified it lies
    deeper), and raises [IndexError] when its first Structure child has
    fewer than two children. *)
Theorem parse_dlms_push_xml_outcome (root : ET.Element) :
  Push_Parser.parse_dlms_push_xml None = Raise ValueError
  /\ (Push_Parser.is_new_style_push (Some root) = false ->
      exists r,
        Push_Parser.parse_dlms_push_xml (Some root)
        = Ok (Push_Parser.obis_push_type r))
  /\ (Push_Parser.is_new_style_push (Some root) = true ->
      exists data_value,
        ET.find ([], root) Push_Parser.data_value_path = Some data_value
        /\ match List.find (ET.has_tag (chars "Structure"))
                           (ET.child_nodes data_value) with
           | None =>
               Push_Parser.parse_dlms_push_xml (Some root) = Raise ValueError
           | Some structure =>
               match ET.children (snd structure) with
               | _ :: _ :: _ =>
                   exists r,
                     Push_Parser.parse_dlms_push_xml (Some root)
                     = Ok (Push_Parser.day_push_type r)
               | _ =>
                   Push_Parser.parse_dlms_push_xml (Some root)
                   = Raise IndexError
               end
           end).
Proof.
  split; [reflexivity|]. split.
  - intros Hold. unfold Push_Parser.parse_dlms_push_xml. rewrite Hold.
    unfold Push_Parser.extract_obis_values_and_invoke_id.
    destruct (ET.find ([], root) Push_Parser.obis_array_path) as [arr|];
      [|eexists; reflexivity].
    destruct (Push_Parser._find_parent ([], root) arr) as [parent|];
      [|eexists; reflexivity].
    destruct (Push_Parser.split_values _ _ _) as [values extra].
    eexists. reflexivity.
  - intros Hnew. unfold Push_Parser.parse_dlms_push_xml. rewrite Hnew.
    unfold Push_Parser.is_new_style_push in Hnew.
    unfold Push_Parser.parse_new_style_push.
    destruct (ET.find ([], root) Push_Parser.data_value_path) as [dv|];
      [|discriminate Hnew].
    exists dv. split; [reflexivity|].
    destruct (List.find (ET.has_tag (chars "Structure")) (ET.child_nodes dv))
      as [structure|]; [|reflexivity].
    rewrite !getitem_child_nodes.
    destruct (ET.children (snd structure)) as [|c0 [|c1 rest]];
      cbn [nth_error bind]; try reflexivity.
    eexists. reflexivity.
Qed.

(** A notification whose only Structure lies inside an Array is classified
    as a day push and then rejected; one whose Structure holds the logical
    name alone is rejected with [IndexError]. *)
Lemma parse_dlms_push_xml_rejections :
  let nested :=
    Samples.elem "DataNotification"
      [Samples.elem "NotificationBody"
         [Samples.elem "DataValue"
            [Samples.elem "Array"
               [Samples.elem "Structure"
                  [Samples.leaf "OctetString" "50454E31"]]]]] in
  let name_only :=
    Samples.elem "DataNotification"
      [Samples.elem "NotificationBody"
         [Samples.elem "DataValue"
            [Samples.elem "Structure"
               [Samples.leaf "OctetString" "50454E31"]]]] in
  Push_Parser.is_new_style_push (Some nested) = true
  /\ Push_Parser.parse_dlms_push_xml (Some nested) = Raise ValueError
  /\ Push_Parser.is_new_style_push (Some name_only) = true
  /\ Push_Parser.parse_dlms_push_xml (Some name_only) = Raise IndexError.
Proof. vm_compute. repeat split. Qed.

(** ** Timestamps written by the day-push parser and read by the validator *)

Lemma In_below_100 v : 0 <= v <= 99 -> In v (map Z.of_nat (seq 0 100)).
Proof.
  intros H. apply in_map_iff. exists (Z.to_nat v).
  split; [apply Z2Nat.id; lia | apply in_seq; lia].
Qed.

Lemma two_digits_all :
  forallb Notions.two_digits_ok (map Z.of_nat (seq 0 100)) = true.
Proof. vm_compute. reflexivity. Qed.

Lemma four_digits_all :
  forallb
    (fun hi => forallb (fun lo => Notions.four_digits_ok (100 * hi + lo))
                       (map Z.of_nat (seq 0 100)))
    (map Z.of_nat (seq 0 100))
  = true.
Proof. vm_compute. reflexivity. Qed.

Lemma format_0d_2 v :
  0 <= v <= 99 ->
  exists a b,
    format_0d 2 v = [a; b] /\ datetime.digits_value [a; b] 0 = Some v.
Proof.
  intros H. pose proof two_digits_all as Hall.
  rewrite forallb_forall in Hall. specialize (Hall v (In_below_100 v H)).
  unfold Notions.two_digits_ok in Hall.
  destruct (format_0d 2 v) as [|a [|b [|c r]]]; try discriminate Hall.
  exists a, b. split; [reflexivity|].
  destruct (datetime.digits_value [a; b] 0) as [x|]; [|discriminate Hall].
  apply Z.eqb_eq in Hall. congruence.
Qed.

Lemma format_0d_4 v :
  0 <= v <= 9999 ->
  exists a b c d,
    format_0d 4 v = [a; b; c; d]
    /\ datetime.digits_value [a; b; c; d] 0 = Some v.
Proof.
  intros H. pose proof four_digits_all as Hall.
  rewrite forallb_forall in Hall.
  assert (Hhi : 0 <= v / 100 <= 99).
  { split; [apply Z.div_pos; lia|].
    assert (v / 100 < 100) by (apply Z.div_lt_upper_bound; lia). lia. }
  assert (Hlo : 0 <= v mod 100 <= 99)
    by (pose proof (Z.mod_pos_bound v 100); lia).
  specialize (Hall (v / 100) (In_below_100 _ Hhi)).
  rewrite forallb_forall in Hall.
  specialize (Hall (v mod 100) (In_below_100 _ Hlo)).
  replace (100 * (v / 100) + v mod 100) with v in Hall
    by (apply Z.div_mod; lia).
  unfold Notions.four_digits_ok in Hall.
  destruct (format_0d 4 v) as [|a [|b [|c [|d [|e r]]]]]; try discriminate Hall.
  exists a, b, c, d. split; [reflexivity|].
  destruct (datetime.digits_value [a; b; c; d] 0) as [x|]; [|discriminate Hall].
  apply Z.eqb_eq in Hall. congruence.
Qed.

Lemma digits_value_chars s :
  forall acc v,
    datetime.digits_value s acc = Some v ->
    Forall (fun c => datetime.between 48 (ord c) 57 = true) s.
Proof.
  induction s as [|c r IH]; intros acc v; cbn [datetime.digits_value].
  - constructor.
  - destruct (datetime.between 48 (ord c) 57) eqn:E; [|discriminate].
    intros H. constructor; [exact E | apply (IH _ _ H)].
Qed.

(** The offset text of a whole number of minutes. *)
Lemma format_offset_minutes m :
  -1440 < m < 1440 ->
  datetime._format_offset (m * datetime.us_per_minute)
  = [if m <? 0 then "-"%char else "+"%char]
    ++ format_0d 2 (Z.abs m / 60) ++ chars ":" ++ format_0d 2 (Z.abs m mod 60).
Proof.
  intros Hm. unfold datetime._format_offset, datetime.us_per_minute.
  rewrite Z.abs_mul. change (Z.abs 60000000) with 60000000.
  replace (m * 60000000 <? 0) with (m <? 0)
    by (destruct (Z.ltb_spec m 0), (Z.ltb_spec (m * 60000000) 0); lia || reflexivity).
  rewrite Z.div_mul_cancel_r by lia.
  rewrite Z.mul_mod_distr_r by lia.
  rewrite Z.div_mul by lia.
  rewrite Z.mod_mul by lia.
  cbn [Z.eqb app]. rewrite app_nil_r. reflexivity.
Qed.

(** [fromisoformat_seconds] reads back what [isoformat] writes for such a
    date-time. *)
Lemma fromisoformat_seconds_isoformat y mo d h mi s m :
  datetime._check_fields y mo d h mi s = true ->
  -1440 < m < 1440 ->
  datetime.fromisoformat_seconds
    (datetime.isoformat
       (datetime.mk y mo d h mi s 0 (Some (m * datetime.us_per_minute))))
  = Ok (datetime.mk y mo d h mi s 0 (Some (m * datetime.us_per_minute))).
Proof.
  intros Hf Hm.
  destruct (check_fields_bytes _ _ _ _ _ _ Hf) as (Hy & Hmo & Hd & Hh & Hmi & Hs).
  rewrite isoformat_whole_seconds, format_offset_minutes by exact Hm.
  unfold Spec.date_text, Spec.time_text.
  assert (Hoh : 0 <= Z.abs m / 60 <= 23).
  { split; [apply Z.div_pos; lia|].
    assert (Z.abs m / 60 < 24) by (apply Z.div_lt_upper_bound; lia). lia. }
  assert (Hom : 0 <= Z.abs m mod 60 <= 59)
    by (pose proof (Z.mod_pos_bound (Z.abs m) 60); lia).
  destruct (format_0d_4 y ltac:(lia)) as (y1 & y2 & y3 & y4 & -> & Ey).
  destruct (format_0d_2 mo ltac:(lia)) as (mo1 & mo2 & -> & Emo).
  destruct (format_0d_2 d ltac:(lia)) as (d1 & d2 & -> & Ed).
  destruct (format_0d_2 h ltac:(lia)) as (h1 & h2 & -> & Eh).
  destruct (format_0d_2 mi ltac:(lia)) as (mi1 & mi2 & -> & Emi).
  destruct (format_0d_2 s ltac:(lia)) as (s1 & s2 & -> & Es).
  destruct (format_0d_2 (Z.abs m / 60) ltac:(lia)) as (oh1 & oh2 & -> & Eoh).
  destruct (format_0d_2 (Z.abs m mod 60) ltac:(lia)) as (om1 & om2 & -> & Eom).
  unfold datetime.fromisoformat_seconds.
  cbn [app chars list_ascii_of_string List.length Nat.eqb orb negb].
  unfold datetime.char_at, datetime.field.
  cbn [nth_error skipn firstn List.length Nat.eqb datetime.is_char].
  rewrite Ey, Emo, Ed, Eh, Emi, Es, Eoh, Eom.
  change (Ascii.eqb "-" "-") with true. change (Ascii.eqb ":" ":") with true.
  cbn [andb negb].
  assert (Hb : datetime.between 0 (Z.abs m / 60) 23
               && datetime.between 0 (Z.abs m mod 60) 59 = true).
  { unfold datetime.between. apply andb_true_iff.
    split; apply andb_true_iff; split; apply Z.leb_le; lia. }
  pose proof (Z.div_mod (Z.abs m) 60 ltac:(lia)) as Hdm.
  unfold datetime.make. rewrite Hf.
  destruct (Z.ltb_spec m 0) as [Hneg|Hpos].
  - change (Ascii.eqb "-" "+") with false. change (Ascii.eqb "-" "-") with true.
    cbn [orb andb negb]. rewrite Hb.
    replace (- (Z.abs m / 60 * 60 + Z.abs m mod 60)) with m by lia.
    unfold datetime.timezone_of_minutes.
    replace ((-1440 <? m) && (m <? 1440)) with true
      by (symmetry; apply andb_true_iff; split; apply Z.ltb_lt; lia).
    reflexivity.
  - change (Ascii.eqb "+" "+") with true. change (Ascii.eqb "+" "-") with false.
    cbn [orb andb negb]. rewrite Hb.
    replace (Z.abs m / 60 * 60 + Z.abs m mod 60) with m by lia.
    unfold datetime.timezone_of_minutes.
    replace ((-1440 <? m) && (m <? 1440)) with true
      by (symmetry; apply andb_true_iff; split; apply Z.ltb_lt; lia).
    reflexivity.
Qed.

Lemma replace_absent c new s :
  Forall (fun x => Ascii.eqb c x = false) s -> replace [c] new s = s.
Proof.
  unfold replace. generalize (S (length s)) as n. intros n. revert s.
  induction n as [|n IH]; intros s H; [reflexivity|].
  destruct H as [|x r Hx Hr]; [reflexivity|].
  cbn [replace_fuel starts_with]. rewrite Hx. cbn [andb].
  rewrite (IH r Hr). reflexivity.
Qed.

Lemma digit_not_Z c :
  datetime.between 48 (ord c) 57 = true -> Ascii.eqb "Z" c = false.
Proof.
  intros H. destruct (Ascii.eqb "Z" c) eqn:E; [|reflexivity].
  apply Ascii.eqb_eq in E. subst c. discriminate H.
Qed.

Lemma digits_no_Z s v :
  datetime.digits_value s 0 = Some v ->
  Forall (fun x => Ascii.eqb "Z" x = false) s.
Proof.
  intros H. eapply Forall_impl; [|apply (digits_value_chars _ _ _ H)].
  apply digit_not_Z.
Qed.

Lemma isoformat_no_Z y mo d h mi s m :
  datetime._check_fields y mo d h mi s = true ->
  -1440 < m < 1440 ->
  Forall (fun x => Ascii.eqb "Z" x = false)
    (datetime.isoformat
       (datetime.mk y mo d h mi s 0 (Some (m * datetime.us_per_minute)))).
Proof.
  intros Hf Hm.
  destruct (check_fields_bytes _ _ _ _ _ _ Hf) as (Hy & Hmo & Hd & Hh & Hmi & Hs).
  rewrite isoformat_whole_seconds, format_offset_minutes by exact Hm.
  unfold Spec.date_text, Spec.time_text.
  assert (Hoh : 0 <= Z.abs m / 60 <= 23).
  { split; [apply Z.div_pos; lia|].
    assert (Z.abs m / 60 < 24) by (apply Z.div_lt_upper_bound; lia). lia. }
  assert (Hom : 0 <= Z.abs m mod 60 <= 59)
    by (pose proof (Z.mod_pos_bound (Z.abs m) 60); lia).
  destruct (format_0d_4 y ltac:(lia)) as (y1 & y2 & y3 & y4 & -> & Ey).
  destruct (format_0d_2 mo ltac:(lia)) as (mo1 & mo2 & -> & Emo).
  destruct (format_0d_2 d ltac:(lia)) as (d1 & d2 & -> & Ed).
  destruct (format_0d_2 h ltac:(lia)) as (h1 & h2 & -> & Eh).
  destruct (format_0d_2 mi ltac:(lia)) as (mi1 & mi2 & -> & Emi).
  destruct (format_0d_2 s ltac:(lia)) as (s1 & s2 & -> & Es).
  destruct (format_0d_2 (Z.abs m / 60) ltac:(lia)) as (oh1 & oh2 & -> & Eoh).
  destruct (format_0d_2 (Z.abs m mod 60) ltac:(lia)) as (om1 & om2 & -> & Eom).
  apply digits_no_Z in Ey, Emo, Ed, Eh, Emi, Es, Eoh, Eom.
  repeat (apply Forall_app; split); try assumption;
    try (repeat constructor; fail).
  destruct (m <? 0); repeat constructor.
Qed.

(** A timestamp that [_parse_dlms_datetime] returns is the text of a
    date-time with valid fields and an offset of whole minutes. *)
Lemma parse_dlms_datetime_written hex_str ts :
  Push_Parser._parse_dlms_datetime hex_str = Ok ts ->
  exists y mo d h mi s m,
    datetime._check_fields y mo d h mi s = true
    /\ -1440 < m < 1440
    /\ ts = datetime.isoformat
              (datetime.mk y mo d h mi s 0 (Some (m * datetime.us_per_minute))).
Proof.
  unfold Push_Parser._parse_dlms_datetime. intros H.
  destruct (fromhex hex_str) as [b|e] eqn:Hb; [|discriminate H].
  cbn [bind] in H.
  destruct (length b <? 12)%nat; [discriminate H|].
  pose proof (fromhex_bytes _ _ Hb) as Hbytes.
  pose proof (signed16_range _ _ (nth_byte b 9 Hbytes) (nth_byte b 10 Hbytes))
    as Hr.
  replace (from_bytes_big_signed16 (nth 9 b 0) (nth 10 b 0) =? 0x8000)
    with false in H by (symmetry; apply Z.eqb_neq; lia).
  cbn [negb] in H.
  destruct (datetime.timezone_of_minutes _) as [tz|e] eqn:Htz;
    [|discriminate H].
  cbn [bind] in H.
  destruct (timezone_of_minutes_ok _ _ Htz) as [Hrange ->].
  unfold datetime.make in H.
  destruct (datetime._check_fields _ _ _ _ _ _) eqn:Hf; [|discriminate H].
  cbn [bind] in H.
  do 7 eexists. split; [exact Hf|]. split; [exact Hrange|]. congruence.
Qed.

Lemma written_mk y mo d h mi s m :
  datetime._check_fields y mo d h mi s = true ->
  -1440 < m < 1440 ->
  Notions.written
    (datetime.mk y mo d h mi s 0 (Some (m * datetime.us_per_minute))).
Proof.
  intros Hf Hm. unfold Notions.written, datetime.valid.
  cbn [datetime.year datetime.month datetime.day datetime.hour
       datetime.minute datetime.second datetime.microsecond
       datetime.utcoffset].
  rewrite Hf. split; [reflexivity|]. split; [reflexivity|].
  exists m. auto.
Qed.

Lemma written_inv dt :
  Notions.written dt ->
  exists y mo d h mi s m,
    dt = datetime.mk y mo d h mi s 0 (Some (m * datetime.us_per_minute))
    /\ datetime._check_fields y mo d h mi s = true
    /\ -1440 < m < 1440.
Proof.
  destruct dt as [y mo d h mi s us off].
  unfold Notions.written, datetime.valid.
  cbn [datetime.year datetime.month datetime.day datetime.hour
       datetime.minute datetime.second datetime.microsecond
       datetime.utcoffset].
  intros (Hv & -> & m & Hm & ->).
  apply andb_true_iff in Hv as [Hf _].
  exists y, mo, d, h, mi, s, m. auto.
Qed.

Lemma fromisoformat_seconds_written dt :
  Notions.written dt ->
  datetime.fromisoformat_seconds (datetime.isoformat dt) = Ok dt.
Proof.
  intros H.
  destruct (written_inv dt H) as (y & mo & d & h & mi & s & m & -> & Hf & Hm).
  apply fromisoformat_seconds_isoformat; assumption.
Qed.

(** The rows of a day push carry timestamps of written date-times. *)
Lemma day_push_rows_written array_elem :
  exists ts,
    Forall2 (fun r t => utils.timestamp r = datetime.isoformat t
                        /\ Notions.written t)
            (Push_Parser.day_push_rows array_elem) ts.
Proof.
  unfold Push_Parser.day_push_rows.
  induction (ET.findall array_elem [ET.Child (chars "Structure")])
    as [|st l IH]; cbn [flat_map].
  - exists []. constructor.
  - destruct IH as (ts & Hts).
    destruct (Push_Parser.row_of (snd st)) as [row|] eqn:Hrow;
      cbn [app]; [|exists ts; exact Hts].
    unfold Push_Parser.row_of in Hrow.
    destruct (ET.children (snd st)) as [|date_octet fields];
      [discriminate Hrow|].
    destruct (negb _); [discriminate Hrow|].
    destruct (Push_Parser._parse_dlms_datetime _) as [t|] eqn:Ht;
      [|discriminate Hrow].
    assert (row = utils.mk_row t (Push_Parser.row_values fields))
      by congruence. subst row.
    destruct (parse_dlms_datetime_written _ _ Ht)
      as (y & mo & d & h & mi & s & m & Hf & Hm & ->).
    eexists (_ :: ts). constructor; [|exact Hts].
    cbn [utils.timestamp]. split; [reflexivity|].
    apply written_mk; assumption.
Qed.

Lemma written_aware dt : Notions.written dt -> datetime.is_aware dt = true.
Proof.
  intros (_ & _ & m & _ & H). unfold datetime.is_aware. rewrite H. reflexivity.
Qed.

(** The answer of the validator on timestamps that parse and are all of one
    kind. *)
Lemma validate_same_kind f entry profile_type delta ts k :
  utils.parse_timestamps f (utils.data entry) = Ok ts ->
  Forall (fun d => datetime.is_aware d = k) ts ->
  (profile_type = chars "daily" /\ delta = Spec.hours_24)
  \/ (profile_type = chars "half_hourly" /\ delta = Spec.minutes_30) ->
  forall sorted,
    Permutation sorted ts -> Spec.ordered sorted ->
    (utils.validate_day_push_intervals f entry profile_type = true
     <-> Spec.evenly_spaced delta sorted).
Proof.
  intros Hts Hk Hprofile sorted HP Hord.
  assert (Hdelta :
    (if str_eqb profile_type (chars "daily")
     then datetime.timedelta_days 1
     else datetime.timedelta_minutes 30) = delta).
  { destruct Hprofile as [[-> ->]|[-> ->]]; reflexivity. }
  assert (Hl : length ts = length (utils.data entry)).
  { apply parse_timestamps_ok in Hts. symmetry. apply (Forall2_length Hts). }
  rewrite validate_unfold, Hts, Hdelta. cbn [bind].
  destruct (Nat.ltb_spec (length (utils.data entry)) 2) as [Hlen|Hlen].
  - split; [|reflexivity]. intros _.
    apply spaced_short. rewrite length_map, (Permutation_length HP). lia.
  - destruct (sort_ok k ts Hk) as (s & Hs & HPs & Hords). rewrite Hs.
    cbn [bind].
    assert (Heq : map datetime.instant s = map datetime.instant sorted).
    { apply sorted_perm_unique; try apply ordered_instants; auto.
      apply Permutation_map. rewrite HPs, HP. reflexivity. }
    unfold Spec.evenly_spaced. rewrite <- Heq.
    destruct s as [|t0 rest].
    + cbn [try_except]. split; [|reflexivity]. intros _.
      apply spaced_short. cbn. lia.
    + assert (Hks : Forall (fun d => datetime.is_aware d = k) (t0 :: rest))
        by (apply (Permutation_Forall (Permutation_sym HPs)); exact Hk).
      destruct (check_intervals_spec k delta rest t0 Hks) as (b & Hb & Hiff).
      rewrite Hb. cbn [try_except]. exact Hiff.
Qed.

(** X17.  The rows that the day-push parser writes always pass the parsing
    and the sorting of the interval validator.  Each timestamp of
    [day_push_rows] is the ISO text of an offset-aware date-time with valid
    fields, whole seconds and an offset of whole minutes within 24 hours;
    with a [fromisoformat] that reads such texts back, the validator parses
    every row, the sort succeeds, and the answer is true exactly when the
    date-times, in sorted order, are spaced by the expected interval. *)
Theorem parsed_rows_validate
        (fromisoformat : str -> result datetime.t) (array_elem : ET.node)
        (logical_name profile_type : str) (delta : Z) :
  (forall dt, Notions.written dt ->
              fromisoformat (datetime.isoformat dt) = Ok dt) ->
  (profile_type = chars "daily" /\ delta = Spec.hours_24)
  \/ (profile_type = chars "half_hourly" /\ delta = Spec.minutes_30) ->
  let rows := Push_Parser.day_push_rows array_elem in
  exists ts,
    Forall2 (fun r t => utils.timestamp r = datetime.isoformat t
                        /\ Notions.written t) rows ts
    /\ utils.parse_timestamps fromisoformat rows = Ok ts
    /\ (exists sorted,
          utils.sort ts = Ok sorted /\ Permutation sorted ts
          /\ Spec.ordered sorted)
    /\ (forall sorted,
          Permutation sorted ts -> Spec.ordered sorted ->
          (utils.validate_day_push_intervals fromisoformat
             (utils.mk_entry logical_name rows) profile_type = true
           <-> Spec.evenly_spaced delta sorted)).
Proof.
  intros Hinv Hprofile. cbv zeta.
  destruct (day_push_rows_written array_elem) as (ts & Hts).
  exists ts. split; [exact Hts|].
  assert (Hparse : utils.parse_timestamps fromisoformat
                     (Push_Parser.day_push_rows array_elem) = Ok ts).
  { apply parse_timestamps_ok.
    eapply Forall2_impl; [|exact Hts]. cbn beta.
    intros r t [Hr Hw]. rewrite Hr.
    destruct (written_inv t Hw) as (y & mo & d & h & mi & s & m & -> & Hf & Hm).
    change (chars "Z") with ["Z"%char].
    rewrite replace_absent by (apply isoformat_no_Z; assumption).
    apply Hinv, written_mk; assumption. }
  assert (Haware : Forall (fun d => datetime.is_aware d = true) ts).
  { clear Hparse. induction Hts as [|r t rows ts [_ Hw] _ IH]; constructor;
      [apply written_aware, Hw | exact IH]. }
  split; [exact Hparse|]. split; [apply (sort_ok true ts Haware)|].
  intros sorted HP Hord.
  apply (validate_same_kind fromisoformat
           (utils.mk_entry logical_name (Push_Parser.day_push_rows array_elem))
           profile_type delta ts true); assumption.
Qed.

Lemma parsed_rows_validate_witness :
  let rows := Push_Parser.day_push_rows Runs.day_push_array in
  exists ts,
    Forall2 (fun r t => utils.timestamp r = datetime.isoformat t
                        /\ Notions.written t) rows ts
    /\ utils.parse_timestamps datetime.fromisoformat_seconds rows = Ok ts
    /\ (exists sorted,
          utils.sort ts = Ok sorted /\ Permutation sorted ts
          /\ Spec.ordered sorted)
    /\ (forall sorted,
          Permutation sorted ts -> Spec.ordered sorted ->
          (utils.validate_day_push_intervals datetime.fromisoformat_seconds
             (utils.mk_entry (chars "PEN1") rows) (chars "daily") = true
           <-> Spec.evenly_spaced Spec.hours_24 sorted)).
Proof.
  apply (parsed_rows_validate datetime.fromisoformat_seconds
           Runs.day_push_array (chars "PEN1") (chars "daily") Spec.hours_24).
  - apply fromisoformat_seconds_written.
  - left. split; reflexivity.
Defined.

(** The two rows kept from the sample are 21 hours apart (14:33:20 at
    -03:00 and 14:33:20 at +00:00 the next day), so the entry does not
    validate as daily. *)
Lemma parsed_rows_validate_example :
  map utils.timestamp (Push_Parser.day_push_rows Runs.day_push_array)
  = [chars "2026-01-13T14:33:20-03:00"; chars "2026-01-14T14:33:20+00:00"]
  /\ utils.validate_day_push_intervals datetime.fromisoformat_seconds
       (utils.mk_entry (chars "PEN1")
          (Push_Parser.day_push_rows Runs.day_push_array))
       (chars "daily") = false.
Proof. vm_compute. split; reflexivity. Qed.

(** ** The values of a day-push row *)




(** The same field text read by the two parsers of the repository. *)
Lemma uint32_read_twice :
  let field := Samples.leaf "UInt32" "00000016" in
  let field' := Samples.leaf "UInt32" "0000001A" in
  Push_Parser.row_values [field; field'] = [16; 0]
  /\ map Push_Parser._parse_xml_element_value [field; field']
     = [Push_Parser.scalar (chars "UInt32") (chars "00000016")
          (Some (chars "22"));
        Push_Parser.scalar (chars "UInt32") (chars "0000001A")
          (Some (chars "26"))].
Proof. vm_compute. split; reflexivity. Qed.

(** ** The text shown for a parsed value *)

Lemma parse_value_eq t a x cs :
  Push_Parser._parse_xml_element_value (ET.mkElement t a x cs)
  = let value := ET.get_attr a (chars "Value") [] in
    if str_eqb t (chars "Enum") then Push_Parser.scalar t value None
    else if str_eqb t (chars "OctetString") then
      Push_Parser.TV t (Some value)
        (if (length value =? 12)%nat
         then Push_Parser.to_option
                (parts <- DLMS_Parser.obis_parts value ;;
                 Ok (join (chars ".") (map str_of_int parts)))
         else None)
        (Push_Parser.to_option (b <- fromhex value ;; decode_ascii b))
        None None None None
    else if str_eqb t (chars "UInt32") || str_eqb t (chars "UInt16")
            || str_eqb t (chars "UInt8") then
      Push_Parser.scalar t value
        (Push_Parser.to_option (num <- int 16 value ;; Ok (str_of_int num)))
    else if str_eqb t (chars "Int8") then
      Push_Parser.scalar t value
        (Push_Parser.to_option
           (num <- int 16 value ;;
            Ok (str_of_int (if 127 <? num then num - 256 else num))))
    else if str_eqb t (chars "Structure") then
      Push_Parser.TV t None None None None
        (Some (ET.get_attr a (chars "Qty") (chars "0")))
        (Some (map Push_Parser._parse_xml_element_value cs)) None
    else if str_eqb t (chars "Array") then
      Push_Parser.TV t None None None None
        (Some (ET.get_attr a (chars "Qty") (chars "0")))
        None (Some (map Push_Parser._parse_xml_element_value cs))
    else Push_Parser.scalar t (chars "[" ++ t ++ chars "]") None.
Proof. reflexivity. Qed.

Lemma map_format_ext r1 r2 cs :
  Forall (fun e =>
            obis_push_view._format_value r1
              (Push_Parser._parse_xml_element_value e)
            = obis_push_view._format_value r2
                (Push_Parser._parse_xml_element_value e)) cs ->
  map (obis_push_view._format_value r1)
      (map Push_Parser._parse_xml_element_value cs)
  = map (obis_push_view._format_value r2)
        (map Push_Parser._parse_xml_element_value cs).
Proof.
  induction 1 as [|c cs Hc _ IH]; [reflexivity|].
  cbn [map]. rewrite Hc, IH. reflexivity.
Qed.

Lemma format_parsed_fallback_free r1 r2 e :
  obis_push_view._format_value r1 (Push_Parser._parse_xml_element_value e)
  = obis_push_view._format_value r2 (Push_Parser._parse_xml_element_value e).
Proof.
  induction e as [t a x cs IH] using Element_induction.
  rewrite parse_value_eq. cbv zeta.
  set (value := ET.get_attr a (chars "Value") []).
  tag_case t "Enum"%string; [reflexivity|].
  tag_case t "OctetString"%string.
  { destruct (Push_Parser.to_option (b <- fromhex value ;; decode_ascii b));
      [reflexivity|].
    destruct (if (length value =? 12)%nat then _ else None); reflexivity. }
  destruct (str_eqb t (chars "UInt32") || str_eqb t (chars "UInt16")
            || str_eqb t (chars "UInt8")).
  { unfold Push_Parser.scalar.
    destruct (Push_Parser.to_option _); reflexivity. }
  tag_case t "Int8"%string.
  { unfold Push_Parser.scalar.
    destruct (Push_Parser.to_option _); reflexivity. }
  tag_case t "Structure"%string.
  { cbn [obis_push_view._format_value]. eval_tags.
    cbn [obis_push_view.len obis_push_view.present].
    rewrite (map_format_ext r1 r2 cs IH). reflexivity. }
  tag_case t "Array"%string.
  { cbn [obis_push_view._format_value]. eval_tags.
    cbn [obis_push_view.len obis_push_view.present].
    rewrite (map_format_ext r1 r2 cs IH). reflexivity. }
  reflexivity.
Qed.

(** X19.  The text that the OBIS-push table shows for a value never comes
    from the fall-back [str(value_obj)]: for every element, the text of the
    dictionary that [_parse_xml_element_value] builds does not depend on
    that fall-back, and neither does the text of the Empty and Missing
    sentinels ("" and "[missing]") or of the plain string "[no data]"; a
    Structure or an Array is shown as Struct[...] or Array[...] around the
    texts of its children, separated by a comma and a space. *)
Theorem format_value_covers_parser
        (str_of_dict str_of_dict' : Push_Parser.TypedValue -> str)
        (e : ET.Element) :
  obis_push_view._format_value str_of_dict
    (Push_Parser._parse_xml_element_value e)
  = obis_push_view._format_value str_of_dict'
      (Push_Parser._parse_xml_element_value e)
  /\ obis_push_view.format_record_value str_of_dict Push_Parser.Empty = []
  /\ obis_push_view.format_record_value str_of_dict Push_Parser.Missing
     = chars "[missing]"
  /\ obis_push_view.format_record_value str_of_dict
       (Push_Parser.Text (chars "[no data]")) = chars "[no data]"
  /\ (forall a x cs,
        obis_push_view._format_value str_of_dict
          (Push_Parser._parse_xml_element_value
             (ET.mkElement (chars "Structure") a x cs))
        = chars "Struct["
          ++ join (chars ", ")
               (map (fun c => obis_push_view._format_value str_of_dict
                                (Push_Parser._parse_xml_element_value c)) cs)
          ++ chars "]"
        /\ obis_push_view._format_value str_of_dict
             (Push_Parser._parse_xml_element_value
                (ET.mkElement (chars "Array") a x cs))
           = chars "Array["
             ++ join (chars ", ")
                  (map (fun c => obis_push_view._format_value str_of_dict
                                   (Push_Parser._parse_xml_element_value c)) cs)
             ++ chars "]").
Proof.
  split; [apply format_parsed_fallback_free|].
  split; [reflexivity|]. split; [reflexivity|]. split; [reflexivity|].
  intros a x cs. rewrite !parse_value_eq. cbv zeta. eval_tags.
  cbn [orb obis_push_view._format_value]. eval_tags.
  cbn [obis_push_view.len obis_push_view.present].
  rewrite !map_map. split; reflexivity.
Qed.

(** The values of the sample notification as the table shows them; a value
    that is both printable text and an OBIS code is shown as text. *)
Lemma format_value_examples :
  let shown e :=
    obis_push_view._format_value (fun _ => [])
      (Push_Parser._parse_xml_element_value e) in
  map shown
    [Samples.leaf "UInt32" "0000002A"; Samples.leaf "Int8" "FE";
     Samples.leaf "OctetString" "414243";
     Samples.leaf "OctetString" "0000190900FF";
     Samples.leaf "OctetString" "303132333435";
     Samples.leaf "Enum" "1E"; Samples.leaf "Boolean" "01";
     Samples.elem "Structure"
       [Samples.leaf "UInt16" "0010"; Samples.elem "Array" []]]
  = [chars "42"; chars "-2"; chars "ASCII: ABC"; chars "OBIS: 0.0.25.9.0.255";
     chars "ASCII: 012345"; chars "1E"; chars "[Boolean]";
     chars "Struct[16, Array[]]"].
Proof. vm_compute. reflexivity. Qed.

(** ** The strict and the lenient decoders of hexadecimal text *)

Lemma unhexlify_fromhex s :
  forall b, unhexlify s = Ok b -> fromhex s = Ok b.
Proof.
  revert s. fix IH 1. intros [|c [|d r]] b H.
  - exact H.
  - discriminate H.
  - rewrite unhexlify_pair in H.
    destruct (is_hex_digit c) eqn:Hc; [|discriminate H].
    destruct (is_hex_digit d) eqn:Hd; [|discriminate H].
    cbn [andb] in H.
    destruct (unhexlify r) as [bs|e] eqn:Hr; [|discriminate H].
    cbn [fromhex]. rewrite Hc, Hd.
    rewrite (digit_not_space c)
      by (apply hex_digit_range in Hc; lia).
    rewrite (IH r bs Hr). exact H.
Qed.

(** X20.  The decoders of hexadecimal text agree wherever the strict one
    succeeds.  For the value of an OctetString: the dotted OBIS form that
    the push parser stores is what [hex_to_obis] returns, and the value
    itself where [hex_to_obis] raises; the "obis" key is set exactly for a
    value of twelve characters that [hex_to_obis] converts; and a text that
    [try_decode_ascii] (built on [binascii.unhexlify]) returns is also the
    result of [_hex_to_ascii] and the "ascii" key (built on
    [bytes.fromhex], which in addition skips white space between
    bytes). *)
Theorem text_decoders_agree (a : list (str * str)) (x : option str)
        (cs : list ET.Element) (v : str) :
  ET.get_attr a (chars "Value") [] = v ->
  let parsed :=
    Push_Parser._parse_xml_element_value
      (ET.mkElement (chars "OctetString") a x cs) in
  Push_Parser.obis_dotted v = try_except (DLMS_Parser.hex_to_obis v) v
  /\ Notions.obis_of parsed
     = (if (length v =? 12)%nat
        then Push_Parser.to_option (DLMS_Parser.hex_to_obis v)
        else None)
  /\ (forall t,
        DLMS_Parser.try_decode_ascii v = Some t ->
        Push_Parser._hex_to_ascii v = t /\ Notions.ascii_of parsed = Some t)
  /\ (Notions.ascii_of parsed = None ->
      Push_Parser._hex_to_ascii v = v
      /\ DLMS_Parser.try_decode_ascii v = None).
Proof.
  intros Hv. cbv zeta. rewrite parse_value_eq. cbv zeta. eval_tags.
  cbn [Notions.obis_of Notions.ascii_of]. rewrite Hv.
  split; [|split; [|split]].
  - unfold Push_Parser.obis_dotted. rewrite hex_to_obis_result.
    destruct (length v =? 12)%nat; [|reflexivity].
    destruct (DLMS_Parser.obis_parts v); reflexivity.
  - rewrite hex_to_obis_result.
    destruct (length v =? 12)%nat; [|reflexivity].
    destruct (DLMS_Parser.obis_parts v); reflexivity.
  - intros t Ht. unfold DLMS_Parser.try_decode_ascii in Ht.
    destruct (unhexlify v) as [b|e] eqn:Hb; [|discriminate Ht].
    cbn [bind] in Ht. unfold Push_Parser._hex_to_ascii.
    rewrite (unhexlify_fromhex v b Hb). cbn [bind].
    destruct (decode_ascii b) as [s|e]; [|discriminate Ht].
    cbn [try_except Push_Parser.to_option].
    assert (s = t) by congruence. subst s. split; reflexivity.
  - intros Hnone. unfold Push_Parser._hex_to_ascii, DLMS_Parser.try_decode_ascii.
    destruct (fromhex v) as [b|e] eqn:Hb.
    + cbn [bind] in *. destruct (decode_ascii b) as [s|e] eqn:Hd;
        [discriminate Hnone|].
      split; [reflexivity|].
      destruct (unhexlify v) as [b'|e'] eqn:Hb'; [|reflexivity].
      rewrite (unhexlify_fromhex v b' Hb') in Hb.
      assert (b' = b) by congruence. subst b'. cbn [bind]. rewrite Hd.
      reflexivity.
    + split; [reflexivity|].
      destruct (unhexlify v) as [b'|e'] eqn:Hb'; [|reflexivity].
      rewrite (unhexlify_fromhex v b' Hb') in Hb. discriminate Hb.
Qed.

Lemma text_decoders_agree_witness :
  let v := chars "50454E31" in
  let parsed :=
    Push_Parser._parse_xml_element_value
      (ET.mkElement (chars "OctetString") [(chars "Value", v)] None []) in
  Push_Parser.obis_dotted v = try_except (DLMS_Parser.hex_to_obis v) v
  /\ Notions.obis_of parsed
     = (if (length v =? 12)%nat
        then Push_Parser.to_option (DLMS_Parser.hex_to_obis v)
        else None)
  /\ (forall t,
        DLMS_Parser.try_decode_ascii v = Some t ->
        Push_Parser._hex_to_ascii v = t /\ Notions.ascii_of parsed = Some t)
  /\ (Notions.ascii_of parsed = None ->
      Push_Parser._hex_to_ascii v = v
      /\ DLMS_Parser.try_decode_ascii v = None).
Proof.
  apply (text_decoders_agree [(chars "Value", chars "50454E31")] None []
           (chars "50454E31")).
  reflexivity.
Defined.

(** Text with a space between the bytes: the lenient decoder reads it, the
    strict one does not. *)
Lemma text_decoders_differ :
  Push_Parser._hex_to_ascii (chars "50 45") = chars "PE"
  /\ DLMS_Parser.try_decode_ascii (chars "50 45") = None
  /\ DLMS_Parser.try_decode_ascii (chars "5045") = Some (chars "PE").
Proof. vm_compute. repeat split. Qed.

(** ** The two decoders of a DLMS date-time *)

Lemma length_12_bytes (data : bytes) :
  length data = 12%nat ->
  exists b0 b1 b2 b3 b4 b5 b6 b7 b8 b9 b10 b11,
    data = [b0; b1; b2; b3; b4; b5; b6; b7; b8; b9; b10; b11].
Proof.
  destruct data as [|b0 [|b1 [|b2 [|b3 [|b4 [|b5 [|b6 [|b7 [|b8 [|b9 [|b10
    [|b11 [|]]]]]]]]]]]]]; try discriminate.
  intros _. repeat eexists.
Qed.

(** X21.  The two decoders of a DLMS date-time on the same twelve bytes
    with a valid date and time.  [try_decode_dlms_datetime], which writes
    the comments, always shows the date and the time, with a UTC suffix
    unless the deviation is 0 or unspecified.  [_parse_dlms_datetime],
    which builds the day-push rows, returns the same date and time with
    the offset when the deviation lies strictly within 24 hours, and
    raises [ValueError] otherwise, so that a row is dropped although its
    comment shows a time. *)
Theorem datetime_decoders_agree (s : str) (data : bytes) :
  unhexlify s = Ok data ->
  length data = 12%nat ->
  let y := 256 * nth 0 data 0 + nth 1 data 0 in
  let mo := nth 2 data 0 in
  let d := nth 3 data 0 in
  let h := nth 5 data 0 in
  let mi := nth 6 data 0 in
  let se := nth 7 data 0 in
  let m := from_bytes_big_signed16 (nth 9 data 0) (nth 10 data 0) in
  datetime._check_fields y mo d h mi se = true ->
  DLMS_Parser.try_decode_dlms_datetime s
  = Some (Spec.date_text y mo d ++ chars " " ++ Spec.time_text h mi se
          ++ DLMS_Parser.deviation_suffix (nth 9 data 0) (nth 10 data 0))
  /\ (-1440 < m < 1440 ->
      Push_Parser._parse_dlms_datetime s
      = Ok (Spec.date_text y mo d ++ chars "T" ++ Spec.time_text h mi se
            ++ datetime._format_offset (m * datetime.us_per_minute)))
  /\ (m <= -1440 \/ 1440 <= m ->
      Push_Parser._parse_dlms_datetime s = Raise ValueError).
Proof.
  intros Hs Hlen. cbv zeta.
  destruct (unhexlify_bytes s data Hs) as [Hbytes Hslen].
  destruct (length_12_bytes data Hlen)
    as (b0 & b1 & b2 & b3 & b4 & b5 & b6 & b7 & b8 & b9 & b10 & b11 & ->).
  cbn [nth]. intros Hf.
  destruct (check_fields_bytes _ _ _ _ _ _ Hf) as (Hy & Hmo & Hd & Hh & Hmi & Hse).
  repeat (apply Forall_cons_iff in Hbytes as [? Hbytes]).
  split; [|split].
  - unfold DLMS_Parser.try_decode_dlms_datetime,
      DLMS_Parser.try_decode_dlms_datetime_body.
    rewrite <- Hslen, Hs.
    cbn [List.length Nat.mul Nat.add Nat.ltb Nat.leb Nat.eqb Nat.modulo
         Nat.divmod fst snd orb negb bind nth].
    rewrite word_of_bytes by lia.
    replace (256 * b0 + b1 =? 65535) with false
      by (symmetry; apply Z.eqb_neq; lia).
    replace (b2 =? 255) with false by (symmetry; apply Z.eqb_neq; lia).
    replace (b3 =? 255) with false by (symmetry; apply Z.eqb_neq; lia).
    replace (b5 =? 255) with false by (symmetry; apply Z.eqb_neq; lia).
    replace (b6 =? 255) with false by (symmetry; apply Z.eqb_neq; lia).
    replace (b7 =? 255) with false by (symmetry; apply Z.eqb_neq; lia).
    cbn [negb andb orb app join try_except].
    unfold Spec.date_text, Spec.time_text. rewrite <- !app_assoc. reflexivity.
  - intros Hm. unfold Push_Parser._parse_dlms_datetime.
    rewrite (unhexlify_fromhex s _ Hs).
    cbn [bind List.length Nat.ltb Nat.leb firstn nth from_bytes_big fold_left].
    replace ((0 * 256 + b0) * 256 + b1) with (256 * b0 + b1) by lia.
    replace (from_bytes_big_signed16 b9 b10 =? 0x8000) with false
      by (symmetry; apply Z.eqb_neq; lia).
    cbn [negb]. unfold datetime.timezone_of_minutes.
    replace ((-1440 <? from_bytes_big_signed16 b9 b10)
             && (from_bytes_big_signed16 b9 b10 <? 1440)) with true
      by (symmetry; apply andb_true_iff; split; apply Z.ltb_lt; lia).
    cbn [bind]. unfold datetime.make. rewrite Hf. cbn [bind].
    rewrite isoformat_whole_seconds. reflexivity.
  - intros Hm. unfold Push_Parser._parse_dlms_datetime.
    rewrite (unhexlify_fromhex s _ Hs).
    cbn [bind List.length Nat.ltb Nat.leb firstn nth from_bytes_big fold_left].
    pose proof (signed16_range b9 b10 ltac:(lia) ltac:(lia)) as Hr.
    replace (from_bytes_big_signed16 b9 b10 =? 0x8000) with false
      by (symmetry; apply Z.eqb_neq; lia).
    cbn [negb]. unfold datetime.timezone_of_minutes.
    replace ((-1440 <? from_bytes_big_signed16 b9 b10)
             && (from_bytes_big_signed16 b9 b10 <? 1440)) with false.
    + reflexivity.
    + symmetry. apply andb_false_iff.
      destruct Hm; [left; apply Z.ltb_ge | right; apply Z.ltb_ge]; lia.
Qed.

Lemma datetime_decoders_agree_witness :
  let s := chars "07EA010DFF0E2114FFFF4C00" in
  let data := [0x07; 0xEA; 1; 13; 0xFF; 14; 33; 20; 0xFF; 0xFF; 0x4C; 0x00] in
  let y := 256 * nth 0 data 0 + nth 1 data 0 in
  let mo := nth 2 data 0 in
  let d := nth 3 data 0 in
  let h := nth 5 data 0 in
  let mi := nth 6 data 0 in
  let se := nth 7 data 0 in
  let m := from_bytes_big_signed16 (nth 9 data 0) (nth 10 data 0) in
  DLMS_Parser.try_decode_dlms_datetime s
  = Some (Spec.date_text y mo d ++ chars " " ++ Spec.time_text h mi se
          ++ DLMS_Parser.deviation_suffix (nth 9 data 0) (nth 10 data 0))
  /\ (-1440 < m < 1440 ->
      Push_Parser._parse_dlms_datetime s
      = Ok (Spec.date_text y mo d ++ chars "T" ++ Spec.time_text h mi se
            ++ datetime._format_offset (m * datetime.us_per_minute)))
  /\ (m <= -1440 \/ 1440 <= m ->
      Push_Parser._parse_dlms_datetime s = Raise ValueError).
Proof.
  apply (datetime_decoders_agree (chars "07EA010DFF0E2114FFFF4C00")
           [0x07; 0xEA; 1; 13; 0xFF; 14; 33; 20; 0xFF; 0xFF; 0x4C; 0x00]).
  - reflexivity.
  - reflexivity.
  - reflexivity.
Defined.

(** A deviation of 25 hours: the comment shows it, the row is dropped. *)
Lemma datetime_decoders_differ :
  DLMS_Parser.try_decode_dlms_datetime (chars "07EA010DFF0E2114FF05DC00")
  = Some (chars "2026-01-13 14:33:20 UTC+25")
  /\ Push_Parser._parse_dlms_datetime (chars "07EA010DFF0E2114FF05DC00")
     = Raise ValueError.
Proof. vm_compute. split; reflexivity. Qed.

(** ** A request that the annotation rejects *)

(** X22.  A frame is lost when the annotation of its XML raises.  If the
    translator's document for a frame of at least ten bytes has an element
    that [enhance_xml_element] rejects (a TargetAddress or SourceAddress
    that is not a number in base 16, or an InstanceId of twelve characters
    that is not hexadecimal), [hdlc_to_enhanced_xml] raises [ValueError],
    and [_process_dlms_frame] logs the error and returns no response
    without calling the push callback: the push is neither stored nor
    acknowledged. *)
Theorem rejected_request_is_lost (env : dlms_branch.environment)
        (messageToXml : bytes -> result Enhance.translation)
        (raw_data : bytes) (root bad : ET.Element) :
  (10 <= length raw_data)%nat ->
  messageToXml raw_data = Ok (Enhance.Xml (Some root)) ->
  In bad (Notions.elements root) ->
  Notions.rejected bad = true ->
  (forall e,
     Enhance.hdlc_to_enhanced_xml messageToXml (Hex.of_bytes raw_data)
     = Raise e ->
     dlms_branch.hdlc_to_enhanced_xml env raw_data = Raise e) ->
  Enhance.hdlc_to_enhanced_xml messageToXml (Hex.of_bytes raw_data)
  = Raise ValueError
  /\ dlms_branch._process_dlms_frame env raw_data
     = (None,
        [dlms_branch.log_packet (length raw_data)
           (Hex.bytes_to_hex_str raw_data);
         dlms_branch.log_error ValueError; dlms_branch.log_traceback])
  /\ filter Notions.is_push_call
       (snd (dlms_branch._process_dlms_frame env raw_data)) = [].
Proof.
  intros Hlen Hxml Hin Hbad Hcodec.
  assert (Hraise : Enhance.hdlc_to_enhanced_xml messageToXml
                     (Hex.of_bytes raw_data) = Raise ValueError).
  { unfold Enhance.hdlc_to_enhanced_xml. cbn [Hex.hdlc_data bind].
    rewrite Hxml. cbn [bind].
    destruct (enhance_outcome root) as [Hok Hex].
    assert (Hexists : existsb Notions.rejected (Notions.elements root) = true)
      by (apply existsb_exists; eauto).
    rewrite Hexists in Hok.
    destruct (Enhance.enhance_xml_element root) as [n|ex] eqn:E;
      [discriminate Hok|].
    rewrite (Hex ex eq_refl). reflexivity. }
  assert (Hrun : dlms_branch._process_dlms_frame env raw_data
                 = (None,
                    [dlms_branch.log_packet (length raw_data)
                       (Hex.bytes_to_hex_str raw_data);
                     dlms_branch.log_error ValueError;
                     dlms_branch.log_traceback])).
  { unfold dlms_branch._process_dlms_frame, dlms_branch.process_long_frame.
    replace (length raw_data <? 10)%nat with false
      by (symmetry; apply Nat.ltb_ge; lia).
    rewrite (Hcodec _ Hraise). reflexivity. }
  split; [exact Hraise|]. split; [exact Hrun|].
  rewrite Hrun. reflexivity.
Qed.

Lemma rejected_request_is_lost_witness :
  Enhance.hdlc_to_enhanced_xml
    (fun _ => Ok (Enhance.Xml (Some Runs.malformed_document)))
    (Hex.of_bytes Runs.request_frame)
  = Raise ValueError
  /\ dlms_branch._process_dlms_frame Runs.malformed_environment
       Runs.request_frame
     = (None,
        [dlms_branch.log_packet (length Runs.request_frame)
           (Hex.bytes_to_hex_str Runs.request_frame);
         dlms_branch.log_error ValueError; dlms_branch.log_traceback])
  /\ filter Notions.is_push_call
       (snd (dlms_branch._process_dlms_frame Runs.malformed_environment
               Runs.request_frame)) = [].
Proof.
  apply (rejected_request_is_lost Runs.malformed_environment
           (fun _ => Ok (Enhance.Xml (Some Runs.malformed_document)))
           Runs.request_frame Runs.malformed_document
           (Samples.leaf "InstanceId" "0000190900FG")).
  - cbn. lia.
  - reflexivity.
  - vm_compute. auto.
  - reflexivity.
  - intros e H. cbn [Runs.malformed_environment dlms_branch.hdlc_to_enhanced_xml].
    rewrite H. reflexivity.
Defined.
